(** * The OCAD 8 codec of OpenOrienteering Mapper

  A shallow embedding of [src/file_format_ocad8.cpp]: the scalar, colour,
  path and symbol converters of [OCAD8FileImport] and the string
  converter and symbol numbering of [OCAD8FileExport], followed by the
  properties established about them.

  Conventions.  C integers are [Z] with the wrap-around of their width
  written out ([s16], [s32], [s64]); [/] and [%] on C integers are
  [Z.quot] and [Z.rem] (truncation towards zero).  A [float] is an
  IEEE 754 binary32 value of [SpecFloat], a [double] a primitive binary64
  number.  A pointer that may be [NULL] is an [option].  Member fields
  of the importer and of the exporter are threaded as an explicit
  state. *)

From Stdlib Require Import ZArith Lia List Bool String.
From Stdlib Require Import Floats.
From Stdlib Require Import Reals Lra.
From stdpp Require Import base option list gmap sets sorting.

Local Open Scope Z_scope.

(** ** Machine integers *)

Module CInt.

(** The value a [bits]-wide two's complement integer holds after a
    conversion from the mathematical integer [z]. *)
Definition wrap_signed (bits z : Z) : Z :=
  (z + 2 ^ (bits - 1)) mod 2 ^ bits - 2 ^ (bits - 1).

Definition s16 (z : Z) : Z := wrap_signed 16 z.
Definition s32 (z : Z) : Z := wrap_signed 32 z.
Definition s64 (z : Z) : Z := wrap_signed 64 z.

Definition in_s16 (z : Z) : Prop := - 2 ^ 15 <= z < 2 ^ 15.
Definition in_s32 (z : Z) : Prop := - 2 ^ 31 <= z < 2 ^ 31.
Definition in_s64 (z : Z) : Prop := - 2 ^ 63 <= z < 2 ^ 63.

(** [x & mask] used as a C condition. *)
Definition test_mask (x mask : Z) : bool := negb (Z.land x mask =? 0).

End CInt.

(** ** Floating point *)

Module CFloat.

(** [double]: the primitive binary64 numbers, whose operations round to
    nearest, ties to even. *)
Definition double : Type := PrimFloat.float.

(** [float]: the binary32 numbers, with 24 bits of precision. *)
Definition float : Type := spec_float.

Definition signed_mantissa (s : bool) (m : positive) : Z :=
  if s then Zneg m else Zpos m.

(** Conversions; each rounds to nearest, ties to even.  A [float] is a
    [double] as it is. *)
Definition float_of_int (z : Z) : float := binary_normalize 24 128 z 0 false.

Definition double_of_float (x : float) : double := SF2Prim x.

Definition float_of_double (x : double) : float :=
  match Prim2SF x with
  | S754_finite s m e => binary_normalize 24 128 (signed_mantissa s m) e s
  | y => y
  end.

Definition fmul : float -> float -> float := SFmul 24 128.
Definition dmul : double -> double -> double := PrimFloat.mul.
Definition ddiv : double -> double -> double := PrimFloat.div.
Definition dadd : double -> double -> double := PrimFloat.add.
Definition dltb : double -> double -> bool := PrimFloat.ltb.

(** The literal [0.1f]. *)
Definition lit_0_1f : float := S754_finite false 13421773 (-27).

(** [M_PI] of <math.h>: 3.14159265358979323846 as a double. *)
Definition M_PI : double := 0x1.921fb54442d18p+1%float.

Definition dzero : double := 0%float.
Definition dtwo : double := 2%float.
Definition d180 : double := 180%float.

Definition fzero : float := S754_zero false.

(** The real number a finite [float] stands for. *)
Definition value (x : float) : R :=
  match x with
  | S754_finite s m e => (IZR (signed_mantissa s m) * powerRZ 2 e)%R
  | _ => 0%R
  end.

Definition is_finite (x : float) : bool :=
  match x with
  | S754_finite _ _ _ | S754_zero _ => true
  | _ => false
  end.

End CFloat.

(** ** Text and warnings *)

(** A [QString]: its UTF-16 code units. *)
Definition QString : Type := list Z.

(** A [QByteArray] or [char] buffer: its bytes, each in 0..255. *)
Definition bytes : Type := list Z.

Definition qstr (s : string) : QString :=
(fun a => Z.of_N (Ascii.N_of_ascii a)) <$> list_ascii_of_string s.

(** A [QTextCodec]. *)
Record QTextCodec : Type := {
toUnicode : bytes -> QString;
fromUnicode : QString -> bytes
}.

(** An argument of [QString::arg]. *)
Inductive Arg : Type :=
| ArgInt (z : Z)            (* an integer *)
| ArgTenths (z : Z)         (* the double [0.1 * z] *)
| ArgText (t : QString).    (* a string *)

(** A warning: the text given to [QObject::tr] and the values given to
  the [arg] calls that follow it, in their order. *)
Record Message : Type := {
template : string;
arguments : list Arg
}.

(** ** Outcomes *)

Inductive Failure : Type :=
| NullPointer        (* a NULL pointer is dereferenced *)
| OutOfRange         (* an index outside a vector *)
| LengthError        (* a vector is resized to a negative length *)
| AssertionFailed    (* an [assert] does not hold *)
| OutOfFuel.         (* the loop did not end within the fuel given *)

Inductive Result (A : Type) : Type :=
| Ok (a : A)
| Failed (f : Failure).
Arguments Ok {A} a.
Arguments Failed {A} f.

(** ** Map coordinates *)

Module MapCoord.

(** Modelled from the spec: [MapCoord] (map_coord.h is not among the
    sources): a raw position in 1/1000 mm and the boolean flags
    curve-start, close-point, hole-point and dash-point; a new
    coordinate is at the origin with no flag set, and two coordinates
    have equal positions when their raw integers are equal. *)
Record t : Type := make {
  rawX : Z;
  rawY : Z;
  isCurveStart : bool;
  isClosePoint : bool;
  isHolePoint : bool;
  isDashPoint : bool
}.

Definition new : t := make 0 0 false false false false.

Definition setRawX (v : Z) (c : t) : t :=
  make v (rawY c) (isCurveStart c) (isClosePoint c) (isHolePoint c) (isDashPoint c).
Definition setRawY (v : Z) (c : t) : t :=
  make (rawX c) v (isCurveStart c) (isClosePoint c) (isHolePoint c) (isDashPoint c).
Definition setCurveStart (v : bool) (c : t) : t :=
  make (rawX c) (rawY c) v (isClosePoint c) (isHolePoint c) (isDashPoint c).
Definition setClosePoint (v : bool) (c : t) : t :=
  make (rawX c) (rawY c) (isCurveStart c) v (isHolePoint c) (isDashPoint c).
Definition setHolePoint (v : bool) (c : t) : t :=
  make (rawX c) (rawY c) (isCurveStart c) (isClosePoint c) v (isDashPoint c).
Definition setDashPoint (v : bool) (c : t) : t :=
  make (rawX c) (rawY c) (isCurveStart c) (isClosePoint c) (isHolePoint c) v.

Definition isPositionEqualTo (c other : t) : bool :=
  (rawX c =? rawX other) && (rawY c =? rawY other).

End MapCoord.

#[global] Instance MapCoord_inhabited : Inhabited MapCoord.t :=
populate MapCoord.new.

(** ** Legacy points *)

(** [OCADPoint]: two 32-bit fields whose low byte carries flag bits. *)
Record OCADPoint : Type := {
pt_x : Z;
pt_y : Z
}.

(** Memory seen through an [OCADPoint*]: the point at each index from the
  pointer. *)
Definition OCADPoints : Type := Z -> OCADPoint.

(** [ptr + k]. *)
Definition advance (ptr : OCADPoints) (k : Z) : OCADPoints :=
fun i => ptr (k + i).

(** [OCADSymbolElement]: the header of one element of a point pattern;
  [elt->pts] starts two points after the header. *)
Record OCADSymbolElement : Type := {
elt_type : Z;
elt_flags : Z;
elt_color : Z;
elt_width : Z;
elt_diameter : Z;
elt_npts : Z
}.

(** The element kinds, with the numbers [exportSubPattern] writes. *)
Definition OCAD_LINE_ELEMENT : Z := 1.
Definition OCAD_AREA_ELEMENT : Z := 2.
Definition OCAD_CIRCLE_ELEMENT : Z := 3.
Definition OCAD_DOT_ELEMENT : Z := 4.

(** What libocad declares and the sources use without defining: the flag
  bits of a point and the layout of an element header over the two
  points it occupies. *)
Class Libocad : Type := {
PX_CTL1 : Z;
PY_CORNER : Z;
PY_HOLE : Z;
PY_DASH : Z;
as_element : OCADPoint -> OCADPoint -> OCADSymbolElement
}.

(** Modelled from the spec: [ocad_point] of libocad (not among the
  sources): the upper 24 bits of each field are the coordinate, the low
  byte of [x] and the low byte of [y] are the flags, returned as
  [buf[0]], [buf[1]] and [buf[2]]; [exportCoordinates] builds points the
  same way ([<< 8], then [|=] of the flag bits). *)
Definition ocad_point (pt : OCADPoint) : Z * Z * Z :=
(Z.shiftr (pt_x pt) 8,
 Z.shiftr (pt_y pt) 8,
 Z.lor (Z.land (pt_x pt) 255) (Z.shiftl (Z.land (pt_y pt) 255) 8)).

(** ** The map model

    The classes of the map model that the codec fills: a record per class
    with a setter per field.  Fields the codec does not touch are left
    out.  A symbol class that holds other symbols takes their type as a
    parameter; [SymbolT] below ties the knot. *)

(** Which symbol an object points to. *)
Inductive SymbolRef : Type :=
  | NoSymbol                       (* NULL *)
  | ElementSymbol                  (* the symbol stored beside it in a point symbol *)
  | IndexedSymbol (number : Z)     (* the entry of [symbol_index] *)
  | UndefinedPoint                 (* [map->getUndefinedPoint()] *)
  | UndefinedLine.                 (* [map->getUndefinedLine()] *)

Module Object.

Inductive ObjectType : Type := Point | Path | Text.

Record t : Type := make {
  type : ObjectType;
  symbol : SymbolRef;
  coords : list MapCoord.t;
  rotation : CFloat.float
}.

Definition set_type (v : ObjectType) (r : t) : t :=
  let '(make _ x1 x2 x3) := r in make v x1 x2 x3.
Definition set_symbol (v : SymbolRef) (r : t) : t :=
  let '(make x0 _ x2 x3) := r in make x0 v x2 x3.
Definition set_coords (v : list MapCoord.t) (r : t) : t :=
  let '(make x0 x1 _ x3) := r in make x0 x1 v x3.
Definition set_rotation (v : CFloat.float) (r : t) : t :=
  let '(make x0 x1 x2 _) := r in make x0 x1 x2 v.

End Object.

(** [QTextDocument] of Qt, which is not among the sources: the plain
    text of the document that [setHtml] makes of a text. *)
Class QTextDocument : Type := {
  toPlainText : QString -> QString
}.

Module Symbol.

Inductive SymbolType : Type := Point | Line | Area | Text | Combined.

(** The fields of the base class [Symbol]. *)
Record Base : Type := make {
  name : QString;
  number : list Z;
  is_helper_symbol : bool;
  is_hidden : bool;
  is_protected : bool
}.

Definition set_name (v : QString) (r : Base) : Base :=
  let '(make _ x1 x2 x3 x4) := r in make v x1 x2 x3 x4.
Definition set_number (v : list Z) (r : Base) : Base :=
  let '(make x0 _ x2 x3 x4) := r in make x0 v x2 x3 x4.
Definition set_is_helper_symbol (v : bool) (r : Base) : Base :=
  let '(make x0 x1 _ x3 x4) := r in make x0 x1 v x3 x4.
Definition set_is_hidden (v : bool) (r : Base) : Base :=
  let '(make x0 x1 x2 _ x4) := r in make x0 x1 x2 v x4.
Definition set_is_protected (v : bool) (r : Base) : Base :=
  let '(make x0 x1 x2 x3 _) := r in make x0 x1 x2 x3 v.

(** [Symbol::Symbol(Type type)]. *)
Definition new : Base := make [] [-1; -1; -1] false false false.

(** [QString Symbol::getPlainTextName() const] of symbol.cpp: a name
    that contains ['<'] (the code unit 60) is read as HTML,
    [doc.setHtml(name); return doc.toPlainText();]. *)
Definition getPlainTextName `{QTextDocument} (symbol : Base) : QString :=
  if bool_decide (60 ∈ name symbol) then toPlainText (name symbol)
  else name symbol.

Definition setProtected : bool -> Base -> Base := set_is_protected.
Definition setHidden : bool -> Base -> Base := set_is_hidden.
Definition setName : QString -> Base -> Base := set_name.
Definition setNumberComponent (i : nat) (v : Z) (b : Base) : Base :=
  set_number (<[i := v]> (number b)) b.

End Symbol.

Module PointSymbol.

Record t (S : Type) : Type := make {
  base : Symbol.Base;
  rotatable : bool;
  inner_radius : Z;
  inner_color : option nat;
  outer_width : Z;
  outer_color : option nat;
  elements : list (Object.t * S)
}.
Arguments make {S}.
Arguments base {S}.
Arguments rotatable {S}.
Arguments inner_radius {S}.
Arguments inner_color {S}.
Arguments outer_width {S}.
Arguments outer_color {S}.
Arguments elements {S}.

Definition set_base {S : Type} (v : Symbol.Base) (r : t S) : t S :=
  let '(make _ x1 x2 x3 x4 x5 x6) := r in make v x1 x2 x3 x4 x5 x6.
Definition set_rotatable {S : Type} (v : bool) (r : t S) : t S :=
  let '(make x0 _ x2 x3 x4 x5 x6) := r in make x0 v x2 x3 x4 x5 x6.
Definition set_inner_radius {S : Type} (v : Z) (r : t S) : t S :=
  let '(make x0 x1 _ x3 x4 x5 x6) := r in make x0 x1 v x3 x4 x5 x6.
Definition set_inner_color {S : Type} (v : option nat) (r : t S) : t S :=
  let '(make x0 x1 x2 _ x4 x5 x6) := r in make x0 x1 x2 v x4 x5 x6.
Definition set_outer_width {S : Type} (v : Z) (r : t S) : t S :=
  let '(make x0 x1 x2 x3 _ x5 x6) := r in make x0 x1 x2 x3 v x5 x6.
Definition set_outer_color {S : Type} (v : option nat) (r : t S) : t S :=
  let '(make x0 x1 x2 x3 x4 _ x6) := r in make x0 x1 x2 x3 x4 v x6.
Definition set_elements {S : Type} (v : list (Object.t * S)) (r : t S) : t S :=
  let '(make x0 x1 x2 x3 x4 x5 _) := r in make x0 x1 x2 x3 x4 x5 v.

Definition getNumElements {S : Type} (p : t S) : Z :=
  Z.of_nat (length (elements p)).

(** [addElement(pos, object, symbol)]. *)
Definition addElement {S : Type} (pos : Z) (object : Object.t) (symbol : S)
      (p : t S) : t S :=
  set_elements (take (Z.to_nat pos) (elements p) ++ (object, symbol)
                    :: drop (Z.to_nat pos) (elements p)) p.

End PointSymbol.

Module LineSymbol.

Inductive CapStyle : Type := FlatCap | RoundCap | SquareCap | PointedCap.
Inductive JoinStyle : Type := BevelJoin | MiterJoin | RoundJoin.

Record t (P : Type) : Type := make {
  base : Symbol.Base;
  line_width : Z;
  color : option nat;
  minimum_length : Z;
  cap_style : CapStyle;
  join_style : JoinStyle;
  pointed_cap_length : Z;
  dashed : bool;
  dash_length : Z;
  break_length : Z;
  dashes_in_group : Z;
  in_group_break_length : Z;
  half_outer_dashes : bool;
  segment_length : Z;
  end_length : Z;
  have_border_lines : bool;
  border_color : option nat;
  border_width : Z;
  border_shift : Z;
  dashed_border : bool;
  border_dash_length : Z;
  border_break_length : Z;
  start_symbol : option P;
  mid_symbol : option P;
  end_symbol : option P;
  dash_symbol : option P;
  mid_symbols_per_spot : Z;
  mid_symbol_distance : Z;
  minimum_mid_symbol_count : Z;
  minimum_mid_symbol_count_when_closed : Z;
  show_at_least_one_symbol : bool
}.
Arguments make {P}.
Arguments base {P}.
Arguments line_width {P}.
Arguments color {P}.
Arguments minimum_length {P}.
Arguments cap_style {P}.
Arguments join_style {P}.
Arguments pointed_cap_length {P}.
Arguments dashed {P}.
Arguments dash_length {P}.
Arguments break_length {P}.
Arguments dashes_in_group {P}.
Arguments in_group_break_length {P}.
Arguments half_outer_dashes {P}.
Arguments segment_length {P}.
Arguments end_length {P}.
Arguments have_border_lines {P}.
Arguments border_color {P}.
Arguments border_width {P}.
Arguments border_shift {P}.
Arguments dashed_border {P}.
Arguments border_dash_length {P}.
Arguments border_break_length {P}.
Arguments start_symbol {P}.
Arguments mid_symbol {P}.
Arguments end_symbol {P}.
Arguments dash_symbol {P}.
Arguments mid_symbols_per_spot {P}.
Arguments mid_symbol_distance {P}.
Arguments minimum_mid_symbol_count {P}.
Arguments minimum_mid_symbol_count_when_closed {P}.
Arguments show_at_least_one_symbol {P}.

Definition set_base {P : Type} (v : Symbol.Base) (r : t P) : t P :=
  let '(make _ x1 x2 x3 x4 x5 x6 x7 x8 x9 x10 x11 x12 x13 x14 x15 x16 x17 x18 x19 x20 x21 x22 x23 x24 x25 x26 x27 x28 x29 x30) := r in make v x1 x2 x3 x4 x5 x6 x7 x8 x9 x10 x11 x12 x13 x14 x15 x16 x17 x18 x19 x20 x21 x22 x23 x24 x25 x26 x27 x28 x29 x30.
Definition set_line_width {P : Type} (v : Z) (r : t P) : t P :=
  let '(make x0 _ x2 x3 x4 x5 x6 x7 x8 x9 x10 x11 x12 x13 x14 x15 x16 x17 x18 x19 x20 x21 x22 x23 x24 x25 x26 x27 x28 x29 x30) := r in make x0 v x2 x3 x4 x5 x6 x7 x8 x9 x10 x11 x12 x13 x14 x15 x16 x17 x18 x19 x20 x21 x22 x23 x24 x25 x26 x27 x28 x29 x30.
Definition set_color {P : Type} (v : option nat) (r : t P) : t P :=
  let '(make x0 x1 _ x3 x4 x5 x6 x7 x8 x9 x10 x11 x12 x13 x14 x15 x16 x17 x18 x19 x20 x21 x22 x23 x24 x25 x26 x27 x28 x29 x30) := r in make x0 x1 v x3 x4 x5 x6 x7 x8 x9 x10 x11 x12 x13 x14 x15 x16 x17 x18 x19 x20 x21 x22 x23 x24 x25 x26 x27 x28 x29 x30.
Definition set_minimum_length {P : Type} (v : Z) (r : t P) : t P :=
  let '(make x0 x1 x2 _ x4 x5 x6 x7 x8 x9 x10 x11 x12 x13 x14 x15 x16 x17 x18 x19 x20 x21 x22 x23 x24 x25 x26 x27 x28 x29 x30) := r in make x0 x1 x2 v x4 x5 x6 x7 x8 x9 x10 x11 x12 x13 x14 x15 x16 x17 x18 x19 x20 x21 x22 x23 x24 x25 x26 x27 x28 x29 x30.
Definition set_cap_style {P : Type} (v : CapStyle) (r : t P) : t P :=
  let '(make x0 x1 x2 x3 _ x5 x6 x7 x8 x9 x10 x11 x12 x13 x14 x15 x16 x17 x18 x19 x20 x21 x22 x23 x24 x25 x26 x27 x28 x29 x30) := r in make x0 x1 x2 x3 v x5 x6 x7 x8 x9 x10 x11 x12 x13 x14 x15 x16 x17 x18 x19 x20 x21 x22 x23 x24 x25 x26 x27 x28 x29 x30.
Definition set_join_style {P : Type} (v : JoinStyle) (r : t P) : t P :=
  let '(make x0 x1 x2 x3 x4 _ x6 x7 x8 x9 x10 x11 x12 x13 x14 x15 x16 x17 x18 x19 x20 x21 x22 x23 x24 x25 x26 x27 x28 x29 x30) := r in make x0 x1 x2 x3 x4 v x6 x7 x8 x9 x10 x11 x12 x13 x14 x15 x16 x17 x18 x19 x20 x21 x22 x23 x24 x25 x26 x27 x28 x29 x30.
Definition set_pointed_cap_length {P : Type} (v : Z) (r : t P) : t P :=
  let '(make x0 x1 x2 x3 x4 x5 _ x7 x8 x9 x10 x11 x12 x13 x14 x15 x16 x17 x18 x19 x20 x21 x22 x23 x24 x25 x26 x27 x28 x29 x30) := r in make x0 x1 x2 x3 x4 x5 v x7 x8 x9 x10 x11 x12 x13 x14 x15 x16 x17 x18 x19 x20 x21 x22 x23 x24 x25 x26 x27 x28 x29 x30.
Definition set_dashed {P : Type} (v : bool) (r : t P) : t P :=
  let '(make x0 x1 x2 x3 x4 x5 x6 _ x8 x9 x10 x11 x12 x13 x14 x15 x16 x17 x18 x19 x20 x21 x22 x23 x24 x25 x26 x27 x28 x29 x30) := r in make x0 x1 x2 x3 x4 x5 x6 v x8 x9 x10 x11 x12 x13 x14 x15 x16 x17 x18 x19 x20 x21 x22 x23 x24 x25 x26 x27 x28 x29 x30.
Definition set_dash_length {P : Type} (v : Z) (r : t P) : t P :=
  let '(make x0 x1 x2 x3 x4 x5 x6 x7 _ x9 x10 x11 x12 x13 x14 x15 x16 x17 x18 x19 x20 x21 x22 x23 x24 x25 x26 x27 x28 x29 x30) := r in make x0 x1 x2 x3 x4 x5 x6 x7 v x9 x10 x11 x12 x13 x14 x15 x16 x17 x18 x19 x20 x21 x22 x23 x24 x25 x26 x27 x28 x29 x30.
Definition set_break_length {P : Type} (v : Z) (r : t P) : t P :=
  let '(make x0 x1 x2 x3 x4 x5 x6 x7 x8 _ x10 x11 x12 x13 x14 x15 x16 x17 x18 x19 x20 x21 x22 x23 x24 x25 x26 x27 x28 x29 x30) := r in make x0 x1 x2 x3 x4 x5 x6 x7 x8 v x10 x11 x12 x13 x14 x15 x16 x17 x18 x19 x20 x21 x22 x23 x24 x25 x26 x27 x28 x29 x30.
Definition set_dashes_in_group {P : Type} (v : Z) (r : t P) : t P :=
  let '(make x0 x1 x2 x3 x4 x5 x6 x7 x8 x9 _ x11 x12 x13 x14 x15 x16 x17 x18 x19 x20 x21 x22 x23 x24 x25 x26 x27 x28 x29 x30) := r in make x0 x1 x2 x3 x4 x5 x6 x7 x8 x9 v x11 x12 x13 x14 x15 x16 x17 x18 x19 x20 x21 x22 x23 x24 x25 x26 x27 x28 x29 x30.
Definition set_in_group_break_length {P : Type} (v : Z) (r : t P) : t P :=
  let '(make x0 x1 x2 x3 x4 x5 x6 x7 x8 x9 x10 _ x12 x13 x14 x15 x16 x17 x18 x19 x20 x21 x22 x23 x24 x25 x26 x27 x28 x29 x30) := r in make x0 x1 x2 x3 x4 x5 x6 x7 x8 x9 x10 v x12 x13 x14 x15 x16 x17 x18 x19 x20 x21 x22 x23 x24 x25 x26 x27 x28 x29 x30.
Definition set_half_outer_dashes {P : Type} (v : bool) (r : t P) : t P :=
  let '(make x0 x1 x2 x3 x4 x5 x6 x7 x8 x9 x10 x11 _ x13 x14 x15 x16 x17 x18 x19 x20 x21 x22 x23 x24 x25 x26 x27 x28 x29 x30) := r in make x0 x1 x2 x3 x4 x5 x6 x7 x8 x9 x10 x11 v x13 x14 x15 x16 x17 x18 x19 x20 x21 x22 x23 x24 x25 x26 x27 x28 x29 x30.
Definition set_segment_length {P : Type} (v : Z) (r : t P) : t P :=
  let '(make x0 x1 x2 x3 x4 x5 x6 x7 x8 x9 x10 x11 x12 _ x14 x15 x16 x17 x18 x19 x20 x21 x22 x23 x24 x25 x26 x27 x28 x29 x30) := r in make x0 x1 x2 x3 x4 x5 x6 x7 x8 x9 x10 x11 x12 v x14 x15 x16 x17 x18 x19 x20 x21 x22 x23 x24 x25 x26 x27 x28 x29 x30.
Definition set_end_length {P : Type} (v : Z) (r : t P) : t P :=
  let '(make x0 x1 x2 x3 x4 x5 x6 x7 x8 x9 x10 x11 x12 x13 _ x15 x16 x17 x18 x19 x20 x21 x22 x23 x24 x25 x26 x27 x28 x29 x30) := r in make x0 x1 x2 x3 x4 x5 x6 x7 x8 x9 x10 x11 x12 x13 v x15 x16 x17 x18 x19 x20 x21 x22 x23 x24 x25 x26 x27 x28 x29 x30.
Definition set_have_border_lines {P : Type} (v : bool) (r : t P) : t P :=
  let '(make x0 x1 x2 x3 x4 x5 x6 x7 x8 x9 x10 x11 x12 x13 x14 _ x16 x17 x18 x19 x20 x21 x22 x23 x24 x25 x26 x27 x28 x29 x30) := r in make x0 x1 x2 x3 x4 x5 x6 x7 x8 x9 x10 x11 x12 x13 x14 v x16 x17 x18 x19 x20 x21 x22 x23 x24 x25 x26 x27 x28 x29 x30.
Definition set_border_color {P : Type} (v : option nat) (r : t P) : t P :=
  let '(make x0 x1 x2 x3 x4 x5 x6 x7 x8 x9 x10 x11 x12 x13 x14 x15 _ x17 x18 x19 x20 x21 x22 x23 x24 x25 x26 x27 x28 x29 x30) := r in make x0 x1 x2 x3 x4 x5 x6 x7 x8 x9 x10 x11 x12 x13 x14 x15 v x17 x18 x19 x20 x21 x22 x23 x24 x25 x26 x27 x28 x29 x30.
Definition set_border_width {P : Type} (v : Z) (r : t P) : t P :=
  let '(make x0 x1 x2 x3 x4 x5 x6 x7 x8 x9 x10 x11 x12 x13 x14 x15 x16 _ x18 x19 x20 x21 x22 x23 x24 x25 x26 x27 x28 x29 x30) := r in make x0 x1 x2 x3 x4 x5 x6 x7 x8 x9 x10 x11 x12 x13 x14 x15 x16 v x18 x19 x20 x21 x22 x23 x24 x25 x26 x27 x28 x29 x30.
Definition set_border_shift {P : Type} (v : Z) (r : t P) : t P :=
  let '(make x0 x1 x2 x3 x4 x5 x6 x7 x8 x9 x10 x11 x12 x13 x14 x15 x16 x17 _ x19 x20 x21 x22 x23 x24 x25 x26 x27 x28 x29 x30) := r in make x0 x1 x2 x3 x4 x5 x6 x7 x8 x9 x10 x11 x12 x13 x14 x15 x16 x17 v x19 x20 x21 x22 x23 x24 x25 x26 x27 x28 x29 x30.
Definition set_dashed_border {P : Type} (v : bool) (r : t P) : t P :=
  let '(make x0 x1 x2 x3 x4 x5 x6 x7 x8 x9 x10 x11 x12 x13 x14 x15 x16 x17 x18 _ x20 x21 x22 x23 x24 x25 x26 x27 x28 x29 x30) := r in make x0 x1 x2 x3 x4 x5 x6 x7 x8 x9 x10 x11 x12 x13 x14 x15 x16 x17 x18 v x20 x21 x22 x23 x24 x25 x26 x27 x28 x29 x30.
Definition set_border_dash_length {P : Type} (v : Z) (r : t P) : t P :=
  let '(make x0 x1 x2 x3 x4 x5 x6 x7 x8 x9 x10 x11 x12 x13 x14 x15 x16 x17 x18 x19 _ x21 x22 x23 x24 x25 x26 x27 x28 x29 x30) := r in make x0 x1 x2 x3 x4 x5 x6 x7 x8 x9 x10 x11 x12 x13 x14 x15 x16 x17 x18 x19 v x21 x22 x23 x24 x25 x26 x27 x28 x29 x30.
Definition set_border_break_length {P : Type} (v : Z) (r : t P) : t P :=
  let '(make x0 x1 x2 x3 x4 x5 x6 x7 x8 x9 x10 x11 x12 x13 x14 x15 x16 x17 x18 x19 x20 _ x22 x23 x24 x25 x26 x27 x28 x29 x30) := r in make x0 x1 x2 x3 x4 x5 x6 x7 x8 x9 x10 x11 x12 x13 x14 x15 x16 x17 x18 x19 x20 v x22 x23 x24 x25 x26 x27 x28 x29 x30.
Definition set_start_symbol {P : Type} (v : option P) (r : t P) : t P :=
  let '(make x0 x1 x2 x3 x4 x5 x6 x7 x8 x9 x10 x11 x12 x13 x14 x15 x16 x17 x18 x19 x20 x21 _ x23 x24 x25 x26 x27 x28 x29 x30) := r in make x0 x1 x2 x3 x4 x5 x6 x7 x8 x9 x10 x11 x12 x13 x14 x15 x16 x17 x18 x19 x20 x21 v x23 x24 x25 x26 x27 x28 x29 x30.
Definition set_mid_symbol {P : Type} (v : option P) (r : t P) : t P :=
  let '(make x0 x1 x2 x3 x4 x5 x6 x7 x8 x9 x10 x11 x12 x13 x14 x15 x16 x17 x18 x19 x20 x21 x22 _ x24 x25 x26 x27 x28 x29 x30) := r in make x0 x1 x2 x3 x4 x5 x6 x7 x8 x9 x10 x11 x12 x13 x14 x15 x16 x17 x18 x19 x20 x21 x22 v x24 x25 x26 x27 x28 x29 x30.
Definition set_end_symbol {P : Type} (v : option P) (r : t P) : t P :=
  let '(make x0 x1 x2 x3 x4 x5 x6 x7 x8 x9 x10 x11 x12 x13 x14 x15 x16 x17 x18 x19 x20 x21 x22 x23 _ x25 x26 x27 x28 x29 x30) := r in make x0 x1 x2 x3 x4 x5 x6 x7 x8 x9 x10 x11 x12 x13 x14 x15 x16 x17 x18 x19 x20 x21 x22 x23 v x25 x26 x27 x28 x29 x30.
Definition set_dash_symbol {P : Type} (v : option P) (r : t P) : t P :=
  let '(make x0 x1 x2 x3 x4 x5 x6 x7 x8 x9 x10 x11 x12 x13 x14 x15 x16 x17 x18 x19 x20 x21 x22 x23 x24 _ x26 x27 x28 x29 x30) := r in make x0 x1 x2 x3 x4 x5 x6 x7 x8 x9 x10 x11 x12 x13 x14 x15 x16 x17 x18 x19 x20 x21 x22 x23 x24 v x26 x27 x28 x29 x30.
Definition set_mid_symbols_per_spot {P : Type} (v : Z) (r : t P) : t P :=
  let '(make x0 x1 x2 x3 x4 x5 x6 x7 x8 x9 x10 x11 x12 x13 x14 x15 x16 x17 x18 x19 x20 x21 x22 x23 x24 x25 _ x27 x28 x29 x30) := r in make x0 x1 x2 x3 x4 x5 x6 x7 x8 x9 x10 x11 x12 x13 x14 x15 x16 x17 x18 x19 x20 x21 x22 x23 x24 x25 v x27 x28 x29 x30.
Definition set_mid_symbol_distance {P : Type} (v : Z) (r : t P) : t P :=
  let '(make x0 x1 x2 x3 x4 x5 x6 x7 x8 x9 x10 x11 x12 x13 x14 x15 x16 x17 x18 x19 x20 x21 x22 x23 x24 x25 x26 _ x28 x29 x30) := r in make x0 x1 x2 x3 x4 x5 x6 x7 x8 x9 x10 x11 x12 x13 x14 x15 x16 x17 x18 x19 x20 x21 x22 x23 x24 x25 x26 v x28 x29 x30.
Definition set_minimum_mid_symbol_count {P : Type} (v : Z) (r : t P) : t P :=
  let '(make x0 x1 x2 x3 x4 x5 x6 x7 x8 x9 x10 x11 x12 x13 x14 x15 x16 x17 x18 x19 x20 x21 x22 x23 x24 x25 x26 x27 _ x29 x30) := r in make x0 x1 x2 x3 x4 x5 x6 x7 x8 x9 x10 x11 x12 x13 x14 x15 x16 x17 x18 x19 x20 x21 x22 x23 x24 x25 x26 x27 v x29 x30.
Definition set_minimum_mid_symbol_count_when_closed {P : Type} (v : Z) (r : t P) : t P :=
  let '(make x0 x1 x2 x3 x4 x5 x6 x7 x8 x9 x10 x11 x12 x13 x14 x15 x16 x17 x18 x19 x20 x21 x22 x23 x24 x25 x26 x27 x28 _ x30) := r in make x0 x1 x2 x3 x4 x5 x6 x7 x8 x9 x10 x11 x12 x13 x14 x15 x16 x17 x18 x19 x20 x21 x22 x23 x24 x25 x26 x27 x28 v x30.
Definition set_show_at_least_one_symbol {P : Type} (v : bool) (r : t P) : t P :=
  let '(make x0 x1 x2 x3 x4 x5 x6 x7 x8 x9 x10 x11 x12 x13 x14 x15 x16 x17 x18 x19 x20 x21 x22 x23 x24 x25 x26 x27 x28 x29 _) := r in make x0 x1 x2 x3 x4 x5 x6 x7 x8 x9 x10 x11 x12 x13 x14 x15 x16 x17 x18 x19 x20 x21 x22 x23 x24 x25 x26 x27 x28 x29 v.

End LineSymbol.

Module AreaSymbol.

Record t : Type := make {
  base : Symbol.Base;
  color : option nat;
  minimum_area : Z
}.

Definition set_base (v : Symbol.Base) (r : t) : t :=
  let '(make _ x1 x2) := r in make v x1 x2.
Definition set_color (v : option nat) (r : t) : t :=
  let '(make x0 _ x2) := r in make x0 v x2.
Definition set_minimum_area (v : Z) (r : t) : t :=
  let '(make x0 x1 _) := r in make x0 x1 v.

End AreaSymbol.

Module TextSymbol.

Record t : Type := make {
  base : Symbol.Base
}.

Definition set_base (v : Symbol.Base) (r : t) : t :=
  let '(make _) := r in make v.

End TextSymbol.

Module CombinedSymbol.

Record t (S : Type) : Type := make {
  base : Symbol.Base;
  parts : list (option S)
}.
Arguments make {S}.
Arguments base {S}.
Arguments parts {S}.

Definition set_base {S : Type} (v : Symbol.Base) (r : t S) : t S :=
  let '(make _ x1) := r in make v x1.
Definition set_parts {S : Type} (v : list (option S)) (r : t S) : t S :=
  let '(make x0 _) := r in make x0 v.

(** [setNumParts(n)]: [parts.resize(n)], new parts being NULL. *)
Definition setNumParts {S : Type} (n : nat) (c : t S) : t S :=
  set_parts (resize n None (parts c)) c.

Definition setPart {S : Type} (i : nat) (s : S) (c : t S) : t S :=
  set_parts (<[i := Some s]> (parts c)) c.

End CombinedSymbol.

(** A [Symbol*] that is not NULL: the object it points to, by class. *)
#[warnings="-register-all"]
Inductive SymbolT : Type :=
  | SymPoint (p : PointSymbol.t SymbolT)
  | SymLine (l : LineSymbol.t (PointSymbol.t SymbolT))
  | SymArea (a : AreaSymbol.t)
  | SymText (t : TextSymbol.t)
  | SymCombined (c : CombinedSymbol.t SymbolT).

Abbreviation PointSymbolT := (PointSymbol.t SymbolT).
Abbreviation LineSymbolT := (LineSymbol.t (PointSymbol.t SymbolT)).
Abbreviation CombinedSymbolT := (CombinedSymbol.t SymbolT).

Definition getType (s : SymbolT) : Symbol.SymbolType :=
  match s with
  | SymPoint _ => Symbol.Point
  | SymLine _ => Symbol.Line
  | SymArea _ => Symbol.Area
  | SymText _ => Symbol.Text
  | SymCombined _ => Symbol.Combined
  end.

Definition symbol_base (s : SymbolT) : Symbol.Base :=
  match s with
  | SymPoint p => PointSymbol.base p
  | SymLine l => LineSymbol.base l
  | SymArea a => AreaSymbol.base a
  | SymText t => TextSymbol.base t
  | SymCombined c => CombinedSymbol.base c
  end.

(** ** Legacy records *)

(** The fields of [OCADSymbol] common to all symbol kinds, as far as
    the importer reads them; [sym_name] is the memory at [name]. *)
Record OCADSymbol : Type := {
  sym_number : Z;
  sym_status : Z;
  sym_name : bytes
}.

(** [OCADLineSymbol], as far as [importLineSymbol] reads it. *)
Record OCADLineSymbol : Type := {
  common : OCADSymbol;
  color : Z;
  width : Z;
  ends : Z;
  bdist : Z;
  edist : Z;
  len : Z;
  elen : Z;
  gap : Z;
  gap2 : Z;
  egap : Z;
  smin : Z;
  snum : Z;
  sdist : Z;
  dmode : Z;
  dflags : Z;
  dcolor : Z;
  dwidth : Z;
  lwidth : Z;
  rwidth : Z;
  lcolor : Z;
  rcolor : Z;
  dlen : Z;
  dgap : Z;
  fwidth : Z;
  smnpts : Z;
  ssnpts : Z;
  scnpts : Z;
  sbnpts : Z;
  senpts : Z;
  pts : OCADPoints
}.

(** [OCADObject], as far as [importObject] reads it. *)
Record OCADObject : Type := {
  obj_symbol : Z;
  obj_type : Z;
  obj_unicode : Z;
  obj_npts : Z;
  obj_ntext : Z;
  obj_angle : Z;
  obj_pts : OCADPoints
}.

(** [OCAD8FileImport::RectangleInfo]. *)
Record RectangleInfo : Type := {
  border_line : LineSymbolT;
  corner_radius : CFloat.double;
  has_grid : bool;
  inner_line : option LineSymbolT;
  text : option TextSymbol.t;
  number_from_bottom : bool;
  cell_width : CFloat.double;
  cell_height : CFloat.double;
  unnumbered_cells : Z;
  unnumbered_text : QString
}.

(** Constructors and queries of the map model whose definitions are not
    among the sources. *)
Class MapModel : Type := {
  PointSymbol_new : PointSymbolT;              (* new PointSymbol() *)
  LineSymbol_new : LineSymbolT;                (* new LineSymbol() *)
  AreaSymbol_new : AreaSymbol.t;               (* new AreaSymbol() *)
  CombinedSymbol_new : CombinedSymbolT;        (* new CombinedSymbol() *)
  PointObject_new : SymbolRef -> Object.t;     (* new PointObject(symbol) *)
  PathObject_new : SymbolRef -> Object.t;      (* new PathObject(symbol) *)
  TextObject_new : SymbolRef -> Object.t;      (* new TextObject(symbol) *)
  isSymmetrical : PointSymbolT -> bool         (* PointSymbol::isSymmetrical *)
}.

(** ** The importer *)

Module OCAD8FileImport.
Import CInt CFloat.

(** The member fields of the importer and the parts of the map it
    reads and writes after the symbols are loaded. *)
Record t : Type := make {
  warnings : list Message;
  encoding_1byte : QTextCodec;
  offset_x : Z;
  offset_y : Z;
  color_index : gmap Z nat;
  symbol_index : gmap Z SymbolT;
  rectangle_info : gmap Z RectangleInfo;
  undefined_point : SymbolT;
  undefined_line : SymbolT
}.

Definition set_warnings (v : list Message) (r : t) : t :=
  let '(make _ x1 x2 x3 x4 x5 x6 x7 x8) := r in make v x1 x2 x3 x4 x5 x6 x7 x8.
Definition set_symbol_index (v : gmap Z SymbolT) (r : t) : t :=
  let '(make x0 x1 x2 x3 x4 _ x6 x7 x8) := r in make x0 x1 x2 x3 x4 v x6 x7 x8.
Definition set_undefined_point (v : SymbolT) (r : t) : t :=
  let '(make x0 x1 x2 x3 x4 x5 x6 _ x8) := r in make x0 x1 x2 x3 x4 x5 x6 v x8.

(** A member function: from the state on entry to a value and the
    state on exit, or to a failure. *)
Definition M (A : Type) : Type := t -> Result (A * t).

Definition ret {A : Type} (a : A) : M A := fun st => Ok (a, st).

Definition fail {A : Type} (f : Failure) : M A := fun _ => Failed f.

Definition bind {A B : Type} (m : M A) (k : A -> M B) : M B :=
  fun st =>
    match m st with
    | Ok (a, st') => k a st'
    | Failed f => Failed f
    end.

Definition get : M t := fun st => Ok (st, st).

Notation "x <- m ;; k" := (bind m (fun x => k))
  (at level 100, m at next level, right associativity).
Notation "m ;;; k" := (bind m (fun _ => k))
  (at level 100, right associativity).

(** [Importer::addWarning]: [warnings.push_back(str)]. *)
Definition addWarning (m : Message) : M unit :=
  fun st => Ok (tt, set_warnings (warnings st ++ [m]) st).

(** [if (c) body;] *)
Definition when (c : bool) (body : M unit) : M unit :=
  if c then body else ret tt.

Definition msg (text : string) (args : list Arg) : Message :=
  {| template := text; arguments := args |}.

(** [QString OCAD8FileImport::convertPascalString(const char *p)]:
    [p] is the memory from the length byte on. *)
Definition convertPascalString (p : bytes) : M QString :=
  st <- get ;;
  let len := hd 0 p in
  ret (toUnicode (encoding_1byte st) (take (Z.to_nat len) (tl p))).

(** [float OCAD8FileImport::convertRotation(int angle)].  The loop
    [while (a < 0) a += 2 * M_PI;] gives [None] when [fuel] rounds do not
    bring [a] to a value that is not negative. *)
Fixpoint convertRotation_loop (fuel : nat) (a : double) : option double :=
  if dltb a dzero then
    match fuel with
    | O => None
    | S fuel' =>
        convertRotation_loop fuel' (dadd a (dmul dtwo M_PI))
    end
  else Some a.

(** [double a = (M_PI / 180) * (0.1f * angle);], the loop, and the
    conversion of [a] to [float]. *)
Definition convertRotation (fuel : nat) (angle : Z) : option float :=
  let a := dmul (ddiv M_PI d180)
                (double_of_float (fmul lit_0_1f (float_of_int angle))) in
  float_of_double <$> convertRotation_loop fuel a.

(** [convertRotation] as a step of a member function. *)
Definition convertRotationM (fuel : nat) (angle : Z) : M float :=
  match convertRotation fuel angle with
  | Some r => ret r
  | None => fail OutOfFuel
  end.

(** [void OCAD8FileImport::convertPoint(MapCoord &coord, int ocad_x,
    int ocad_y)]: OCAD uses hundredths of a millimeter, Mapper 1/1000 mm;
    the Y axis is flipped. *)
Definition convertPoint (coord : MapCoord.t) (ocad_x ocad_y : Z) : M MapCoord.t :=
  st <- get ;;
  let coord := MapCoord.setRawX (s64 (offset_x st + s64 (s64 ocad_x * 10))) coord in
  ret (MapCoord.setRawY (s64 (offset_y st + s64 (s64 ocad_y * (-10)))) coord).

(** [qint64 OCAD8FileImport::convertSize(int ocad_size)]. *)
Definition convertSize (ocad_size : Z) : Z :=
  s64 (s64 ocad_size * 10).

(** [MapColor *OCAD8FileImport::convertColor(int color)]; a colour is
    named by its place in the colour list of the map. *)
Definition convertColor (color : Z) : M (option nat) :=
  st <- get ;;
  if negb (bool_decide (is_Some (color_index st !! color))) then
    addWarning (msg "Color id not found: %1, ignoring this color" [ArgInt color]) ;;;
    ret None
  else
    ret (color_index st !! color).

Section Collaborators.
Context {libocad : Libocad} {model : MapModel}.

(** [for (i = 0; i < n; i++) body], the loop variable ranging over
    [indices] and the loop state being [a]. *)
Fixpoint for_each {A : Type} (body : A -> nat -> M A) (indices : list nat)
    (a : A) : M A :=
  match indices with
  | [] => ret a
  | i :: rest => a' <- body a i ;; for_each body rest a'
  end.

(** One round of the first loop of [fillPathCoords]: the point [pts[i]]
    is converted into [object->coords[i]] and its flags are applied.
    CurveStart goes to the main point, not to the control point, and
    a hole point of an area object is the last point of a part rather
    than the first point of the next part.  Where the first point of an
    area has the hole flag, the code writes [coords[i-1]] with [i = 0],
    before the first coordinate and unchecked, and goes on; what such a
    write does is undefined, and [OutOfRange] stands for it here: the
    properties of this function are stated for the other inputs. *)
Definition fillPathCoords_point (is_area : bool) (pts : OCADPoints)
    (cs : list MapCoord.t) (i : nat) : M (list MapCoord.t) :=
  let '(buf0, buf1, buf2) := ocad_point (pts (Z.of_nat i)) in
  coord <- convertPoint (cs !!! i) buf0 buf1 ;;
  let cs := <[i := coord]> cs in
  let cs :=
    if test_mask buf2 PX_CTL1 && (0 <? Z.of_nat i)
    then alter (MapCoord.setCurveStart true) (i - 1)%nat cs else cs in
  let cs :=
    if test_mask buf2 (Z.shiftl PY_DASH 8) || test_mask buf2 (Z.shiftl PY_CORNER 8)
    then alter (MapCoord.setDashPoint true) i cs else cs in
  if test_mask buf2 (Z.shiftl PY_HOLE 8) then
    if is_area then
      if (0 <? Z.of_nat i)
      then ret (alter (MapCoord.setHolePoint true) (i - 1)%nat cs)
      else fail OutOfRange
    else ret (alter (MapCoord.setHolePoint true) i cs)
  else ret cs.

(** One round of the second loop of [fillPathCoords]; the state is
    [start] and the coordinates, [size] is [object->coords.size()]. *)
Definition close_parts_step (size : Z) (state : nat * list MapCoord.t)
    (i : nat) : nat * list MapCoord.t :=
  let '(start, cs) := state in
  if negb (MapCoord.isHolePoint (cs !!! i)) && (Z.of_nat i <? size - 1)
  then state
  else
    let cs :=
      if MapCoord.isPositionEqualTo (cs !!! i) (cs !!! start)
      then alter (MapCoord.setClosePoint true) i cs else cs in
    ((i + 1)%nat, cs).

(** The second loop: closed parts are created where the position of the
    last point is equal to that of the first point. *)
Definition close_parts (cs : list MapCoord.t) : list MapCoord.t :=
  snd (fold_left (close_parts_step (Z.of_nat (length cs)))
                 (seq 0 (length cs)) (0%nat, cs)).

(** [void OCAD8FileImport::fillPathCoords(Object *object, bool is_area,
    s16 npts, OCADPoint *pts)]. *)
Definition fillPathCoords (object : Object.t) (is_area : bool) (npts : Z)
    (pts : OCADPoints) : M Object.t :=
  if npts <? 0 then fail LengthError
  else
    let cs := resize (Z.to_nat npts) MapCoord.new (Object.coords object) in
    cs <- for_each (fillPathCoords_point is_area pts) (seq 0 (Z.to_nat npts)) cs ;;
    match Object.type object with
    | Object.Path => ret (Object.set_coords (close_parts cs) object)
    | _ => ret (Object.set_coords cs object)
    end.

(** [void OCAD8FileImport::fillCommonSymbolFields(Symbol *symbol,
    const OCADSymbol *ocad_symbol)], on the fields of the base class. *)
Definition fillCommonSymbolFields (symbol : Symbol.Base) (ocad_symbol : OCADSymbol)
    : M Symbol.Base :=
  name <- convertPascalString (sym_name ocad_symbol) ;;
  let symbol := Symbol.set_name name symbol in
  let symbol :=
    Symbol.set_number
      (<[2%nat := -1]> (<[1%nat := Z.rem (sym_number ocad_symbol) 10]>
         (<[0%nat := Z.quot (sym_number ocad_symbol) 10]> (Symbol.number symbol))))
      symbol in
  let symbol := Symbol.set_is_helper_symbol false symbol in
  let symbol :=
    if test_mask (sym_status ocad_symbol) 1 then Symbol.setProtected true symbol
    else symbol in
  let symbol :=
    if test_mask (sym_status ocad_symbol) 2 then Symbol.setHidden true symbol
    else symbol in
  ret symbol.

(** The element header [p] points to. *)
Definition element_at (pts : OCADPoints) (p : Z) : OCADSymbolElement :=
  as_element (pts p) (pts (p + 1)).

(** The body of the loop of [importPattern] for the element at [p]. *)
Definition importPattern_element (pts : OCADPoints) (end_ p : Z)
    (symbol : PointSymbolT) : M PointSymbolT :=
  let elt := element_at pts p in
  let element_index := PointSymbol.getNumElements symbol in
  let multiple_elements := (p + (2 + elt_npts elt) <? end_) || (0 <? p) in
  if elt_type elt =? OCAD_DOT_ELEMENT then
    let inner_radius := Z.quot (s32 (convertSize (elt_diameter elt))) 2 in
    if 0 <? inner_radius then
      let element_symbol := if multiple_elements then PointSymbol_new else symbol in
      inner_color <- convertColor (elt_color elt) ;;
      let element_symbol := PointSymbol.set_inner_color inner_color element_symbol in
      let element_symbol := PointSymbol.set_inner_radius inner_radius element_symbol in
      let element_symbol := PointSymbol.set_outer_color None element_symbol in
      let element_symbol := PointSymbol.set_outer_width 0 element_symbol in
      if multiple_elements then
        let element_symbol := PointSymbol.set_rotatable false element_symbol in
        let element_object := PointObject_new ElementSymbol in
        let element_object :=
          Object.set_coords (resize 1 MapCoord.new (Object.coords element_object))
                            element_object in
        ret (PointSymbol.addElement element_index element_object
               (SymPoint element_symbol) symbol)
      else ret element_symbol
    else ret symbol
  else if elt_type elt =? OCAD_CIRCLE_ELEMENT then
    let inner_radius :=
      Z.quot (s32 (convertSize (elt_diameter elt))) 2
      - s32 (convertSize (elt_width elt)) in
    let outer_width := s32 (convertSize (elt_width elt)) in
    if (0 <? outer_width) && (0 <? inner_radius) then
      let element_symbol := if multiple_elements then PointSymbol_new else symbol in
      let element_symbol := PointSymbol.set_inner_color None element_symbol in
      let element_symbol := PointSymbol.set_inner_radius inner_radius element_symbol in
      outer_color <- convertColor (elt_color elt) ;;
      let element_symbol := PointSymbol.set_outer_color outer_color element_symbol in
      let element_symbol := PointSymbol.set_outer_width outer_width element_symbol in
      if multiple_elements then
        let element_symbol := PointSymbol.set_rotatable false element_symbol in
        let element_object := PointObject_new ElementSymbol in
        let element_object :=
          Object.set_coords (resize 1 MapCoord.new (Object.coords element_object))
                            element_object in
        ret (PointSymbol.addElement element_index element_object
               (SymPoint element_symbol) symbol)
      else ret element_symbol
    else ret symbol
  else if elt_type elt =? OCAD_LINE_ELEMENT then
    let element_symbol := LineSymbol_new in
    let element_symbol :=
      LineSymbol.set_line_width (convertSize (elt_width elt)) element_symbol in
    line_color <- convertColor (elt_color elt) ;;
    let element_symbol := LineSymbol.set_color line_color element_symbol in
    element_object <-
      fillPathCoords (PathObject_new ElementSymbol) false (elt_npts elt)
                     (advance pts (p + 2)) ;;
    ret (PointSymbol.addElement element_index element_object
           (SymLine element_symbol) symbol)
  else if elt_type elt =? OCAD_AREA_ELEMENT then
    let element_symbol := AreaSymbol_new in
    area_color <- convertColor (elt_color elt) ;;
    let element_symbol := AreaSymbol.set_color area_color element_symbol in
    element_object <-
      fillPathCoords (PathObject_new ElementSymbol) true (elt_npts elt)
                     (advance pts (p + 2)) ;;
    ret (PointSymbol.addElement element_index element_object
           (SymArea element_symbol) symbol)
  else ret symbol.

(** The loop [while (p < end)] of [importPattern]; [p] and [end_] are
    counted in points from [pts]. *)
Fixpoint importPattern_loop (fuel : nat) (pts : OCADPoints) (end_ p : Z)
    (symbol : PointSymbolT) : M PointSymbolT :=
  if p <? end_ then
    match fuel with
    | O => fail OutOfFuel
    | S fuel' =>
        symbol <- importPattern_element pts end_ p symbol ;;
        importPattern_loop fuel' pts end_ (p + (2 + elt_npts (element_at pts p))) symbol
    end
  else ret symbol.

(** [PointSymbol *OCAD8FileImport::importPattern(s16 npts, OCADPoint *pts)]. *)
Definition importPattern (fuel : nat) (npts : Z) (pts : OCADPoints)
    : M PointSymbolT :=
  let symbol := PointSymbol.set_rotatable true PointSymbol_new in
  importPattern_loop fuel pts npts 0 symbol.

Definition is_pointed (c : LineSymbol.CapStyle) : bool :=
  match c with
  | LineSymbol.PointedCap => true
  | _ => false
  end.

(** The number of a symbol as the warnings print it. *)
Definition number_arg (ocad_symbol : OCADLineSymbol) : Arg :=
  ArgTenths (sym_number (common ocad_symbol)).

(** "Cap and join styles" of [importLineSymbol]. *)
Definition import_cap_and_join (ocad_symbol : OCADLineSymbol)
    (main_line : LineSymbolT) : LineSymbolT :=
  let styles cap join :=
    LineSymbol.set_join_style join (LineSymbol.set_cap_style cap main_line) in
  if ends ocad_symbol =? 0 then styles LineSymbol.FlatCap LineSymbol.BevelJoin
  else if ends ocad_symbol =? 1 then styles LineSymbol.RoundCap LineSymbol.RoundJoin
  else if ends ocad_symbol =? 2 then styles LineSymbol.PointedCap LineSymbol.BevelJoin
  else if ends ocad_symbol =? 3 then styles LineSymbol.PointedCap LineSymbol.RoundJoin
  else if ends ocad_symbol =? 4 then styles LineSymbol.FlatCap LineSymbol.MiterJoin
  else if ends ocad_symbol =? 6 then styles LineSymbol.PointedCap LineSymbol.MiterJoin
  else main_line.

(** The pointed cap of [importLineSymbol]: different lengths for start
    and end are not supported, so the average is taken; OCAD always draws
    round joins if the line cap is pointed. *)
Definition import_pointed_cap (ocad_symbol : OCADLineSymbol)
    (main_line : LineSymbolT) : M LineSymbolT :=
  if is_pointed (LineSymbol.cap_style main_line) then
    when (negb (bdist ocad_symbol =? edist ocad_symbol))
      (addWarning (msg "In dashed line symbol %1, pointed cap lengths for begin and end are different (%2 and %3). Using %4."
         [number_arg ocad_symbol; ArgInt (bdist ocad_symbol); ArgInt (edist ocad_symbol);
          ArgInt (Z.quot (bdist ocad_symbol + edist ocad_symbol) 2)])) ;;;
    let main_line :=
      LineSymbol.set_pointed_cap_length
        (convertSize (Z.quot (bdist ocad_symbol + edist ocad_symbol) 2)) main_line in
    ret (LineSymbol.set_join_style LineSymbol.RoundJoin main_line)
  else ret main_line.

(** [elen >= len / 2 - 1 && elen <= len / 2 + 1]. *)
Definition end_length_is_half (ocad_symbol : OCADLineSymbol) : bool :=
  (Z.quot (len ocad_symbol) 2 - 1 <=? elen ocad_symbol)
  && (elen ocad_symbol <=? Z.quot (len ocad_symbol) 2 + 1).

(** "Handle the dash pattern" of [importLineSymbol]. *)
Definition import_dash_pattern (ocad_symbol : OCADLineSymbol)
    (main_line : LineSymbolT) : M LineSymbolT :=
  if (0 <? gap ocad_symbol) || (0 <? gap2 ocad_symbol) then
    let main_line := LineSymbol.set_dashed true main_line in
    (* Detect special case *)
    if (0 <? gap2 ocad_symbol) && (gap ocad_symbol =? 0) then
      let main_line :=
        LineSymbol.set_dash_length
          (convertSize (len ocad_symbol - gap2 ocad_symbol)) main_line in
      let main_line :=
        LineSymbol.set_break_length (convertSize (gap2 ocad_symbol)) main_line in
      when (negb (end_length_is_half ocad_symbol))
        (addWarning (msg "In dashed line symbol %1, the end length cannot be imported correctly."
           [number_arg ocad_symbol])) ;;;
      when (negb (egap ocad_symbol =? 0))
        (addWarning (msg "In dashed line symbol %1, the end gap cannot be imported correctly."
           [number_arg ocad_symbol])) ;;;
      ret main_line
    else
      main_line <-
        (if negb (len ocad_symbol =? elen ocad_symbol) then
           if end_length_is_half ocad_symbol
           then ret (LineSymbol.set_half_outer_dashes true main_line)
           else
             addWarning (msg "In dashed line symbol %1, main and end length are different (%2 and %3). Using %4."
               [number_arg ocad_symbol; ArgInt (len ocad_symbol); ArgInt (elen ocad_symbol);
                ArgInt (len ocad_symbol)]) ;;;
             ret main_line
         else ret main_line) ;;
      let main_line :=
        LineSymbol.set_dash_length (convertSize (len ocad_symbol)) main_line in
      let main_line :=
        LineSymbol.set_break_length (convertSize (gap ocad_symbol)) main_line in
      if 0 <? gap2 ocad_symbol then
        let main_line := LineSymbol.set_dashes_in_group 2 main_line in
        when (negb (gap2 ocad_symbol =? egap ocad_symbol))
          (addWarning (msg "In dashed line symbol %1, gaps D and E are different (%2 and %3). Using %4."
             [number_arg ocad_symbol; ArgInt (gap2 ocad_symbol); ArgInt (egap ocad_symbol);
              ArgInt (gap2 ocad_symbol)])) ;;;
        let main_line :=
          LineSymbol.set_in_group_break_length (convertSize (gap2 ocad_symbol)) main_line in
        ret (LineSymbol.set_dash_length
               (Z.quot (LineSymbol.dash_length main_line
                        - LineSymbol.in_group_break_length main_line) 2) main_line)
      else ret main_line
  else
    let main_line :=
      LineSymbol.set_segment_length (convertSize (len ocad_symbol)) main_line in
    ret (LineSymbol.set_end_length (convertSize (elen ocad_symbol)) main_line).

(** "Import a main line?" of [importLineSymbol]: [main_line], [NULL]
    unless [dmode == 0 || width > 0]. *)
Definition import_main_line (ocad_symbol : OCADLineSymbol)
    : M (option LineSymbolT) :=
  if (dmode ocad_symbol =? 0) || (0 <? width ocad_symbol) then
    let main_line := LineSymbol_new in
    base <- fillCommonSymbolFields (LineSymbol.base main_line) (common ocad_symbol) ;;
    let main_line := LineSymbol.set_base base main_line in
    (* OCAD 8 does not store min length *)
    let main_line := LineSymbol.set_minimum_length 0 main_line in
    (* Basic line options *)
    let main_line :=
      LineSymbol.set_line_width (convertSize (width ocad_symbol)) main_line in
    line_color <- convertColor (color ocad_symbol) ;;
    let main_line := LineSymbol.set_color line_color main_line in
    let main_line := import_cap_and_join ocad_symbol main_line in
    main_line <- import_pointed_cap ocad_symbol main_line ;;
    main_line <- import_dash_pattern ocad_symbol main_line ;;
    ret (Some main_line)
  else ret None.

(** "Border lines" of [importLineSymbol]: different values on the left
    and on the right side are not supported and imported with a warning. *)
Definition import_border_lines (ocad_symbol : OCADLineSymbol)
    (double_line : LineSymbolT) : M LineSymbolT :=
  if (0 <? lwidth ocad_symbol) || (0 <? rwidth ocad_symbol) then
    let double_line := LineSymbol.set_have_border_lines true double_line in
    let border_color := lcolor ocad_symbol in
    when (negb (border_color =? rcolor ocad_symbol))
      (addWarning (msg "In symbol %1, left and right borders are different colors (%2 and %3). Using %4."
         [number_arg ocad_symbol; ArgInt (lcolor ocad_symbol); ArgInt (rcolor ocad_symbol);
          ArgInt border_color])) ;;;
    converted <- convertColor border_color ;;
    let double_line := LineSymbol.set_border_color converted double_line in
    let border_width := lwidth ocad_symbol in
    when (negb (border_width =? rwidth ocad_symbol))
      (addWarning (msg "In symbol %1, left and right borders are different width (%2 and %3). Using %4."
         [number_arg ocad_symbol; ArgInt (lwidth ocad_symbol); ArgInt (rwidth ocad_symbol);
          ArgInt border_width])) ;;;
    let double_line :=
      LineSymbol.set_border_width (convertSize border_width) double_line in
    let double_line :=
      LineSymbol.set_border_shift
        (Z.quot (LineSymbol.border_width double_line) 2) double_line in
    (* And finally, the border may be dashed *)
    if (0 <? dgap ocad_symbol) && (1 <? dmode ocad_symbol) then
      let double_line := LineSymbol.set_dashed_border true double_line in
      let double_line :=
        LineSymbol.set_border_dash_length (convertSize (dlen ocad_symbol)) double_line in
      let double_line :=
        LineSymbol.set_border_break_length (convertSize (dgap ocad_symbol)) double_line in
      when (dmode ocad_symbol =? 2)
        (addWarning (msg "In line symbol %1, ignoring that only the left border line should be dashed"
           [number_arg ocad_symbol])) ;;;
      ret double_line
    else ret double_line
  else ret double_line.

(** "Import a 'double' line?" of [importLineSymbol]: [double_line],
    [NULL] unless [dmode != 0]. *)
Definition import_double_line (ocad_symbol : OCADLineSymbol)
    : M (option LineSymbolT) :=
  if negb (dmode ocad_symbol =? 0) then
    let double_line := LineSymbol_new in
    base <- fillCommonSymbolFields (LineSymbol.base double_line) (common ocad_symbol) ;;
    let double_line := LineSymbol.set_base base double_line in
    let double_line :=
      LineSymbol.set_line_width (convertSize (dwidth ocad_symbol)) double_line in
    fill_color <-
      (if test_mask (dflags ocad_symbol) 1 then convertColor (dcolor ocad_symbol)
       else ret None) ;;
    let double_line := LineSymbol.set_color fill_color double_line in
    let double_line := LineSymbol.set_cap_style LineSymbol.FlatCap double_line in
    let double_line := LineSymbol.set_join_style LineSymbol.MiterJoin double_line in
    let double_line :=
      LineSymbol.set_segment_length (convertSize (len ocad_symbol)) double_line in
    let double_line :=
      LineSymbol.set_end_length (convertSize (elen ocad_symbol)) double_line in
    double_line <- import_border_lines ocad_symbol double_line ;;
    ret (Some double_line)
  else ret None.

(** [symbol->setName(name)] on a point symbol. *)
Definition setName (name : QString) (symbol : PointSymbolT) : PointSymbolT :=
  PointSymbol.set_base (Symbol.setName name (PointSymbol.base symbol)) symbol.

(** "Create point symbols along line; middle ("normal") dash, corners,
    start, and end." of [importLineSymbol], on the line the symbols are
    attached to; [symbolptr] walks through [ocad_symbol->pts]. *)
Definition import_line_patterns (fuel : nat) (ocad_symbol : OCADLineSymbol)
    (symbol_line : LineSymbolT) : M LineSymbolT :=
  let symbolptr := 0 in
  mid <- importPattern fuel (smnpts ocad_symbol) (advance (pts ocad_symbol) symbolptr) ;;
  let symbol_line := LineSymbol.set_mid_symbol (Some mid) symbol_line in
  let symbol_line := LineSymbol.set_mid_symbols_per_spot (snum ocad_symbol) symbol_line in
  let symbol_line :=
    LineSymbol.set_mid_symbol_distance (convertSize (sdist ocad_symbol)) symbol_line in
  let symbolptr := symbolptr + smnpts ocad_symbol in
  let symbolptr :=
    if 0 <? ssnpts ocad_symbol then symbolptr + ssnpts ocad_symbol else symbolptr in
  attached <-
    (if 0 <? scnpts ocad_symbol then
       dash <- importPattern fuel (scnpts ocad_symbol) (advance (pts ocad_symbol) symbolptr) ;;
       let dash := setName (qstr "Dash symbol") dash in
       ret (LineSymbol.set_dash_symbol (Some dash) symbol_line,
            symbolptr + scnpts ocad_symbol)
     else ret (symbol_line, symbolptr)) ;;
  let '(symbol_line, symbolptr) := attached in
  attached <-
    (if 0 <? sbnpts ocad_symbol then
       start <- importPattern fuel (sbnpts ocad_symbol) (advance (pts ocad_symbol) symbolptr) ;;
       let start := setName (qstr "Start symbol") start in
       ret (LineSymbol.set_start_symbol (Some start) symbol_line,
            symbolptr + sbnpts ocad_symbol)
     else ret (symbol_line, symbolptr)) ;;
  let '(symbol_line, symbolptr) := attached in
  symbol_line <-
    (if 0 <? senpts ocad_symbol then
       end_ <- importPattern fuel (senpts ocad_symbol) (advance (pts ocad_symbol) symbolptr) ;;
       ret (LineSymbol.set_end_symbol (Some end_) symbol_line)
     else ret symbol_line) ;;
  let symbol_line := LineSymbol.set_minimum_mid_symbol_count 0 symbol_line in
  let symbol_line := LineSymbol.set_minimum_mid_symbol_count_when_closed 0 symbol_line in
  let symbol_line := LineSymbol.set_show_at_least_one_symbol false symbol_line in
  when (0 <? fwidth ocad_symbol)
    (addWarning (msg "In symbol %1, ignoring framing line." [number_arg ocad_symbol])) ;;;
  ret symbol_line.

(** [main_line->setHidden(false); main_line->setProtected(false);]. *)
Definition shown_and_unprotected (line : LineSymbolT) : LineSymbolT :=
  LineSymbol.set_base
    (Symbol.setProtected false (Symbol.setHidden false (LineSymbol.base line))) line.

(** [Symbol *OCAD8FileImport::importLineSymbol(const OCADLineSymbol
    *ocad_symbol)].  [symbol_line] is the main line when there is one and
    the double line otherwise; what is attached to it is attached to the
    line it aliases.  The parts of a combined symbol are the two lines
    after [setHidden(false)] and [setProtected(false)]. *)
Definition importLineSymbol (fuel : nat) (ocad_symbol : OCADLineSymbol)
    : M (option SymbolT) :=
  main_line <- import_main_line ocad_symbol ;;
  double_line <- import_double_line ocad_symbol ;;
  let symbol_line := if main_line is Some _ then main_line else double_line in
  match symbol_line with
  | None => fail NullPointer
  | Some symbol_line =>
      symbol_line <- import_line_patterns fuel ocad_symbol symbol_line ;;
      let '(main_line, double_line) :=
        if main_line is Some _ then (Some symbol_line, double_line)
        else (main_line, Some symbol_line) in
      match main_line, double_line with
      | None, _ => ret (SymLine <$> double_line)
      | Some main_line, None => ret (Some (SymLine main_line))
      | Some main_line, Some double_line =>
          let full_line := CombinedSymbol_new in
          base <- fillCommonSymbolFields (CombinedSymbol.base full_line)
                    (common ocad_symbol) ;;
          let full_line := CombinedSymbol.set_base base full_line in
          let full_line := CombinedSymbol.setNumParts 2 full_line in
          (* Don't let parts be affected by possible settings for the combined symbol *)
          let main_line := shown_and_unprotected main_line in
          let double_line := shown_and_unprotected double_line in
          let full_line := CombinedSymbol.setPart 0 (SymLine main_line) full_line in
          let full_line := CombinedSymbol.setPart 1 (SymLine double_line) full_line in
          ret (Some (SymCombined full_line))
      end
  end.

(** The steps of [importObject] that rest on font metrics, on
    floating-point geometry and on the text after the points of the
    record: [importRectangleObject], the conversion of the text by
    [convertWideCString] or [convertCString], and [fillTextPathCoords]
    (with the text and the alignments set on the object). *)
Variable importRectangleObject : OCADObject -> RectangleInfo -> M bool.
Variable convertObjectText : OCADObject -> M QString.
Variable fillTextPathCoords :
  Object.t -> TextSymbol.t -> QString -> Z -> OCADPoints -> M (bool * Object.t).

(** The symbol a reference points to. *)
Definition symbol_at (ref : SymbolRef) : M SymbolT :=
  st <- get ;;
  match ref with
  | IndexedSymbol number =>
      match symbol_index st !! number with
      | Some symbol => ret symbol
      | None => fail NullPointer
      end
  | UndefinedPoint => ret (undefined_point st)
  | UndefinedLine => ret (undefined_line st)
  | NoSymbol | ElementSymbol => fail NullPointer
  end.

(** [point_symbol->setRotatable(true)] through a reference: the symbol
    of the map is changed. *)
Definition setRotatable_at (ref : SymbolRef) (point_symbol : PointSymbolT) : M unit :=
  let symbol := SymPoint (PointSymbol.set_rotatable true point_symbol) in
  fun st =>
    match ref with
    | IndexedSymbol number =>
        Ok (tt, set_symbol_index (<[number := symbol]> (symbol_index st)) st)
    | UndefinedPoint => Ok (tt, set_undefined_point symbol st)
    | _ => Ok (tt, st)
    end.

(** The first part of [importObject]: the symbol of the object, or
    [None] where the function returns NULL before it has one. *)
Definition find_symbol (ocad_object : OCADObject) : M (option SymbolRef) :=
  st <- get ;;
  if negb (bool_decide (is_Some (symbol_index st !! obj_symbol ocad_object))) then
    match rectangle_info st !! obj_symbol ocad_object with
    | None =>
        if obj_type ocad_object =? 1 then ret (Some UndefinedPoint)
        else if (obj_type ocad_object =? 2) || (obj_type ocad_object =? 3)
        then ret (Some UndefinedLine)
        else
          addWarning (msg "Unable to load object" []) ;;;
          ret None
    | Some rect =>
        imported <- importRectangleObject ocad_object rect ;;
        when (negb imported)
          (addWarning (msg "Unable to import rectangle object" [])) ;;;
        ret None
    end
  else ret (Some (IndexedSymbol (obj_symbol ocad_object))).

(** The branch [symbol->getType() == Symbol::Point] of [importObject]. *)
Definition importObject_point (fuel : nat) (ocad_object : OCADObject)
    (ref : SymbolRef) (point_symbol : PointSymbolT) : M (option Object.t) :=
  let p := PointObject_new NoSymbol in
  let p := Object.set_symbol ref p in
  (* extra properties: rotation *)
  p <-
    (if PointSymbol.rotatable point_symbol then
       r <- convertRotationM fuel (obj_angle ocad_object) ;;
       ret (Object.set_rotation r p)
     else if negb (obj_angle ocad_object =? 0) then
       if negb (isSymmetrical point_symbol) then
         setRotatable_at ref point_symbol ;;;
         r <- convertRotationM fuel (obj_angle ocad_object) ;;
         ret (Object.set_rotation r p)
       else ret p
     else ret p) ;;
  (* only 1 coordinate is allowed, enforce it even if the OCAD object
     claims more. *)
  p <- fillPathCoords p false 1 (obj_pts ocad_object) ;;
  ret (Some p).

(** The branch [symbol->getType() == Symbol::Text] of [importObject]. *)
Definition importObject_text (fuel : nat) (ocad_object : OCADObject)
    (ref : SymbolRef) (text_symbol : TextSymbol.t) : M (option Object.t) :=
  let t := TextObject_new ref in
  (* extra properties: rotation, horizontalAlignment, verticalAlignment, text *)
  r <- convertRotationM fuel (obj_angle ocad_object) ;;
  let t := Object.set_rotation r t in
  text <- convertObjectText ocad_object ;;
  (* Text objects need special path translation *)
  filled <- fillTextPathCoords t text_symbol text (obj_npts ocad_object)
              (obj_pts ocad_object) ;;
  if negb (fst filled) then
    addWarning (msg "Not importing text symbol, couldn't figure out path' (npts=%1): %2"
      [ArgInt (obj_npts ocad_object); ArgText text]) ;;;
    ret None
  else ret (Some (snd filled)).

(** [Object *OCAD8FileImport::importObject(const OCADObject* ocad_object,
    MapLayer* layer)]. *)
Definition importObject (fuel : nat) (ocad_object : OCADObject)
    : M (option Object.t) :=
  found <- find_symbol ocad_object ;;
  match found with
  | None => ret None
  | Some ref =>
      symbol <- symbol_at ref ;;
      match symbol with
      | SymPoint point_symbol =>
          importObject_point fuel ocad_object ref point_symbol
      | SymText text_symbol =>
          importObject_text fuel ocad_object ref text_symbol
      | SymLine _ | SymArea _ | SymCombined _ =>
          let p := PathObject_new ref in
          (* Normal path *)
          p <- fillPathCoords p
                 (match symbol with SymArea _ => true | _ => false end)
                 (obj_npts ocad_object) (obj_pts ocad_object) ;;
          ret (Some p)
      end
  end.
End Collaborators.

(** ** Zero-terminated strings of the file *)

(** A step that needs no member field. *)
Definition lift {A : Type} (r : Result A) : M A :=
  fun st =>
    match r with
    | Ok a => Ok (a, st)
    | Failed f => Failed f
    end.

(** [p[i]] for a [const char *p]: the memory at the pointer is [p], and
    no byte is known behind its end. *)
Definition char_at (p : bytes) (i : nat) : Result Z :=
  match p !! i with
  | Some c => Ok c
  | None => Failed OutOfRange
  end.

(** The loop [for (; i < n; i++) if (p[i] == 0) break;] from [i] on,
    [left] being [n - i]: the value of [i] behind the loop. *)
Fixpoint scan_terminator (p : bytes) (left i : nat) : Result nat :=
  match left with
  | O => Ok i
  | S left' =>
      match char_at p i with
      | Ok c => if c =? 0 then Ok i else scan_terminator p left' (S i)
      | Failed f => Failed f
      end
  end.

(** [n >= 2 && p[0] == '\r' && p[1] == '\n'], read from left to right. *)
Definition starts_with_newline (p : bytes) (n : nat) : Result bool :=
  if (2 <=? n)%nat then
    match char_at p 0 with
    | Ok c0 =>
        if c0 =? 13 then
          match char_at p 1 with
          | Ok c1 => Ok (c1 =? 10)
          | Failed f => Failed f
          end
        else Ok false
    | Failed f => Failed f
    end
  else Ok false.

(** [QString OCAD8FileImport::convertCString(const char *p, size_t n,
    bool ignore_first_newline)].  [i -= 2] on the unsigned [i] wraps
    around below 2, which is a failure here. *)
Definition convertCString (p : bytes) (n : nat) (ignore_first_newline : bool)
    : M QString :=
  i <- lift (scan_terminator p n 0) ;;
  skip <- (if ignore_first_newline then lift (starts_with_newline p n)
           else ret false) ;;
  st <- get ;;
  if skip then
    (* Remove "\r\n" at the beginning of texts, somehow OCAD seems to add
       this sometimes but ignores it *)
    if (i <? 2)%nat then fail OutOfRange
    else ret (toUnicode (encoding_1byte st) (take (i - 2) (drop 2 p)))
  else ret (toUnicode (encoding_1byte st) (take i p)).

(** [q[i]] for [q], the pointer [p] taken as a pointer to [u16]: the
    bytes at [2 * i] and [2 * i + 1], the low byte first. *)
Definition u16_at (p : bytes) (i : nat) : Result Z :=
  match p !! (2 * i)%nat, p !! (2 * i + 1)%nat with
  | Some lo, Some hi => Ok (lo + 256 * hi)
  | _, _ => Failed OutOfRange
  end.

(** The loop [for (; i < n; i++) if (q[i] == 0) break;]. *)
Fixpoint scan_wide_terminator (p : bytes) (left i : nat) : Result nat :=
  match left with
  | O => Ok i
  | S left' =>
      match u16_at p i with
      | Ok c => if c =? 0 then Ok i else scan_wide_terminator p left' (S i)
      | Failed f => Failed f
      end
  end.

(** [n >= 4 && p[0] == '\r' && p[2] == '\n']. *)
Definition starts_with_wide_newline (p : bytes) (n : nat) : Result bool :=
  if (4 <=? n)%nat then
    match char_at p 0 with
    | Ok c0 =>
        if c0 =? 13 then
          match char_at p 2 with
          | Ok c2 => Ok (c2 =? 10)
          | Failed f => Failed f
          end
        else Ok false
    | Failed f => Failed f
    end
  else Ok false.

(** [QString OCAD8FileImport::convertWideCString(const char *p, size_t n,
    bool ignore_first_newline)]; the member [encoding_2byte] is the
    first argument. *)
Definition convertWideCString (encoding_2byte : QTextCodec) (p : bytes)
    (n : nat) (ignore_first_newline : bool) : M QString :=
  i <- lift (scan_wide_terminator p n 0) ;;
  skip <- (if ignore_first_newline then lift (starts_with_wide_newline p n)
           else ret false) ;;
  if skip then
    if (i <? 2)%nat then fail OutOfRange
    else ret (toUnicode encoding_2byte (take ((i - 2) * 2) (drop 4 p)))
  else ret (toUnicode encoding_2byte (take (i * 2) p)).

End OCAD8FileImport.

(** ** The exporter *)

(** A symbol record of the file being written, as far as the numbering
    and the text formatting go. *)
Record OCADSymbolRecord : Type := make_record {
  rec_number : Z;
  rec_type : Z;
  rec_status : Z;
  rec_name : bytes;
  rec_halign : Z
}.

(** An object record of the file being written. *)
Record OCADObjectRecord : Type := {
  orec_symbol : Z;
  orec_type : Z
}.

(** The symbol kinds of the file; [doExport] tells lines by 2, areas
    being 3. *)
Definition OCAD_POINT_SYMBOL : Z := 1.
Definition OCAD_LINE_SYMBOL : Z := 2.
Definition OCAD_AREA_SYMBOL : Z := 3.
Definition OCAD_TEXT_SYMBOL : Z := 4.

(** [TextObject::HorizontalAlignment]. *)
Inductive HorizontalAlignment : Type := AlignLeft | AlignHCenter | AlignRight.

#[global] Instance HorizontalAlignment_eq_dec : EqDecision HorizontalAlignment.
Proof. solve_decision. Defined.

(** An object of the map, as far as the export of its symbol goes: its
    symbol is the one at [mo_symbol] in the symbol list of the map (a
    symbol outside the list when the index is beyond it). *)
Record MapObject : Type := {
  mo_type : Object.ObjectType;
  mo_symbol : nat;
  mo_halign : HorizontalAlignment;
  mo_single_anchor : bool
}.

(** The map, as far as the export of symbols and objects reads it. *)
Record Map : Type := {
  map_symbols : list SymbolT;
  map_layers : list (list MapObject)
}.

Module OCAD8FileExport.
Import CInt.

(** The member fields of the exporter and the symbols and objects of the
    file it builds. *)
Record t : Type := make {
  warnings : list Message;
  encoding_1byte : QTextCodec;
  symbol_numbers : gset Z;
  symbol_index : gmap nat (gset Z);
  text_format_map : gmap nat (list (HorizontalAlignment * Z));
  file_symbols : list OCADSymbolRecord;
  file_objects : list OCADObjectRecord
}.

Definition set_warnings (v : list Message) (r : t) : t :=
  let '(make _ x1 x2 x3 x4 x5 x6) := r in make v x1 x2 x3 x4 x5 x6.
Definition set_symbol_numbers (v : gset Z) (r : t) : t :=
  let '(make x0 x1 _ x3 x4 x5 x6) := r in make x0 x1 v x3 x4 x5 x6.
Definition set_symbol_index (v : gmap nat (gset Z)) (r : t) : t :=
  let '(make x0 x1 x2 _ x4 x5 x6) := r in make x0 x1 x2 v x4 x5 x6.
Definition set_text_format_map (v : gmap nat (list (HorizontalAlignment * Z)))
    (r : t) : t :=
  let '(make x0 x1 x2 x3 _ x5 x6) := r in make x0 x1 x2 x3 v x5 x6.
Definition set_file_symbols (v : list OCADSymbolRecord) (r : t) : t :=
  let '(make x0 x1 x2 x3 x4 _ x6) := r in make x0 x1 x2 x3 x4 v x6.
Definition set_file_objects (v : list OCADObjectRecord) (r : t) : t :=
  let '(make x0 x1 x2 x3 x4 x5 _) := r in make x0 x1 x2 x3 x4 x5 v.

Definition set_rec_number (v : Z) (r : OCADSymbolRecord) : OCADSymbolRecord :=
  let '(make_record _ x1 x2 x3 x4) := r in make_record v x1 x2 x3 x4.
Definition set_rec_type (v : Z) (r : OCADSymbolRecord) : OCADSymbolRecord :=
  let '(make_record x0 _ x2 x3 x4) := r in make_record x0 v x2 x3 x4.
Definition set_rec_status (v : Z) (r : OCADSymbolRecord) : OCADSymbolRecord :=
  let '(make_record x0 x1 _ x3 x4) := r in make_record x0 x1 v x3 x4.
Definition set_rec_name (v : bytes) (r : OCADSymbolRecord) : OCADSymbolRecord :=
  let '(make_record x0 x1 x2 _ x4) := r in make_record x0 x1 x2 v x4.
Definition set_rec_halign (v : Z) (r : OCADSymbolRecord) : OCADSymbolRecord :=
  let '(make_record x0 x1 x2 x3 _) := r in make_record x0 x1 x2 x3 v.

Definition M (A : Type) : Type := t -> Result (A * t).

Definition ret {A : Type} (a : A) : M A := fun st => Ok (a, st).

Definition fail {A : Type} (f : Failure) : M A := fun _ => Failed f.

Definition bind {A B : Type} (m : M A) (k : A -> M B) : M B :=
  fun st =>
    match m st with
    | Ok (a, st') => k a st'
    | Failed f => Failed f
    end.

Definition get : M t := fun st => Ok (st, st).

Definition modify (f : t -> t) : M unit := fun st => Ok (tt, f st).

Notation "x <- m ;; k" := (bind m (fun x => k))
  (at level 100, m at next level, right associativity).
Notation "m ;;; k" := (bind m (fun _ => k))
  (at level 100, right associativity).

Definition when (c : bool) (body : M unit) : M unit :=
  if c then body else ret tt.

Definition msg (text : string) (args : list Arg) : Message :=
  {| template := text; arguments := args |}.

(** [Exporter::addWarning]. *)
Definition addWarning (m : Message) : M unit :=
  modify (fun st => set_warnings (warnings st ++ [m]) st).

(** [s32 OCAD8FileExport::convertSize(qint64 size)]. *)
Definition convertSize (size : Z) : Z :=
  s32 (Z.quot size 10).

(** [QString::insert(position, str)]: nothing is inserted at a negative
    position, and a position behind the end is reached by padding with
    spaces. *)
Definition QString_insert (position : Z) (str text : QString) : QString :=
  if position <? 0 then text
  else
    take (Z.to_nat position) text
    ++ replicate (Z.to_nat position - length text) 32
    ++ str ++ drop (Z.to_nat position) text.

(** [void OCAD8FileExport::addStringTruncationWarning(const QString& text,
    int truncation_pos)]. *)
Definition addStringTruncationWarning (text : QString) (truncation_pos : Z)
    : M unit :=
  let temp := QString_insert truncation_pos (qstr "|||") text in
  addWarning (msg "String truncated (truncation marked with three '|'): %1"
                  [ArgText temp]).

(** [void OCAD8FileExport::convertPascalString(const QString& text,
    char* buffer, int buffer_size)]; [buffer] is the memory at the
    pointer, and the memory after the call is returned.  The length byte
    is the conversion of [min_size] to [unsigned char]; [mempcpy] reads
    [min_size] bytes of [data], which must be there. *)
Definition convertPascalString (text : QString) (buffer : bytes)
    (buffer_size : Z) : M bytes :=
  if negb (buffer_size <=? 256) then fail AssertionFailed
  else
    let max_size := buffer_size - 1 in
    when (max_size <? Z.of_nat (length text))
      (addStringTruncationWarning text max_size) ;;;
    st <- get ;;
    let data := fromUnicode (encoding_1byte st) text in
    let min_size := Z.min (Z.of_nat (length text)) max_size in
    if (min_size <? 0) || (Z.of_nat (length data) <? min_size) then fail OutOfRange
    else
      let buffer := <[0%nat := min_size mod 256]> buffer in
      ret (list_inserts 1 (take (Z.to_nat min_size) data) buffer).

(** The loop [while (symbol_numbers.find(number) != symbol_numbers.end())
    ++number;] on a 16-bit number. *)
Fixpoint unique_number (fuel : nat) (numbers : gset Z) (number : Z) : option Z :=
  if bool_decide (number ∈ numbers) then
    match fuel with
    | O => None
    | S fuel' => unique_number fuel' numbers (s16 (number + 1))
    end
  else Some number.

(** The loop and [symbol_numbers.insert(number)]. *)
Definition register_unique_number (fuel : nat) (number : Z) : M Z :=
  st <- get ;;
  match unique_number fuel (symbol_numbers st) number with
  | None => fail OutOfFuel
  | Some number =>
      modify (fun st => set_symbol_numbers ({[number]} ∪ symbol_numbers st) st) ;;;
      ret number
  end.

Definition getNumberComponent (symbol : SymbolT) (i : nat) : Z :=
  Symbol.number (symbol_base symbol) !!! i.

Section Symbols.
Context {document : QTextDocument}.

(** [void OCAD8FileExport::exportCommonSymbolFields(Symbol* symbol,
    OCADSymbol* ocad_symbol, int size)], without the set of used colours
    (for which see [used_colors]) and the icon. *)
Definition exportCommonSymbolFields (fuel : nat) (symbol : SymbolT)
    (ocad_symbol : OCADSymbolRecord) : M OCADSymbolRecord :=
  name <- convertPascalString (Symbol.getPlainTextName (symbol_base symbol))
            (rec_name ocad_symbol) 32 ;;
  let ocad_symbol := set_rec_name name ocad_symbol in
  let number := s16 (getNumberComponent symbol 0 * 10) in
  let number :=
    if 0 <=? getNumberComponent symbol 1
    then s16 (number + Z.rem (getNumberComponent symbol 1) 10) else number in
  (* Ensure uniqueness of the symbol number *)
  number <- register_unique_number fuel number ;;
  let ocad_symbol := set_rec_number number ocad_symbol in
  let ocad_symbol :=
    if Symbol.is_protected (symbol_base symbol)
    then set_rec_status (Z.lor (rec_status ocad_symbol) 1) ocad_symbol
    else ocad_symbol in
  let ocad_symbol :=
    if Symbol.is_hidden (symbol_base symbol)
    then set_rec_status (Z.lor (rec_status ocad_symbol) 2) ocad_symbol
    else ocad_symbol in
  ret ocad_symbol.

(** Modelled from the spec: [ocad_symbol_new] of libocad (not among the
    sources) starts a symbol record filled with zeros, here the record
    itself with an empty name field of 32 bytes; the record is appended
    to the symbols of the file when it is complete. *)
Definition ocad_symbol_new : OCADSymbolRecord :=
  make_record 0 0 0 (replicate 32 0) 0.

(** [exportPointSymbol], [exportLineSymbol], [exportAreaSymbol] and
    [exportTextSymbol], as far as the record and its number go: a new
    record, [exportCommonSymbolFields], the kind, and [return
    ocad_symbol->number].  The fields particular to a kind, the
    warnings about them and the pattern data behind the record are
    written after the common fields and touch neither the number nor the
    set of assigned numbers; they are left out here, and with them the
    assertions on the size of the pattern data and on the framing of a
    text.  A run of the code that fails one of these assertions ends
    there; a run that passes them goes on with the record and the
    numbers that this definition gives.  For the cap, the join and the
    dashes of a line see [export_cap_and_join] and [export_dash_pattern],
    for the pattern data [exportPattern] and [getPatternSize]. *)
Definition exportSymbolOfKind (kind : Z) (fuel : nat) (symbol : SymbolT) : M Z :=
  let ocad_symbol := ocad_symbol_new in
  ocad_symbol <- exportCommonSymbolFields fuel symbol ocad_symbol ;;
  let ocad_symbol := set_rec_type kind ocad_symbol in
  modify (fun st => set_file_symbols (file_symbols st ++ [ocad_symbol]) st) ;;;
  ret (rec_number ocad_symbol).

Definition exportPointSymbol : nat -> SymbolT -> M Z := exportSymbolOfKind OCAD_POINT_SYMBOL.
Definition exportLineSymbol : nat -> SymbolT -> M Z := exportSymbolOfKind OCAD_LINE_SYMBOL.
Definition exportAreaSymbol : nat -> SymbolT -> M Z := exportSymbolOfKind OCAD_AREA_SYMBOL.
Definition exportTextSymbol : nat -> SymbolT -> M Z := exportSymbolOfKind OCAD_TEXT_SYMBOL.

(** The body of the first loop over the symbols in [doExport]. *)
Definition doExport_symbol (fuel : nat) (i : nat) (symbol : SymbolT) : M unit :=
  index <-
    match symbol with
    | SymPoint _ => exportPointSymbol fuel symbol
    | SymLine _ => exportLineSymbol fuel symbol
    | SymArea _ => exportAreaSymbol fuel symbol
    | SymText _ => exportTextSymbol fuel symbol
    | SymCombined _ => ret (-1)
        (* This is done as a second pass to ensure that all dependencies
           are added to the symbol_index *)
    end ;;
  when (0 <=? index)
    (modify (fun st => set_symbol_index (<[i := {[index]}]> (symbol_index st)) st)).

(** [for (i = 0; i < n; i++) body(i, items[i])] from index [i] on. *)
Fixpoint for_each_from {A : Type} (body : nat -> A -> M unit) (i : nat)
    (items : list A) : M unit :=
  match items with
  | [] => ret tt
  | a :: rest => body i a ;;; for_each_from body (S i) rest
  end.

Section Collaborators.

(** [Map::determineSymbolUseClosure] on the bit field that holds the
    symbol at one index only; its definition is not among the sources. *)
Variable symbol_use_closure : list SymbolT -> nat -> list bool.

(** [std::set<s16> OCAD8FileExport::exportCombinedSymbol(CombinedSymbol*
    combination)], the combination being the symbol at [i]. *)
Definition exportCombinedSymbol (symbols : list SymbolT) (i : nat) : M (gset Z) :=
  st <- get ;;
  let map_bitfield := symbol_use_closure symbols i in
  ret (foldr (fun (entry : nat * bool) (result : gset Z) =>
               if snd entry then
                 match symbol_index st !! fst entry with
                 | Some numbers => numbers ∪ result
                 | None => result
                 end
               else result)
             ∅ (imap (fun j used => (j, used)) map_bitfield)).

(** The body of the second loop over the symbols in [doExport]. *)
Definition doExport_combined (symbols : list SymbolT) (i : nat) (symbol : SymbolT)
    : M unit :=
  match symbol with
  | SymCombined _ =>
      numbers <- exportCombinedSymbol symbols i ;;
      modify (fun st => set_symbol_index (<[i := numbers]> (symbol_index st)) st)
  | _ => ret tt
  end.

(** Modelled from the spec: [ocad_symbol] of libocad (not among the
    sources) finds the symbol record of a number in the file; [None] is
    NULL. *)
Definition ocad_symbol (st : t) (number : Z) : option (nat * OCADSymbolRecord) :=
  list_find (fun r => rec_number r = number) (file_symbols st).

(** [void OCAD8FileExport::setTextSymbolFormatting(OCADTextSymbol*
    ocad_symbol, TextObject* formatting)]. *)
Definition setTextSymbolFormatting (ocad_symbol : OCADSymbolRecord)
    (formatting : HorizontalAlignment) : OCADSymbolRecord :=
  match formatting with
  | AlignLeft => set_rec_halign 0 ocad_symbol
  | AlignHCenter => set_rec_halign 1 ocad_symbol
  | AlignRight => set_rec_halign 2 ocad_symbol
  end.

(** "For text objects, check if we have to change / create a new text
    symbol because of the formatting": the number to use for the object,
    [it] being the number found in the symbol index. *)
Definition text_object_symbol (fuel : nat) (object : MapObject) (it : Z) : M Z :=
  st <- get ;;
  let text_symbol := mo_symbol object in
  match text_format_map st !! text_symbol with
  | None =>
      (* Adjust the formatting in the first created symbol to this object *)
      match ocad_symbol st it with
      | None => fail NullPointer
      | Some (pos, ocad_text_symbol) =>
          modify (fun st =>
            set_file_symbols
              (<[pos := setTextSymbolFormatting ocad_text_symbol (mo_halign object)]>
                 (file_symbols st)) st) ;;;
          modify (fun st =>
            set_text_format_map
              (<[text_symbol := [(mo_halign object, it)]]> (text_format_map st)) st) ;;;
          ret it
      end
  | Some format_list =>
      (* Check if this formatting has already been created as symbol.
         If yes, use this symbol, else create a new symbol *)
      match list_find (fun entry => fst entry = mo_halign object) format_list with
      | Some (_, entry) => ret (snd entry)
      | None =>
          (* Copy the symbol and adjust the formatting *)
          match ocad_symbol st it with
          | None => fail NullPointer
          | Some (_, ocad_text_symbol) =>
              let new_symbol := ocad_text_symbol in
              let new_symbol := setTextSymbolFormatting new_symbol (mo_halign object) in
              (* Give the new symbol a unique number *)
              number <- register_unique_number fuel (rec_number new_symbol) ;;
              let new_symbol := set_rec_number number new_symbol in
              modify (fun st =>
                set_file_symbols (file_symbols st ++ [new_symbol]) st) ;;;
              modify (fun st =>
                set_text_format_map
                  (<[text_symbol := format_list ++ [(mo_halign object, number)]]>
                     (text_format_map st)) st) ;;;
              ret number
          end
      end
  end.

(** The body of the loop over [index_set] in [doExport]: one object
    record for the number [it]. *)
Definition doExport_object_entry (fuel : nat) (object : MapObject) (it : Z)
    : M unit :=
  index_to_use <-
    match mo_type object with
    | Object.Text => text_object_symbol fuel object it
    | _ => ret it
    end ;;
  st <- get ;;
  let type :=
    match mo_type object with
    | Object.Point => 1
    | Object.Path =>
        match ocad_symbol st index_to_use with
        | None => 2
        | Some (_, ocad_sym) => if rec_type ocad_sym =? 2 then 2 else 3
        end
    | Object.Text => if mo_single_anchor object then 4 else 5
    end in
  modify (fun st =>
    set_file_objects
      (file_objects st ++ [{| orec_symbol := index_to_use; orec_type := type |}]) st).

Fixpoint for_each_number (body : Z -> M unit) (numbers : list Z) : M unit :=
  match numbers with
  | [] => ret tt
  | it :: rest => body it ;;; for_each_number body rest
  end.

(** The body of the loop over the objects of a layer in [doExport]:
    "Insert an object into the map for every symbol contained in the
    symbol_index"; a [std::set] is walked in ascending order. *)
Definition doExport_object (fuel : nat) (object : MapObject) : M unit :=
  st <- get ;;
  let index_set : gset Z :=
    match symbol_index st !! mo_symbol object with
    | Some numbers => numbers
    | None => {[-1]}
    end in
  for_each_number (doExport_object_entry fuel object)
                  (merge_sort Z.le (elements index_set)).

Fixpoint doExport_objects (fuel : nat) (objects : list MapObject) : M unit :=
  match objects with
  | [] => ret tt
  | object :: rest => doExport_object fuel object ;;; doExport_objects fuel rest
  end.

(** [void OCAD8FileExport::doExport()], from "Symbols" to "Objects". *)
Definition doExport (fuel : nat) (map : Map) : M unit :=
  for_each_from (doExport_symbol fuel) 0 (map_symbols map) ;;;
  for_each_from (doExport_combined (map_symbols map)) 0 (map_symbols map) ;;;
  doExport_objects fuel (concat (map_layers map)).

End Collaborators.

End Symbols.

(** ** Strings written to the file *)

(** [mempcpy(buffer, data, size)] followed by the writes of [zeros] zero
    bytes behind the copy; [buffer] is the memory at the pointer, none of
    which may be left, and [data] must hold [size] bytes. *)
Definition copy_and_terminate (data : bytes) (size : Z) (zeros : nat)
    (buffer : bytes) : M bytes :=
  if (size <? 0) || (Z.of_nat (length data) <? size)
     || (Z.of_nat (length buffer) <? size + Z.of_nat zeros)
  then fail OutOfRange
  else
    ret (list_inserts (Z.to_nat size) (replicate zeros 0)
           (list_inserts 0 (take (Z.to_nat size) data) buffer)).

(** [void OCAD8FileExport::convertCString(const QString& text,
    unsigned char* buffer, int buffer_size)]; the memory after the call
    is returned. *)
Definition convertCString (text : QString) (buffer : bytes) (buffer_size : Z)
    : M bytes :=
  when (buffer_size <? Z.of_nat (length text) + 1)
    (addStringTruncationWarning text (buffer_size - 1)) ;;;
  st <- get ;;
  let data := fromUnicode (encoding_1byte st) text in
  let min_size := Z.min (buffer_size - 1) (Z.of_nat (length data)) in
  copy_and_terminate data min_size 1 buffer.

(** [QString::startsWith('\n')]. *)
Definition starts_with_line_feed (text : QString) : bool :=
  match text with
  | c :: _ => c =? 10
  | [] => false
  end.

(** [QString::replace('\n', "\r\n")]. *)
Definition to_windows_newlines (text : QString) : QString :=
  c ← text; if c =? 10 then [13; 10] else [c].

(** [int OCAD8FileExport::convertWideCString(const QString& text,
    unsigned char* buffer, int buffer_size)]: the text in
    Windows-OCAD format (if it starts with a newline, another is added;
    [\n] becomes [\r\n]), encoded without a byte order mark.  The member
    [encoding_2byte] is the first argument; the value returned and the
    memory after the call are returned. *)
Definition convertWideCString (encoding_2byte : QTextCodec) (text : QString)
    (buffer : bytes) (buffer_size : Z) : M (Z * bytes) :=
  let exported_text := if starts_with_line_feed text then 10 :: text else text in
  let exported_text := to_windows_newlines exported_text in
  when (buffer_size <? 2 * (Z.of_nat (length exported_text) + 1))
    (addStringTruncationWarning exported_text (buffer_size - 1)) ;;;
  let data := fromUnicode encoding_2byte exported_text in
  let min_size := Z.min (buffer_size - 2) (Z.of_nat (length data)) in
  buffer <- copy_and_terminate data min_size 2 buffer ;;
  ret (min_size + 2, buffer).

(** ** Coordinates written to the file *)

(** [OCADPoint OCAD8FileExport::convertPoint(qint64 x, qint64 y)]. *)
Definition convertPoint (x y : Z) : OCADPoint :=
  {| pt_x := s32 (Z.shiftl (s32 (Z.quot x 10)) 8);
     pt_y := s32 (Z.shiftl (s32 (Z.quot y (-10))) 8) |}.

(** [OCADPoint OCAD8FileExport::convertPoint(const MapCoord& coord)]. *)
Definition convertPoint_coord (coord : MapCoord.t) : OCADPoint :=
  convertPoint (MapCoord.rawX coord) (MapCoord.rawY coord).

Section Coordinates.
Context {libocad : Libocad}.

(** [PX_CTL2] of libocad.h and [PointSymbol::isEmpty], neither of which
    is among the sources. *)
Variable PX_CTL2 : Z.
Variable isEmpty : PointSymbolT -> bool.

(** The variables [curve_start], [hole_point] and [curve_continue] of
    [exportCoordinates]. *)
Record CurveState : Type := {
  curve_start : bool;
  hole_point : bool;
  curve_continue : bool
}.

(** Which flag a dash point gets: [PY_DASH] on a dashed line without a
    dash symbol, [PY_CORNER] otherwise. *)
Definition dash_point_flag (symbol : option SymbolT) : Z :=
  match symbol with
  | Some (SymLine line_symbol) =>
      if (match LineSymbol.dash_symbol line_symbol with
          | None => true
          | Some dash_symbol => isEmpty dash_symbol
          end) && LineSymbol.dashed line_symbol
      then PY_DASH else PY_CORNER
  | _ => PY_CORNER
  end.

(** The body of the loop of [exportCoordinates]: the point written for
    [point] and the variables behind it. *)
Definition exportCoordinates_point (symbol : option SymbolT)
    (state : CurveState) (point : MapCoord.t) : OCADPoint * CurveState :=
  let x := s32 (Z.shiftl (Z.quot (MapCoord.rawX point) 10) 8) in
  let y := s32 (Z.shiftl (Z.quot (MapCoord.rawY point) (-10)) 8) in
  let y :=
    if MapCoord.isDashPoint point then s32 (Z.lor y (dash_point_flag symbol))
    else y in
  let x := if curve_start state then s32 (Z.lor x PX_CTL1) else x in
  let y := if hole_point state then s32 (Z.lor y PY_HOLE) else y in
  let x := if curve_continue state then s32 (Z.lor x PX_CTL2) else x in
  ({| pt_x := x; pt_y := y |},
   {| curve_start := MapCoord.isCurveStart point;
      hole_point := MapCoord.isHolePoint point;
      curve_continue := curve_start state |}).

(** The loop of [exportCoordinates]: [num_points] behind it and the
    points written, in their order. *)
Fixpoint exportCoordinates_loop (symbol : option SymbolT) (coords : list MapCoord.t)
    (num_points : Z) (state : CurveState) : Z * list OCADPoint :=
  match coords with
  | [] => (num_points, [])
  | point :: rest =>
      let '(p, state) := exportCoordinates_point symbol state point in
      let '(num_points, written) :=
        exportCoordinates_loop symbol rest (s16 (num_points + 1)) state in
      (num_points, p :: written)
  end.

(** [s16 OCAD8FileExport::exportCoordinates(const MapCoordVector& coords,
    OCADPoint** buffer, Symbol* symbol)]: the value returned and the
    points written at [*buffer], which is moved behind them. *)
Definition exportCoordinates (coords : list MapCoord.t) (symbol : option SymbolT)
    : Z * list OCADPoint :=
  exportCoordinates_loop symbol coords 0
    {| curve_start := false; hole_point := false; curve_continue := false |}.

End Coordinates.

(** ** Rotations written to the file *)

(** The conversion of a [double] to [int]: the fractional part is
    discarded. *)
Definition int_of_double (d : CFloat.double) : Z :=
  match Prim2SF d with
  | S754_finite s m e =>
      let v := if 0 <=? e then Zpos m * 2 ^ e else Z.quot (Zpos m) (2 ^ (- e)) in
      s32 (if s then - v else v)
  | _ => 0
  end.

(** The conversion of an [int] to [double], which is exact. *)
Definition double_of_int (z : Z) : CFloat.double :=
  SF2Prim (binary_normalize 53 1024 z 0 false).

(** Modelled from the spec: [qRound] of Qt (qglobal.h is not among the
    sources) rounds to the nearest integer; a value that is not negative
    is rounded by adding a half and discarding the fraction, a negative
    one likewise after a shift by [int(d - 1)]. *)
Definition qRound (d : CFloat.double) : Z :=
  let half : CFloat.double := 0.5%float in
  if PrimFloat.leb CFloat.dzero d then int_of_double (CFloat.dadd d half)
  else
    let below := int_of_double (PrimFloat.sub d 1%float) in
    s32 (int_of_double
           (CFloat.dadd (PrimFloat.sub d (double_of_int below)) half)
         + below).

(** [int OCAD8FileExport::convertRotation(float angle)]:
    [qRound(10 * (angle * 180 / M_PI))]; the product [angle * 180] is a
    [float], the quotient by [M_PI] and its product with 10 are
    [double]s. *)
Definition convertRotation (angle : CFloat.float) : Z :=
  qRound (CFloat.dmul (double_of_int 10)
            (CFloat.ddiv
               (CFloat.double_of_float
                  (CFloat.fmul angle (CFloat.float_of_int 180)))
               CFloat.M_PI)).

(** ** Point patterns written to the file *)

(** What is written at [*buffer] by [exportSubPattern]: element headers,
    each as wide as two points, and points. *)
Inductive PatternItem : Type :=
  | Header (element : OCADSymbolElement)
  | Coordinate (p : OCADPoint).

(** The header in the memory of a new symbol record, which is filled
    with zeros; its fields are taken to hold the 16-bit values assigned
    to them. *)
Definition zero_element : OCADSymbolElement :=
  {| elt_type := 0; elt_flags := 0; elt_color := 0; elt_width := 0;
     elt_diameter := 0; elt_npts := 0 |}.

Definition set_elt_npts (v : Z) (e : OCADSymbolElement) : OCADSymbolElement :=
  {| elt_type := elt_type e; elt_flags := elt_flags e; elt_color := elt_color e;
     elt_width := elt_width e; elt_diameter := elt_diameter e; elt_npts := v |}.

Section Pattern.
Context {libocad : Libocad} {model : MapModel}.

(** [PX_CTL2] of libocad.h, [PointSymbol::isEmpty] and
    [Map::findColorIndex], none of which is among the sources. *)
Variable PX_CTL2 : Z.
Variable isEmpty : PointSymbolT -> bool.
Variable findColorIndex : option nat -> Z.

(** [s16 OCAD8FileExport::convertColor(MapColor* color)]. *)
Definition convertColor (color : option nat) : Z :=
  let index := findColorIndex color in
  s16 (if 0 <? index then index else 0).

(** [getInnerRadius() > 0 && getInnerColor() != NULL] and
    [getOuterWidth() > 0 && getOuterColor() != NULL]. *)
Definition draws_inner (p : PointSymbolT) : bool :=
  (0 <? PointSymbol.inner_radius p)
  && bool_decide (is_Some (PointSymbol.inner_color p)).
Definition draws_outer (p : PointSymbolT) : bool :=
  (0 <? PointSymbol.outer_width p)
  && bool_decide (is_Some (PointSymbol.outer_color p)).

(** The end of every branch of [exportSubPattern]: the buffer is moved
    behind the header, [element->npts = exportCoordinates(...);
    num_coords += 2 + element->npts;]. *)
Definition export_element (element : OCADSymbolElement)
    (coords : list MapCoord.t) (symbol : SymbolT) (num_coords : Z)
    : Z * list PatternItem :=
  let '(npts, points) := exportCoordinates PX_CTL2 isEmpty coords (Some symbol) in
  (s16 (num_coords + (2 + npts)),
   Header (set_elt_npts npts element) :: (Coordinate <$> points)).

(** [s16 OCAD8FileExport::exportSubPattern(Object* object, Symbol* symbol,
    OCADPoint** buffer)]: the value returned and what is written at
    [*buffer]. *)
Definition exportSubPattern (object : Object.t) (symbol : SymbolT)
    : Result (Z * list PatternItem) :=
  let coords := Object.coords object in
  match symbol with
  | SymPoint point_symbol =>
      let '(num_coords, inner) :=
        if draws_inner point_symbol then
          export_element
            {| elt_type := 4; elt_flags := 0;
               elt_color := convertColor (PointSymbol.inner_color point_symbol);
               elt_width := 0;
               elt_diameter :=
                 s16 (convertSize (s32 (2 * PointSymbol.inner_radius point_symbol)));
               elt_npts := 0 |}
            coords symbol 0
        else (0, []) in
      let '(num_coords, outer) :=
        if draws_outer point_symbol then
          export_element
            {| elt_type := 3; elt_flags := 0;
               elt_color := convertColor (PointSymbol.outer_color point_symbol);
               elt_width := s16 (convertSize (PointSymbol.outer_width point_symbol));
               elt_diameter :=
                 s16 (convertSize
                        (s32 (s32 (2 * PointSymbol.inner_radius point_symbol)
                              + s32 (2 * PointSymbol.outer_width point_symbol))));
               elt_npts := 0 |}
            coords symbol num_coords
        else (num_coords, []) in
      Ok (num_coords, inner ++ outer)
  | SymLine line_symbol =>
      Ok (export_element
            {| elt_type := 1;
               elt_flags :=
                 match LineSymbol.cap_style line_symbol,
                       LineSymbol.join_style line_symbol with
                 | LineSymbol.RoundCap, _ => 1
                 | _, LineSymbol.MiterJoin => 4
                 | _, _ => 0
                 end;
               elt_color := convertColor (LineSymbol.color line_symbol);
               elt_width := s16 (convertSize (LineSymbol.line_width line_symbol));
               elt_diameter := 0; elt_npts := 0 |}
            coords symbol 0)
  | SymArea area_symbol =>
      Ok (export_element
            {| elt_type := 2; elt_flags := 0;
               elt_color := convertColor (AreaSymbol.color area_symbol);
               elt_width := 0; elt_diameter := 0; elt_npts := 0 |}
            coords symbol 0)
  | _ => Failed AssertionFailed
  end.

(** The loop of [exportPattern] over the elements of the point symbol. *)
Fixpoint exportPattern_elements (elements : list (Object.t * SymbolT))
    (num_coords : Z) : Result (Z * list PatternItem) :=
  match elements with
  | [] => Ok (num_coords, [])
  | (object, symbol) :: rest =>
      match exportSubPattern object symbol with
      | Ok (n, written) =>
          match exportPattern_elements rest (s16 (num_coords + n)) with
          | Ok (num_coords, more) => Ok (num_coords, written ++ more)
          | Failed f => Failed f
          end
      | Failed f => Failed f
      end
  end.

(** [s16 OCAD8FileExport::exportPattern(PointSymbol* point, OCADPoint**
    buffer)]; [origin_point_object] is the [new PointObject()] of the
    constructor. *)
Definition exportPattern (point : option PointSymbolT)
    : Result (Z * list PatternItem) :=
  match point with
  | None => Ok (0, [])
  | Some point =>
      match exportPattern_elements (PointSymbol.elements point) 0 with
      | Ok (num_coords, written) =>
          match exportSubPattern (PointObject_new NoSymbol) (SymPoint point) with
          | Ok (n, own) => Ok (s16 (num_coords + n), written ++ own)
          | Failed f => Failed f
          end
      | Failed f => Failed f
      end
  end.

(** The body of the loop of [getPatternSize]: what the element adds to
    [npts]. *)
Definition getPatternSize_element (element : Object.t * SymbolT) (npts : Z) : Z :=
  let '(object, symbol) := element in
  let factor :=
    match symbol with
    | SymPoint point_symbol =>
        (if draws_inner point_symbol then 1 else 0)
        + (if draws_outer point_symbol then 1 else 0)
    | _ => 1
    end in
  let npts := s32 (npts + factor * Z.of_nat (length (Object.coords object))) in
  s32 (npts + (if 0 <? factor then 2 else 0)).

(** [int OCAD8FileExport::getPatternSize(PointSymbol* point)], in bytes;
    a point takes eight of them. *)
Definition getPatternSize (point : option PointSymbolT) : Z :=
  match point with
  | None => 0
  | Some point =>
      let npts :=
        fold_left (fun npts element => getPatternSize_element element npts)
                  (PointSymbol.elements point) 0 in
      let npts := if draws_inner point then s32 (npts + (2 + 1)) else npts in
      let npts := if draws_outer point then s32 (npts + (2 + 1)) else npts in
      s32 (npts * 8)
  end.

End Pattern.

(** ** Line symbols written to the file *)

(** The fields of [OCADLineSymbol] that the cap, the join and the dash
    pattern are written to.  The record is new and filled with zeros;
    its fields are taken to hold the 16-bit values assigned to them. *)
Record LineFields : Type := {
  f_ends : Z;
  f_bdist : Z;
  f_edist : Z;
  f_len : Z;
  f_elen : Z;
  f_gap : Z;
  f_gap2 : Z;
  f_egap : Z
}.

Definition zero_fields : LineFields :=
  {| f_ends := 0; f_bdist := 0; f_edist := 0; f_len := 0; f_elen := 0;
     f_gap := 0; f_gap2 := 0; f_egap := 0 |}.

Definition set_f_ends (v : Z) (r : LineFields) : LineFields :=
  {| f_ends := v; f_bdist := f_bdist r; f_edist := f_edist r; f_len := f_len r;
     f_elen := f_elen r; f_gap := f_gap r; f_gap2 := f_gap2 r; f_egap := f_egap r |}.
Definition set_f_dists (v : Z) (r : LineFields) : LineFields :=
  {| f_ends := f_ends r; f_bdist := v; f_edist := v; f_len := f_len r;
     f_elen := f_elen r; f_gap := f_gap r; f_gap2 := f_gap2 r; f_egap := f_egap r |}.
Definition set_f_len (v : Z) (r : LineFields) : LineFields :=
  {| f_ends := f_ends r; f_bdist := f_bdist r; f_edist := f_edist r; f_len := v;
     f_elen := f_elen r; f_gap := f_gap r; f_gap2 := f_gap2 r; f_egap := f_egap r |}.
Definition set_f_elen (v : Z) (r : LineFields) : LineFields :=
  {| f_ends := f_ends r; f_bdist := f_bdist r; f_edist := f_edist r; f_len := f_len r;
     f_elen := v; f_gap := f_gap r; f_gap2 := f_gap2 r; f_egap := f_egap r |}.
Definition set_f_gap (v : Z) (r : LineFields) : LineFields :=
  {| f_ends := f_ends r; f_bdist := f_bdist r; f_edist := f_edist r; f_len := f_len r;
     f_elen := f_elen r; f_gap := v; f_gap2 := f_gap2 r; f_egap := f_egap r |}.
Definition set_f_gap2 (v : Z) (r : LineFields) : LineFields :=
  {| f_ends := f_ends r; f_bdist := f_bdist r; f_edist := f_edist r; f_len := f_len r;
     f_elen := f_elen r; f_gap := f_gap r; f_gap2 := v; f_egap := f_egap r |}.
Definition set_f_egap (v : Z) (r : LineFields) : LineFields :=
  {| f_ends := f_ends r; f_bdist := f_bdist r; f_edist := f_edist r; f_len := f_len r;
     f_elen := f_elen r; f_gap := f_gap r; f_gap2 := f_gap2 r; f_egap := v |}.

Section LineSymbols.
Context {document : QTextDocument}.

(** A warning that names the line symbol between quotation marks. *)
Definition quotation_mark : string := String (Ascii.ascii_of_nat 34) EmptyString.

Definition line_warning (text : string) (line : LineSymbolT) : M unit :=
  addWarning
    (msg (String.append "In line symbol "
            (String.append quotation_mark
               (String.append "%1" (String.append quotation_mark text))))
         [ArgText (Symbol.getPlainTextName (LineSymbol.base line))]).

(** "Cap and Join" of [exportLineSymbol]. *)
Definition export_cap_and_join (line : LineSymbolT) (ocad_symbol : LineFields)
    : M LineFields :=
  match LineSymbol.cap_style line, LineSymbol.join_style line with
  | LineSymbol.FlatCap, LineSymbol.BevelJoin => ret (set_f_ends 0 ocad_symbol)
  | LineSymbol.RoundCap, LineSymbol.RoundJoin => ret (set_f_ends 1 ocad_symbol)
  | LineSymbol.PointedCap, LineSymbol.BevelJoin => ret (set_f_ends 2 ocad_symbol)
  | LineSymbol.PointedCap, LineSymbol.RoundJoin => ret (set_f_ends 3 ocad_symbol)
  | LineSymbol.FlatCap, LineSymbol.MiterJoin => ret (set_f_ends 4 ocad_symbol)
  | LineSymbol.PointedCap, LineSymbol.MiterJoin => ret (set_f_ends 6 ocad_symbol)
  | cap, _ =>
      line_warning ", cannot represent cap/join combination." line ;;;
      (* Decide based on the caps *)
      ret (match cap with
           | LineSymbol.FlatCap => set_f_ends 0 ocad_symbol
           | LineSymbol.RoundCap => set_f_ends 1 ocad_symbol
           | LineSymbol.PointedCap => set_f_ends 3 ocad_symbol
           | LineSymbol.SquareCap => set_f_ends 0 ocad_symbol
           end)
  end.

(** The lengths of a pointed cap. *)
Definition export_pointed_cap (line : LineSymbolT) (ocad_symbol : LineFields)
    : LineFields :=
  match LineSymbol.cap_style line with
  | LineSymbol.PointedCap =>
      set_f_dists (s16 (convertSize (LineSymbol.pointed_cap_length line))) ocad_symbol
  | _ => ocad_symbol
  end.

Section LinePattern.

(** [PointSymbol::isEmpty], which is not among the sources. *)
Variable isEmpty : PointSymbolT -> bool.

(** "Dash pattern" of [exportLineSymbol]. *)
Definition export_dash_pattern (line : LineSymbolT) (ocad_symbol : LineFields)
    : M LineFields :=
  if LineSymbol.dashed line then
    if match LineSymbol.mid_symbol line with
       | Some mid_symbol => negb (isEmpty mid_symbol)
       | None => false
       end
    then
      when (1 <? LineSymbol.dashes_in_group line)
        (line_warning ", neglecting the dash grouping." line) ;;;
      let ocad_symbol :=
        set_f_len (s16 (convertSize (s32 (LineSymbol.dash_length line
                                          + LineSymbol.break_length line))))
                  ocad_symbol in
      let ocad_symbol := set_f_elen (s16 (Z.quot (f_len ocad_symbol) 2)) ocad_symbol in
      ret (set_f_gap2 (s16 (convertSize (LineSymbol.break_length line))) ocad_symbol)
    else if 1 <? LineSymbol.dashes_in_group line then
      when (2 <? LineSymbol.dashes_in_group line)
        (line_warning ", the number of dashes in a group has been reduced to 2." line) ;;;
      let grouped :=
        s16 (convertSize (s32 (s32 (2 * LineSymbol.dash_length line)
                               + LineSymbol.in_group_break_length line))) in
      let ocad_symbol := set_f_len grouped ocad_symbol in
      let ocad_symbol := set_f_elen grouped ocad_symbol in
      let ocad_symbol :=
        set_f_gap (s16 (convertSize (LineSymbol.break_length line))) ocad_symbol in
      let ocad_symbol :=
        set_f_gap2 (s16 (convertSize (LineSymbol.in_group_break_length line)))
                   ocad_symbol in
      ret (set_f_egap (f_gap2 ocad_symbol) ocad_symbol)
    else
      let ocad_symbol :=
        set_f_len (s16 (convertSize (LineSymbol.dash_length line))) ocad_symbol in
      let ocad_symbol :=
        set_f_elen
          (s16 (Z.quot (f_len ocad_symbol)
                  (if LineSymbol.half_outer_dashes line then 2 else 1)))
          ocad_symbol in
      ret (set_f_gap (s16 (convertSize (LineSymbol.break_length line))) ocad_symbol)
  else
    let ocad_symbol :=
      set_f_len (s16 (convertSize (LineSymbol.segment_length line))) ocad_symbol in
    ret (set_f_elen (s16 (convertSize (LineSymbol.end_length line))) ocad_symbol).

End LinePattern.

End LineSymbols.

(** ** The set of used colours *)

(** The loop "Set of used colors" of [exportCommonSymbolFields].
    [contains] holds [symbol->containsColor(map->getColor(c))] for the
    colours [c] of the map in their order, [colors] is the memory at
    [ocad_symbol->colors], [bitpos] is counted in bytes from there, and
    [bitmask] is an [u8]. *)
Fixpoint used_colors_loop (contains : list bool) (bitmask : Z) (bitpos : nat)
    (colors : bytes) : Result bytes :=
  match contains with
  | [] => Ok colors
  | used :: rest =>
      let written :=
        if used then
          match colors !! bitpos with
          | Some b => Ok (<[bitpos := Z.lor b bitmask]> colors)
          | None => Failed OutOfRange
          end
        else Ok colors in
      match written with
      | Ok colors =>
          let bitmask := Z.shiftl bitmask 1 mod 256 in
          if bitmask =? 0 then used_colors_loop rest 1 (S bitpos) colors
          else used_colors_loop rest bitmask bitpos colors
      | Failed f => Failed f
      end
  end.

Definition used_colors (contains : list bool) (colors : bytes) : Result bytes :=
  used_colors_loop contains 1 0 colors.

End OCAD8FileExport.

(** ** Bounded universal checks *)

(** [all_from n lo P] tests [P] on the [n] integers from [lo] upwards. *)
Fixpoint all_from (n : nat) (lo : Z) (P : Z -> bool) : bool :=
  match n with
  | O => true
  | S n' => P lo && all_from n' (lo + 1) P
  end.

(** [2 * M_PI], converted to [float]. *)
Definition two_pi_float : CFloat.float :=
  CFloat.float_of_double (CFloat.dmul CFloat.dtwo CFloat.M_PI).

(** What is checked of [convertRotation] on one angle: the loop ends
    within ten rounds, the result is finite and not negative, and it is
    below [two_pi_float] exactly when the angle is below 3600. *)
Definition rotation_check (angle : Z) : bool :=
  match OCAD8FileImport.convertRotation 10 angle with
  | Some r =>
      CFloat.is_finite r && SFleb CFloat.fzero r
      && Bool.eqb (SFltb r two_pi_float) (angle <? 3600)
  | None => false
  end.

(** ** A concrete environment

    The flag bits and the element layout of libocad.h (an element header
    is eight little-endian 16-bit fields over two points), a plain
    single-byte codec, and a map model whose new objects are empty; the
    examples below run the importer and the exporter in it. *)

Definition low16 (v : Z) : Z := CInt.s16 (Z.land v 65535).
Definition high16 (v : Z) : Z := CInt.s16 (Z.land (Z.shiftr v 16) 65535).

#[global] Instance libocad_layout : Libocad := {|
  PX_CTL1 := 1;
  PY_CORNER := 1;
  PY_HOLE := 2;
  PY_DASH := 8;
  as_element := fun p0 p1 =>
    {| elt_type := low16 (pt_x p0);
       elt_flags := Z.land (Z.shiftr (pt_x p0) 16) 65535;
       elt_color := low16 (pt_y p0);
       elt_width := high16 (pt_y p0);
       elt_diameter := low16 (pt_x p1);
       elt_npts := high16 (pt_x p1) |}
|}.

(** One byte per code unit; what does not fit a byte becomes [?]. *)
Definition latin1 : QTextCodec := {|
  toUnicode := fun b => b;
  fromUnicode := fun t => (fun c => if (0 <=? c) && (c <? 256) then c else 63) <$> t
|}.

Definition plain_object (type : Object.ObjectType) (symbol : SymbolRef) : Object.t :=
  Object.make type symbol [] (S754_zero false).

Definition plain_point_symbol : PointSymbolT :=
  PointSymbol.make Symbol.new false 1000 None 0 None [].

Definition plain_line_symbol : LineSymbolT :=
  LineSymbol.make Symbol.new 0 None 0 LineSymbol.FlatCap LineSymbol.MiterJoin 1000
    false 4000 1000 1 500 false 4000 0
    false None 0 0 false 2000 1000
    None None None None 1 0 0 0 true.

#[global] Instance plain_model : MapModel := {|
  PointSymbol_new := plain_point_symbol;
  LineSymbol_new := plain_line_symbol;
  AreaSymbol_new := AreaSymbol.make Symbol.new None 0;
  CombinedSymbol_new := CombinedSymbol.make Symbol.new [];
  PointObject_new := plain_object Object.Point;
  PathObject_new := plain_object Object.Path;
  TextObject_new := plain_object Object.Text;
  isSymmetrical := fun p => bool_decide (PointSymbol.elements p = [])
|}.

(** An importer that has loaded the colours 0 and 1 and no symbol. *)
Definition example_importer : OCAD8FileImport.t :=
  OCAD8FileImport.make [] latin1 0 0 (<[0 := 0%nat]> (<[1 := 1%nat]> ∅)) ∅ ∅
    (SymPoint plain_point_symbol) (SymLine plain_line_symbol).

(** Memory that holds no point. *)
Definition no_points : OCADPoints := fun _ => {| pt_x := 0; pt_y := 0 |}.

(** A plain black line, 0.25 mm wide, dashed 1 mm on and 0.2 mm off. *)
Definition example_dashed_line : OCADLineSymbol := {|
  common := {| sym_number := 5070; sym_status := 0; sym_name := [4; 80; 97; 116; 104] |};
  color := 0; width := 25; ends := 0; bdist := 0; edist := 0;
  len := 100; elen := 100; gap := 20; gap2 := 0; egap := 0;
  smin := 0; snum := 0; sdist := 0;
  dmode := 0; dflags := 0; dcolor := 0; dwidth := 0;
  lwidth := 0; rwidth := 0; lcolor := 0; rcolor := 0; dlen := 0; dgap := 0;
  fwidth := 0;
  smnpts := 0; ssnpts := 0; scnpts := 0; sbnpts := 0; senpts := 0;
  pts := no_points
|}.

(** A document that leaves out the tags of a text, from ['<'] to the
    next ['>']; what else Qt makes of HTML (entities, white space,
    blocks) plays no part in the examples. *)
Fixpoint without_tags (inside : bool) (text : QString) : QString :=
  match text with
  | [] => []
  | c :: rest =>
      if c =? 60 then without_tags true rest
      else if inside then without_tags (negb (c =? 62)) rest
      else c :: without_tags false rest
  end.

Definition tag_free_document : QTextDocument :=
  {| toPlainText := without_tags false |}.

(** An exporter at the start of an export. *)
Definition example_exporter : OCAD8FileExport.t :=
  OCAD8FileExport.make [] latin1 ∅ ∅ ∅ [] [].

(** A text of 300 letters [a]. *)
Definition long_text : QString := replicate 300 97.

(** ** Outcomes of member functions

    [outcome r Q F]: the run [r] either ends normally with a value and a
    state that satisfy [Q], or fails with a failure that satisfies [F]. *)
Definition outcome {S A : Type} (r : Result (A * S)) (Q : A -> S -> Prop)
    (F : Failure -> Prop) : Prop :=
  match r with
  | Ok (a, st) => Q a st
  | Failed f => F f
  end.

Definition never : Failure -> Prop := fun _ => False.
Definition not_null : Failure -> Prop := fun f => f <> NullPointer.

(** What a step may do to the importer when it only records warnings. *)
Definition only_warns (st st' : OCAD8FileImport.t) : Prop :=
  exists ws, st' = OCAD8FileImport.set_warnings (OCAD8FileImport.warnings st ++ ws) st.

(** The dash fields of a line symbol. *)
Definition dash_fields {P : Type} (l : LineSymbol.t P) : bool * Z * Z * Z :=
  (LineSymbol.dashed l, LineSymbol.dash_length l, LineSymbol.break_length l,
   LineSymbol.dashes_in_group l).

Definition anything : Failure -> Prop := fun _ => True.

(** ** Parts of a path

    The coordinates of a path fall into parts: a part ends at a point
    with the hole flag and at the last point. *)

(** The index at which the part that holds index [i] begins. *)
Fixpoint part_start (cs : list MapCoord.t) (i : nat) : nat :=
  match i with
  | O => O
  | S j => if MapCoord.isHolePoint (cs !!! j) then i else part_start cs j
  end.

(** Whether index [i] is the last of its part. *)
Definition part_end (cs : list MapCoord.t) (i : nat) : bool :=
  MapCoord.isHolePoint (cs !!! i) || (i =? length cs - 1)%nat.

(** Whether the point at [i] ends a part whose first point has the same
    position. *)
Definition closes (cs : list MapCoord.t) (i : nat) : bool :=
  part_end cs i
  && MapCoord.isPositionEqualTo (cs !!! i) (cs !!! part_start cs i).

Definition position (c : MapCoord.t) : Z * Z :=
  (MapCoord.rawX c, MapCoord.rawY c).

(** The position [convertPoint] gives to a legacy point. *)
Definition converted (st : OCAD8FileImport.t) (pt : OCADPoint) : Z * Z :=
  (CInt.s64 (OCAD8FileImport.offset_x st
             + CInt.s64 (CInt.s64 (Z.shiftr (pt_x pt) 8) * 10)),
   CInt.s64 (OCAD8FileImport.offset_y st
             + CInt.s64 (CInt.s64 (Z.shiftr (pt_y pt) 8) * (-10)))).

(** A legacy point at [(x, y)] with the flags [fx] and [fy]. *)
Definition ocad_pt (x y fx fy : Z) : OCADPoint :=
  {| pt_x := Z.lor (Z.shiftl x 8) fx; pt_y := Z.lor (Z.shiftl y 8) fy |}.

(** The memory that holds the points of [l], and no point after them. *)
Definition points_of (l : list OCADPoint) : OCADPoints :=
  fun i => if i <? 0 then ocad_pt 0 0 0 0
           else nth (Z.to_nat i) l (ocad_pt 0 0 0 0).

(** A square of side 1 mm whose fourth point is the first again, and the
    same with the fourth point one unit to the right. *)
Definition closed_square : list OCADPoint :=
  [ocad_pt 0 0 0 0; ocad_pt 100 0 0 0; ocad_pt 100 100 0 0; ocad_pt 0 0 0 0].
Definition open_square : list OCADPoint :=
  [ocad_pt 0 0 0 0; ocad_pt 100 0 0 0; ocad_pt 100 100 0 0; ocad_pt 1 0 0 0].

(** Two coordinate lists that differ in no position and in no close flag. *)
Definition same_view (a b : list MapCoord.t) : Prop :=
  length a = length b
  /\ forall j, position (a !!! j) = position (b !!! j)
               /\ MapCoord.isClosePoint (a !!! j) = MapCoord.isClosePoint (b !!! j).

(** ** Point patterns *)

(** The pattern of [npts] points at [pts] is one element and no more:
    the first element reaches the end of the list. *)
Definition lone_element `{Libocad} (npts : Z) (pts : OCADPoints) : Prop :=
  0 < npts <= 2 + elt_npts (OCAD8FileImport.element_at pts 0).

(** The pattern holds more than one element: after the first element
    the list goes on. *)
Definition several_elements `{Libocad} (npts : Z) (pts : OCADPoints) : Prop :=
  2 + elt_npts (OCAD8FileImport.element_at pts 0) < npts.

(** A point symbol holds a point symbol of its own among its elements. *)
Definition has_nested_point (symbol : PointSymbolT) : Prop :=
  exists object nested, (object, SymPoint nested) ∈ PointSymbol.elements symbol.

(** The new rotatable point symbol with a dot of radius [inner_radius] in
    the colour [inner_color] written to its own fields. *)
Definition collapsed_dot `{MapModel} (inner_radius : Z) (inner_color : option nat)
    : PointSymbolT :=
  PointSymbol.set_outer_width 0
    (PointSymbol.set_outer_color None
       (PointSymbol.set_inner_radius inner_radius
          (PointSymbol.set_inner_color inner_color
             (PointSymbol.set_rotatable true PointSymbol_new)))).

(** The same for a circle of line width [outer_width]. *)
Definition collapsed_circle `{MapModel} (inner_radius outer_width : Z)
    (outer_color : option nat) : PointSymbolT :=
  PointSymbol.set_outer_width outer_width
    (PointSymbol.set_outer_color outer_color
       (PointSymbol.set_inner_radius inner_radius
          (PointSymbol.set_inner_color None
             (PointSymbol.set_rotatable true PointSymbol_new)))).

(** A pattern of one dot, 0.5 mm across, in colour 1; one of a circle,
    0.8 mm across with a line of 0.1 mm, in colour 0; and one of the
    dot followed by the circle. *)
Definition element_header (type color width diameter npts : Z) : list OCADPoint :=
  [{| pt_x := type; pt_y := Z.lor color (Z.shiftl width 16) |};
   {| pt_x := Z.lor diameter (Z.shiftl npts 16); pt_y := 0 |}].

Definition dot_pattern : list OCADPoint :=
  element_header OCAD_DOT_ELEMENT 1 0 50 1 ++ [ocad_pt 0 0 0 0].
Definition circle_pattern : list OCADPoint :=
  element_header OCAD_CIRCLE_ELEMENT 0 10 80 1 ++ [ocad_pt 0 0 0 0].
Definition dot_and_circle_pattern : list OCADPoint :=
  dot_pattern ++ circle_pattern.

(** The element records that the loop of [importPattern] reaches in a
    pattern of [end_] points, from the one at [p] on. *)
Fixpoint element_records `{Libocad} (fuel : nat) (pts : OCADPoints) (end_ p : Z)
    : list OCADSymbolElement :=
  match fuel with
  | O => []
  | S fuel' =>
      if p <? end_ then
        OCAD8FileImport.element_at pts p
        :: element_records fuel' pts end_
             (p + (2 + elt_npts (OCAD8FileImport.element_at pts p)))
      else []
  end.

(** An element record that [importPattern] draws: a dot of positive
    radius, a circle of positive line width and inner radius, a line or
    an area.  Records of another type, and dots and circles without
    extent, leave the symbol as it is. *)
Definition drawable (elt : OCADSymbolElement) : bool :=
  let radius := Z.quot (CInt.s32 (OCAD8FileImport.convertSize (elt_diameter elt))) 2 in
  let line := CInt.s32 (OCAD8FileImport.convertSize (elt_width elt)) in
  if elt_type elt =? OCAD_DOT_ELEMENT then 0 <? radius
  else if elt_type elt =? OCAD_CIRCLE_ELEMENT then (0 <? line) && (0 <? radius - line)
  else (elt_type elt =? OCAD_LINE_ELEMENT) || (elt_type elt =? OCAD_AREA_ELEMENT).

(** The number of drawable elements of a pattern of [end_] points. *)
Definition drawable_elements `{Libocad} (fuel : nat) (pts : OCADPoints) (end_ : Z)
    : nat :=
  length (List.filter drawable (element_records fuel pts end_ 0)).

(** The dot followed by a record of a type that the file format does not
    know, and the dot followed by a circle whose line has no width. *)
Definition dot_and_unknown_pattern : list OCADPoint :=
  dot_pattern ++ element_header 9 0 0 0 0.
Definition dot_and_flat_circle_pattern : list OCADPoint :=
  dot_pattern ++ element_header OCAD_CIRCLE_ELEMENT 0 0 80 1 ++ [ocad_pt 0 0 0 0].

(** ** Objects *)

(** The symbol number of a legacy object leads to the point symbol
    [point_symbol]: it is in the symbol index, or it is in neither the
    symbol index nor the rectangles, the object is of the legacy point
    type, and the undefined point symbol of the map stands in. *)
Definition resolves_to_point (st : OCAD8FileImport.t) (ocad_object : OCADObject)
    (point_symbol : PointSymbolT) : Prop :=
  OCAD8FileImport.symbol_index st !! obj_symbol ocad_object
    = Some (SymPoint point_symbol)
  \/ (OCAD8FileImport.symbol_index st !! obj_symbol ocad_object = None
      /\ OCAD8FileImport.rectangle_info st !! obj_symbol ocad_object = None
      /\ obj_type ocad_object = 1
      /\ OCAD8FileImport.undefined_point st = SymPoint point_symbol).

(** The symbol that [importObject] gives to an object of the symbol
    number [number]: the one of the symbol index, and otherwise the
    undefined point symbol. *)
Definition point_symbol_ref (st : OCAD8FileImport.t) (number : Z) : SymbolRef :=
  if bool_decide (is_Some (OCAD8FileImport.symbol_index st !! number))
  then IndexedSymbol number else UndefinedPoint.

(** A legacy point object that claims five points, turned by 90 degrees,
    of an unknown symbol; its first point is at (1.23 mm, 4.56 mm) and
    has the dash flag of libocad.h. *)
Definition example_point_object : OCADObject := {|
  obj_symbol := 1010; obj_type := 1; obj_unicode := 0;
  obj_npts := 5; obj_ntext := 0; obj_angle := -900;
  obj_pts := points_of (ocad_pt 123 456 0 8 :: closed_square)
|}.

(** The same object with one point only, and with the other fields
    that the import of a point object does not read set to other
    values. *)
Definition example_point_object_alone : OCADObject := {|
  obj_symbol := 1010; obj_type := 1; obj_unicode := 1;
  obj_npts := 1; obj_ntext := 7; obj_angle := -900;
  obj_pts := points_of [ocad_pt 123 456 0 8]
|}.

(** ** Symbol numbers of an export *)

(** The numbers of the symbol records written so far, in their order. *)
Definition emitted_numbers (st : OCAD8FileExport.t) : list Z :=
  rec_number <$> OCAD8FileExport.file_symbols st.

(** No two records written so far share a number, and the set of
    assigned numbers holds exactly their numbers. *)
Definition numbering_invariant (st : OCAD8FileExport.t) : Prop :=
  NoDup (emitted_numbers st)
  /\ OCAD8FileExport.symbol_numbers st = list_to_set (emitted_numbers st).

(** A step of the export keeps the invariant, however it ends. *)
Definition keeps_numbering {A : Type} (m : OCAD8FileExport.M A) : Prop :=
  forall st, numbering_invariant st ->
             outcome (m st) (fun _ st' => numbering_invariant st') anything.

(** A step of the export changes neither the assigned numbers nor the
    numbers of the records. *)
Definition same_numbering {A : Type} (m : OCAD8FileExport.M A) : Prop :=
  forall st,
    outcome (m st)
      (fun _ st' =>
         OCAD8FileExport.symbol_numbers st' = OCAD8FileExport.symbol_numbers st
         /\ emitted_numbers st' = emitted_numbers st
         /\ OCAD8FileExport.encoding_1byte st' = OCAD8FileExport.encoding_1byte st)
      anything.

(** An encoding of one byte per character. *)
Definition single_byte (codec : QTextCodec) : Prop :=
  forall text, length (fromUnicode codec text) = length text.

(** Three symbols that all ask for the number 10.1 and a text symbol
    10.2, with three text objects of different alignments. *)
Definition numbered (components : list Z) : Symbol.Base :=
  Symbol.set_number components Symbol.new.

Definition example_map : Map := {|
  map_symbols :=
    [SymPoint (PointSymbol.set_base (numbered [10; 1; -1]) plain_point_symbol);
     SymLine (LineSymbol.set_base (numbered [10; 1; -1]) plain_line_symbol);
     SymArea (AreaSymbol.make (numbered [10; 1; -1]) None 0);
     SymText (TextSymbol.make (numbered [10; 2; -1]))];
  map_layers :=
    [[{| mo_type := Object.Text; mo_symbol := 3; mo_halign := AlignLeft;
         mo_single_anchor := true |};
      {| mo_type := Object.Text; mo_symbol := 3; mo_halign := AlignHCenter;
         mo_single_anchor := true |};
      {| mo_type := Object.Point; mo_symbol := 0; mo_halign := AlignLeft;
         mo_single_anchor := true |};
      {| mo_type := Object.Text; mo_symbol := 3; mo_halign := AlignRight;
         mo_single_anchor := true |}]]
|}.

(** No symbol uses another one. *)
Definition no_closure (symbols : list SymbolT) (i : nat) : list bool :=
  (fun j => bool_decide (j = i)) <$> seq 0 (length symbols).

(** ** Zero-terminated text *)

(** The bytes of [p] before its first zero byte. *)
Fixpoint until_zero (p : bytes) : bytes :=
  match p with
  | c :: rest => if c =? 0 then [] else c :: until_zero rest
  | [] => []
  end.

(** The bytes of [p] before its first 16-bit unit that is zero, the
    units being the pairs of bytes from the start. *)
Fixpoint until_zero_unit (p : bytes) : bytes :=
  match p with
  | lo :: hi :: rest =>
      if lo + 256 * hi =? 0 then [] else lo :: hi :: until_zero_unit rest
  | _ => []
  end.

(** The memory starts with a carriage return and a line feed. *)
Definition leading_newline (p : bytes) : bool :=
  bool_decide (take 2 p = [13; 10]).

(** The same for 16-bit units, of which the code tests the low bytes. *)
Definition leading_wide_newline (p : bytes) : bool :=
  bool_decide (p !! 0%nat = Some 13 /\ p !! 2%nat = Some 10).

(** A byte, and a text that a single-byte field can hold. *)
Definition is_byte (c : Z) : Prop := 0 <= c < 256.

(** A two-byte codec without a byte order mark: every code unit is two
    bytes, the low byte first. *)
Fixpoint units_of_bytes (b : bytes) : QString :=
  match b with
  | lo :: hi :: rest => (lo + 256 * hi) :: units_of_bytes rest
  | _ => []
  end.

Definition bytes_of_units (t : QString) : bytes :=
  c ← t; [c mod 256; c / 256].

Definition two_byte_codec : QTextCodec := {|
  toUnicode := units_of_bytes;
  fromUnicode := bytes_of_units
|}.

(** A codec writes 16-bit units, the low byte first. *)
Definition little_endian_units (codec : QTextCodec) : Prop :=
  forall text, fromUnicode codec text = bytes_of_units text.

(** A codec reads back what it has written of [text]. *)
Definition reads_back (codec : QTextCodec) (text : QString) : Prop :=
  toUnicode codec (fromUnicode codec text) = text.

(** A code unit that is not zero. *)
Definition is_unit (c : Z) : Prop := 0 < c < 65536.

(** ** Coordinates of a path *)

(** The flag bits of a point as libocad.h lays them out: each lies in
    the low byte, the bits of the two control point flags are apart, and
    the bits of the hole flag are apart from those of the corner flag and
    of the dash flag. *)
Definition flag_bits `{Libocad} (PX_CTL2 : Z) : Prop :=
  0 < PX_CTL1 < 256 /\ 0 <= PX_CTL2 < 256 /\ Z.land PX_CTL1 PX_CTL2 = 0
  /\ 0 < PY_CORNER < 256 /\ 0 < PY_DASH < 256 /\ 0 < PY_HOLE < 256
  /\ Z.land PY_HOLE PY_CORNER = 0 /\ Z.land PY_HOLE PY_DASH = 0.

(** A value that the 24 bits of a legacy coordinate can hold. *)
Definition in_s24 (z : Z) : Prop := - 2 ^ 23 <= z < 2 ^ 23.

(** A position within the range of legacy coordinates. *)
Definition in_legacy_range (c : MapCoord.t) : Prop :=
  in_s24 (Z.quot (MapCoord.rawX c) 10) /\ in_s24 (Z.quot (MapCoord.rawY c) (-10)).

(** The flags of the legacy point at [i]. *)
Definition point_flags (pts : OCADPoints) (i : nat) : Z :=
  snd (ocad_point (pts (Z.of_nat i))).

(** What the first loop of [fillPathCoords] makes of the point at [i] of
    [n] points, on a new coordinate: its converted position; the curve
    start flag when the next point is a first control point; the hole
    flag when the next point, for an area, or the point itself, for a
    line, has the hole flag; the dash flag when the point has the dash or
    the corner flag. *)
Definition decoded_coord `{Libocad} (st : OCAD8FileImport.t) (is_area : bool)
    (pts : OCADPoints) (n i : nat) : MapCoord.t :=
  MapCoord.make
    (fst (converted st (pts (Z.of_nat i))))
    (snd (converted st (pts (Z.of_nat i))))
    (bool_decide (S i < n)%nat && CInt.test_mask (point_flags pts (S i)) PX_CTL1)
    false
    (if is_area
     then bool_decide (S i < n)%nat
          && CInt.test_mask (point_flags pts (S i)) (Z.shiftl PY_HOLE 8)
     else CInt.test_mask (point_flags pts i) (Z.shiftl PY_HOLE 8))
    (CInt.test_mask (point_flags pts i) (Z.shiftl PY_DASH 8)
     || CInt.test_mask (point_flags pts i) (Z.shiftl PY_CORNER 8)).

(** The coordinate that [fillPathCoords] makes of one point: the first
    coordinate of the object, or a new one, moved to the point and given
    its flags. *)
Definition first_coordinate `{Libocad} (c0 : MapCoord.t) (pts : OCADPoints)
    (st : OCAD8FileImport.t) (c : MapCoord.t) : Prop :=
  position c = converted st (pts 0)
  /\ MapCoord.isDashPoint c
     = MapCoord.isDashPoint c0
       || (CInt.test_mask (point_flags pts 0) (Z.shiftl PY_DASH 8)
           || CInt.test_mask (point_flags pts 0) (Z.shiftl PY_CORNER 8))
  /\ MapCoord.isHolePoint c
     = MapCoord.isHolePoint c0
       || CInt.test_mask (point_flags pts 0) (Z.shiftl PY_HOLE 8)
  /\ MapCoord.isCurveStart c = MapCoord.isCurveStart c0.

(** The coordinates have no flag set. *)
Definition unflagged (cs : list MapCoord.t) : Prop :=
  Forall (fun c => MapCoord.isCurveStart c = false
                   /\ MapCoord.isClosePoint c = false
                   /\ MapCoord.isHolePoint c = false
                   /\ MapCoord.isDashPoint c = false) cs.

(** The position of a coordinate in hundredths of a millimetre, rounded
    towards the origin, as a legacy point holds it. *)
Definition rounded (c : MapCoord.t) : Z * Z :=
  (10 * Z.quot (MapCoord.rawX c) 10, 10 * Z.quot (MapCoord.rawY c) 10).

(** A map model whose new point object has one coordinate, at the
    origin. *)
Definition origin_object (type : Object.ObjectType) (symbol : SymbolRef) : Object.t :=
  Object.make type symbol [MapCoord.new] (S754_zero false).

(** A curve of four points that ends a part, a dash point, and a last
    point. *)
Definition example_coords : list MapCoord.t :=
  [MapCoord.make 0 0 true false false false;
   MapCoord.make 1000 0 false false false false;
   MapCoord.make 2000 (-1000) false false false false;
   MapCoord.make 3000 (-1000) false false true false;
   MapCoord.make 3000 (-2000) false false false true;
   MapCoord.make 4000 (-2000) false false false false].

(** The variables of [exportCoordinates] before the coordinate at [i],
    [init] being their values before the first. *)
Definition state_before (init : OCAD8FileExport.CurveState)
    (cs : list MapCoord.t) (i : nat) : OCAD8FileExport.CurveState :=
  match i with
  | O => init
  | S j =>
      {| OCAD8FileExport.curve_start := MapCoord.isCurveStart (cs !!! j);
         OCAD8FileExport.hole_point := MapCoord.isHolePoint (cs !!! j);
         OCAD8FileExport.curve_continue :=
           match j with
           | O => OCAD8FileExport.curve_start init
           | S j' => MapCoord.isCurveStart (cs !!! j')
           end |}
  end.

(** The flag bits of libocad.h. *)
Definition libocad_PX_CTL2 : Z := 2.

(** A point symbol is empty when it draws nothing. *)
Definition draws_nothing (p : PointSymbolT) : bool :=
  bool_decide (PointSymbol.elements p = [])
  && (bool_decide (PointSymbol.inner_color p = None) || (PointSymbol.inner_radius p <=? 0))
  && (bool_decide (PointSymbol.outer_color p = None) || (PointSymbol.outer_width p <=? 0)).

(** ** Sizes of point patterns *)

(** The number of points that what was written takes; a header is as
    wide as two points. *)
Fixpoint item_points (items : list OCAD8FileExport.PatternItem) : Z :=
  match items with
  | [] => 0
  | OCAD8FileExport.Header _ :: rest => 2 + item_points rest
  | OCAD8FileExport.Coordinate _ :: rest => 1 + item_points rest
  end.

(** An element that [exportSubPattern] accepts: a point, line or area
    symbol. *)
Definition exportable_element (element : Object.t * SymbolT) : Prop :=
  match snd element with
  | SymPoint _ | SymLine _ | SymArea _ => True
  | _ => False
  end.

(** An element whose symbol is a point symbol that draws both its inner
    dot and its outer circle. *)
Definition double_circle (element : Object.t * SymbolT) : bool :=
  match snd element with
  | SymPoint p => OCAD8FileExport.draws_inner p && OCAD8FileExport.draws_outer p
  | _ => false
  end.

(** The number of circles that a point symbol draws by itself. *)
Definition circles (p : PointSymbolT) : Z :=
  (if OCAD8FileExport.draws_inner p then 1 else 0)
  + (if OCAD8FileExport.draws_outer p then 1 else 0).

(** The points that [exportSubPattern] writes for an element: a header
    and the coordinates of the object, once for a line or an area and
    once for every circle of a point symbol. *)
Definition element_points (element : Object.t * SymbolT) : Z :=
  let size := 2 + Z.of_nat (length (Object.coords (fst element))) in
  match snd element with
  | SymPoint p => circles p * size
  | SymLine _ | SymArea _ => size
  | _ => 0
  end.

(** The points written for the elements of a point symbol, and the
    number of the elements that draw both circles. *)
Definition elements_points (elements : list (Object.t * SymbolT)) : Z :=
  foldr (fun element sum => element_points element + sum) 0 elements.

Definition double_circles (elements : list (Object.t * SymbolT)) : Z :=
  foldr (fun element n => (if double_circle element then 1 else 0) + n) 0 elements.

(** A bound on the points of the pattern of a point symbol. *)
Definition pattern_bound (point : PointSymbolT) : Z :=
  6 + foldr (fun element sum =>
               2 * (2 + Z.of_nat (length (Object.coords (fst element)))) + sum)
            0 (PointSymbol.elements point).

Definition origin_model : MapModel := {|
  PointSymbol_new := plain_point_symbol;
  LineSymbol_new := plain_line_symbol;
  AreaSymbol_new := AreaSymbol.make Symbol.new None 0;
  CombinedSymbol_new := CombinedSymbol.make Symbol.new [];
  PointObject_new := origin_object Object.Point;
  PathObject_new := plain_object Object.Path;
  TextObject_new := plain_object Object.Text;
  isSymmetrical := fun p => bool_decide (PointSymbol.elements p = [])
|}.

(** The colours of the map are numbered as they stand in its list. *)
Definition color_position (color : option nat) : Z :=
  match color with
  | Some i => Z.of_nat i
  | None => -1
  end.

(** A black dot inside a blue circle. *)
Definition dot_in_circle : PointSymbolT :=
  PointSymbol.make Symbol.new false 200 (Some 1%nat) 100 (Some 2%nat) [].

(** A point symbol of a short line and of the dot in a circle, and the
    same symbol with the circle alone. *)
Definition line_element : Object.t * SymbolT :=
  (Object.make Object.Path ElementSymbol
     [MapCoord.make (-500) 0 false false false false;
      MapCoord.make 500 0 false false false false] (S754_zero false),
   SymLine plain_line_symbol).

Definition nested_double_circle : PointSymbolT :=
  PointSymbol.make Symbol.new true 0 None 0 None
    [line_element; (origin_object Object.Point ElementSymbol, SymPoint dot_in_circle)].

Definition nested_single_circle : PointSymbolT :=
  PointSymbol.make Symbol.new true 0 None 0 None
    [line_element;
     (origin_object Object.Point ElementSymbol,
      SymPoint (PointSymbol.set_inner_color None dot_in_circle))].

(** ** Rotations written back *)

(** What is checked of the two [convertRotation] on one angle: the
    imported angle is exported as the angle itself when it is not
    negative, and as its remainder modulo a full turn otherwise. *)
Definition rotation_round_trip_check (angle : Z) : bool :=
  match OCAD8FileImport.convertRotation 10 angle with
  | Some r =>
      OCAD8FileExport.convertRotation r
      =? (if 0 <=? angle then angle else angle mod 3600)
  | None => false
  end.

(** ** Symbol records read back *)

(** The record of the file as the importer reads its common fields. *)
Definition as_ocad_symbol (r : OCADSymbolRecord) : OCADSymbol :=
  {| sym_number := rec_number r; sym_status := rec_status r; sym_name := rec_name r |}.

(** The second component of a symbol number as the file keeps it: its
    last digit, and 0 when there is none. *)
Definition kept_minor (c1 : Z) : Z :=
  if 0 <=? c1 then Z.rem c1 10 else 0.

(** A protected helper symbol 12.34 with a short name. *)
Definition example_symbol : SymbolT :=
  SymPoint (PointSymbol.set_base
              (Symbol.make (qstr "Boulder") [12; 34; -1] true false true)
              plain_point_symbol).

(** The same symbol with its name in bold type. *)
Definition marked_up_symbol : SymbolT :=
  SymPoint (PointSymbol.set_base
              (Symbol.make (qstr "<b>Boulder</b>") [12; 34; -1] true false true)
              plain_point_symbol).

(** ** Patterns in the memory of a symbol record *)

(** The points at [pts] from [p] on hold what was written: a header
    lies over two points, as [OCADSymbolElement] does. *)
Fixpoint holds `{Libocad} (pts : OCADPoints) (p : Z)
    (items : list OCAD8FileExport.PatternItem) : Prop :=
  match items with
  | [] => True
  | OCAD8FileExport.Header e :: rest =>
      OCAD8FileImport.element_at pts p = e /\ holds pts (p + 2) rest
  | OCAD8FileExport.Coordinate c :: rest =>
      pts p = c /\ holds pts (p + 1) rest
  end.

(** A point symbol without elements that draws its inner dot, or its
    outer circle, alone. *)
Definition lone_dot_symbol (point : PointSymbolT) : Prop :=
  PointSymbol.elements point = []
  /\ OCAD8FileExport.draws_inner point = true
  /\ OCAD8FileExport.draws_outer point = false.

Definition lone_circle_symbol (point : PointSymbolT) : Prop :=
  PointSymbol.elements point = []
  /\ OCAD8FileExport.draws_inner point = false
  /\ OCAD8FileExport.draws_outer point = true.

(** The importer finds the colour at the index that the exporter
    writes for it. *)
Definition same_colors (findColorIndex : option nat -> Z)
    (st : OCAD8FileImport.t) (color : option nat) : Prop :=
  0 <= findColorIndex color < 2 ^ 15
  /\ OCAD8FileImport.color_index st !! findColorIndex color = color.

(** The headers that the loop of [importPattern] reaches in a pattern
    of [end_] points. *)
Inductive header_at `{Libocad} (pts : OCADPoints) (end_ : Z) : Z -> Prop :=
  | first_header : 0 < end_ -> header_at pts end_ 0
  | next_header (p : Z) :
      header_at pts end_ p ->
      p + (2 + elt_npts (OCAD8FileImport.element_at pts p)) < end_ ->
      header_at pts end_ (p + (2 + elt_npts (OCAD8FileImport.element_at pts p))).

(** A dot of radius 0.25 mm in the colour 1, and a circle of radius
    0.3 mm with a line of 0.1 mm in the colour 0. *)
Definition dot_symbol : PointSymbolT :=
  PointSymbol.make Symbol.new false 250 (Some 1%nat) 0 None [].
Definition circle_symbol : PointSymbolT :=
  PointSymbol.make Symbol.new false 300 None 100 (Some 0%nat) [].

(** A failure other than a loop that does not end. *)
Definition keeps_fuel (f : Failure) : Prop := f <> OutOfFuel.

(** A dot whose header counts -2 coordinates. *)
Definition endless_pattern : list OCADPoint :=
  element_header OCAD_DOT_ELEMENT 1 0 50 (-2).

(** A dot without extent, which draws nothing, whose header counts -2
    coordinates. *)
Definition idle_pattern : list OCADPoint :=
  element_header OCAD_DOT_ELEMENT 1 0 0 (-2).

(** A line element whose header counts -1 coordinates. *)
Definition overdrawn_pattern : list OCADPoint :=
  element_header OCAD_LINE_ELEMENT 1 10 0 (-1) ++ [ocad_pt 0 0 0 0].

(** A plain line symbol, 0.25 mm wide, whose mid symbol is the pattern
    of [npts] points in [points]. *)
Definition line_with_mid_symbol (npts : Z) (points : list OCADPoint)
    : OCADLineSymbol := {|
  common := {| sym_number := 5080; sym_status := 0; sym_name := [4; 80; 97; 116; 104] |};
  color := 0; width := 25; ends := 0; bdist := 0; edist := 0;
  len := 0; elen := 0; gap := 0; gap2 := 0; egap := 0;
  smin := 0; snum := 1; sdist := 0;
  dmode := 0; dflags := 0; dcolor := 0; dwidth := 0;
  lwidth := 0; rwidth := 0; lcolor := 0; rcolor := 0; dlen := 0; dgap := 0;
  fwidth := 0;
  smnpts := npts; ssnpts := 0; scnpts := 0; sbnpts := 0; senpts := 0;
  pts := points_of points
|}.

(** ** Line styles read back *)

(** The legacy record holds the fields written. *)
Definition carries (ocad_symbol : OCADLineSymbol) (f : OCAD8FileExport.LineFields)
    : Prop :=
  ends ocad_symbol = OCAD8FileExport.f_ends f
  /\ bdist ocad_symbol = OCAD8FileExport.f_bdist f
  /\ edist ocad_symbol = OCAD8FileExport.f_edist f
  /\ len ocad_symbol = OCAD8FileExport.f_len f
  /\ elen ocad_symbol = OCAD8FileExport.f_elen f
  /\ gap ocad_symbol = OCAD8FileExport.f_gap f
  /\ gap2 ocad_symbol = OCAD8FileExport.f_gap2 f
  /\ egap ocad_symbol = OCAD8FileExport.f_egap f.

(** The combinations of cap and join that the file has a number for. *)
Definition representable (cap : LineSymbol.CapStyle) (join : LineSymbol.JoinStyle)
    : bool :=
  match cap, join with
  | LineSymbol.FlatCap, (LineSymbol.BevelJoin | LineSymbol.MiterJoin) => true
  | LineSymbol.RoundCap, LineSymbol.RoundJoin => true
  | LineSymbol.PointedCap, _ => true
  | _, _ => false
  end.

(** The cap and the join that are read back for [cap] and [join]. *)
Definition kept_styles (cap : LineSymbol.CapStyle) (join : LineSymbol.JoinStyle)
    : LineSymbol.CapStyle * LineSymbol.JoinStyle :=
  match cap, join with
  | LineSymbol.FlatCap, LineSymbol.MiterJoin => (LineSymbol.FlatCap, LineSymbol.MiterJoin)
  | (LineSymbol.FlatCap | LineSymbol.SquareCap), _ =>
      (LineSymbol.FlatCap, LineSymbol.BevelJoin)
  | LineSymbol.RoundCap, _ => (LineSymbol.RoundCap, LineSymbol.RoundJoin)
  | LineSymbol.PointedCap, _ => (LineSymbol.PointedCap, LineSymbol.RoundJoin)
  end.

(** A length that the file keeps: a positive multiple of 0.01 mm within
    the 16 bits of its field. *)
Definition kept_length (v : Z) : Prop :=
  0 < v < 10 * 2 ^ 15 /\ Z.rem v 10 = 0.

(** The line symbol has no mid symbol that draws anything. *)
Definition no_mid_symbol (isEmpty : PointSymbolT -> bool) (line : LineSymbolT) : Prop :=
  match LineSymbol.mid_symbol line with
  | Some mid_symbol => isEmpty mid_symbol = true
  | None => True
  end.

(** The legacy line record whose style fields are [f] and whose other
    fields are zero. *)
Definition line_record (f : OCAD8FileExport.LineFields) : OCADLineSymbol :=
  {| common := {| sym_number := 0; sym_status := 0; sym_name := [0] |};
     color := 0; width := 0;
     ends := OCAD8FileExport.f_ends f;
     bdist := OCAD8FileExport.f_bdist f;
     edist := OCAD8FileExport.f_edist f;
     len := OCAD8FileExport.f_len f;
     elen := OCAD8FileExport.f_elen f;
     gap := OCAD8FileExport.f_gap f;
     gap2 := OCAD8FileExport.f_gap2 f;
     egap := OCAD8FileExport.f_egap f;
     smin := 0; snum := 0; sdist := 0; dmode := 0; dflags := 0; dcolor := 0;
     dwidth := 0; lwidth := 0; rwidth := 0; lcolor := 0; rcolor := 0; dlen := 0;
     dgap := 0; fwidth := 0; smnpts := 0; ssnpts := 0; scnpts := 0; sbnpts := 0;
     senpts := 0; pts := fun _ => {| pt_x := 0; pt_y := 0 |} |}.

(** A line of dashes of 2 mm with breaks of 0.5 mm and half outer
    dashes, and the same with groups of three dashes 0.3 mm apart. *)
Definition dashed_line : LineSymbolT :=
  LineSymbol.set_half_outer_dashes true
    (LineSymbol.set_break_length 500
       (LineSymbol.set_dash_length 2000
          (LineSymbol.set_dashed true plain_line_symbol))).

Definition grouped_line : LineSymbolT :=
  LineSymbol.set_in_group_break_length 300
    (LineSymbol.set_dashes_in_group 3 dashed_line).

(** The dashed line with a dot as mid symbol. *)
Definition dotted_line : LineSymbolT :=
  LineSymbol.set_mid_symbol (Some dot_symbol) dashed_line.

(** ** Bits of the set of used colours *)

(** The bit of the colour [c] in the memory [colors]: bit [c mod 8] of
    the byte [c / 8]. *)
Definition color_bit (colors : bytes) (c : nat) : bool :=
  Z.testbit (colors !!! (c / 8)%nat) (Z.of_nat (c mod 8)).

(** Whether the symbol contains the colour [c]. *)
Definition contains_color (contains : list bool) (c : nat) : bool :=
  default false (contains !! c).

(** ** Symbol numbers ([src/symbol.cpp]) *)

Module SymbolNumber.

(** Modelled from the spec: a symbol carries a dotted number of three
    components ([number_components] of symbol.h, which is not among the
    sources). *)
Definition number_components : nat := 3.

Definition getNumberComponent (s : Symbol.Base) (i : nat) : Z :=
  Symbol.number s !!! i.

(** The loop of [numberEquals] with [ignore_trailing_zeros], over the
    indices left. *)
Fixpoint numberEquals_ignoring (indices : list nat) (this other : Symbol.Base) : bool :=
  match indices with
  | [] => true
  | i :: rest =>
      let x := getNumberComponent this i in
      let y := getNumberComponent other i in
      if (x =? -1) && (y =? -1) then true
      else if ((x =? 0) || (x =? -1)) && ((y =? 0) || (y =? -1))
      then numberEquals_ignoring rest this other
      else if negb (x =? y) then false
      else numberEquals_ignoring rest this other
  end.

(** The loop of [numberEquals] without it. *)
Fixpoint numberEquals_exact (indices : list nat) (this other : Symbol.Base) : bool :=
  match indices with
  | [] => true
  | i :: rest =>
      let x := getNumberComponent this i in
      let y := getNumberComponent other i in
      if negb (x =? y) then false
      else if x =? -1 then true
      else numberEquals_exact rest this other
  end.

(** [bool Symbol::numberEquals(const Symbol* other, bool
    ignore_trailing_zeros)]. *)
Definition numberEquals (this other : Symbol.Base) (ignore_trailing_zeros : bool)
    : bool :=
  if ignore_trailing_zeros
  then numberEquals_ignoring (seq 0 number_components) this other
  else numberEquals_exact (seq 0 number_components) this other.

(** The loop of [compareByNumber], over the indices left. *)
Fixpoint compareByNumber_from (indices : list nat) (s1 s2 : Symbol.Base) : bool :=
  match indices with
  | [] => false (* s1 == s2 *)
  | i :: rest =>
      if getNumberComponent s1 i <? getNumberComponent s2 i then true
      else if getNumberComponent s2 i <? getNumberComponent s1 i then false
      else compareByNumber_from rest s1 s2
  end.

(** [bool Symbol::compareByNumber(const Symbol* s1, const Symbol* s2)]. *)
Definition compareByNumber (s1 s2 : Symbol.Base) : bool :=
  let n1 := number_components in
  let n2 := number_components in
  compareByNumber_from (seq 0 (Nat.min n1 n2)) s1 s2.

End SymbolNumber.

(** The numbers of two symbols agree in every component. *)
Definition same_number (a b : Symbol.Base) : Prop :=
  forall i, (i < SymbolNumber.number_components)%nat ->
            SymbolNumber.getNumberComponent a i = SymbolNumber.getNumberComponent b i.

(** Neither symbol comes before the other. *)
Definition unordered (a b : Symbol.Base) : Prop :=
  SymbolNumber.compareByNumber a b = false /\ SymbolNumber.compareByNumber b a = false.

(** ** Text symbols and the alignment of text objects *)

(** The alignment as [setTextSymbolFormatting] writes it. *)
Definition halign_code (a : HorizontalAlignment) : Z :=
  match a with
  | AlignLeft => 0
  | AlignHCenter => 1
  | AlignRight => 2
  end.

(** The file holds a symbol record of the number [n] with the alignment
    [a]. *)
Definition aligned_record (st : OCAD8FileExport.t) (a : HorizontalAlignment) (n : Z)
    : Prop :=
  exists pos r,
    OCAD8FileExport.file_symbols st !! pos = Some r
    /\ rec_number r = n /\ rec_halign r = halign_code a.

(** The state of the exporter while the objects are written, [base]
    being the numbers of the records written for the symbols of the map:
    the records have distinct numbers; the symbol index leads to numbers
    of [base], to different ones for different symbols; and every format
    list has each alignment once, with the number of a record of this
    alignment, which is a number of its own symbol or the number of a
    copy. *)
Definition formats_invariant (base : gset Z) (st : OCAD8FileExport.t) : Prop :=
  numbering_invariant st
  /\ base ⊆ OCAD8FileExport.symbol_numbers st
  /\ (forall s numbers,
        OCAD8FileExport.symbol_index st !! s = Some numbers -> numbers ⊆ base)
  /\ (forall s s' numbers numbers',
        s <> s' ->
        OCAD8FileExport.symbol_index st !! s = Some numbers ->
        OCAD8FileExport.symbol_index st !! s' = Some numbers' ->
        numbers ## numbers')
  /\ (forall s l,
        OCAD8FileExport.text_format_map st !! s = Some l ->
        NoDup (l.*1)
        /\ forall a n,
             (a, n) ∈ l ->
             aligned_record st a n
             /\ (n ∈ base ->
                 exists numbers,
                   OCAD8FileExport.symbol_index st !! s = Some numbers
                   /\ n ∈ numbers)).

(** A text symbol written as number 70, before any text object. *)
Definition text_symbol_written : OCAD8FileExport.t :=
  OCAD8FileExport.make [] latin1 {[70]} {[0%nat := {[70]}]} ∅
    [make_record 70 OCAD_TEXT_SYMBOL 0 (replicate 32 0) 0] [].

Definition centered_text : MapObject :=
  {| mo_type := Object.Text; mo_symbol := 0; mo_halign := AlignHCenter;
     mo_single_anchor := true |}.

(** * Properties *)

Section ScalarProperties.
Import CInt CFloat.

Lemma wrap_signed_id (bits z : Z) :
  0 < bits -> - 2 ^ (bits - 1) <= z < 2 ^ (bits - 1) -> wrap_signed bits z = z.
Proof.
  intros Hb Hz. unfold wrap_signed.
  assert (E : 2 ^ bits = 2 * 2 ^ (bits - 1)).
  { replace bits with (Z.succ (bits - 1)) at 1 by lia.
    rewrite Z.pow_succ_r by lia. reflexivity. }
  rewrite Z.mod_small by lia. lia.
Qed.

Lemma s32_id z : in_s32 z -> s32 z = z.
Proof. intros H. apply wrap_signed_id; [lia | exact H]. Qed.

Lemma s64_id z : in_s64 z -> s64 z = z.
Proof. intros H. apply wrap_signed_id; [lia | exact H]. Qed.

Lemma s16_id z : in_s16 z -> s16 z = z.
Proof. intros H. apply wrap_signed_id; [lia | exact H]. Qed.

Lemma in_s32_in_s64 z : in_s32 z -> in_s64 z.
Proof. unfold in_s32, in_s64. lia. Qed.

Lemma import_convertSize_exact (y : Z) :
  in_s32 y -> OCAD8FileImport.convertSize y = y * 10.
Proof.
  intros Hy. unfold OCAD8FileImport.convertSize.
  rewrite (s64_id y) by (apply in_s32_in_s64; exact Hy).
  apply s64_id. unfold in_s32 in Hy. unfold in_s64. lia.
Qed.

(** C1.  The size conversion round-trips exactly.  For every legacy
    32-bit value [y], exporting the imported size gives [y] back (the
    import multiplies by exactly 10 without overflow, the export divides
    by exactly 10).  For every modern 64-bit value [x] that is a multiple
    of 10 and whose legacy image [x / 10] is a 32-bit value (in
    particular for every [x] that is itself a 32-bit value), importing
    the exported size gives [x] back. *)
Theorem convertSize_round_trip (x y : Z) :
  in_s32 y ->
  in_s64 x -> in_s32 (Z.quot x 10) -> Z.rem x 10 = 0 ->
  OCAD8FileExport.convertSize (OCAD8FileImport.convertSize y) = y
  /\ OCAD8FileImport.convertSize y = y * 10
  /\ OCAD8FileImport.convertSize (OCAD8FileExport.convertSize x) = x
  /\ OCAD8FileExport.convertSize x * 10 = x.
Proof.
  intros Hy Hx Hq Hm.
  assert (Ex : x = 10 * Z.quot x 10).
  { pose proof (Z.quot_rem' x 10) as E. lia. }
  repeat split.
  - rewrite import_convertSize_exact by exact Hy.
    unfold OCAD8FileExport.convertSize. rewrite Z.quot_mul by lia.
    apply s32_id, Hy.
  - apply import_convertSize_exact, Hy.
  - unfold OCAD8FileExport.convertSize. rewrite (s32_id _ Hq).
    rewrite import_convertSize_exact by exact Hq. lia.
  - unfold OCAD8FileExport.convertSize. rewrite (s32_id _ Hq). lia.
Qed.

Lemma convertSize_round_trip_witness :
  OCAD8FileExport.convertSize (OCAD8FileImport.convertSize (-45)) = -45
  /\ OCAD8FileImport.convertSize (-45) = -45 * 10
  /\ OCAD8FileImport.convertSize (OCAD8FileExport.convertSize 1230) = 1230
  /\ OCAD8FileExport.convertSize 1230 * 10 = 1230.
Proof.
  apply (convertSize_round_trip 1230 (-45)).
  - unfold in_s32; lia.
  - unfold in_s64; lia.
  - change (Z.quot 1230 10) with 123. unfold in_s32; lia.
  - reflexivity.
Defined.

End ScalarProperties.

Section RotationProperties.
Import CInt CFloat.
Import OCAD8FileImport (convertRotation, convertRotation_loop).

Lemma all_from_spec (n : nat) (lo : Z) (P : Z -> bool) :
  all_from n lo P = true ->
  forall z, lo <= z < lo + Z.of_nat n -> P z = true.
Proof.
  revert lo. induction n as [|n IH]; intros lo H z Hz; [lia|].
  simpl in H. apply andb_prop in H as [H0 H1].
  destruct (Z.eq_dec z lo) as [->|Hne]; [exact H0|].
  apply (IH (lo + 1) H1). lia.
Qed.

(** More fuel does not change a result. *)
Lemma convertRotation_loop_fuel_mono (fuel extra : nat) (a r : double) :
  convertRotation_loop fuel a = Some r ->
  convertRotation_loop (fuel + extra) a = Some r.
Proof.
  revert a. induction fuel as [|fuel IH]; intros a; simpl.
  - destruct (dltb a dzero) eqn:E; [discriminate|].
    intros H. destruct extra; simpl; rewrite E; exact H.
  - destruct (dltb a dzero); [apply IH | trivial].
Qed.

Lemma convertRotation_fuel_mono (fuel fuel' : nat) (angle : Z) (r : float) :
  (fuel <= fuel')%nat ->
  convertRotation fuel angle = Some r ->
  convertRotation fuel' angle = Some r.
Proof.
  intros Hle. replace fuel' with (fuel + (fuel' - fuel))%nat by lia.
  unfold convertRotation.
  destruct (convertRotation_loop fuel _) as [d|] eqn:E; [|discriminate].
  rewrite (convertRotation_loop_fuel_mono _ _ _ _ E). trivial.
Qed.

Lemma rotation_check_s16 :
  all_from (Z.to_nat 65536) (-32768) rotation_check = true.
Proof. vm_cast_no_check (eq_refl true). Qed.

(** On every 16-bit angle (the width of the angle fields of the legacy
    records) the loop ends within ten rounds, the result is a finite
    non-negative [float], and it is below 2π exactly when the angle is
    below 3600 tenths of a degree. *)
Lemma convertRotation_s16 (fuel : nat) (angle : Z) :
  (10 <= fuel)%nat -> in_s16 angle ->
  exists r : float,
    convertRotation fuel angle = Some r
    /\ is_finite r = true
    /\ SFleb fzero r = true
    /\ (SFltb r two_pi_float = true <-> angle < 3600).
Proof.
  intros Hf Ha.
  pose proof (all_from_spec _ _ _ rotation_check_s16 angle) as H.
  unfold in_s16 in Ha.
  specialize (H ltac:(rewrite Z2Nat.id; lia)).
  unfold rotation_check in H.
  destruct (convertRotation 10 angle) as [r|] eqn:E; [|discriminate].
  apply andb_prop in H as [H H3]. apply andb_prop in H as [H1 H2].
  exists r. split; [exact (convertRotation_fuel_mono _ _ _ _ Hf E)|].
  repeat split; try assumption.
  - intros Hlt. rewrite Hlt in H3. apply eqb_prop in H3.
    symmetry in H3. apply Z.ltb_lt in H3. exact H3.
  - intros Hlt. apply Z.ltb_lt in Hlt. rewrite Hlt in H3.
    apply eqb_prop in H3. exact H3.
Qed.

(** C2.  The imported rotation of 7200 tenths of a degree (two full
    turns) is the [float] 13176795 * 2^-20 = 12.566..., which is 4π and
    lies above 2π: positive angles are never reduced, so the result is
    not in the half-open interval from 0 to 2π.  The same holds at 3600,
    where the result is the [float] nearest to 2π. *)
Theorem convertRotation_7200_not_below_two_pi :
  forall fuel : nat,
    exists r : float,
      convertRotation fuel 7200 = Some r
      /\ r = S754_finite false 13176795 (-20)
      /\ (2 * PI < value r)%R
      /\ SFltb r two_pi_float = false
      /\ convertRotation fuel 3600 = Some two_pi_float.
Proof.
  intros fuel. exists (S754_finite false 13176795 (-20)).
  assert (E0 : convertRotation 0 7200 = Some (S754_finite false 13176795 (-20)))
    by (vm_compute; reflexivity).
  assert (E1 : convertRotation 0 3600 = Some two_pi_float)
    by (vm_compute; reflexivity).
  split; [apply (convertRotation_fuel_mono 0); [lia | exact E0]|].
  split; [reflexivity|].
  split.
  - pose proof PI_4 as HPI. unfold value, signed_mantissa.
    change (powerRZ 2 (-20)) with (/ (2 ^ 20))%R.
    assert (Hpow : (2 ^ 20 = 1048576)%R) by (simpl; lra).
    rewrite Hpow. lra.
  - split; [vm_compute; reflexivity|].
    apply (convertRotation_fuel_mono 0); [lia | exact E1].
Qed.

End RotationProperties.

Section ImportProperties.
Import CInt CFloat OCAD8FileImport.
Context {libocad : Libocad} {model : MapModel}.

Lemma convertColor_missing (color : Z) (st : OCAD8FileImport.t) :
  color_index st !! color = None ->
  convertColor color st =
    Ok (None,
        set_warnings
          (warnings st ++ [msg "Color id not found: %1, ignoring this color" [ArgInt color]])
          st).
Proof.
  intros H. unfold convertColor, bind, get, ret, addWarning.
  rewrite H. rewrite bool_decide_eq_false_2 by (intros [? ?]; discriminate).
  reflexivity.
Qed.

(** C6.  A colour ordinal that is not in the importer's map from
    ordinals to colours converts to the NULL colour; the conversion
    records one warning, whose argument is the missing ordinal, after the
    warnings recorded so far, leaves the rest of the importer as it was,
    and ends normally (no failure), so that the import goes on. *)
Theorem convertColor_unregistered (color : Z) (st : OCAD8FileImport.t) :
  color_index st !! color = None ->
  convertColor color st =
    Ok (None,
        set_warnings
          (warnings st ++ [msg "Color id not found: %1, ignoring this color" [ArgInt color]])
          st).
Proof. exact (convertColor_missing color st). Qed.

Lemma convertColor_registered (color : Z) (c : nat) (st : OCAD8FileImport.t) :
  color_index st !! color = Some c ->
  convertColor color st = Ok (Some c, st).
Proof.
  intros H. unfold convertColor, bind, get, ret.
  rewrite H. rewrite bool_decide_eq_true_2 by eauto. reflexivity.
Qed.

End ImportProperties.

(** The ordinal 77 in an importer that has loaded the colours 0 and 1
    and recorded no warning yet: the NULL colour and exactly one warning,
    naming 77. *)
Lemma convertColor_unregistered_witness :
  OCAD8FileImport.convertColor 77 example_importer =
    Ok (None,
        OCAD8FileImport.set_warnings [OCAD8FileImport.msg "Color id not found: %1, ignoring this color" [ArgInt 77]]
          example_importer).
Proof.
  apply (convertColor_unregistered 77 example_importer). reflexivity.
Defined.


Section OutcomeRules.
Import OCAD8FileImport.

Lemma outcome_bind {A B : Type} (m : M A) (k : A -> M B) (st : OCAD8FileImport.t)
    (Q : B -> OCAD8FileImport.t -> Prop) (F : Failure -> Prop) :
  outcome (m st) (fun a st' => outcome (k a st') Q F) F ->
  outcome (bind m k st) Q F.
Proof. unfold bind. destruct (m st) as [[a st']|f]; simpl; trivial. Qed.

Lemma outcome_ret {A : Type} (a : A) (st : OCAD8FileImport.t)
    (Q : A -> OCAD8FileImport.t -> Prop) (F : Failure -> Prop) :
  Q a st -> outcome (ret a st) Q F.
Proof. trivial. Qed.

Lemma outcome_weaken {A : Type} (r : Result (A * OCAD8FileImport.t))
    (Q Q' : A -> OCAD8FileImport.t -> Prop) (F F' : Failure -> Prop) :
  outcome r Q F ->
  (forall a st, Q a st -> Q' a st) -> (forall f, F f -> F' f) ->
  outcome r Q' F'.
Proof. destruct r as [[a st]|f]; simpl; auto. Qed.

Lemma outcome_weaken_any {S A : Type} (r : Result (A * S))
    (Q Q' : A -> S -> Prop) :
  outcome r Q anything ->
  (forall a st, Q a st -> Q' a st) ->
  outcome r Q' anything.
Proof. destruct r as [[a st]|f]; simpl; auto. Qed.

Lemma outcome_Ok {A : Type} (r : Result (A * OCAD8FileImport.t))
    (Q : A -> OCAD8FileImport.t -> Prop) :
  outcome r Q never -> exists a st, r = Ok (a, st) /\ Q a st.
Proof. destruct r as [[a st]|f]; simpl; [eauto | intros []]. Qed.

Lemma outcome_when (c : bool) (body : M unit) (st : OCAD8FileImport.t)
    (Q : unit -> OCAD8FileImport.t -> Prop) (F : Failure -> Prop) :
  (c = true -> outcome (body st) Q F) -> (c = false -> Q tt st) ->
  outcome (when c body st) Q F.
Proof. destruct c; simpl; auto. Qed.

Lemma only_warns_refl st : only_warns st st.
Proof. exists []. rewrite app_nil_r. destruct st; reflexivity. Qed.

Lemma only_warns_trans st1 st2 st3 :
  only_warns st1 st2 -> only_warns st2 st3 -> only_warns st1 st3.
Proof.
  intros [w1 ->] [w2 ->]. exists (w1 ++ w2).
  destruct st1; simpl. rewrite app_assoc. reflexivity.
Qed.

Lemma only_warns_addWarning m st :
  outcome (addWarning m st) (fun _ st' => only_warns st st') never.
Proof. simpl. exists [m]. reflexivity. Qed.

Lemma only_warns_color_index st st' :
  only_warns st st' -> color_index st' = color_index st.
Proof. intros [ws ->]. destruct st; reflexivity. Qed.

Lemma convertColor_total (color : Z) (st : OCAD8FileImport.t) :
  outcome (convertColor color st) (fun _ st' => only_warns st st') never.
Proof.
  destruct (color_index st !! color) as [c|] eqn:E.
  - rewrite (convertColor_registered _ _ _ E). apply only_warns_refl.
  - rewrite (convertColor_missing _ _ E). simpl. eexists. reflexivity.
Qed.

Lemma convertPascalString_total (p : bytes) (st : OCAD8FileImport.t) :
  outcome (convertPascalString p st) (fun _ st' => st' = st) never.
Proof. reflexivity. Qed.

Lemma outcome_seq {A B : Type} (m : M A) (k : A -> M B) (st : OCAD8FileImport.t)
    (P : A -> OCAD8FileImport.t -> Prop)
    (Q : B -> OCAD8FileImport.t -> Prop) (F : Failure -> Prop) :
  outcome (m st) P F ->
  (forall a st', P a st' -> outcome (k a st') Q F) ->
  outcome (bind m k st) Q F.
Proof.
  intros Hm Hk. apply outcome_bind.
  destruct (m st) as [[a st']|f]; simpl in *; auto.
Qed.

Lemma bind_assoc {A B C : Type} (m : M A) (k1 : A -> M B) (k2 : B -> M C)
    (st : OCAD8FileImport.t) :
  bind (bind m k1) k2 st = bind m (fun a => bind (k1 a) k2) st.
Proof. unfold bind. destruct (m st) as [[a st']|f]; reflexivity. Qed.

Lemma outcome_never {A : Type} (r : Result (A * OCAD8FileImport.t))
    (Q : A -> OCAD8FileImport.t -> Prop) (F : Failure -> Prop) :
  outcome r Q never -> outcome r Q F.
Proof. intros H. apply (outcome_weaken _ _ _ _ _ H); [auto | intros ? []]. Qed.

Lemma when_addWarning_total (c : bool) (m : Message) (st : OCAD8FileImport.t) :
  outcome (when c (addWarning m) st) (fun _ st' => only_warns st st') never.
Proof.
  destruct c; simpl; [exists [m]; reflexivity | apply only_warns_refl].
Qed.

End OutcomeRules.

(** Chains [only_warns] facts from the state on entry to the state on exit. *)
Ltac warns_chain :=
  subst;
  repeat (eapply only_warns_trans; [eassumption|]);
  first [apply only_warns_refl | eassumption].

Create HintDb import_specs.
#[global] Hint Resolve convertColor_total when_addWarning_total
  only_warns_addWarning : import_specs.

(** One step through the body of a member function whose steps all end
    normally. *)
Ltac import_step :=
  lazymatch goal with
  | |- outcome (OCAD8FileImport.bind (if ?c then _ else _) _ _) _ _ =>
      destruct c eqn:?
  | |- outcome (OCAD8FileImport.bind (OCAD8FileImport.ret _) _ _) _ _ =>
      apply outcome_bind; apply outcome_ret; cbv beta
  | |- outcome (OCAD8FileImport.bind (OCAD8FileImport.bind _ _) _ _) _ _ =>
      rewrite bind_assoc
  | |- outcome (OCAD8FileImport.bind _ _ _) _ _ =>
      eapply outcome_seq;
      [ first [ solve [eauto with import_specs]
              | apply outcome_never; solve [eauto with import_specs] ]
      | cbv beta; intros ? ? ? ]
  | |- outcome (OCAD8FileImport.ret _ _) _ _ => apply outcome_ret
  | |- outcome ((if ?c then _ else _) _) _ _ => destruct c eqn:?
  | |- outcome ((let _ := _ in _) _) _ _ => cbv zeta
  end.

Section LineSymbolProperties.
Import CInt CFloat OCAD8FileImport.
Context {libocad : Libocad} {model : MapModel}.

Lemma fillCommonSymbolFields_total (b : Symbol.Base) (s : OCADSymbol)
    (st : OCAD8FileImport.t) :
  outcome (fillCommonSymbolFields b s st) (fun _ st' => only_warns st st') never.
Proof. simpl. apply only_warns_refl. Qed.

Lemma import_pointed_cap_total (s : OCADLineSymbol) (l : LineSymbolT)
    (st : OCAD8FileImport.t) :
  outcome (import_pointed_cap s l st) (fun _ st' => only_warns st st') never.
Proof.
  unfold import_pointed_cap.
  repeat import_step; warns_chain.
Qed.

(** The dash pattern changes nothing in the importer but its warnings,
    and leaves the fields of the line that are not about dashes alone. *)
Lemma import_dash_pattern_total (s : OCADLineSymbol) (l : LineSymbolT)
    (st : OCAD8FileImport.t) :
  outcome (import_dash_pattern s l st) (fun _ st' => only_warns st st') never.
Proof.
  unfold import_dash_pattern.
  repeat import_step; warns_chain.
Qed.

#[local] Hint Resolve fillCommonSymbolFields_total import_pointed_cap_total
  import_dash_pattern_total : import_specs.

Lemma import_main_line_total (s : OCADLineSymbol) (st : OCAD8FileImport.t) :
  outcome (import_main_line s st)
    (fun m st' => only_warns st st'
                  /\ (is_Some m <-> dmode s = 0 \/ 0 < width s))
    never.
Proof.
  unfold import_main_line.
  destruct ((dmode s =? 0) || (0 <? width s)) eqn:E.
  - repeat import_step. split; [warns_chain|].
    split; [intros _|eauto].
    apply orb_prop in E as [E|E]; [left; lia | right; lia].
  - apply outcome_ret. split; [apply only_warns_refl|].
    apply orb_false_elim in E as [E1 E2].
    split; [intros [? ?]; discriminate | lia].
Qed.

Lemma import_border_lines_total (s : OCADLineSymbol) (l : LineSymbolT)
    (st : OCAD8FileImport.t) :
  outcome (import_border_lines s l st) (fun _ st' => only_warns st st') never.
Proof.
  unfold import_border_lines.
  repeat import_step; warns_chain.
Qed.

#[local] Hint Resolve import_border_lines_total : import_specs.

Lemma import_double_line_total (s : OCADLineSymbol) (st : OCAD8FileImport.t) :
  outcome (import_double_line s st)
    (fun d st' => only_warns st st' /\ (is_Some d <-> dmode s <> 0))
    never.
Proof.
  unfold import_double_line.
  destruct (dmode s =? 0) eqn:E; cbn [negb].
  - apply outcome_ret. split; [apply only_warns_refl|].
    split; [intros [? ?]; discriminate | lia].
  - repeat import_step; (split; [warns_chain | split; [lia | eauto]]).
Qed.

(** *** Patterns never dereference NULL *)

Lemma convertPoint_total (c : MapCoord.t) (x y : Z) (st : OCAD8FileImport.t) :
  outcome (convertPoint c x y st) (fun _ st' => st' = st) never.
Proof. reflexivity. Qed.

Lemma fillPathCoords_point_spec (is_area : bool) (pts : OCADPoints)
    (cs : list MapCoord.t) (i : nat) (st : OCAD8FileImport.t) :
  outcome (fillPathCoords_point is_area pts cs i st)
    (fun cs' st' => st' = st /\ length cs' = length cs) not_null.
Proof.
  unfold fillPathCoords_point.
  destruct (ocad_point (pts (Z.of_nat i))) as [[buf0 buf1] buf2].
  apply outcome_bind. simpl.
  repeat match goal with
         | |- context [if ?c then _ else _] => destruct c
         end; simpl;
    try (split; [reflexivity|]);
    rewrite ?length_alter, ?length_insert; try reflexivity; discriminate.
Qed.

Lemma for_each_fillPathCoords_point_spec (is_area : bool) (pts : OCADPoints)
    (indices : list nat) (cs : list MapCoord.t) (st : OCAD8FileImport.t) :
  outcome (for_each (fillPathCoords_point is_area pts) indices cs st)
    (fun cs' st' => st' = st /\ length cs' = length cs) not_null.
Proof.
  revert cs. induction indices as [|i rest IH]; intros cs; simpl.
  - auto.
  - eapply outcome_seq; [apply fillPathCoords_point_spec|].
    intros cs1 st1 [-> E1]. cbv beta.
    eapply outcome_weaken; [apply IH | | auto].
    intros cs2 st2 [-> E2]. split; [reflexivity | congruence].
Qed.

Lemma close_parts_step_length (size : Z) (state : nat * list MapCoord.t) (i : nat) :
  length (snd (close_parts_step size state i)) = length (snd state).
Proof.
  destruct state as [start cs]. unfold close_parts_step.
  repeat match goal with
         | |- context [if ?c then _ else _] => destruct c
         end; simpl; rewrite ?length_alter; reflexivity.
Qed.

Lemma close_parts_length (cs : list MapCoord.t) :
  length (close_parts cs) = length cs.
Proof.
  unfold close_parts.
  generalize (Z.of_nat (length cs)) as size.
  generalize (seq 0 (length cs)) as indices.
  generalize 0%nat as start.
  intros start indices size.
  change (length cs) with (length (snd (start, cs))).
  generalize (start, cs) as state. clear start cs.
  induction indices as [|i rest IH]; intros state; simpl; [reflexivity|].
  rewrite IH. apply close_parts_step_length.
Qed.

(** [fillPathCoords] leaves the importer as it was; it gives the object
    [npts] coordinates, or fails on a negative [npts] or on a hole flag on
    the first point of an area. *)
Lemma fillPathCoords_spec (object : Object.t) (is_area : bool) (npts : Z)
    (pts : OCADPoints) (st : OCAD8FileImport.t) :
  outcome (fillPathCoords object is_area npts pts st)
    (fun object' st' =>
       st' = st /\ length (Object.coords object') = Z.to_nat npts
       /\ Object.type object' = Object.type object
       /\ Object.symbol object' = Object.symbol object)
    not_null.
Proof.
  unfold fillPathCoords.
  destruct (npts <? 0); [discriminate|].
  eapply outcome_seq; [apply for_each_fillPathCoords_point_spec|].
  intros cs st1 [-> E]. cbv beta.
  rewrite length_resize in E.
  destruct object as [ty sy cs0 ro]; simpl.
  destruct ty; simpl; rewrite ?close_parts_length; auto.
Qed.

Lemma fillPathCoords_warns (object : Object.t) (is_area : bool) (npts : Z)
    (pts : OCADPoints) (st : OCAD8FileImport.t) :
  outcome (fillPathCoords object is_area npts pts st)
    (fun _ st' => only_warns st st') not_null.
Proof.
  eapply outcome_weaken; [apply fillPathCoords_spec | | auto].
  intros ? ? [-> _]. apply only_warns_refl.
Qed.

#[local] Hint Resolve fillPathCoords_warns : import_specs.

Lemma importPattern_element_spec (pts : OCADPoints) (end_ p : Z)
    (symbol : PointSymbolT) (st : OCAD8FileImport.t) :
  outcome (importPattern_element pts end_ p symbol st)
    (fun _ st' => only_warns st st') not_null.
Proof.
  unfold importPattern_element.
  repeat import_step; warns_chain.
Qed.

#[local] Hint Resolve importPattern_element_spec : import_specs.

Lemma importPattern_loop_spec (fuel : nat) (pts : OCADPoints) (end_ p : Z)
    (symbol : PointSymbolT) (st : OCAD8FileImport.t) :
  outcome (importPattern_loop fuel pts end_ p symbol st)
    (fun _ st' => only_warns st st') not_null.
Proof.
  revert p symbol st. induction fuel as [|fuel IH]; intros p symbol st; simpl.
  - destruct (p <? end_); [discriminate | apply only_warns_refl].
  - destruct (p <? end_); [|apply only_warns_refl].
    eapply outcome_seq; [apply importPattern_element_spec|].
    intros symbol1 st1 H1. cbv beta.
    eapply outcome_weaken; [apply IH | | auto].
    intros ? ? H2. cbv beta in *. warns_chain.
Qed.

Lemma importPattern_spec (fuel : nat) (npts : Z) (pts : OCADPoints)
    (st : OCAD8FileImport.t) :
  outcome (importPattern fuel npts pts st) (fun _ st' => only_warns st st') not_null.
Proof. apply importPattern_loop_spec. Qed.

(** A pattern of no points is the new rotatable point symbol, whatever
    the fuel. *)
Lemma importPattern_empty (fuel : nat) (npts : Z) (pts : OCADPoints)
    (st : OCAD8FileImport.t) :
  npts <= 0 ->
  importPattern fuel npts pts st =
    Ok (PointSymbol.set_rotatable true PointSymbol_new, st).
Proof.
  intros H. unfold importPattern.
  assert (E : (0 <? npts) = false) by lia.
  destruct fuel; simpl; rewrite E; reflexivity.
Qed.

#[local] Hint Resolve importPattern_spec : import_specs.

(** *** The whole line symbol *)

Lemma import_line_patterns_spec (fuel : nat) (s : OCADLineSymbol)
    (l : LineSymbolT) (st : OCAD8FileImport.t) :
  outcome (import_line_patterns fuel s l st)
    (fun l' st' => only_warns st st' /\ dash_fields l' = dash_fields l)
    not_null.
Proof.
  unfold import_line_patterns.
  repeat import_step; (split; [warns_chain | destruct l; reflexivity]).
Qed.

Lemma import_line_patterns_empty (fuel : nat) (s : OCADLineSymbol)
    (l : LineSymbolT) (st : OCAD8FileImport.t) :
  smnpts s <= 0 -> scnpts s <= 0 -> sbnpts s <= 0 -> senpts s <= 0 ->
  outcome (import_line_patterns fuel s l st)
    (fun l' st' => only_warns st st' /\ dash_fields l' = dash_fields l)
    never.
Proof.
  intros Hm Hc Hb He. unfold import_line_patterns.
  apply outcome_bind. rewrite importPattern_empty by exact Hm. simpl outcome.
  assert (Ec : (0 <? scnpts s) = false) by lia.
  assert (Eb : (0 <? sbnpts s) = false) by lia.
  assert (Ee : (0 <? senpts s) = false) by lia.
  rewrite Ec, Eb, Ee.
  repeat import_step; (split; [warns_chain | destruct l; reflexivity]).
Qed.

(** What [importLineSymbol] does once the two lines are there. *)
Lemma importLineSymbol_outcome (fuel : nat) (s : OCADLineSymbol)
    (st : OCAD8FileImport.t) (F : Failure -> Prop) :
  (forall l st1,
     outcome (import_line_patterns fuel s l st1)
       (fun l' st' => only_warns st1 st' /\ dash_fields l' = dash_fields l) F) ->
  outcome (importLineSymbol fuel s st)
    (fun r st' => only_warns st st' /\ is_Some r) F.
Proof.
  intros Hpat. unfold importLineSymbol.
  eapply outcome_seq; [apply outcome_never, import_main_line_total|].
  intros m st1 [W1 Hm]. cbv beta.
  eapply outcome_seq; [apply outcome_never, import_double_line_total|].
  intros d st2 [W2 Hd]. cbv beta.
  assert (Hsome : is_Some m \/ is_Some d).
  { destruct (Z.eq_dec (dmode s) 0) as [E|E];
      [left; apply Hm; auto | right; apply Hd; auto]. }
  destruct m as [ml|].
  - eapply outcome_seq; [apply Hpat|].
    intros l' st3 [W3 _]. cbv beta.
    destruct d as [dl|].
    + eapply outcome_seq; [apply outcome_never, fillCommonSymbolFields_total|].
      intros b st4 W4. cbv beta. apply outcome_ret.
      split; [warns_chain | eauto].
    + apply outcome_ret. split; [warns_chain | eauto].
  - destruct d as [dl|].
    + eapply outcome_seq; [apply Hpat|].
      intros l' st3 [W3 _]. cbv beta. apply outcome_ret.
      split; [warns_chain | simpl; eauto].
    + exfalso. destruct Hsome as [[? ?]|[? ?]]; discriminate.
Qed.


(** *** The dash pattern *)

Lemma import_cap_and_join_dashes (s : OCADLineSymbol) (l : LineSymbolT) :
  dash_fields (import_cap_and_join s l) = dash_fields l.
Proof.
  unfold import_cap_and_join.
  repeat match goal with
         | |- context [if ?c then _ else _] => destruct c
         end; destruct l; reflexivity.
Qed.

Lemma import_pointed_cap_dashes (s : OCADLineSymbol) (l : LineSymbolT)
    (st : OCAD8FileImport.t) :
  outcome (import_pointed_cap s l st)
    (fun l' st' => only_warns st st' /\ dash_fields l' = dash_fields l) never.
Proof.
  unfold import_pointed_cap.
  repeat import_step; (split; [warns_chain | destruct l; reflexivity]).
Qed.

Lemma import_dash_pattern_default (s : OCADLineSymbol) (l : LineSymbolT)
    (st : OCAD8FileImport.t) :
  len s = 100 -> gap s = 20 -> gap2 s = 0 -> elen s = 100 ->
  import_dash_pattern s l st =
    Ok (LineSymbol.set_break_length (convertSize 20)
          (LineSymbol.set_dash_length (convertSize 100)
             (LineSymbol.set_dashed true l)), st).
Proof.
  intros Hlen Hgap Hgap2 Helen. unfold import_dash_pattern.
  rewrite Hlen, Hgap, Hgap2, Helen. reflexivity.
Qed.

Lemma import_main_line_default (s : OCADLineSymbol) (st : OCAD8FileImport.t) :
  len s = 100 -> gap s = 20 -> gap2 s = 0 -> elen s = 100 ->
  LineSymbol.dashes_in_group LineSymbol_new = 1 ->
  dmode s = 0 \/ 0 < width s ->
  outcome (import_main_line s st)
    (fun m st' => exists l, m = Some l /\ dash_fields l = (true, 1000, 200, 1))
    never.
Proof.
  intros Hlen Hgap Hgap2 Helen Hnew Hmain. unfold import_main_line.
  assert (E : (dmode s =? 0) || (0 <? width s) = true)
    by (apply orb_true_iff; lia).
  rewrite E.
  eapply outcome_seq; [apply fillCommonSymbolFields_total|].
  intros b st1 _. cbv beta.
  eapply outcome_seq; [apply convertColor_total|].
  intros c st2 _. cbv beta.
  eapply outcome_seq; [apply import_pointed_cap_dashes|].
  intros l1 st3 [_ E1]. cbv beta.
  apply outcome_bind.
  rewrite (import_dash_pattern_default s l1 st3 Hlen Hgap Hgap2 Helen).
  simpl. eexists. split; [reflexivity|].
  rewrite import_cap_and_join_dashes in E1.
  unfold dash_fields in *. destruct l1; simpl in *.
  destruct LineSymbol_new; simpl in *.
  injection E1 as _ _ _ ->. rewrite Hnew. reflexivity.
Qed.

Lemma importLineSymbol_default (fuel : nat) (s : OCADLineSymbol)
    (st : OCAD8FileImport.t) :
  len s = 100 -> gap s = 20 -> gap2 s = 0 -> elen s = 100 ->
  LineSymbol.dashes_in_group LineSymbol_new = 1 ->
  dmode s = 0 ->
  outcome (importLineSymbol fuel s st)
    (fun r st' => exists l, r = Some (SymLine l)
                            /\ dash_fields l = (true, 1000, 200, 1))
    anything.
Proof.
  intros Hlen Hgap Hgap2 Helen Hnew Hmode. unfold importLineSymbol.
  eapply outcome_seq.
  { apply outcome_never.
    apply (import_main_line_default s st Hlen Hgap Hgap2 Helen Hnew). auto. }
  intros m st1 (l & -> & El). cbv beta.
  eapply outcome_seq; [apply outcome_never, import_double_line_total|].
  intros d st2 [_ Hd]. cbv beta.
  destruct d as [dl|]; [exfalso; apply Hd; eauto|].
  eapply outcome_seq.
  { eapply outcome_weaken; [apply import_line_patterns_spec | | ].
    - intros a st' H. exact H.
    - intros; exact I. }
  intros l' st3 [_ El']. cbv beta. apply outcome_ret.
  exists l'. split; [reflexivity | congruence].
Qed.


End LineSymbolProperties.



Section PathProperties.
Import CInt CFloat OCAD8FileImport.
Context {libocad : Libocad} {model : MapModel}.

(** *** The second loop *)

Lemma part_start_le (cs : list MapCoord.t) (i : nat) : (part_start cs i <= i)%nat.
Proof.
  induction i as [|i IH]; simpl; [lia|].
  destruct (MapCoord.isHolePoint (cs !!! i)); lia.
Qed.

Lemma part_start_ext (a b : list MapCoord.t) (i : nat) :
  (forall j, MapCoord.isHolePoint (a !!! j) = MapCoord.isHolePoint (b !!! j)) ->
  part_start a i = part_start b i.
Proof.
  intros H. induction i as [|i IH]; simpl; [reflexivity|].
  rewrite H, IH. reflexivity.
Qed.

Lemma isPositionEqualTo_position (a b a' b' : MapCoord.t) :
  position a = position a' -> position b = position b' ->
  MapCoord.isPositionEqualTo a b = MapCoord.isPositionEqualTo a' b'.
Proof.
  unfold position, MapCoord.isPositionEqualTo.
  intros [= -> ->] [= -> ->]. reflexivity.
Qed.

(** What the second loop makes of the point at [i]. *)
Lemma close_parts_run (cs : list MapCoord.t) (k : nat) :
  (k <= length cs)%nat ->
  let r := fold_left (close_parts_step (Z.of_nat (length cs))) (seq 0 k) (0%nat, cs) in
  length (snd r) = length cs
  /\ ((k < length cs)%nat -> fst r = part_start cs k)
  /\ (forall i, (i < k)%nat ->
        snd r !!! i =
          if closes cs i then MapCoord.setClosePoint true (cs !!! i) else cs !!! i)
  /\ (forall i, (k <= i)%nat -> snd r !!! i = cs !!! i).
Proof.
  induction k as [|k IH]; intros Hk; cbv zeta.
  - simpl. repeat split; auto. intros i Hi. lia.
  - specialize (IH ltac:(lia)). cbv zeta in IH.
    destruct IH as (Hlen & Hstart & Hdone & Hrest).
    rewrite seq_S, fold_left_app.
    destruct (fold_left _ (seq 0 k) _) as [start cur].
    cbn [fold_left fst snd Nat.add] in *.
    specialize (Hstart ltac:(lia)). subst start.
    unfold close_parts_step.
    rewrite (Hrest k) by lia.
    assert (Hcont : (Z.of_nat k <? Z.of_nat (length cs) - 1)
                    = negb (k =? length cs - 1)%nat).
    { destruct (Nat.eqb_spec k (length cs - 1)); simpl; lia. }
    rewrite Hcont, <- negb_orb. fold (part_end cs k).
    assert (Hpos : MapCoord.isPositionEqualTo (cs !!! k) (cur !!! part_start cs k)
                   = MapCoord.isPositionEqualTo (cs !!! k) (cs !!! part_start cs k)).
    { apply isPositionEqualTo_position; [reflexivity|].
      pose proof (part_start_le cs k) as Hle.
      destruct (Nat.eq_dec (part_start cs k) k) as [E|E].
      - rewrite E, Hrest by lia. reflexivity.
      - rewrite Hdone by lia.
        destruct (closes cs (part_start cs k)); [|reflexivity].
        destruct (cs !!! part_start cs k); reflexivity. }
    rewrite Hpos.
    destruct (part_end cs k) eqn:Eend; simpl.
    + (* the point ends a part *)
      assert (Hcl : closes cs k
                    = MapCoord.isPositionEqualTo (cs !!! k) (cs !!! part_start cs k)).
      { unfold closes. rewrite Eend. reflexivity. }
      destruct (MapCoord.isPositionEqualTo (cs !!! k) (cs !!! part_start cs k)) eqn:Eeq;
        simpl; rewrite ?length_alter.
      * split; [exact Hlen|]. split.
        { intros Hlt. unfold part_end in Eend.
          replace (k + 1)%nat with (S k) by lia. simpl.
          destruct (MapCoord.isHolePoint (cs !!! k)); [reflexivity|].
          simpl in Eend. apply Nat.eqb_eq in Eend. lia. }
        split.
        { intros i Hi. destruct (Nat.eq_dec i k) as [->|Hne].
          - rewrite list_lookup_total_alter_eq by lia.
            rewrite Hrest by lia. rewrite Hcl. reflexivity.
          - rewrite list_lookup_total_alter_ne by lia. apply Hdone. lia. }
        { intros i Hi. rewrite list_lookup_total_alter_ne by lia.
          apply Hrest. lia. }
      * split; [exact Hlen|]. split.
        { intros Hlt. unfold part_end in Eend.
          replace (k + 1)%nat with (S k) by lia. simpl.
          destruct (MapCoord.isHolePoint (cs !!! k)); [reflexivity|].
          simpl in Eend. apply Nat.eqb_eq in Eend. lia. }
        split.
        { intros i Hi. destruct (Nat.eq_dec i k) as [->|Hne].
          - rewrite Hrest by lia. rewrite Hcl. reflexivity.
          - apply Hdone. lia. }
        { intros i Hi. apply Hrest. lia. }
    + (* the part goes on *)
      split; [exact Hlen|]. split.
      { intros Hlt. unfold part_end in Eend.
        apply orb_false_elim in Eend as [Eh _]. rewrite Eh. reflexivity. }
      split.
      { intros i Hi. destruct (Nat.eq_dec i k) as [->|Hne].
        - rewrite Hrest by lia. unfold closes. rewrite Eend. reflexivity.
        - apply Hdone. lia. }
      { intros i Hi. apply Hrest. lia. }
Qed.

Lemma close_parts_lookup (cs : list MapCoord.t) (i : nat) :
  (i < length cs)%nat ->
  close_parts cs !!! i =
    if closes cs i then MapCoord.setClosePoint true (cs !!! i) else cs !!! i.
Proof.
  intros Hi. unfold close_parts.
  destruct (close_parts_run cs (length cs) ltac:(lia)) as (_ & _ & H & _).
  apply H, Hi.
Qed.

(** *** The first loop *)

Lemma same_view_refl (a : list MapCoord.t) : same_view a a.
Proof. split; auto. Qed.

Lemma same_view_trans (a b c : list MapCoord.t) :
  same_view a b -> same_view b c -> same_view a c.
Proof.
  intros [L1 H1] [L2 H2]. split; [congruence|].
  intros j. destruct (H1 j), (H2 j). split; congruence.
Qed.

Lemma same_view_alter (f : MapCoord.t -> MapCoord.t) (k : nat) (l : list MapCoord.t) :
  (forall c, position (f c) = position c) ->
  (forall c, MapCoord.isClosePoint (f c) = MapCoord.isClosePoint c) ->
  same_view (alter f k l) l.
Proof.
  intros Hp Hc. split; [apply length_alter|].
  intros j. rewrite list_lookup_total_alter.
  case_decide as H; [destruct H as [-> _]|]; auto.
Qed.

Lemma same_view_if (c : bool) (a b : list MapCoord.t) :
  same_view a b -> same_view (if c then a else b) b.
Proof. destruct c; [trivial | intros _; apply same_view_refl]. Qed.

Lemma fillPathCoords_point_effect (is_area : bool) (pts : OCADPoints)
    (cs : list MapCoord.t) (i : nat) (st : OCAD8FileImport.t)
    (cs' : list MapCoord.t) (st' : OCAD8FileImport.t) :
  (i < length cs)%nat ->
  fillPathCoords_point is_area pts cs i st = Ok (cs', st') ->
  st' = st /\ length cs' = length cs
  /\ (forall j, position (cs' !!! j) =
                if decide (j = i) then converted st (pts (Z.of_nat i))
                else position (cs !!! j))
  /\ (forall j, MapCoord.isClosePoint (cs' !!! j) = MapCoord.isClosePoint (cs !!! j)).
Proof.
  intros Hi. unfold fillPathCoords_point, ocad_point.
  unfold bind at 1. unfold convertPoint, bind, get, ret.
  set (coord := MapCoord.setRawY _ (MapCoord.setRawX _ (cs !!! i))).
  set (buf2 := Z.lor _ _).
  set (cs1 := <[i := coord]> cs).
  set (cs2 := if test_mask buf2 PX_CTL1 && (0 <? Z.of_nat i)
              then alter (MapCoord.setCurveStart true) (i - 1)%nat cs1 else cs1).
  set (cs3 := if test_mask buf2 (Z.shiftl PY_DASH 8) || test_mask buf2 (Z.shiftl PY_CORNER 8)
              then alter (MapCoord.setDashPoint true) i cs2 else cs2).
  assert (V2 : same_view cs2 cs1).
  { apply same_view_if, same_view_alter; intros []; reflexivity. }
  assert (V3 : same_view cs3 cs1).
  { eapply same_view_trans; [|exact V2].
    apply same_view_if, same_view_alter; intros []; reflexivity. }
  assert (Hfinal : forall cs4, same_view cs4 cs1 ->
            length cs4 = length cs
            /\ (forall j, position (cs4 !!! j) =
                          if decide (j = i) then converted st (pts (Z.of_nat i))
                          else position (cs !!! j))
            /\ (forall j, MapCoord.isClosePoint (cs4 !!! j)
                          = MapCoord.isClosePoint (cs !!! j))).
  { intros cs4 [L4 H4]. unfold cs1 in *. rewrite length_insert in L4.
    split; [exact L4|]. split; intros j; destruct (H4 j) as [P C].
    - rewrite P. rewrite list_lookup_total_insert.
      case_decide as H.
      + destruct H as [<- _]. rewrite decide_True by reflexivity.
        unfold coord, converted, position. destruct (cs !!! i); reflexivity.
      + rewrite decide_False by (intros ->; apply H; split; [reflexivity | lia]).
        reflexivity.
    - rewrite C. rewrite list_lookup_total_insert.
      case_decide as H; [|reflexivity].
      destruct H as [<- _]. unfold coord. destruct (cs !!! i); reflexivity. }
  destruct (test_mask buf2 (Z.shiftl PY_HOLE 8)).
  - destruct is_area.
    + destruct (0 <? Z.of_nat i); [|discriminate].
      intros [= <- <-]. split; [reflexivity|]. apply Hfinal.
      eapply same_view_trans; [|exact V3].
      apply same_view_alter; intros []; reflexivity.
    + intros [= <- <-]. split; [reflexivity|]. apply Hfinal.
      eapply same_view_trans; [|exact V3].
      apply same_view_alter; intros []; reflexivity.
  - intros [= <- <-]. split; [reflexivity|]. apply Hfinal, V3.
Qed.

Lemma for_each_fillPathCoords_point_effect (is_area : bool) (pts : OCADPoints)
    (m a : nat) (cs : list MapCoord.t) (st : OCAD8FileImport.t)
    (cs' : list MapCoord.t) (st' : OCAD8FileImport.t) :
  (a + m <= length cs)%nat ->
  for_each (fillPathCoords_point is_area pts) (seq a m) cs st = Ok (cs', st') ->
  st' = st /\ length cs' = length cs
  /\ (forall j, position (cs' !!! j) =
                if decide (a <= j < a + m)%nat then converted st (pts (Z.of_nat j))
                else position (cs !!! j))
  /\ (forall j, MapCoord.isClosePoint (cs' !!! j) = MapCoord.isClosePoint (cs !!! j)).
Proof.
  revert a cs. induction m as [|m IH]; intros a cs Hlen; simpl.
  - intros [= <- <-]. repeat split; auto.
    intros j. rewrite decide_False by lia. reflexivity.
  - unfold bind at 1.
    destruct (fillPathCoords_point is_area pts cs a st) as [[cs1 st1]|f] eqn:E1;
      [|discriminate].
    apply fillPathCoords_point_effect in E1 as (-> & L1 & P1 & C1); [|lia].
    intros E2. apply IH in E2 as (-> & L2 & P2 & C2); [|lia].
    split; [reflexivity|]. split; [congruence|]. split.
    + intros j. rewrite P2, P1.
      repeat case_decide; try lia; try reflexivity. subst. reflexivity.
    + intros j. rewrite C2, C1. reflexivity.
Qed.

(** *** Closed parts *)

Lemma setClosePoint_hole (v : bool) (c : MapCoord.t) :
  MapCoord.isHolePoint (MapCoord.setClosePoint v c) = MapCoord.isHolePoint c.
Proof. destruct c; reflexivity. Qed.

Lemma setClosePoint_position (v : bool) (c : MapCoord.t) :
  position (MapCoord.setClosePoint v c) = position c.
Proof. destruct c; reflexivity. Qed.

Lemma close_parts_hole (cs : list MapCoord.t) (j : nat) :
  MapCoord.isHolePoint (close_parts cs !!! j) = MapCoord.isHolePoint (cs !!! j).
Proof.
  destruct (Nat.lt_ge_cases j (length cs)) as [H|H].
  - rewrite close_parts_lookup by exact H.
    destruct (closes cs j); [apply setClosePoint_hole | reflexivity].
  - rewrite !list_lookup_total_alt.
    rewrite !lookup_ge_None_2; rewrite ?close_parts_length; auto.
Qed.

Lemma close_parts_position (cs : list MapCoord.t) (j : nat) :
  position (close_parts cs !!! j) = position (cs !!! j).
Proof.
  destruct (Nat.lt_ge_cases j (length cs)) as [H|H].
  - rewrite close_parts_lookup by exact H.
    destruct (closes cs j); [apply setClosePoint_position | reflexivity].
  - rewrite !list_lookup_total_alt.
    rewrite !lookup_ge_None_2; rewrite ?close_parts_length; auto.
Qed.

Lemma closes_close_parts (cs : list MapCoord.t) (i : nat) :
  closes (close_parts cs) i = closes cs i.
Proof.
  unfold closes, part_end.
  rewrite close_parts_hole, close_parts_length.
  rewrite (part_start_ext (close_parts cs) cs) by apply close_parts_hole.
  f_equal. apply isPositionEqualTo_position; apply close_parts_position.
Qed.

(** The close flags after the second loop, on coordinates that carried
    none before it. *)
Lemma close_parts_flags (cs : list MapCoord.t) (i : nat) :
  (i < length cs)%nat ->
  (forall j, MapCoord.isClosePoint (cs !!! j) = false) ->
  MapCoord.isClosePoint (close_parts cs !!! i) = closes (close_parts cs) i.
Proof.
  intros Hi Hno. rewrite closes_close_parts.
  rewrite close_parts_lookup by exact Hi.
  destruct (closes cs i); [destruct (cs !!! i); reflexivity | apply Hno].
Qed.

Lemma fillPathCoords_point_returns (is_area : bool) (pts : OCADPoints)
    (cs : list MapCoord.t) (i : nat) (st : OCAD8FileImport.t) :
  is_area = false \/ (0 < i)%nat
  \/ test_mask (snd (ocad_point (pts 0))) (Z.shiftl PY_HOLE 8) = false ->
  exists cs', fillPathCoords_point is_area pts cs i st = Ok (cs', st).
Proof.
  intros H. unfold fillPathCoords_point.
  destruct (ocad_point (pts (Z.of_nat i))) as [[buf0 buf1] buf2] eqn:E.
  unfold bind, convertPoint, get, ret.
  destruct (test_mask buf2 (Z.shiftl PY_HOLE 8)) eqn:Eh; [|eauto].
  destruct is_area; [|eauto].
  destruct (0 <? Z.of_nat i) eqn:Ei; [eauto|].
  exfalso. destruct H as [H|[H|H]]; [discriminate | lia |].
  assert (i = 0%nat) as -> by lia.
  change (Z.of_nat 0) with 0 in E. rewrite E in H. simpl in H. congruence.
Qed.

Lemma for_each_fillPathCoords_point_returns (is_area : bool) (pts : OCADPoints)
    (m a : nat) (cs : list MapCoord.t) (st : OCAD8FileImport.t) :
  is_area = false \/ (0 < a)%nat
  \/ test_mask (snd (ocad_point (pts 0))) (Z.shiftl PY_HOLE 8) = false ->
  exists cs',
    for_each (fillPathCoords_point is_area pts) (seq a m) cs st = Ok (cs', st).
Proof.
  revert a cs. induction m as [|m IH]; intros a cs H; simpl; [eauto|].
  destruct (fillPathCoords_point_returns is_area pts cs a st H) as [cs1 E1].
  unfold bind at 1. rewrite E1.
  apply IH. destruct H as [H|[H|H]]; [auto | right; left; lia | auto].
Qed.

Lemma isPositionEqualTo_true (a b : MapCoord.t) :
  MapCoord.isPositionEqualTo a b = true <-> position a = position b.
Proof.
  unfold MapCoord.isPositionEqualTo, position. rewrite andb_true_iff, !Z.eqb_eq.
  split; [intros [-> ->]; reflexivity | intros [= -> ->]; auto].
Qed.

(** C3.  Closed parts of an imported path.  [fillPathCoords], on a path
    object whose coordinates carry no close flag yet (a new object),
    returns for every point count that is not negative, unless the object
    is an area whose first point has the hole flag.  In what it returns,
    the points are at the converted positions of the legacy points, and
    the point at index [i] has the close flag exactly when [closes] holds
    there: it is the last point of its part (it has the hole flag, or it
    is the last point of all), and its raw position equals the raw
    position of the first point of that part (the point after the
    previous hole point, or the first point of all).  So in a path of four
    points none of whose first three has the hole flag, the last point has
    the close flag exactly when its raw position is that of the first. *)
Theorem fillPathCoords_closed_parts (object : Object.t) (is_area : bool)
    (npts : Z) (pts : OCADPoints) (st : OCAD8FileImport.t) :
  Object.type object = Object.Path ->
  Forall (fun c => MapCoord.isClosePoint c = false) (Object.coords object) ->
  (0 <= npts ->
   is_area = false
   \/ test_mask (snd (ocad_point (pts 0))) (Z.shiftl PY_HOLE 8) = false ->
   exists object', fillPathCoords object is_area npts pts st = Ok (object', st))
  /\ (forall object' st',
        fillPathCoords object is_area npts pts st = Ok (object', st') ->
        let cs := Object.coords object' in
        st' = st
        /\ length cs = Z.to_nat npts
        /\ (forall i, (i < length cs)%nat ->
              position (cs !!! i) = converted st (pts (Z.of_nat i)))
        /\ (forall i, (i < length cs)%nat ->
              MapCoord.isClosePoint (cs !!! i) = closes cs i)
        /\ (length cs = 4%nat ->
            MapCoord.isHolePoint (cs !!! 0%nat) = false ->
            MapCoord.isHolePoint (cs !!! 1%nat) = false ->
            MapCoord.isHolePoint (cs !!! 2%nat) = false ->
            (MapCoord.isClosePoint (cs !!! 3%nat) = true
             <-> position (cs !!! 3%nat) = position (cs !!! 0%nat)))).
Proof.
  intros Hty Hno. split.
  - intros Hn Harea. unfold fillPathCoords.
    assert (E : (npts <? 0) = false) by lia. rewrite E.
    destruct (for_each_fillPathCoords_point_returns is_area pts (Z.to_nat npts) 0
                (resize (Z.to_nat npts) MapCoord.new (Object.coords object)) st)
      as [cs1 E1].
    { destruct Harea; auto. }
    unfold bind. rewrite E1. rewrite Hty. eauto.
  - intros object' st'. unfold fillPathCoords.
    destruct (npts <? 0); [discriminate|].
    unfold bind.
    destruct (for_each _ _ _ st) as [[cs1 st1]|f] eqn:E1; [|discriminate].
    apply for_each_fillPathCoords_point_effect in E1 as (-> & L1 & P1 & C1);
      [|rewrite length_resize; lia].
    rewrite length_resize in L1.
    rewrite Hty. intros [= <- <-].
    destruct object as [ty sy cs0 ro]. cbn [Object.coords Object.set_coords] in *.
    assert (Hno1 : forall j, MapCoord.isClosePoint (cs1 !!! j) = false).
    { intros j. rewrite C1.
      destruct (Nat.lt_ge_cases j (length (resize (Z.to_nat npts) MapCoord.new cs0)))
        as [H|H].
      - apply (Forall_lookup_total_1
                 (fun c => MapCoord.isClosePoint c = false)); [|exact H].
        apply Forall_resize; [reflexivity | exact Hno].
      - rewrite list_lookup_total_alt, lookup_ge_None_2 by exact H. reflexivity. }
    assert (Hflags : forall i, (i < length (close_parts cs1))%nat ->
              MapCoord.isClosePoint (close_parts cs1 !!! i)
              = closes (close_parts cs1) i).
    { intros i Hi. rewrite close_parts_length in Hi.
      apply close_parts_flags; assumption. }
    split; [reflexivity|]. split; [rewrite close_parts_length; exact L1|].
    split; [|split; [exact Hflags|]].
    + intros i Hi. rewrite close_parts_length in Hi.
      rewrite close_parts_position, P1.
      rewrite decide_True by lia. reflexivity.
    + intros L4 H0 H1 H2. rewrite Hflags by lia.
      unfold closes, part_end. rewrite L4. cbn [part_start].
      rewrite H0, H1, H2. rewrite orb_true_r. cbn [andb].
      apply isPositionEqualTo_true.
Qed.

End PathProperties.

(** The closed square is imported with the close flag on its fourth
    point; with the fourth point one unit beside the first, no point has
    the flag. *)
Lemma fillPathCoords_closed_parts_witness :
  (exists o,
     OCAD8FileImport.fillPathCoords (plain_object Object.Path ElementSymbol)
       false 4 (points_of closed_square) example_importer = Ok (o, example_importer)
     /\ MapCoord.isClosePoint (Object.coords o !!! 3%nat) = true)
  /\ (exists o,
       OCAD8FileImport.fillPathCoords (plain_object Object.Path ElementSymbol)
         false 4 (points_of open_square) example_importer = Ok (o, example_importer)
       /\ MapCoord.isClosePoint (Object.coords o !!! 3%nat) = false).
Proof.
  split.
  - destruct (fillPathCoords_closed_parts (libocad := libocad_layout)
                (plain_object Object.Path ElementSymbol) false 4
                (points_of closed_square) example_importer eq_refl
                (Forall_nil_2 _))
      as [Hret Hprop].
    destruct (Hret ltac:(lia) (or_introl eq_refl)) as [o E].
    exists o. split; [exact E|].
    destruct (Hprop o _ E) as (_ & L & P & _ & H4).
    apply H4; [exact L | | | |].
    4: { rewrite !P by (rewrite L; simpl; lia). reflexivity. }
    all: vm_compute in E; injection E as <-; reflexivity.
  - destruct (fillPathCoords_closed_parts (libocad := libocad_layout)
                (plain_object Object.Path ElementSymbol) false 4
                (points_of open_square) example_importer eq_refl
                (Forall_nil_2 _))
      as [Hret Hprop].
    destruct (Hret ltac:(lia) (or_introl eq_refl)) as [o E].
    exists o. split; [exact E|].
    destruct (Hprop o _ E) as (_ & L & P & _ & H4).
    apply not_true_is_false. intros Hc.
    apply H4 in Hc; [| exact L | | |].
    2-4: vm_compute in E; injection E as <-; reflexivity.
    rewrite !P in Hc by (rewrite L; simpl; lia). vm_compute in Hc. discriminate.
Defined.

Section PatternProperties.
Import CInt CFloat OCAD8FileImport.
Context {libocad : Libocad} {model : MapModel}.

Lemma importPattern_loop_done (fuel : nat) (pts : OCADPoints) (end_ p : Z)
    (symbol : PointSymbolT) (st : OCAD8FileImport.t) :
  end_ <= p -> importPattern_loop fuel pts end_ p symbol st = Ok (symbol, st).
Proof.
  intros H. assert (E : (p <? end_) = false) by lia.
  destruct fuel; simpl; rewrite E; reflexivity.
Qed.

(** A pattern of one element takes one round of the loop. *)
Lemma importPattern_lone (fuel : nat) (npts : Z) (pts : OCADPoints)
    (st : OCAD8FileImport.t) :
  lone_element npts pts ->
  importPattern (S fuel) npts pts st =
    importPattern_element pts npts 0
      (PointSymbol.set_rotatable true PointSymbol_new) st.
Proof.
  intros [Hpos Hlone]. unfold importPattern. simpl.
  assert (E : (0 <? npts) = true) by lia. rewrite E.
  unfold bind.
  destruct (importPattern_element pts npts 0 _ st) as [[symbol st']|f];
    [|reflexivity].
  apply importPattern_loop_done. lia.
Qed.

Lemma lone_not_multiple (npts : Z) (pts : OCADPoints) :
  lone_element npts pts ->
  (0 + (2 + elt_npts (element_at pts 0)) <? npts) || (0 <? 0) = false.
Proof. intros [_ H]. rewrite orb_false_r. lia. Qed.

Lemma lone_dot (fuel : nat) (npts : Z) (pts : OCADPoints) (st : OCAD8FileImport.t) :
  lone_element npts pts ->
  elt_type (element_at pts 0) = OCAD_DOT_ELEMENT ->
  0 < Z.quot (s32 (convertSize (elt_diameter (element_at pts 0)))) 2 ->
  importPattern (S fuel) npts pts st =
    (inner_color <- convertColor (elt_color (element_at pts 0)) ;;
     ret (collapsed_dot
            (Z.quot (s32 (convertSize (elt_diameter (element_at pts 0)))) 2)
            inner_color)) st.
Proof.
  intros Hlone Hty Hr. rewrite importPattern_lone by exact Hlone.
  unfold importPattern_element.
  rewrite (lone_not_multiple _ _ Hlone), Hty.
  change (OCAD_DOT_ELEMENT =? OCAD_DOT_ELEMENT) with true. cbv iota.
  apply Z.ltb_lt in Hr. rewrite Hr. reflexivity.
Qed.

Lemma lone_circle (fuel : nat) (npts : Z) (pts : OCADPoints) (st : OCAD8FileImport.t) :
  lone_element npts pts ->
  elt_type (element_at pts 0) = OCAD_CIRCLE_ELEMENT ->
  0 < s32 (convertSize (elt_width (element_at pts 0))) ->
  0 < Z.quot (s32 (convertSize (elt_diameter (element_at pts 0)))) 2
      - s32 (convertSize (elt_width (element_at pts 0))) ->
  importPattern (S fuel) npts pts st =
    (outer_color <- convertColor (elt_color (element_at pts 0)) ;;
     ret (collapsed_circle
            (Z.quot (s32 (convertSize (elt_diameter (element_at pts 0)))) 2
             - s32 (convertSize (elt_width (element_at pts 0))))
            (s32 (convertSize (elt_width (element_at pts 0))))
            outer_color)) st.
Proof.
  intros Hlone Hty Hw Hr. rewrite importPattern_lone by exact Hlone.
  unfold importPattern_element.
  rewrite (lone_not_multiple _ _ Hlone), Hty.
  change (OCAD_CIRCLE_ELEMENT =? OCAD_DOT_ELEMENT) with false.
  change (OCAD_CIRCLE_ELEMENT =? OCAD_CIRCLE_ELEMENT) with true. cbv iota.
  apply Z.ltb_lt in Hw, Hr. rewrite Hw, Hr. reflexivity.
Qed.

Lemma no_nested_point_nil (symbol : PointSymbolT) :
  PointSymbol.elements symbol = [] -> ~ has_nested_point symbol.
Proof. intros E (o & p & H). rewrite E in H. inversion H. Qed.

Lemma addElement_nil {S : Type} (pos : Z) (object : Object.t) (s : S)
    (p : PointSymbol.t S) :
  PointSymbol.elements p = [] ->
  PointSymbol.elements (PointSymbol.addElement pos object s p) = [(object, s)].
Proof.
  intros E. destruct p as [b r ir ic ow oc els]. simpl in *. subst els.
  rewrite take_nil, drop_nil. reflexivity.
Qed.

(** The one element of a pattern leaves no nested point symbol. *)
Lemma importPattern_element_lone (npts : Z) (pts : OCADPoints)
    (symbol : PointSymbolT) (st : OCAD8FileImport.t) :
  lone_element npts pts ->
  PointSymbol.elements symbol = [] ->
  outcome (importPattern_element pts npts 0 symbol st)
    (fun symbol' _ => ~ has_nested_point symbol') anything.
Proof.
  intros Hlone Hnil. unfold importPattern_element.
  rewrite (lone_not_multiple _ _ Hlone). cbv iota.
  assert (Hsingle : forall object s,
            (forall p, s <> SymPoint p) ->
            ~ has_nested_point
                (PointSymbol.addElement (PointSymbol.getNumElements symbol)
                   object s symbol)).
  { intros object s Hs (o & p & H).
    rewrite addElement_nil in H by exact Hnil.
    apply list_elem_of_singleton in H. injection H as _ H. exact (Hs p (eq_sym H)). }
  repeat lazymatch goal with
         | |- outcome ((if ?c then _ else _) _) _ _ => destruct c
         | |- outcome (bind (convertColor _) _ _) _ _ =>
             eapply outcome_seq;
             [apply outcome_never, convertColor_total | cbv beta; intros ? ? _]
         | |- outcome (bind (fillPathCoords _ _ _ _) _ _) _ _ =>
             eapply outcome_seq;
             [ eapply outcome_weaken;
               [apply fillPathCoords_spec | intros ? ? H; exact H | intros; exact I]
             | cbv beta; intros ? ? _]
         | |- outcome (ret _ _) _ _ => apply outcome_ret
         end;
    try (apply Hsingle; intros p; discriminate);
    apply no_nested_point_nil; try assumption;
    destruct symbol; simpl in *; assumption.
Qed.

Lemma importPattern_nested_only_when_several (fuel : nat) (npts : Z)
    (pts : OCADPoints) (st : OCAD8FileImport.t) (symbol : PointSymbolT)
    (st' : OCAD8FileImport.t) :
  PointSymbol.elements PointSymbol_new = [] ->
  importPattern fuel npts pts st = Ok (symbol, st') ->
  has_nested_point symbol ->
  several_elements npts pts.
Proof.
  intros Hnew E Hnested. unfold several_elements.
  destruct (Z.lt_ge_cases (2 + elt_npts (element_at pts 0)) npts) as [H|H];
    [exact H | exfalso].
  assert (Hnil : PointSymbol.elements
                   (PointSymbol.set_rotatable true PointSymbol_new) = []).
  { destruct PointSymbol_new; simpl in *; assumption. }
  destruct (Z.lt_ge_cases 0 npts) as [Hpos|Hneg].
  - assert (Hlone : lone_element npts pts) by (split; assumption).
    destruct fuel as [|fuel].
    + unfold importPattern in E. simpl in E.
      assert (E0 : (0 <? npts) = true) by lia. rewrite E0 in E. discriminate.
    + rewrite importPattern_lone in E by exact Hlone.
      pose proof (importPattern_element_lone npts pts _ st Hlone Hnil) as Hout.
      rewrite E in Hout. exact (Hout Hnested).
  - rewrite importPattern_empty in E by lia. injection E as <- _.
    exact (no_nested_point_nil _ Hnil Hnested).
Qed.

Lemma collapsed_dot_fields (r : Z) (c : option nat) :
  PointSymbol.elements PointSymbol_new = [] ->
  ~ has_nested_point (collapsed_dot r c)
  /\ PointSymbol.elements (collapsed_dot r c) = []
  /\ PointSymbol.inner_radius (collapsed_dot r c) = r
  /\ PointSymbol.inner_color (collapsed_dot r c) = c.
Proof.
  intros Hnew. unfold collapsed_dot.
  destruct PointSymbol_new; simpl in *.
  repeat split; try assumption. apply no_nested_point_nil. assumption.
Qed.

Lemma collapsed_circle_fields (r w : Z) (c : option nat) :
  PointSymbol.elements PointSymbol_new = [] ->
  ~ has_nested_point (collapsed_circle r w c)
  /\ PointSymbol.elements (collapsed_circle r w c) = []
  /\ PointSymbol.inner_radius (collapsed_circle r w c) = r
  /\ PointSymbol.outer_width (collapsed_circle r w c) = w
  /\ PointSymbol.outer_color (collapsed_circle r w c) = c.
Proof.
  intros Hnew. unfold collapsed_circle.
  destruct PointSymbol_new; simpl in *.
  repeat split; try assumption. apply no_nested_point_nil. assumption.
Qed.

(** C8.  Decoding the element list of a point pattern (a new point symbol
    has no elements).  Whenever the decoded symbol holds a nested point
    symbol, the list holds more than one element record, drawn or not:
    after its first element it goes on.  A list of one element that is a dot of positive radius
    is decoded, in one round of the loop, into the parent itself: the
    radius and the converted colour are written to its inner-circle
    fields and it gets no element.  A list of one element that is a
    circle of positive line width and positive inner radius is decoded
    likewise into the inner radius, outer width and outer colour of the
    parent. *)
Theorem importPattern_collapses_lone_element (fuel : nat) (npts : Z)
    (pts : OCADPoints) (st : OCAD8FileImport.t) :
  PointSymbol.elements PointSymbol_new = [] ->
  let elt := element_at pts 0 in
  let radius := Z.quot (s32 (convertSize (elt_diameter elt))) 2 in
  let line := s32 (convertSize (elt_width elt)) in
  (forall symbol st',
     importPattern fuel npts pts st = Ok (symbol, st') ->
     has_nested_point symbol -> several_elements npts pts)
  /\ (lone_element npts pts ->
      elt_type elt = OCAD_DOT_ELEMENT -> 0 < radius ->
      exists color st',
        convertColor (elt_color elt) st = Ok (color, st')
        /\ importPattern (S fuel) npts pts st = Ok (collapsed_dot radius color, st')
        /\ ~ has_nested_point (collapsed_dot radius color)
        /\ PointSymbol.elements (collapsed_dot radius color) = []
        /\ PointSymbol.inner_radius (collapsed_dot radius color) = radius
        /\ PointSymbol.inner_color (collapsed_dot radius color) = color)
  /\ (lone_element npts pts ->
      elt_type elt = OCAD_CIRCLE_ELEMENT -> 0 < line -> 0 < radius - line ->
      exists color st',
        convertColor (elt_color elt) st = Ok (color, st')
        /\ importPattern (S fuel) npts pts st
           = Ok (collapsed_circle (radius - line) line color, st')
        /\ ~ has_nested_point (collapsed_circle (radius - line) line color)
        /\ PointSymbol.elements (collapsed_circle (radius - line) line color) = []
        /\ PointSymbol.inner_radius (collapsed_circle (radius - line) line color)
           = radius - line
        /\ PointSymbol.outer_width (collapsed_circle (radius - line) line color) = line
        /\ PointSymbol.outer_color (collapsed_circle (radius - line) line color) = color).
Proof.
  intros Hnew elt radius line. split; [|split].
  - intros symbol st' E Hn.
    exact (importPattern_nested_only_when_several fuel npts pts st symbol st' Hnew E Hn).
  - intros Hlone Hty Hr.
    destruct (outcome_Ok _ _ (convertColor_total (elt_color elt) st))
      as (color & st' & Ec & _).
    exists color, st'. split; [exact Ec|]. split.
    + rewrite (lone_dot fuel npts pts st Hlone Hty Hr).
      unfold bind. fold elt. rewrite Ec. reflexivity.
    + apply collapsed_dot_fields, Hnew.
  - intros Hlone Hty Hw Hr.
    destruct (outcome_Ok _ _ (convertColor_total (elt_color elt) st))
      as (color & st' & Ec & _).
    exists color, st'. split; [exact Ec|]. split.
    + rewrite (lone_circle fuel npts pts st Hlone Hty Hw Hr).
      unfold bind. fold elt. rewrite Ec. reflexivity.
    + apply collapsed_circle_fields, Hnew.
Qed.

End PatternProperties.

(** A lone dot and a lone circle are decoded into the fields of the
    parent; the dot followed by the circle gives two nested point
    symbols. *)
Lemma importPattern_collapses_lone_element_witness :
  OCAD8FileImport.importPattern 1 3 (points_of dot_pattern) example_importer
    = Ok (collapsed_dot 250 (Some 1%nat), example_importer)
  /\ OCAD8FileImport.importPattern 1 3 (points_of circle_pattern) example_importer
    = Ok (collapsed_circle 300 100 (Some 0%nat), example_importer)
  /\ (exists symbol,
        OCAD8FileImport.importPattern 2 6 (points_of dot_and_circle_pattern)
          example_importer = Ok (symbol, example_importer)
        /\ has_nested_point symbol
        /\ several_elements 6 (points_of dot_and_circle_pattern)).
Proof.
  split; [|split].
  - destruct (importPattern_collapses_lone_element (libocad := libocad_layout)
                (model := plain_model) 0 3 (points_of dot_pattern) example_importer
                eq_refl) as (_ & Hdot & _).
    destruct Hdot as (color & st' & Ec & E & _).
    + split; vm_compute; [reflexivity | discriminate].
    + reflexivity.
    + reflexivity.
    + vm_compute in Ec. injection Ec as <- <-. exact E.
  - destruct (importPattern_collapses_lone_element (libocad := libocad_layout)
                (model := plain_model) 0 3 (points_of circle_pattern) example_importer
                eq_refl) as (_ & _ & Hcircle).
    destruct Hcircle as (color & st' & Ec & E & _).
    + split; vm_compute; [reflexivity | discriminate].
    + reflexivity.
    + reflexivity.
    + reflexivity.
    + vm_compute in Ec. injection Ec as <- <-. exact E.
  - destruct (OCAD8FileImport.importPattern 2 6 (points_of dot_and_circle_pattern)
                example_importer) as [[symbol st']|f] eqn:E;
      [|vm_compute in E; discriminate].
    assert (Hn : has_nested_point symbol).
    { vm_compute in E. injection E as <- _.
      eexists _, _. apply list_elem_of_here. }
    exists symbol. split; [|split; [exact Hn|]].
    + vm_compute in E. injection E as <- <-. vm_compute. reflexivity.
    + destruct (importPattern_collapses_lone_element (libocad := libocad_layout)
                  (model := plain_model) 2 6 (points_of dot_and_circle_pattern)
                  example_importer eq_refl) as (Honly & _).
      exact (Honly symbol st' E Hn).
Defined.

(** C8 as worded, with "more than one drawable element", does not hold.
    A dot followed by a record of no known type, and a dot followed by a
    circle without line width: each pattern has one drawable element,
    and this element becomes a nested point symbol all the same, because
    the list goes on after it. *)
Lemma importPattern_nests_lone_drawable_element :
  (exists symbol,
     OCAD8FileImport.importPattern 2 5 (points_of dot_and_unknown_pattern)
       example_importer = Ok (symbol, example_importer)
     /\ has_nested_point symbol
     /\ drawable_elements 5 (points_of dot_and_unknown_pattern) 5 = 1%nat)
  /\ (exists symbol,
        OCAD8FileImport.importPattern 2 6 (points_of dot_and_flat_circle_pattern)
          example_importer = Ok (symbol, example_importer)
        /\ has_nested_point symbol
        /\ drawable_elements 6 (points_of dot_and_flat_circle_pattern) 6 = 1%nat).
Proof.
  split.
  - destruct (OCAD8FileImport.importPattern 2 5 (points_of dot_and_unknown_pattern)
                example_importer) as [[symbol st']|f] eqn:E;
      [|vm_compute in E; discriminate].
    vm_compute in E. injection E as <- <-.
    eexists. split; [reflexivity|]. split; [|reflexivity].
    eexists _, _. apply list_elem_of_here.
  - destruct (OCAD8FileImport.importPattern 2 6
                (points_of dot_and_flat_circle_pattern) example_importer)
      as [[symbol st']|f] eqn:E; [|vm_compute in E; discriminate].
    vm_compute in E. injection E as <- <-.
    eexists. split; [reflexivity|]. split; [|reflexivity].
    eexists _, _. apply list_elem_of_here.
Qed.

Section ExportStringProperties.
Import CInt OCAD8FileExport.

Lemma list_inserts_decompose {A : Type} (l k : list A) (i : nat) :
  (i + length k <= length l)%nat ->
  list_inserts i k l = take i l ++ k ++ drop (i + length k) l.
Proof.
  intros H. apply list_eq. intros j.
  destruct (decide (j < i)%nat) as [Hlt|Hge].
  - rewrite list_lookup_inserts_lt by lia.
    rewrite lookup_app_l by (rewrite length_take; lia).
    rewrite lookup_take_lt by lia. reflexivity.
  - destruct (decide (j < i + length k)%nat) as [Hin|Hout].
    + rewrite list_lookup_inserts by lia.
      rewrite lookup_app_r by (rewrite length_take; lia).
      rewrite length_take, Nat.min_l by lia.
      rewrite lookup_app_l by lia. reflexivity.
    + rewrite list_lookup_inserts_ge by lia.
      rewrite lookup_app_r by (rewrite length_take; lia).
      rewrite length_take, Nat.min_l by lia.
      rewrite lookup_app_r by lia.
      rewrite lookup_drop. f_equal. lia.
Qed.

(** What [convertPascalString] writes and records. *)
Lemma convertPascalString_effect (text : QString) (buffer : bytes)
    (buffer_size : Z) (st : OCAD8FileExport.t) :
  1 <= buffer_size <= 256 ->
  Z.of_nat (length buffer) = buffer_size ->
  length (fromUnicode (encoding_1byte st) text) = length text ->
  let max_size := Z.to_nat (buffer_size - 1) in
  let payload := take max_size (fromUnicode (encoding_1byte st) text) in
  exists buffer' st',
    convertPascalString text buffer buffer_size st = Ok (buffer', st')
    /\ buffer' = Z.of_nat (length payload) :: payload ++ drop (1 + length payload) buffer
    /\ length payload = Nat.min (length text) max_size
    /\ ((length text <= max_size)%nat -> st' = st)
    /\ ((max_size < length text)%nat ->
        st' = set_warnings
                (warnings st ++
                 [msg "String truncated (truncation marked with three '|'): %1"
                    [ArgText (take max_size text ++ qstr "|||" ++ drop max_size text)]])
                st).
Proof.
  intros Hsize Hbuf Henc max_size payload.
  assert (Hpayload : length payload = Nat.min (length text) max_size).
  { unfold payload. rewrite length_take, Henc. lia. }
  unfold convertPascalString.
  assert (E256 : negb (buffer_size <=? 256) = false)
    by (apply negb_false_iff; lia).
  rewrite E256.
  set (min_size := Z.min (Z.of_nat (length text)) (buffer_size - 1)).
  assert (Hmin : min_size = Z.of_nat (length payload)).
  { rewrite Hpayload. unfold min_size, max_size. lia. }
  assert (Hwrite : forall st0, encoding_1byte st0 = encoding_1byte st ->
            (st1 <- get ;;
             let data := fromUnicode (encoding_1byte st1) text in
             if (min_size <? 0) || (Z.of_nat (length data) <? min_size)
             then fail OutOfRange
             else ret (list_inserts 1 (take (Z.to_nat min_size) data)
                         (<[0%nat := min_size mod 256]> buffer))) st0
            = Ok (Z.of_nat (length payload) :: payload
                  ++ drop (1 + length payload) buffer, st0)).
  { intros st0 Eenc. unfold bind, get. cbv zeta. rewrite Eenc.
    assert (Ec : (min_size <? 0) || (Z.of_nat (length (fromUnicode (encoding_1byte st) text)) <? min_size) = false).
    { rewrite Henc. apply orb_false_iff. lia. }
    rewrite Ec. unfold ret. f_equal. f_equal.
    assert (Etake : take (Z.to_nat min_size) (fromUnicode (encoding_1byte st) text)
                    = payload).
    { unfold payload. rewrite Hmin, Nat2Z.id, Hpayload.
      destruct (Nat.le_ge_cases (length text) max_size) as [Hle|Hle].
      - rewrite Nat.min_l by exact Hle.
        rewrite !take_ge by (rewrite Henc; lia). reflexivity.
      - rewrite Nat.min_r by exact Hle. reflexivity. }
    rewrite Etake.
    rewrite Z.mod_small by (rewrite Hmin, Hpayload; unfold max_size; lia).
    destruct buffer as [|b0 rest]; [simpl in Hbuf; lia|].
    simpl length in Hbuf.
    rewrite Hmin.
    change (<[0%nat := Z.of_nat (length payload)]> (b0 :: rest))
      with (Z.of_nat (length payload) :: rest).
    rewrite list_inserts_decompose
      by (simpl; rewrite Hpayload; unfold max_size; lia).
    reflexivity. }
  destruct (buffer_size - 1 <? Z.of_nat (length text)) eqn:Etr.
  - (* the text is cut *)
    eexists _, _. split.
    { unfold bind at 1. simpl when.
      unfold addStringTruncationWarning, addWarning, modify.
      apply Hwrite. destruct st; reflexivity. }
    split; [reflexivity|]. split; [exact Hpayload|].
    split; [intros Hle; unfold max_size in Hle; lia|].
    intros _. unfold QString_insert.
    assert (E0 : (buffer_size - 1 <? 0) = false) by lia. rewrite E0.
    fold max_size.
    replace (max_size - length text)%nat with 0%nat by (unfold max_size; lia).
    reflexivity.
  - (* the text fits *)
    exists (Z.of_nat (length payload) :: payload ++ drop (1 + length payload) buffer), st.
    split.
    { unfold bind at 1. simpl when. unfold ret at 1. apply Hwrite. reflexivity. }
    split; [reflexivity|]. split; [exact Hpayload|].
    split; [reflexivity|].
    intros Hlt. unfold max_size in Hlt. lia.
Qed.

(** C5.  [convertPascalString] into a field of [buffer_size] bytes, with
    an encoding of one byte per character: the payload is the encoded
    text cut to [buffer_size - 1] bytes, the first byte of the field is
    the length of this payload (the smaller of the length of the text and
    [buffer_size - 1]), and the rest of the field stays as it was.  When
    the text fits, the exporter is left as it was; when it does not, one
    warning is recorded, whose argument is the text with the marker
    [|||] inserted where it is cut. *)
Theorem convertPascalString_truncates (text : QString) (buffer : bytes)
    (buffer_size : Z) (st : OCAD8FileExport.t) :
  1 <= buffer_size <= 256 ->
  Z.of_nat (length buffer) = buffer_size ->
  length (fromUnicode (encoding_1byte st) text) = length text ->
  let max_size := Z.to_nat (buffer_size - 1) in
  let payload := take max_size (fromUnicode (encoding_1byte st) text) in
  exists buffer' st',
    convertPascalString text buffer buffer_size st = Ok (buffer', st')
    /\ buffer' = Z.of_nat (length payload) :: payload ++ drop (1 + length payload) buffer
    /\ length payload = Nat.min (length text) max_size
    /\ ((length text <= max_size)%nat -> st' = st)
    /\ ((max_size < length text)%nat ->
        st' = set_warnings
                (warnings st ++
                 [msg "String truncated (truncation marked with three '|'): %1"
                    [ArgText (take max_size text ++ qstr "|||" ++ drop max_size text)]])
                st).
Proof. exact (convertPascalString_effect text buffer buffer_size st). Qed.


End ExportStringProperties.

(** A text of 300 characters written to a field of 32 bytes: the length
    byte is 31, the payload is 31 bytes, and one warning is recorded. *)
Lemma convertPascalString_truncates_witness :
  exists st',
    OCAD8FileExport.convertPascalString long_text (replicate 32 0) 32
      example_exporter = Ok (31 :: replicate 31 97, st')
    /\ length (OCAD8FileExport.warnings st') = 1%nat.
Proof.
  destruct (convertPascalString_truncates long_text (replicate 32 0) 32
              example_exporter ltac:(lia) eq_refl eq_refl)
    as (buffer' & st' & E & Eb & _ & _ & Hw).
  exists st'. split.
  - rewrite E, Eb. reflexivity.
  - rewrite Hw by (simpl; lia). reflexivity.
Defined.

Section NumberingProperties.
Import CInt OCAD8FileExport.
Context {document : QTextDocument}.

(** *** Probing for a free number *)

Lemma s16_range (z : Z) : in_s16 (s16 z).
Proof.
  unfold in_s16, s16, wrap_signed.
  pose proof (Z.mod_pos_bound (z + 2 ^ (16 - 1)) (2 ^ 16) ltac:(lia)).
  change (2 ^ (16 - 1)) with 32768 in *. change (2 ^ 16) with 65536 in *.
  change (2 ^ 15) with 32768. lia.
Qed.

Lemma s16_add_s16 (a b : Z) : s16 (s16 a + b) = s16 (a + b).
Proof.
  unfold s16, wrap_signed. f_equal.
  replace ((a + 2 ^ (16 - 1)) mod 2 ^ 16 - 2 ^ (16 - 1) + b + 2 ^ (16 - 1))
    with ((a + 2 ^ (16 - 1)) mod 2 ^ 16 + b) by lia.
  rewrite Zplus_mod_idemp_l. f_equal. lia.
Qed.

Lemma s16_inj (n i j : Z) :
  0 <= i < 65536 -> 0 <= j < 65536 -> s16 (n + i) = s16 (n + j) -> i = j.
Proof.
  unfold s16, wrap_signed. change (2 ^ (16 - 1)) with 32768. change (2 ^ 16) with 65536.
  intros Hi Hj E.
  assert (E' : (n + i + 32768) mod 65536 = (n + j + 32768) mod 65536) by lia.
  pose proof (Z.div_mod (n + i + 32768) 65536 ltac:(lia)) as D1.
  pose proof (Z.div_mod (n + j + 32768) 65536 ltac:(lia)) as D2.
  rewrite E' in D1. lia.
Qed.

Lemma unique_number_fresh (fuel : nat) (numbers : gset Z) (number v : Z) :
  unique_number fuel numbers number = Some v -> v ∉ numbers.
Proof.
  revert number. induction fuel as [|fuel IH]; intros number; simpl;
    case_bool_decide as H; try discriminate.
  - intros [= <-]. exact H.
  - apply IH.
  - intros [= <-]. exact H.
Qed.

Lemma unique_number_found (j fuel : nat) (numbers : gset Z) (n : Z) :
  (forall i, (i < j)%nat -> s16 (n + Z.of_nat i) ∈ numbers) ->
  s16 (n + Z.of_nat j) ∉ numbers ->
  (j <= fuel)%nat ->
  unique_number fuel numbers (s16 n) = Some (s16 (n + Z.of_nat j)).
Proof.
  revert fuel n. induction j as [|j IH]; intros fuel n Hin Hout Hfuel.
  - rewrite Z.add_0_r in Hout.
    destruct fuel; simpl; rewrite bool_decide_eq_false_2 by exact Hout;
      rewrite Z.add_0_r; reflexivity.
  - destruct fuel as [|fuel]; [lia|]. simpl.
    pose proof (Hin 0%nat ltac:(lia)) as H0. rewrite Z.add_0_r in H0.
    rewrite bool_decide_eq_true_2 by exact H0.
    rewrite s16_add_s16.
    rewrite (IH fuel (n + 1)).
    + f_equal. f_equal. lia.
    + intros i Hi. specialize (Hin (S i) ltac:(lia)).
      replace (n + 1 + Z.of_nat i) with (n + Z.of_nat (S i)) by lia. exact Hin.
    + replace (n + 1 + Z.of_nat j) with (n + Z.of_nat (S j)) by lia. exact Hout.
    + lia.
Qed.

(** Not more numbers than the set holds can all be taken. *)
Lemma taken_bound (m : nat) (numbers : gset Z) (n : Z) :
  Z.of_nat m <= 65536 ->
  (forall i, (i < m)%nat -> s16 (n + Z.of_nat i) ∈ numbers) ->
  (m <= size numbers)%nat.
Proof.
  intros Hm Hin.
  set (l := (fun i : nat => s16 (n + Z.of_nat i)) <$> seq 0 m).
  assert (Hnd : NoDup l).
  { apply NoDup_fmap_2_strong; [|apply NoDup_seq].
    intros x y Hx Hy E. apply elem_of_seq in Hx, Hy.
    apply s16_inj in E; [lia | lia | lia]. }
  assert (Hsub : (list_to_set l : gset Z) ⊆ numbers).
  { intros v Hv. apply elem_of_list_to_set in Hv.
    apply list_elem_of_fmap in Hv as (i & -> & Hi).
    apply elem_of_seq in Hi. apply Hin. lia. }
  apply subseteq_size in Hsub.
  rewrite size_list_to_set in Hsub by exact Hnd.
  unfold l in Hsub. rewrite length_fmap, length_seq in Hsub. exact Hsub.
Qed.

Lemma first_free (m : nat) (numbers : gset Z) (n : Z) :
  (forall i, (i < m)%nat -> s16 (n + Z.of_nat i) ∈ numbers)
  \/ (exists j, (j < m)%nat /\ (s16 (n + Z.of_nat j) ∉ numbers)
                /\ (forall i, (i < j)%nat -> s16 (n + Z.of_nat i) ∈ numbers)).
Proof.
  induction m as [|m [IH|IH]].
  - left. intros i Hi. lia.
  - destruct (decide (s16 (n + Z.of_nat m) ∈ numbers)) as [H|H].
    + left. intros i Hi. destruct (decide (i = m)) as [->|]; [exact H|].
      apply IH. lia.
    + right. exists m. split; [lia|]. split; [exact H|]. exact IH.
  - right. destruct IH as (j & Hj & H). exists j. split; [lia | exact H].
Qed.

(** The loop finds a number that is not taken, within as many rounds as
    numbers are taken, as long as not all 65536 numbers are. *)
Lemma unique_number_total (fuel : nat) (numbers : gset Z) (n : Z) :
  (size numbers <= fuel)%nat -> Z.of_nat (size numbers) < 65536 ->
  exists v, unique_number fuel numbers (s16 n) = Some v /\ v ∉ numbers.
Proof.
  intros Hfuel Hsize.
  destruct (first_free (S (size numbers)) numbers n) as [Hall|(j & Hj & Hout & Hin)].
  - apply taken_bound in Hall; lia.
  - exists (s16 (n + Z.of_nat j)). split; [|exact Hout].
    apply unique_number_found; [exact Hin | exact Hout | lia].
Qed.

(** *** Steps of the export *)

Lemma export_outcome_seq {A B : Type} (m : M A) (k : A -> M B)
    (st : OCAD8FileExport.t) (P : A -> OCAD8FileExport.t -> Prop)
    (Q : B -> OCAD8FileExport.t -> Prop) (F : Failure -> Prop) :
  outcome (m st) P F ->
  (forall a st', P a st' -> outcome (k a st') Q F) ->
  outcome (bind m k st) Q F.
Proof.
  intros Hm Hk. unfold bind.
  destruct (m st) as [[a st']|f]; simpl in *; auto.
Qed.

Lemma bind_assoc_export {A B C : Type} (m : M A) (k1 : A -> M B) (k2 : B -> M C)
    (st : OCAD8FileExport.t) :
  bind (bind m k1) k2 st = bind m (fun a => bind (k1 a) k2) st.
Proof. unfold bind. destruct (m st) as [[a st']|f]; reflexivity. Qed.

Lemma bind_Ok {A B : Type} (m : M A) (k : A -> M B) (st st' : OCAD8FileExport.t)
    (a : A) :
  m st = Ok (a, st') -> bind m k st = k a st'.
Proof. intros E. unfold bind. rewrite E. reflexivity. Qed.

Lemma same_numbering_ret {A : Type} (a : A) : same_numbering (ret a).
Proof. intros st. simpl. auto. Qed.

Lemma same_numbering_bind {A B : Type} (m : M A) (k : A -> M B) :
  same_numbering m -> (forall a, same_numbering (k a)) ->
  same_numbering (bind m k).
Proof.
  intros Hm Hk st. eapply export_outcome_seq; [apply Hm|].
  intros a st1 (E1 & E2 & E3). cbv beta.
  eapply outcome_weaken_any; [apply Hk|].
  intros b st2 (E4 & E5 & E6). cbv beta in *. repeat split; congruence.
Qed.

Lemma same_numbering_addWarning (m : Message) : same_numbering (addWarning m).
Proof. intros st. destruct st; simpl. auto. Qed.

Lemma same_numbering_when (c : bool) (body : M unit) :
  same_numbering body -> same_numbering (when c body).
Proof. destruct c; [trivial | intros _; apply same_numbering_ret]. Qed.

Lemma same_numbering_fail {A : Type} (f : Failure) : same_numbering (fail (A := A) f).
Proof. intros st. exact I. Qed.

Lemma same_numbering_convertPascalString (text : QString) (buffer : bytes)
    (buffer_size : Z) :
  same_numbering (convertPascalString text buffer buffer_size).
Proof.
  unfold convertPascalString.
  destruct (negb (buffer_size <=? 256)); [apply same_numbering_fail|].
  apply same_numbering_bind.
  { apply same_numbering_when. unfold addStringTruncationWarning.
    apply same_numbering_addWarning. }
  intros _. apply same_numbering_bind.
  { intros st. simpl. auto. }
  intros st0. cbv zeta.
  destruct (_ || _); [apply same_numbering_fail | apply same_numbering_ret].
Qed.

Lemma numbering_invariant_emit (st st' : OCAD8FileExport.t) (v : Z) :
  numbering_invariant st ->
  v ∉ symbol_numbers st ->
  symbol_numbers st' = {[v]} ∪ symbol_numbers st ->
  emitted_numbers st' = emitted_numbers st ++ [v] ->
  numbering_invariant st'.
Proof.
  intros [Hnd Hset] Hv Hs He. unfold numbering_invariant.
  rewrite Hs, He. split.
  - apply NoDup_app. split; [exact Hnd|]. split; [|apply NoDup_singleton].
    intros x Hx Hx'. apply list_elem_of_singleton in Hx'. subst x.
    apply Hv. rewrite Hset. apply elem_of_list_to_set. exact Hx.
  - rewrite Hset. rewrite list_to_set_app_L. simpl.
    rewrite union_empty_r_L. apply union_comm_L.
Qed.

Lemma numbering_invariant_same (st st' : OCAD8FileExport.t) :
  numbering_invariant st ->
  symbol_numbers st' = symbol_numbers st ->
  emitted_numbers st' = emitted_numbers st ->
  numbering_invariant st'.
Proof. unfold numbering_invariant. intros H -> ->. exact H. Qed.

Lemma same_numbering_keeps {A : Type} (m : M A) :
  same_numbering m -> keeps_numbering m.
Proof.
  intros Hm st Hinv. eapply outcome_weaken_any; [apply Hm|].
  intros a st' (E1 & E2 & _). cbv beta. eapply numbering_invariant_same; eauto.
Qed.

Lemma keeps_numbering_bind {A B : Type} (m : M A) (k : A -> M B) :
  keeps_numbering m -> (forall a, keeps_numbering (k a)) ->
  keeps_numbering (bind m k).
Proof.
  intros Hm Hk st Hinv. eapply export_outcome_seq; [apply Hm, Hinv|].
  intros a st1 H1. cbv beta. apply Hk, H1.
Qed.

Lemma register_unique_number_spec (fuel : nat) (number : Z) (st : OCAD8FileExport.t) :
  outcome (register_unique_number fuel number st)
    (fun v st' =>
       st' = set_symbol_numbers ({[v]} ∪ symbol_numbers st) st
       /\ v ∉ symbol_numbers st)
    anything.
Proof.
  unfold register_unique_number, bind, get.
  destruct (unique_number fuel (symbol_numbers st) number) as [v|] eqn:E;
    [|exact I].
  simpl. split; [reflexivity|]. eapply unique_number_fresh, E.
Qed.

(** A record that gets a number from the loop and is then appended. *)
Lemma keeps_numbering_emit (fuel : nat) (number : Z)
    (record : Z -> OCADSymbolRecord) {A : Type} (k : Z -> M A) :
  (forall v, rec_number (record v) = v) ->
  (forall v, same_numbering (k v)) ->
  keeps_numbering
    (v <- register_unique_number fuel number ;;
     modify (fun st => set_file_symbols (file_symbols st ++ [record v]) st) ;;;
     k v).
Proof.
  intros Hrec Hk st Hinv.
  eapply export_outcome_seq; [apply register_unique_number_spec|].
  intros v st1 [-> Hv]. cbv beta.
  unfold bind at 1, modify at 1.
  eapply outcome_weaken_any; [apply Hk|].
  intros a st2 (E1 & E2 & _). cbv beta.
  eapply (numbering_invariant_emit st st2 v Hinv Hv).
  - rewrite E1. destruct st; reflexivity.
  - rewrite E2. destruct st; unfold emitted_numbers; simpl.
    rewrite fmap_app. simpl. rewrite Hrec. reflexivity.
Qed.

Lemma exportCommonSymbolFields_spec (fuel : nat) (symbol : SymbolT)
    (ocad_symbol : OCADSymbolRecord) (st : OCAD8FileExport.t) :
  outcome (exportCommonSymbolFields fuel symbol ocad_symbol st)
    (fun r st' =>
       symbol_numbers st' = {[rec_number r]} ∪ symbol_numbers st
       /\ (rec_number r ∉ symbol_numbers st)
       /\ emitted_numbers st' = emitted_numbers st
       /\ encoding_1byte st' = encoding_1byte st)
    anything.
Proof.
  unfold exportCommonSymbolFields.
  eapply export_outcome_seq; [apply same_numbering_convertPascalString|].
  intros name st1 (E1 & E2 & E3). cbv beta zeta.
  eapply export_outcome_seq; [apply register_unique_number_spec|].
  intros v st2 [-> Hv]. cbv beta.
  assert (Hnum : forall r, rec_number (set_rec_number v r) = v)
    by (intros []; reflexivity).
  assert (Hstatus : forall s r, rec_number (set_rec_status s r) = rec_number r)
    by (intros s []; reflexivity).
  destruct (Symbol.is_protected _), (Symbol.is_hidden _); simpl;
    rewrite ?Hstatus, Hnum;
    rewrite <- E1, <- E2, <- E3; destruct st1; simpl; auto.
Qed.

Lemma keeps_numbering_exportSymbolOfKind (kind : Z) (fuel : nat) (symbol : SymbolT) :
  keeps_numbering (exportSymbolOfKind kind fuel symbol).
Proof.
  intros st Hinv. unfold exportSymbolOfKind.
  eapply export_outcome_seq; [apply exportCommonSymbolFields_spec|].
  intros r st1 (E1 & Hv & E2 & _). cbv beta zeta.
  unfold bind, modify, ret. simpl.
  eapply (numbering_invariant_emit st _ (rec_number r) Hinv Hv).
  - destruct st1; simpl in *. exact E1.
  - destruct st1; unfold emitted_numbers in *; simpl in *.
    rewrite fmap_app, E2. simpl. destruct r; reflexivity.
Qed.

Lemma same_numbering_modify (f : OCAD8FileExport.t -> OCAD8FileExport.t) :
  (forall st, symbol_numbers (f st) = symbol_numbers st
              /\ file_symbols (f st) = file_symbols st
              /\ encoding_1byte (f st) = encoding_1byte st) ->
  same_numbering (modify f).
Proof.
  intros H st. simpl. destruct (H st) as (E1 & E2 & E3).
  unfold emitted_numbers. rewrite E2. auto.
Qed.

Lemma keeps_numbering_doExport_symbol (fuel i : nat) (symbol : SymbolT) :
  keeps_numbering (doExport_symbol fuel i symbol).
Proof.
  unfold doExport_symbol. apply keeps_numbering_bind.
  - destruct symbol; try apply keeps_numbering_exportSymbolOfKind.
    apply same_numbering_keeps, same_numbering_ret.
  - intros index. apply same_numbering_keeps, same_numbering_when.
    apply same_numbering_modify. intros []; auto.
Qed.

Lemma keeps_numbering_for_each_from {A : Type} (body : nat -> A -> M unit)
    (i : nat) (items : list A) :
  (forall j a, keeps_numbering (body j a)) ->
  keeps_numbering (for_each_from body i items).
Proof.
  intros Hbody. revert i. induction items as [|a rest IH]; intros i; simpl.
  - apply same_numbering_keeps, same_numbering_ret.
  - apply keeps_numbering_bind; [apply Hbody | intros _; apply IH].
Qed.

Lemma emitted_numbers_insert (l : list OCADSymbolRecord) (pos : nat)
    (r r' : OCADSymbolRecord) :
  l !! pos = Some r -> rec_number r' = rec_number r ->
  rec_number <$> <[pos := r']> l = rec_number <$> l.
Proof.
  intros Hl Hr. rewrite list_fmap_insert, Hr.
  apply list_insert_id. rewrite list_lookup_fmap, Hl. reflexivity.
Qed.

Lemma setTextSymbolFormatting_number (r : OCADSymbolRecord)
    (a : HorizontalAlignment) :
  rec_number (setTextSymbolFormatting r a) = rec_number r.
Proof. destruct r, a; reflexivity. Qed.

Lemma keeps_numbering_text_object_symbol (fuel : nat) (object : MapObject) (it : Z) :
  keeps_numbering (text_object_symbol fuel object it).
Proof.
  intros st Hinv. unfold text_object_symbol. unfold bind at 1, get at 1.
  destruct (text_format_map st !! mo_symbol object) as [format_list|].
  - destruct (list_find _ format_list) as [[pos entry]|]; [exact Hinv|].
    unfold ocad_symbol.
    destruct (list_find _ (file_symbols st)) as [[pos r]|] eqn:Efind; [|exact I].
    eapply export_outcome_seq; [apply register_unique_number_spec|].
    intros v st1 [-> Hv]. cbv beta zeta.
    unfold bind, modify, ret. simpl.
    eapply (numbering_invariant_emit st _ v Hinv Hv).
    + destruct st; reflexivity.
    + destruct st; unfold emitted_numbers; simpl.
      rewrite fmap_app. simpl. f_equal.
      destruct (setTextSymbolFormatting r (mo_halign object)); reflexivity.
  - unfold ocad_symbol.
    destruct (list_find _ (file_symbols st)) as [[pos r]|] eqn:Efind; [|exact I].
    apply list_find_Some in Efind as (Hl & _ & _).
    unfold bind, modify, ret. simpl.
    eapply numbering_invariant_same; [exact Hinv | destruct st; reflexivity |].
    destruct st; unfold emitted_numbers; simpl in *.
    eapply emitted_numbers_insert; [exact Hl|].
    apply setTextSymbolFormatting_number.
Qed.

Lemma keeps_numbering_doExport_object_entry (fuel : nat) (object : MapObject)
    (it : Z) :
  keeps_numbering (doExport_object_entry fuel object it).
Proof.
  unfold doExport_object_entry. apply keeps_numbering_bind.
  - destruct (mo_type object);
      try apply keeps_numbering_text_object_symbol;
      apply same_numbering_keeps, same_numbering_ret.
  - intros index. apply same_numbering_keeps.
    apply same_numbering_bind; [intros st; simpl; auto|].
    intros st0. apply same_numbering_modify. intros []; auto.
Qed.

Lemma keeps_numbering_for_each_number (body : Z -> M unit) (numbers : list Z) :
  (forall it, keeps_numbering (body it)) ->
  keeps_numbering (for_each_number body numbers).
Proof.
  intros Hbody. induction numbers as [|it rest IH]; simpl.
  - apply same_numbering_keeps, same_numbering_ret.
  - apply keeps_numbering_bind; [apply Hbody | intros _; apply IH].
Qed.

Lemma keeps_numbering_doExport_object (fuel : nat) (object : MapObject) :
  keeps_numbering (doExport_object fuel object).
Proof.
  intros st Hinv. unfold doExport_object. unfold bind at 1, get at 1.
  apply keeps_numbering_for_each_number; [|exact Hinv].
  intros it. apply keeps_numbering_doExport_object_entry.
Qed.

Lemma keeps_numbering_doExport_objects (fuel : nat) (objects : list MapObject) :
  keeps_numbering (doExport_objects fuel objects).
Proof.
  induction objects as [|object rest IH]; simpl.
  - apply same_numbering_keeps, same_numbering_ret.
  - apply keeps_numbering_bind;
      [apply keeps_numbering_doExport_object | intros _; apply IH].
Qed.

Lemma keeps_numbering_doExport (closure : list SymbolT -> nat -> list bool)
    (fuel : nat) (map : Map) :
  keeps_numbering (doExport closure fuel map).
Proof.
  unfold doExport. apply keeps_numbering_bind.
  { apply keeps_numbering_for_each_from. intros j a.
    apply keeps_numbering_doExport_symbol. }
  intros _. apply keeps_numbering_bind.
  { apply keeps_numbering_for_each_from. intros j a.
    apply same_numbering_keeps. unfold doExport_combined.
    destruct a; try apply same_numbering_ret.
    apply same_numbering_bind.
    - intros st. simpl. auto.
    - intros numbers. apply same_numbering_modify. intros []; auto. }
  intros _. apply keeps_numbering_doExport_objects.
Qed.

Lemma register_unique_number_total (fuel : nat) (n : Z) (st : OCAD8FileExport.t) :
  (size (symbol_numbers st) <= fuel)%nat ->
  Z.of_nat (size (symbol_numbers st)) < 65536 ->
  exists v,
    register_unique_number fuel (s16 n) st
      = Ok (v, set_symbol_numbers ({[v]} ∪ symbol_numbers st) st)
    /\ (v ∉ symbol_numbers st).
Proof.
  intros Hfuel Hsize.
  destruct (unique_number_total fuel (symbol_numbers st) n Hfuel Hsize)
    as (v & E & Hv).
  exists v. split; [|exact Hv].
  unfold register_unique_number, bind, get. rewrite E. reflexivity.
Qed.

(** C7.  The numbers of the symbol records of one export are pairwise
    distinct.  In an exporter whose records so far have distinct numbers,
    all of them in the set of assigned numbers: the loop that probes a
    number against this set and increments it ends on a number that is
    not in the set, as long as fewer than 65536 numbers are assigned (and
    the fuel covers them), and the number is then registered; every step
    that emits a record (a symbol of the map, or the copy of a text symbol
    made for an object of another alignment) goes through this loop
    before the record is registered, so that the records are again of
    distinct numbers after each symbol, after each object, and after the
    whole export, whatever prefix of the symbols and objects has been
    written. *)
Theorem symbol_numbers_stay_distinct (closure : list SymbolT -> nat -> list bool)
    (fuel : nat) (st : OCAD8FileExport.t) :
  numbering_invariant st ->
  (forall n,
     (size (symbol_numbers st) <= fuel)%nat ->
     Z.of_nat (size (symbol_numbers st)) < 65536 ->
     exists v,
       register_unique_number fuel (s16 n) st
         = Ok (v, set_symbol_numbers ({[v]} ∪ symbol_numbers st) st)
       /\ (v ∉ symbol_numbers st))
  /\ (forall i symbols st',
        for_each_from (doExport_symbol fuel) i symbols st = Ok (tt, st') ->
        NoDup (emitted_numbers st') /\ numbering_invariant st')
  /\ (forall objects st',
        doExport_objects fuel objects st = Ok (tt, st') ->
        NoDup (emitted_numbers st') /\ numbering_invariant st')
  /\ (forall map st',
        doExport closure fuel map st = Ok (tt, st') ->
        NoDup (emitted_numbers st') /\ numbering_invariant st').
Proof.
  intros Hinv. split; [|split; [|split]].
  - intros n. apply register_unique_number_total.
  - intros i symbols st' E.
    pose proof (keeps_numbering_for_each_from (doExport_symbol fuel) i symbols
                  (fun j a => keeps_numbering_doExport_symbol fuel j a) st Hinv) as H.
    rewrite E in H. split; [apply H | exact H].
  - intros objects st' E.
    pose proof (keeps_numbering_doExport_objects fuel objects st Hinv) as H.
    rewrite E in H. split; [apply H | exact H].
  - intros map st' E.
    pose proof (keeps_numbering_doExport closure fuel map st Hinv) as H.
    rewrite E in H. split; [apply H | exact H].
Qed.

End NumberingProperties.

(** The export of the example map: three symbols ask for 10.1 and get
    101, 102 and 103, the text symbol 10.2 gets 104, and its copies for
    the centred and the right-aligned text get 105 and 106. *)
Lemma symbol_numbers_stay_distinct_witness :
  exists st',
    OCAD8FileExport.doExport (document := tag_free_document)
      no_closure 10 example_map example_exporter = Ok (tt, st')
    /\ emitted_numbers st' = [101; 102; 103; 104; 105; 106]
    /\ NoDup (emitted_numbers st').
Proof.
  assert (Hinv : numbering_invariant example_exporter).
  { split; [apply NoDup_nil_2 | reflexivity]. }
  destruct (symbol_numbers_stay_distinct (document := tag_free_document)
              no_closure 10 example_exporter Hinv)
    as (_ & _ & _ & Hrun).
  destruct (OCAD8FileExport.doExport (document := tag_free_document)
              no_closure 10 example_map example_exporter)
    as [[[] st']|f] eqn:E; [|vm_compute in E; discriminate].
  exists st'. split; [reflexivity|]. split; [|apply (Hrun example_map st' E)].
  vm_compute in E. injection E as <-. reflexivity.
Defined.

(** * Strings *)

Section ImportStringProperties.
Import OCAD8FileImport.

Lemma until_zero_prefix (p : bytes) :
  until_zero p = take (length (until_zero p)) p.
Proof.
  induction p as [|c p IH]; simpl; [reflexivity|].
  destruct (c =? 0); simpl; [reflexivity|]. f_equal. exact IH.
Qed.

Lemma until_zero_length (p : bytes) : (length (until_zero p) <= length p)%nat.
Proof.
  induction p as [|c p IH]; simpl; [lia|].
  destruct (c =? 0); simpl; lia.
Qed.

Lemma until_zero_nonzero (p : bytes) : Forall (fun c => c <> 0) (until_zero p).
Proof.
  induction p as [|c p IH]; simpl; [constructor|].
  destruct (c =? 0) eqn:E; [constructor|].
  constructor; [lia | exact IH].
Qed.

Lemma until_zero_all (p : bytes) :
  Forall (fun c => c <> 0) p -> until_zero p = p.
Proof.
  induction 1 as [|c p Hc _ IH]; simpl; [reflexivity|].
  destruct (c =? 0) eqn:E; [lia|]. f_equal. exact IH.
Qed.

Lemma until_zero_app (p q : bytes) :
  Forall (fun c => c <> 0) p -> until_zero (p ++ 0 :: q) = p.
Proof.
  induction 1 as [|c p Hc _ IH]; simpl; [reflexivity|].
  destruct (c =? 0) eqn:E; [lia|]. f_equal. exact IH.
Qed.

(** The loop of [convertCString] stops at the first zero byte, or after
    [left] bytes. *)
Lemma scan_terminator_spec (p : bytes) (left i : nat) :
  (i + left <= length p)%nat \/ 0 ∈ drop i p ->
  scan_terminator p left i
  = Ok (i + length (until_zero (take left (drop i p))))%nat.
Proof.
  revert i. induction left as [|left IH]; intros i H; simpl.
  - f_equal. lia.
  - unfold char_at. destruct (p !! i) as [c|] eqn:E.
    + rewrite (drop_S _ _ _ E). simpl.
      destruct (c =? 0) eqn:Ec; simpl; [f_equal; lia|].
      rewrite IH.
      * f_equal. lia.
      * destruct H as [H|H]; [left; lia|].
        right. rewrite (drop_S _ _ _ E) in H.
        apply elem_of_cons in H as [H|H]; [lia | exact H].
    + apply lookup_ge_None in E. destruct H as [H|H]; [lia|].
      rewrite drop_ge in H by lia. inversion H.
Qed.

Lemma take_until_zero (p : bytes) (n : nat) :
  take (length (until_zero (take n p))) p = until_zero (take n p).
Proof.
  rewrite (until_zero_prefix (take n p)) at 2.
  rewrite take_take. f_equal.
  pose proof (until_zero_length (take n p)) as H.
  rewrite length_take in H. lia.
Qed.

Lemma convertCString_effect (p : bytes) (n : nat) (ignore_first_newline : bool)
    (st : t) :
  (n <= length p)%nat \/ 0 ∈ p ->
  let body := until_zero (take n p) in
  let skip := ignore_first_newline && (2 <=? n)%nat && leading_newline p in
  convertCString p n ignore_first_newline st
  = Ok (toUnicode (encoding_1byte st) (if skip then drop 2 body else body), st).
Proof.
  intros H body skip. unfold convertCString.
  unfold bind at 1. unfold lift at 1.
  rewrite scan_terminator_spec by (rewrite drop_0; exact H).
  rewrite drop_0. fold body. simpl Nat.add.
  assert (Hnl : starts_with_newline p n = Ok ((2 <=? n)%nat && leading_newline p)).
  { unfold starts_with_newline, leading_newline, char_at.
    destruct (2 <=? n)%nat eqn:En; [|reflexivity]. apply Nat.leb_le in En.
    destruct p as [|c0 p]; [exfalso; destruct H as [H|H]; [simpl in H; lia | inversion H]|].
    simpl. destruct (c0 =? 13) eqn:E0.
    - apply Z.eqb_eq in E0. subst c0.
      destruct p as [|c1 p].
      + exfalso. destruct H as [H|H]; [simpl in H; lia|].
        apply elem_of_cons in H as [H|H]; [lia | inversion H].
      + simpl. f_equal. destruct (c1 =? 10) eqn:E1.
        * apply Z.eqb_eq in E1. subst c1. symmetry. apply bool_decide_eq_true. reflexivity.
        * symmetry. apply bool_decide_eq_false. intros Heq. inversion Heq. lia.
    - f_equal. symmetry. apply bool_decide_eq_false.
      intros Heq. destruct p; inversion Heq; lia. }
  unfold bind at 1.
  destruct ignore_first_newline.
  - unfold lift. rewrite Hnl. cbn [andb] in skip.
    unfold bind, get. fold skip. destruct skip eqn:Es.
    + apply andb_prop in Es as [En Enl]. apply Nat.leb_le in En.
      apply bool_decide_eq_true in Enl.
      assert (Hbody : exists rest, body = 13 :: 10 :: rest).
      { unfold body. destruct p as [|c0 [|c1 p]]; try discriminate Enl.
        simpl in Enl. inversion Enl. subst.
        destruct n as [|[|n]]; try lia. simpl. eexists. reflexivity. }
      destruct Hbody as [rest Hbody].
      assert (Hlen : (length body <? 2)%nat = false)
        by (apply Nat.ltb_ge; rewrite Hbody; simpl; lia).
      rewrite Hlen. unfold ret. f_equal. f_equal. f_equal.
      rewrite take_drop_commute.
      replace (2 + (length body - 2))%nat with (length body)
        by (rewrite Hbody; simpl; lia).
      unfold body at 1. rewrite take_until_zero. reflexivity.
    + unfold ret. f_equal. f_equal. f_equal. apply take_until_zero.
  - unfold ret at 1. cbn [andb] in skip. unfold skip.
    unfold bind, get, ret. f_equal. f_equal. f_equal. apply take_until_zero.
Qed.

(** X1.  [convertCString] of the importer, on memory that holds [n]
    bytes or ends behind a zero byte: the text is decoded from the bytes
    before the first zero byte among the first [n], without the carriage
    return and line feed they start with when these are to be ignored.
    The length that is decoded never wraps around, nothing is read
    outside the memory, the bytes decoded are at most [n] and none of
    them is zero, and the importer is left as it was (no warning). *)
Theorem convertCString_reads_to_terminator (p : bytes) (n : nat)
    (ignore_first_newline : bool) (st : t) :
  (n <= length p)%nat \/ 0 ∈ p ->
  let body := until_zero (take n p) in
  let skip := ignore_first_newline && (2 <=? n)%nat && leading_newline p in
  convertCString p n ignore_first_newline st
  = Ok (toUnicode (encoding_1byte st) (if skip then drop 2 body else body), st)
  /\ (length body <= n)%nat
  /\ Forall (fun c => c <> 0) body.
Proof.
  intros H body skip.
  split; [exact (convertCString_effect p n ignore_first_newline st H)|].
  split; [|apply until_zero_nonzero].
  unfold body. pose proof (until_zero_length (take n p)) as Hl.
  rewrite length_take in Hl. lia.
Qed.

Lemma pair_induction (P : bytes -> Prop) :
  P [] -> (forall c, P [c]) ->
  (forall lo hi p, P p -> P (lo :: hi :: p)) ->
  forall p, P p.
Proof.
  intros H0 H1 H2 p.
  assert (H : P p /\ forall c, P (c :: p)); [|exact (proj1 H)].
  induction p as [|c p [IH IH']]; [split; [exact H0 | exact H1]|].
  split; [apply IH'|]. intros c'. apply H2, IH.
Qed.

Lemma until_zero_unit_prefix (p : bytes) :
  until_zero_unit p = take (length (until_zero_unit p)) p.
Proof.
  induction p as [|c|lo hi p IH] using pair_induction; try reflexivity.
  simpl. destruct (lo + 256 * hi =? 0); simpl; [reflexivity|].
  do 2 f_equal. exact IH.
Qed.

Lemma until_zero_unit_length (p : bytes) :
  (length (until_zero_unit p) <= length p)%nat.
Proof.
  induction p as [|c|lo hi p IH] using pair_induction; simpl; try lia.
  destruct (lo + 256 * hi =? 0); simpl; lia.
Qed.

Lemma u16_at_Ok (p : bytes) (k : nat) (c : Z) :
  u16_at p k = Ok c ->
  exists lo hi, p !! (2 * k)%nat = Some lo /\ p !! (2 * k + 1)%nat = Some hi
                /\ c = lo + 256 * hi.
Proof.
  unfold u16_at. destruct (p !! (2 * k)%nat) as [lo|]; [|discriminate].
  destruct (p !! (2 * k + 1)%nat) as [hi|]; [|discriminate].
  intros E. inversion E. eauto.
Qed.

(** The loop of [convertWideCString] stops at the first unit that is
    zero, or after [left] units. *)
Lemma scan_wide_terminator_spec (p : bytes) (left i : nat) :
  (2 * (i + left) <= length p)%nat
  \/ (exists k, (i <= k)%nat /\ u16_at p k = Ok 0) ->
  exists k,
    scan_wide_terminator p left i = Ok (i + k)%nat
    /\ length (until_zero_unit (take (2 * left) (drop (2 * i) p))) = (2 * k)%nat.
Proof.
  revert i. induction left as [|left IH]; intros i H.
  - exists 0%nat. simpl. split; [f_equal; lia | reflexivity].
  - simpl scan_wide_terminator. unfold u16_at.
    destruct (p !! (2 * i)%nat) as [lo|] eqn:Elo;
      [destruct (p !! (2 * i + 1)%nat) as [hi|] eqn:Ehi|].
    + rewrite (drop_S _ _ _ Elo).
      replace (S (2 * i)) with (2 * i + 1)%nat by lia.
      rewrite (drop_S _ _ _ Ehi).
      replace (2 * S left)%nat with (S (S (2 * left))) by lia.
      cbn [take until_zero_unit].
      destruct (lo + 256 * hi =? 0) eqn:Ez.
      * exists 0%nat. split; [f_equal; lia | reflexivity].
      * destruct (IH (S i)) as (k & Ek & Hk).
        { destruct H as [H|(k & Hik & Hk)]; [left; lia|].
          right. exists k. split; [|exact Hk].
          destruct (decide (k = i)) as [->|]; [|lia].
          unfold u16_at in Hk. rewrite Elo, Ehi in Hk. inversion Hk. lia. }
        exists (S k). split; [rewrite Ek; f_equal; lia|].
        replace (S (2 * i + 1)) with (2 * S i)%nat by lia.
        cbn [length]. rewrite Hk. lia.
    + exfalso. apply lookup_ge_None in Ehi.
      destruct H as [H|(k & Hik & Hk)]; [lia|].
      apply u16_at_Ok in Hk as (lo' & hi' & _ & H1 & _).
      apply lookup_lt_Some in H1. lia.
    + exfalso. apply lookup_ge_None in Elo.
      destruct H as [H|(k & Hik & Hk)]; [lia|].
      apply u16_at_Ok in Hk as (lo' & hi' & H0 & _ & _).
      apply lookup_lt_Some in H0. lia.
Qed.

Lemma convertWideCString_effect (encoding_2byte : QTextCodec) (p : bytes)
    (n : nat) (ignore_first_newline : bool) (st : t) :
  (2 * n <= length p)%nat \/ (exists k, u16_at p k = Ok 0) ->
  let body := until_zero_unit (take (2 * n) p) in
  let skip := ignore_first_newline && (4 <=? n)%nat && leading_wide_newline p in
  convertWideCString encoding_2byte p n ignore_first_newline st
  = Ok (toUnicode encoding_2byte (if skip then drop 4 body else body), st).
Proof.
  intros H body skip. unfold convertWideCString.
  destruct (scan_wide_terminator_spec p n 0) as (k & Ek & Hk).
  { destruct H as [H|(k & Hk)]; [left; lia|]. right. exists k. split; [lia | exact Hk]. }
  rewrite drop_0 in Hk. fold body in Hk. simpl in Ek.
  assert (Hbody : take (k * 2) p = body).
  { unfold body. rewrite (until_zero_unit_prefix (take (2 * n) p)).
    fold body. rewrite Hk, take_take. f_equal.
    pose proof (until_zero_unit_length (take (2 * n) p)) as Hl.
    fold body in Hl. rewrite length_take in Hl. lia. }
  unfold bind at 1. unfold lift at 1. rewrite Ek.
  assert (Hnl : (4 <= n)%nat -> leading_wide_newline p = true ->
                exists h0 h1 rest, p = 13 :: h0 :: 10 :: h1 :: rest).
  { intros Hn Hl. apply bool_decide_eq_true in Hl as [H0 H2].
    destruct p as [|c0 [|h0 [|c2 [|h1 rest]]]]; simpl in H0, H2;
      try discriminate.
    - exfalso. inversion H0. inversion H2. subst.
      destruct H as [H|(j & Hj)]; [simpl in H; lia|].
      apply u16_at_Ok in Hj as (lo & hi & Hlo & Hhi & Hz).
      pose proof (lookup_lt_Some _ _ _ Hhi) as Hlt. simpl in Hlt.
      assert (j = 0%nat) by lia. subst j.
      simpl in Hlo. inversion Hlo. lia.
    - inversion H0. inversion H2. eauto. }
  assert (Hstart : starts_with_wide_newline p n
                   = Ok ((4 <=? n)%nat && leading_wide_newline p)).
  { unfold starts_with_wide_newline, leading_wide_newline, char_at.
    destruct (4 <=? n)%nat eqn:En; [|reflexivity]. apply Nat.leb_le in En.
    cbn [andb].
    destruct (p !! 0%nat) as [c0|] eqn:E0.
    - destruct (c0 =? 13) eqn:Ec0.
      + apply Z.eqb_eq in Ec0. subst c0.
        destruct (p !! 2%nat) as [c2|] eqn:E2.
        * f_equal. destruct (c2 =? 10) eqn:Ec2.
          -- apply Z.eqb_eq in Ec2. subst c2. symmetry.
             apply bool_decide_eq_true. split; reflexivity.
          -- symmetry. apply bool_decide_eq_false. intros [_ Hc].
             inversion Hc. lia.
        * exfalso. apply lookup_ge_None in E2.
          destruct H as [H|(j & Hj)]; [lia|].
          apply u16_at_Ok in Hj as (lo & hi & Hlo & Hhi & Hz).
          destruct j as [|j].
          -- simpl in Hlo. rewrite E0 in Hlo. inversion Hlo. lia.
          -- apply lookup_lt_Some in Hlo. lia.
      + f_equal. symmetry. apply bool_decide_eq_false. intros [Hc _].
        inversion Hc. lia.
    - exfalso. apply lookup_ge_None in E0.
      destruct H as [H|(j & Hj)]; [lia|].
      apply u16_at_Ok in Hj as (lo & hi & Hlo & _).
      apply lookup_lt_Some in Hlo. lia. }
  unfold bind at 1.
  destruct ignore_first_newline.
  - unfold lift. rewrite Hstart. cbn [andb] in skip. fold skip.
    destruct skip eqn:Es.
    + apply andb_prop in Es as [En Enl]. apply Nat.leb_le in En.
      destruct (Hnl En Enl) as (h0 & h1 & rest & Hp).
      assert (Hk2 : (2 <= k)%nat).
      { assert (Hb : exists rest', body = 13 :: h0 :: 10 :: h1 :: rest').
        { unfold body. rewrite Hp.
          replace (2 * n)%nat with (S (S (S (S (2 * (n - 2)))))) by lia.
          cbn [take until_zero_unit].
          destruct (13 + 256 * h0 =? 0) eqn:Ea; [lia|].
          destruct (10 + 256 * h1 =? 0) eqn:Eb; [lia|]. eauto. }
        destruct Hb as [rest' Hb]. rewrite Hb in Hk. simpl in Hk. lia. }
      assert (Hlt : (k <? 2)%nat = false) by (apply Nat.ltb_ge; exact Hk2).
      rewrite Hlt. unfold ret. do 3 f_equal.
      rewrite take_drop_commute.
      replace (4 + (k - 2) * 2)%nat with (k * 2)%nat by lia.
      rewrite Hbody. reflexivity.
    + unfold ret. do 3 f_equal. exact Hbody.
  - unfold ret at 1. cbn [andb] in skip. unfold skip.
    unfold ret. do 3 f_equal. exact Hbody.
Qed.

(** X2.  [convertWideCString] of the importer scans [n] 16-bit units,
    that is [2 * n] bytes: on memory that holds them, or that holds a
    unit that is zero, the text is decoded from the bytes before the
    first zero unit among the first [n] units, without the first two
    units when a leading newline is to be ignored and the low bytes of
    these units are a carriage return and a line feed.  The length that
    is decoded never wraps around; when none of the [n] units is zero,
    all [2 * n] bytes are decoded. *)
Theorem convertWideCString_scans_units (encoding_2byte : QTextCodec)
    (p : bytes) (n : nat) (ignore_first_newline : bool) (st : t) :
  (2 * n <= length p)%nat \/ (exists k, u16_at p k = Ok 0) ->
  let body := until_zero_unit (take (2 * n) p) in
  let skip := ignore_first_newline && (4 <=? n)%nat && leading_wide_newline p in
  convertWideCString encoding_2byte p n ignore_first_newline st
  = Ok (toUnicode encoding_2byte (if skip then drop 4 body else body), st)
  /\ (length body <= 2 * n)%nat
  /\ ((2 * n <= length p)%nat ->
      (forall i, (i < n)%nat -> u16_at p i <> Ok 0) ->
      body = take (2 * n) p).
Proof.
  intros H body skip.
  split; [exact (convertWideCString_effect encoding_2byte p n ignore_first_newline st H)|].
  split.
  { unfold body. pose proof (until_zero_unit_length (take (2 * n) p)) as Hl.
    rewrite length_take in Hl. lia. }
  intros Hlen Hnz. unfold body. clear H body skip.
  revert p Hlen Hnz. induction n as [|n IH]; intros p Hlen Hnz.
  - reflexivity.
  - destruct p as [|lo [|hi p]]; try (simpl in Hlen; lia).
    replace (2 * S n)%nat with (S (S (2 * n))) by lia.
    cbn [take until_zero_unit].
    destruct (lo + 256 * hi =? 0) eqn:Ez.
    + exfalso. apply (Hnz 0%nat); [lia|]. unfold u16_at. simpl.
      f_equal. lia.
    + do 2 f_equal. apply IH; [simpl in Hlen; lia|].
      intros i Hi Hu. apply (Hnz (S i)); [lia|].
      unfold u16_at in *.
      replace (2 * S i)%nat with (S (S (2 * i))) by lia.
      replace (S (S (2 * i)) + 1)%nat with (S (S (2 * i + 1))) by lia.
      exact Hu.
Qed.

End ImportStringProperties.

(** A text of two letters behind a carriage return and a line feed, with
    a byte behind its terminator. *)
Lemma convertCString_reads_to_terminator_witness :
  OCAD8FileImport.convertCString [13; 10; 72; 105; 0; 33] 6 true example_importer
  = Ok ([72; 105], example_importer)
  /\ OCAD8FileImport.convertCString [13; 10; 72; 105; 0; 33] 3 false example_importer
     = Ok ([13; 10; 72], example_importer).
Proof.
  split.
  - exact (proj1 (convertCString_reads_to_terminator [13; 10; 72; 105; 0; 33] 6 true
                    example_importer ltac:(left; simpl; lia))).
  - exact (proj1 (convertCString_reads_to_terminator [13; 10; 72; 105; 0; 33] 3 false
                    example_importer ltac:(left; simpl; lia))).
Defined.

(** The same text in 16-bit units; of eight bytes without a zero unit,
    a scan of four units decodes all eight. *)
Lemma convertWideCString_scans_units_witness :
  OCAD8FileImport.convertWideCString two_byte_codec
    [13; 0; 10; 0; 72; 0; 105; 0; 0; 0; 33; 0] 6 true example_importer
  = Ok ([72; 105], example_importer)
  /\ OCAD8FileImport.convertWideCString two_byte_codec
       [72; 0; 105; 0; 33; 0; 63; 0] 4 false example_importer
     = Ok ([72; 105; 33; 63], example_importer).
Proof.
  split.
  - exact (proj1 (convertWideCString_scans_units two_byte_codec
                    [13; 0; 10; 0; 72; 0; 105; 0; 0; 0; 33; 0] 6 true
                    example_importer ltac:(left; simpl; lia))).
  - exact (proj1 (convertWideCString_scans_units two_byte_codec
                    [72; 0; 105; 0; 33; 0; 63; 0] 4 false
                    example_importer ltac:(left; simpl; lia))).
Defined.

Section ExportTextProperties.
Import OCAD8FileExport.

Lemma copy_and_terminate_spec (data : bytes) (size zeros : nat) (buffer : bytes)
    (st : t) :
  (size <= length data)%nat -> (size + zeros <= length buffer)%nat ->
  copy_and_terminate data (Z.of_nat size) zeros buffer st
  = Ok (take size data ++ replicate zeros 0 ++ drop (size + zeros) buffer, st).
Proof.
  intros Hd Hb. unfold copy_and_terminate.
  assert (E : (Z.of_nat size <? 0) || (Z.of_nat (length data) <? Z.of_nat size)
              || (Z.of_nat (length buffer) <? Z.of_nat size + Z.of_nat zeros)
              = false).
  { rewrite !orb_false_iff. repeat split; lia. }
  rewrite E, Nat2Z.id. unfold ret. do 2 f_equal.
  rewrite (list_inserts_decompose buffer)
    by (rewrite length_take; simpl; lia).
  rewrite take_0. cbn [app]. rewrite length_take, Nat.min_l by exact Hd.
  rewrite list_inserts_decompose
    by (rewrite length_app, length_take, length_drop, length_replicate; lia).
  rewrite take_app_length' by (rewrite length_take; lia).
  rewrite length_replicate.
  rewrite drop_app_ge by (rewrite length_take; lia).
  rewrite length_take, Nat.min_l by exact Hd.
  rewrite drop_drop. do 3 f_equal. lia.
Qed.

(** What [convertCString] writes and records. *)
Lemma export_convertCString_effect (text : QString) (buffer : bytes)
    (buffer_size : Z) (st : t) :
  1 <= buffer_size <= Z.of_nat (length buffer) ->
  let data := fromUnicode (encoding_1byte st) text in
  let size := Nat.min (Z.to_nat (buffer_size - 1)) (length data) in
  exists st',
    convertCString text buffer buffer_size st
    = Ok (take size data ++ 0 :: drop (S size) buffer, st')
    /\ encoding_1byte st' = encoding_1byte st
    /\ (Z.of_nat (length text) < buffer_size -> st' = st)
    /\ (buffer_size <= Z.of_nat (length text) ->
        st' = set_warnings
                (warnings st ++
                 [msg "String truncated (truncation marked with three '|'): %1"
                    [ArgText (take (Z.to_nat (buffer_size - 1)) text ++ qstr "|||"
                              ++ drop (Z.to_nat (buffer_size - 1)) text)]])
                st).
Proof.
  intros Hsize data size. unfold convertCString.
  assert (Hmin : Z.min (buffer_size - 1) (Z.of_nat (length data)) = Z.of_nat size)
    by (unfold size; lia).
  assert (Hwrite : forall st0, encoding_1byte st0 = encoding_1byte st ->
            (st1 <- get ;;
             let data := fromUnicode (encoding_1byte st1) text in
             let min_size := Z.min (buffer_size - 1) (Z.of_nat (length data)) in
             copy_and_terminate data min_size 1 buffer) st0
            = Ok (take size data ++ 0 :: drop (S size) buffer, st0)).
  { intros st0 E. unfold bind, get. cbv zeta. rewrite E. fold data.
    rewrite Hmin. rewrite copy_and_terminate_spec by (unfold size; lia).
    replace (size + 1)%nat with (S size) by lia. reflexivity. }
  destruct (buffer_size <? Z.of_nat (length text) + 1) eqn:Ecut.
  - eexists. split.
    { unfold bind at 1. simpl when.
      unfold addStringTruncationWarning, addWarning, modify.
      apply Hwrite. destruct st; reflexivity. }
    split; [destruct st; reflexivity|].
    split; [intros Hfit; lia|]. intros _.
    unfold QString_insert.
    assert (E0 : (buffer_size - 1 <? 0) = false) by lia. rewrite E0.
    replace (Z.to_nat (buffer_size - 1) - length text)%nat with 0%nat by lia.
    reflexivity.
  - exists st. split.
    { unfold bind at 1. simpl when. unfold ret at 1. apply Hwrite. reflexivity. }
    split; [reflexivity|]. split; [reflexivity|]. intros Hcut. lia.
Qed.

(** X3.  [convertCString] of the exporter into a field of [buffer_size]
    bytes (one at least): the encoded text, cut to [buffer_size - 1]
    bytes, is followed by a zero byte, and nothing else of the memory
    changes, so that the field always ends up terminated within its
    size.  A warning that marks position [buffer_size - 1] of the text is
    recorded exactly when the text has [buffer_size] characters or more.
    A field of no byte makes the copy fail. *)
Theorem convertCString_terminates_in_field (text : QString) (buffer : bytes)
    (buffer_size : Z) (st : t) :
  1 <= buffer_size <= Z.of_nat (length buffer) ->
  let data := fromUnicode (encoding_1byte st) text in
  let size := Nat.min (Z.to_nat (buffer_size - 1)) (length data) in
  (exists st',
     convertCString text buffer buffer_size st
     = Ok (take size data ++ 0 :: drop (S size) buffer, st')
     /\ (Z.of_nat (length text) < buffer_size -> st' = st)
     /\ (buffer_size <= Z.of_nat (length text) ->
         st' = set_warnings
                 (warnings st ++
                  [msg "String truncated (truncation marked with three '|'): %1"
                     [ArgText (take (Z.to_nat (buffer_size - 1)) text ++ qstr "|||"
                               ++ drop (Z.to_nat (buffer_size - 1)) text)]])
                 st))
  /\ (size < Z.to_nat buffer_size)%nat
  /\ length (take size data ++ 0 :: drop (S size) buffer) = length buffer
  /\ (forall other, convertCString text other 0 st = Failed OutOfRange).
Proof.
  intros Hsize data size.
  destruct (export_convertCString_effect text buffer buffer_size st Hsize)
    as (st' & E & _ & Hfit & Hcut).
  split; [exists st'; auto|].
  split; [unfold size; lia|].
  split.
  { rewrite length_app, length_take. cbn [length]. rewrite length_drop.
    unfold size. lia. }
  intros other. unfold convertCString.
  unfold bind at 1.
  destruct (when _ _ st) as [[u st0]|f] eqn:Ew.
  - unfold bind, get. cbv zeta. unfold copy_and_terminate.
    assert (Eneg : (Z.min (0 - 1) (Z.of_nat (length (fromUnicode (encoding_1byte st0) text))) <? 0)
                   = true) by lia.
    rewrite Eneg. reflexivity.
  - exfalso. unfold when in Ew.
    destruct (0 <? Z.of_nat (length text) + 1); discriminate Ew.
Qed.

(** What [convertWideCString] writes, returns and records. *)
Lemma export_convertWideCString_effect (encoding_2byte : QTextCodec)
    (text : QString) (buffer : bytes) (buffer_size : Z) (st : t) :
  2 <= buffer_size <= Z.of_nat (length buffer) ->
  let exported_text := if starts_with_line_feed text then 10 :: text else text in
  let exported := to_windows_newlines exported_text in
  let data := fromUnicode encoding_2byte exported in
  let size := Nat.min (Z.to_nat (buffer_size - 2)) (length data) in
  exists st',
    convertWideCString encoding_2byte text buffer buffer_size st
    = Ok ((Z.of_nat size + 2,
           take size data ++ 0 :: 0 :: drop (size + 2) buffer), st')
    /\ (2 * (Z.of_nat (length exported) + 1) <= buffer_size -> st' = st)
    /\ (buffer_size < 2 * (Z.of_nat (length exported) + 1) ->
        st' = set_warnings
                (warnings st ++
                 [msg "String truncated (truncation marked with three '|'): %1"
                    [ArgText (QString_insert (buffer_size - 1) (qstr "|||") exported)]])
                st).
Proof.
  intros Hsize exported_text exported data size. unfold convertWideCString.
  cbv zeta. fold exported_text. fold exported. fold data.
  assert (Hmin : Z.min (buffer_size - 2) (Z.of_nat (length data)) = Z.of_nat size)
    by (unfold size; lia).
  rewrite Hmin.
  assert (Hwrite : forall st0,
            (buffer0 <- copy_and_terminate data (Z.of_nat size) 2 buffer ;;
             ret (Z.of_nat size + 2, buffer0)) st0
            = Ok ((Z.of_nat size + 2,
                   take size data ++ 0 :: 0 :: drop (size + 2) buffer), st0)).
  { intros st0. unfold bind.
    rewrite copy_and_terminate_spec by (unfold size; lia). reflexivity. }
  destruct (buffer_size <? 2 * (Z.of_nat (length exported) + 1)) eqn:Ecut.
  - eexists. split.
    { unfold bind at 1. simpl when.
      unfold addStringTruncationWarning, addWarning, modify. apply Hwrite. }
    split; [intros Hfit; lia|]. intros _. reflexivity.
  - exists st. split.
    { unfold bind at 1. simpl when. unfold ret at 1. apply Hwrite. }
    split; [reflexivity|]. intros Hcut. lia.
Qed.

(** X4.  [convertWideCString] of the exporter into a field of
    [buffer_size] bytes (two at least): the text, with a second line
    feed in front when it starts with one and with every line feed
    turned into a carriage return and a line feed, is encoded and cut to
    [buffer_size - 2] bytes, two zero bytes follow, and nothing else of
    the memory changes.  The value returned is the number of bytes
    written; it never exceeds [buffer_size].  A warning is recorded
    exactly when the text and its terminator, two bytes a character, do
    not fit; its marker is put at character [buffer_size - 1]. *)
Theorem convertWideCString_terminates_in_field (encoding_2byte : QTextCodec)
    (text : QString) (buffer : bytes) (buffer_size : Z) (st : t) :
  2 <= buffer_size <= Z.of_nat (length buffer) ->
  let exported_text := if starts_with_line_feed text then 10 :: text else text in
  let exported := to_windows_newlines exported_text in
  let data := fromUnicode encoding_2byte exported in
  let size := Nat.min (Z.to_nat (buffer_size - 2)) (length data) in
  (exists st',
     convertWideCString encoding_2byte text buffer buffer_size st
     = Ok ((Z.of_nat size + 2,
            take size data ++ 0 :: 0 :: drop (size + 2) buffer), st')
     /\ (2 * (Z.of_nat (length exported) + 1) <= buffer_size -> st' = st)
     /\ (buffer_size < 2 * (Z.of_nat (length exported) + 1) ->
         st' = set_warnings
                 (warnings st ++
                  [msg "String truncated (truncation marked with three '|'): %1"
                     [ArgText (QString_insert (buffer_size - 1) (qstr "|||") exported)]])
                 st))
  /\ Z.of_nat size + 2 <= buffer_size
  /\ length (take size data ++ 0 :: 0 :: drop (size + 2) buffer) = length buffer.
Proof.
  intros Hsize exported_text exported data size.
  split; [exact (export_convertWideCString_effect encoding_2byte text buffer
                   buffer_size st Hsize)|].
  split; [unfold size; lia|].
  rewrite length_app, length_take. cbn [length]. rewrite length_drop.
  unfold size. lia.
Qed.

End ExportTextProperties.

(** Five letters written to a field of four bytes: three letters and the
    terminator, the byte behind the field untouched, one warning. *)
Lemma convertCString_terminates_in_field_witness :
  exists st',
    OCAD8FileExport.convertCString [72; 101; 108; 108; 111] [9; 9; 9; 9; 9] 4
      example_exporter
    = Ok ([72; 101; 108; 0; 9], st')
    /\ length (OCAD8FileExport.warnings st') = 1%nat.
Proof.
  destruct (convertCString_terminates_in_field [72; 101; 108; 108; 111]
              [9; 9; 9; 9; 9] 4 example_exporter ltac:(simpl; lia))
    as ((st' & E & _ & Hcut) & _).
  exists st'. split; [exact E|].
  rewrite Hcut by (simpl; lia). reflexivity.
Defined.

(** A line feed and a letter written to a field of twelve bytes: the
    line feed is doubled and each becomes two units, ten bytes with the
    terminator. *)
Lemma convertWideCString_terminates_in_field_witness :
  OCAD8FileExport.convertWideCString two_byte_codec [10; 72] (replicate 12 9) 12
    example_exporter
  = Ok ((12, [13; 0; 10; 0; 13; 0; 10; 0; 72; 0; 0; 0]), example_exporter).
Proof.
  destruct (convertWideCString_terminates_in_field two_byte_codec [10; 72]
              (replicate 12 9) 12 example_exporter ltac:(simpl; lia))
    as ((st' & E & Hfit & _) & _).
  rewrite E, Hfit by (simpl; lia). reflexivity.
Defined.

Section StringRoundTrips.
Import OCAD8FileExport (to_windows_newlines, starts_with_line_feed).

Lemma bytes_of_units_cons (c : Z) (t : QString) :
  bytes_of_units (c :: t) = c mod 256 :: c / 256 :: bytes_of_units t.
Proof. reflexivity. Qed.

Lemma length_bytes_of_units (t : QString) :
  length (bytes_of_units t) = (2 * length t)%nat.
Proof.
  induction t as [|c t IH]; [reflexivity|].
  rewrite bytes_of_units_cons. cbn [length]. rewrite IH. lia.
Qed.

Lemma units_of_bytes_of_units (t : QString) :
  units_of_bytes (bytes_of_units t) = t.
Proof.
  induction t as [|c t IH]; [reflexivity|].
  rewrite bytes_of_units_cons. cbn [units_of_bytes]. rewrite IH. f_equal.
  pose proof (Z.div_mod c 256). lia.
Qed.

Lemma until_zero_unit_terminated (t : QString) (rest : bytes) :
  Forall is_unit t ->
  until_zero_unit (bytes_of_units t ++ 0 :: 0 :: rest) = bytes_of_units t.
Proof.
  induction 1 as [|c t Hc _ IH]; [reflexivity|].
  rewrite bytes_of_units_cons. cbn [app until_zero_unit].
  assert (E : (c mod 256 + 256 * (c / 256) =? 0) = false).
  { apply Z.eqb_neq. pose proof (Z.div_mod c 256). unfold is_unit in Hc. lia. }
  rewrite E, IH. reflexivity.
Qed.

Lemma to_windows_newlines_cons (c : Z) (t : QString) :
  to_windows_newlines (c :: t)
  = (if c =? 10 then [13; 10] else [c]) ++ to_windows_newlines t.
Proof. reflexivity. Qed.

Lemma to_windows_newlines_units (t : QString) :
  Forall is_unit t -> Forall is_unit (to_windows_newlines t).
Proof.
  induction 1 as [|c t Hc _ IH]; [constructor|].
  rewrite to_windows_newlines_cons.
  destruct (c =? 10); cbn [app].
  - constructor; [unfold is_unit; lia|]. constructor; [unfold is_unit; lia | exact IH].
  - constructor; [exact Hc | exact IH].
Qed.

(** X5.  A text written by [convertPascalString] of the exporter and
    read by [convertPascalString] of the importer, through the same
    encoding of one byte per character: what is read is the decoding of
    the first [buffer_size - 1] bytes of the encoded text; a text of
    fewer than [buffer_size] characters that the encoding reads back
    comes back unchanged. *)
Theorem pascal_string_round_trip (text : QString) (buffer : bytes)
    (buffer_size : Z) (ex : OCAD8FileExport.t) (im : OCAD8FileImport.t) :
  1 <= buffer_size <= 256 ->
  Z.of_nat (length buffer) = buffer_size ->
  OCAD8FileImport.encoding_1byte im = OCAD8FileExport.encoding_1byte ex ->
  length (fromUnicode (OCAD8FileExport.encoding_1byte ex) text) = length text ->
  let codec := OCAD8FileExport.encoding_1byte ex in
  exists field ex',
    OCAD8FileExport.convertPascalString text buffer buffer_size ex
    = Ok (field, ex')
    /\ OCAD8FileImport.convertPascalString field im
       = Ok (toUnicode codec
               (take (Z.to_nat (buffer_size - 1)) (fromUnicode codec text)), im)
    /\ (Z.of_nat (length text) < buffer_size -> reads_back codec text ->
        OCAD8FileImport.convertPascalString field im = Ok (text, im)).
Proof.
  intros Hsize Hbuf Hcodec Hsingle codec.
  destruct (convertPascalString_effect text buffer buffer_size ex Hsize Hbuf Hsingle)
    as (field & ex' & E & Efield & Hlen & _ & _).
  fold codec in Efield, Hlen.
  set (payload := take (Z.to_nat (buffer_size - 1)) (fromUnicode codec text)) in *.
  exists field, ex'. split; [exact E|].
  assert (Eread : OCAD8FileImport.convertPascalString field im
                  = Ok (toUnicode codec payload, im)).
  { unfold OCAD8FileImport.convertPascalString, OCAD8FileImport.bind,
      OCAD8FileImport.get, OCAD8FileImport.ret.
    rewrite Hcodec. fold codec. rewrite Efield. cbn [hd tl].
    rewrite Nat2Z.id, take_app_length. reflexivity. }
  split; [exact Eread|].
  intros Hfit Hback. rewrite Eread. unfold payload.
  rewrite take_ge by (fold codec in Hsingle; rewrite Hsingle; lia).
  rewrite Hback. reflexivity.
Qed.

(** X6.  The map notes: a text written by [convertCString] of the
    exporter into a field of [buffer_size] bytes and read by
    [convertCString] of the importer, which scans [n] bytes, the field
    at least, through the same encoding, none of whose bytes for the
    text is zero.  What is read is the decoding of the first
    [buffer_size - 1] bytes of the encoded text; a text that fits and
    that the encoding reads back comes back unchanged. *)
Theorem c_string_round_trip (text : QString) (buffer : bytes)
    (buffer_size : Z) (n : nat) (ex : OCAD8FileExport.t)
    (im : OCAD8FileImport.t) :
  1 <= buffer_size <= Z.of_nat (length buffer) ->
  buffer_size <= Z.of_nat n ->
  OCAD8FileImport.encoding_1byte im = OCAD8FileExport.encoding_1byte ex ->
  let codec := OCAD8FileExport.encoding_1byte ex in
  Forall (fun c => c <> 0) (fromUnicode codec text) ->
  exists field ex',
    OCAD8FileExport.convertCString text buffer buffer_size ex = Ok (field, ex')
    /\ OCAD8FileImport.convertCString field n false im
       = Ok (toUnicode codec
               (take (Z.to_nat (buffer_size - 1)) (fromUnicode codec text)), im)
    /\ (Z.of_nat (length (fromUnicode codec text)) < buffer_size ->
        reads_back codec text ->
        OCAD8FileImport.convertCString field n false im = Ok (text, im)).
Proof.
  intros Hsize Hn Hcodec codec Hnonzero.
  destruct (export_convertCString_effect text buffer buffer_size ex Hsize)
    as (ex' & E & _ & _ & _).
  fold codec in E.
  set (data := fromUnicode codec text) in *.
  set (size := Nat.min (Z.to_nat (buffer_size - 1)) (length data)) in *.
  set (field := take size data ++ 0 :: drop (S size) buffer) in *.
  exists field, ex'. split; [exact E|].
  assert (Etake : take size data = take (Z.to_nat (buffer_size - 1)) data).
  { unfold size. destruct (Nat.le_ge_cases (Z.to_nat (buffer_size - 1)) (length data)).
    - rewrite Nat.min_l by assumption. reflexivity.
    - rewrite Nat.min_r by assumption. rewrite !take_ge by lia. reflexivity. }
  assert (Eread : OCAD8FileImport.convertCString field n false im
                  = Ok (toUnicode codec (take (Z.to_nat (buffer_size - 1)) data), im)).
  { rewrite convertCString_effect
      by (right; apply elem_of_app; right; apply elem_of_cons; left; reflexivity).
    cbn [andb]. rewrite Hcodec. fold codec. do 3 f_equal.
    rewrite <- Etake. unfold field.
    assert (Hlen : length (take size data) = size)
      by (rewrite length_take; unfold size; lia).
    rewrite take_app_ge by (rewrite Hlen; unfold size; lia).
    rewrite Hlen.
    replace (n - size)%nat with (S (n - size - 1)) by (unfold size; lia).
    cbn [take]. apply until_zero_app.
    apply Forall_take. exact Hnonzero. }
  split; [exact Eread|].
  intros Hfit Hback. rewrite Eread.
  rewrite take_ge by lia. unfold reads_back in Hback. fold data in Hback.
  rewrite Hback. reflexivity.
Qed.

(** X7.  The text of a text object: a text written by
    [convertWideCString] of the exporter and read by
    [convertWideCString] of the importer with a leading newline ignored,
    through a codec of little-endian 16-bit units.  When the text holds
    no zero unit, fits the field with its terminator, lies within the
    [n] units the importer scans, and does not start with a unit whose
    low byte is a carriage return, it comes back with every line feed
    turned into a carriage return and a line feed: the line feed that the
    exporter puts in front of a text that starts with one makes up for
    the newline that the importer removes. *)
Theorem wide_string_round_trip (encoding_2byte : QTextCodec) (text : QString)
    (buffer : bytes) (buffer_size : Z) (n : nat) (ex : OCAD8FileExport.t)
    (im : OCAD8FileImport.t) :
  little_endian_units encoding_2byte ->
  reads_back encoding_2byte (to_windows_newlines text) ->
  Forall is_unit text ->
  hd 0 text mod 256 <> 13 ->
  2 * (Z.of_nat (length (to_windows_newlines text)) + 3) <= buffer_size
    <= Z.of_nat (length buffer) ->
  (length (to_windows_newlines text) + 3 <= n)%nat ->
  exists size field,
    OCAD8FileExport.convertWideCString encoding_2byte text buffer buffer_size ex
    = Ok ((size, field), ex)
    /\ OCAD8FileImport.convertWideCString encoding_2byte field n true im
       = Ok (to_windows_newlines text, im).
Proof.
  intros Hle Hback Hunits Hfirst Hsize Hn.
  set (exported_text := if starts_with_line_feed text then 10 :: text else text).
  set (exported := to_windows_newlines exported_text).
  assert (Hexp : exported = (if starts_with_line_feed text then [13; 10] else [])
                            ++ to_windows_newlines text).
  { unfold exported, exported_text. destruct (starts_with_line_feed text); reflexivity. }
  assert (Hlen : (length exported <= length (to_windows_newlines text) + 2)%nat).
  { rewrite Hexp, length_app. destruct (starts_with_line_feed text); simpl; lia. }
  assert (Hexp_units : Forall is_unit exported).
  { apply to_windows_newlines_units. unfold exported_text.
    destruct (starts_with_line_feed text); [constructor|]; try assumption.
    unfold is_unit. lia. }
  destruct (export_convertWideCString_effect encoding_2byte text buffer buffer_size ex
              ltac:(lia)) as (ex' & E & Hfit & _).
  fold exported_text in E, Hfit. fold exported in E, Hfit.
  rewrite (Hfit ltac:(lia)) in E. clear Hfit ex'.
  rewrite Hle in E.
  rewrite Nat.min_r in E by (rewrite length_bytes_of_units; lia).
  rewrite take_ge in E by lia.
  eexists _, _. split; [exact E|].
  set (field := bytes_of_units exported ++ 0 :: 0 :: _).
  assert (Hzero : exists k, OCAD8FileImport.u16_at field k = Ok 0).
  { exists (length exported). unfold OCAD8FileImport.u16_at, field, bytes.
    rewrite lookup_app_r by (rewrite length_bytes_of_units; lia).
    rewrite lookup_app_r by (rewrite length_bytes_of_units; lia).
    rewrite length_bytes_of_units.
    replace (2 * length exported - 2 * length exported)%nat with 0%nat by lia.
    replace (2 * length exported + 1 - 2 * length exported)%nat with 1%nat by lia.
    reflexivity. }
  rewrite convertWideCString_effect by (right; exact Hzero).
  assert (Hbody : until_zero_unit (take (2 * n) field) = bytes_of_units exported).
  { unfold field.
    rewrite take_app_ge by (rewrite length_bytes_of_units; lia).
    rewrite length_bytes_of_units.
    replace (2 * n - 2 * length exported)%nat
      with (S (S (2 * n - 2 * length exported - 2))) by lia.
    cbn [take]. apply until_zero_unit_terminated. exact Hexp_units. }
  rewrite Hbody. cbn [andb]. do 2 f_equal.
  destruct text as [|c text'].
  - (* the empty text *)
    assert (Hnl : leading_wide_newline field = false).
    { apply bool_decide_eq_false. intros [H0 _]. discriminate H0. }
    rewrite Hnl, andb_false_r. rewrite <- Hle. exact Hback.
  - cbn [hd] in Hfirst. inversion Hunits as [|? ? Hc Hrest]. subst.
    unfold exported, exported_text. cbn [starts_with_line_feed].
    destruct (c =? 10) eqn:Ec.
    + (* a leading line feed is doubled by the exporter *)
      apply Z.eqb_eq in Ec. subst c.
      assert (Hfour : (4 <=? n)%nat = true).
      { apply Nat.leb_le. rewrite to_windows_newlines_cons in Hn.
        rewrite length_app in Hn. simpl in Hn. lia. }
      assert (Hnl : leading_wide_newline field = true).
      { apply bool_decide_eq_true. unfold field, exported, exported_text.
        cbn [starts_with_line_feed]. split; reflexivity. }
      rewrite Hfour, Hnl. cbn [andb].
      change (drop 4 (bytes_of_units (to_windows_newlines (10 :: 10 :: text'))))
        with (bytes_of_units (to_windows_newlines (10 :: text'))).
      rewrite <- Hle. exact Hback.
    + (* any other first unit is left alone by the importer *)
      assert (Hnl : leading_wide_newline field = false).
      { apply bool_decide_eq_false. intros [H0 _].
        unfold field, exported, exported_text in H0.
        cbn [starts_with_line_feed] in H0. rewrite Ec in H0.
        rewrite to_windows_newlines_cons, Ec in H0. cbn in H0.
        inversion H0. lia. }
      rewrite Hnl, andb_false_r. rewrite <- Hle. exact Hback.
Qed.

End StringRoundTrips.

(** The name "Path" through a field of 32 bytes. *)
Lemma pascal_string_round_trip_witness :
  exists field ex',
    OCAD8FileExport.convertPascalString [80; 97; 116; 104] (replicate 32 0) 32
      example_exporter = Ok (field, ex')
    /\ OCAD8FileImport.convertPascalString field example_importer
       = Ok ([80; 97; 116; 104], example_importer).
Proof.
  destruct (pascal_string_round_trip [80; 97; 116; 104] (replicate 32 0) 32
              example_exporter example_importer ltac:(lia) eq_refl eq_refl eq_refl)
    as (field & ex' & E & _ & Hback).
  exists field, ex'. split; [exact E|].
  apply Hback; [simpl; lia | reflexivity].
Defined.

(** Map notes of four letters through a field of five bytes. *)
Lemma c_string_round_trip_witness :
  exists field ex',
    OCAD8FileExport.convertCString [80; 97; 116; 104] (replicate 5 9) 5
      example_exporter = Ok (field, ex')
    /\ OCAD8FileImport.convertCString field 5 false example_importer
       = Ok ([80; 97; 116; 104], example_importer).
Proof.
  assert (Hnonzero : Forall (fun c => c <> 0) [80; 97; 116; 104])
    by (repeat (constructor; [lia|]); constructor).
  destruct (c_string_round_trip [80; 97; 116; 104] (replicate 5 9) 5 5
              example_exporter example_importer ltac:(simpl; lia) ltac:(lia) eq_refl
              Hnonzero)
    as (field & ex' & E & _ & Hback).
  exists field, ex'. split; [exact E|].
  apply Hback; [simpl; lia | reflexivity].
Defined.

(** A text of two lines that starts with an empty line. *)
Lemma wide_string_round_trip_witness :
  exists size field,
    OCAD8FileExport.convertWideCString two_byte_codec [10; 72; 10; 105]
      (replicate 64 9) 64 example_exporter
    = Ok ((size, field), example_exporter)
    /\ OCAD8FileImport.convertWideCString two_byte_codec field 32 true
         example_importer
       = Ok ([13; 10; 72; 13; 10; 105], example_importer).
Proof.
  apply (wide_string_round_trip two_byte_codec [10; 72; 10; 105] (replicate 64 9)
           64 32 example_exporter example_importer).
  - intros text. reflexivity.
  - reflexivity.
  - repeat constructor; unfold is_unit; lia.
  - intros H. vm_compute in H. discriminate H.
  - simpl. lia.
  - simpl. lia.
Defined.

(** * Coordinates *)

Section PathDecoding.
Import CInt OCAD8FileImport.
Context {libocad : Libocad} {model : MapModel}.

Lemma for_each_app {A : Type} (body : A -> nat -> M A) (l1 l2 : list nat) (a : A)
    (st : OCAD8FileImport.t) :
  for_each body (l1 ++ l2) a st
  = (a' <- for_each body l1 a ;; for_each body l2 a') st.
Proof.
  revert a st. induction l1 as [|i l1 IH]; intros a st; [reflexivity|].
  cbn [app for_each]. unfold bind.
  destruct (body a i st) as [[a1 st1]|f]; [|reflexivity].
  rewrite IH. reflexivity.
Qed.

Lemma decoded_coord_before (st : OCAD8FileImport.t) (is_area : bool)
    (pts : OCADPoints) (k j : nat) :
  (S j < k)%nat ->
  decoded_coord st is_area pts (S k) j = decoded_coord st is_area pts k j.
Proof.
  intros H. unfold decoded_coord.
  rewrite !(bool_decide_eq_true_2 (S j < S k)%nat) by lia.
  rewrite !(bool_decide_eq_true_2 (S j < k)%nat) by lia.
  reflexivity.
Qed.

(** One round of the first loop, on the point at [k], where the
    coordinates before [k] are decoded and those from [k] on are new. *)
Lemma fillPathCoords_point_decodes (is_area : bool) (pts : OCADPoints)
    (n k : nat) (st : OCAD8FileImport.t) :
  (k < n)%nat ->
  is_area = false \/ test_mask (point_flags pts 0) (Z.shiftl PY_HOLE 8) = false ->
  fillPathCoords_point is_area pts
    ((decoded_coord st is_area pts k <$> seq 0 k) ++ replicate (n - k) MapCoord.new)
    k st
  = Ok ((decoded_coord st is_area pts (S k) <$> seq 0 (S k))
        ++ replicate (n - S k) MapCoord.new, st).
Proof.
  intros Hk Hfirst.
  replace (n - k)%nat with (S (n - S k)) by lia. cbn [replicate].
  set (R := replicate (n - S k) MapCoord.new).
  unfold fillPathCoords_point.
  assert (Hflags : snd (ocad_point (pts (Z.of_nat k))) = point_flags pts k)
    by reflexivity.
  destruct (ocad_point (pts (Z.of_nat k))) as [[buf0 buf1] buf2] eqn:Epoint.
  cbn [snd] in Hflags. subst buf2.
  assert (Hpos : converted st (pts (Z.of_nat k))
                 = (s64 (offset_x st + s64 (s64 buf0 * 10)),
                    s64 (offset_y st + s64 (s64 buf1 * (-10))))).
  { unfold converted. unfold ocad_point in Epoint. inversion Epoint. reflexivity. }
  unfold bind at 1. unfold convertPoint, bind, get, ret.
  destruct k as [|k'].
  - (* the first point *)
    cbn [seq fmap list_fmap app].
    change ((MapCoord.new :: R) !!! 0%nat) with MapCoord.new.
    change (0 <? Z.of_nat 0) with false. rewrite andb_false_r.
    cbn [insert list_insert].
    assert (Hhole : is_area = true ->
                    test_mask (point_flags pts 0) (Z.shiftl PY_HOLE 8) = false).
    { intros ->. destruct Hfirst as [H|H]; [discriminate | exact H]. }
    unfold decoded_coord. rewrite Hpos. cbn [fst snd].
    rewrite (bool_decide_eq_false_2 (1 < 1)%nat) by lia. cbn [andb].
    destruct (test_mask (point_flags pts 0) (Z.shiftl PY_DASH 8)
              || test_mask (point_flags pts 0) (Z.shiftl PY_CORNER 8));
      destruct (test_mask (point_flags pts 0) (Z.shiftl PY_HOLE 8)) eqn:Eh;
      destruct is_area; try (specialize (Hhole eq_refl); discriminate Hhole);
      reflexivity.
  - (* a later point: the coordinate before it gets its flags *)
    rewrite seq_S, fmap_app. cbn [fmap list_fmap Nat.add].
    set (P := decoded_coord st is_area pts (S k') <$> seq 0 k').
    assert (HP : length P = k') by (unfold P; rewrite length_fmap, length_seq; reflexivity).
    rewrite <- !app_assoc. cbn [app].
    assert (Elook : (P ++ decoded_coord st is_area pts (S k') k' :: MapCoord.new :: R)
                    !!! S k' = MapCoord.new).
    { rewrite lookup_total_app_r by lia. rewrite HP.
      replace (S k' - k')%nat with 1%nat by lia. reflexivity. }
    rewrite Elook.
    assert (Epos : (0 <? Z.of_nat (S k')) = true) by (apply Z.ltb_lt; lia).
    rewrite Epos, andb_true_r.
    replace (S k' - 1)%nat with k' by lia.
    assert (Eins : forall c,
              <[S k' := c]> (P ++ decoded_coord st is_area pts (S k') k'
                               :: MapCoord.new :: R)
              = P ++ decoded_coord st is_area pts (S k') k' :: c :: R).
    { intros c. rewrite insert_app_r_alt by lia. rewrite HP.
      replace (S k' - k')%nat with 1%nat by lia. reflexivity. }
    rewrite Eins.
    assert (Ealt0 : forall f a b,
              alter f k' (P ++ a :: b :: R) = P ++ f a :: b :: R).
    { intros f a b. rewrite alter_app_r_alt by lia. rewrite HP, Nat.sub_diag.
      reflexivity. }
    assert (Ealt1 : forall f a b,
              alter f (S k') (P ++ a :: b :: R) = P ++ a :: f b :: R).
    { intros f a b. rewrite alter_app_r_alt by lia. rewrite HP.
      replace (S k' - k')%nat with 1%nat by lia. reflexivity. }
    assert (EP : decoded_coord st is_area pts (S (S k')) <$> seq 0 k' = P).
    { unfold P. apply list_fmap_ext. intros i j Hj.
      apply lookup_seq in Hj as [-> Hj]. apply decoded_coord_before. lia. }
    rewrite seq_S, fmap_app, seq_S, fmap_app, EP. cbn [fmap list_fmap Nat.add].
    rewrite <- !app_assoc. cbn [app].
    unfold decoded_coord. rewrite Hpos. cbn [fst snd].
    rewrite (bool_decide_eq_false_2 (S k' < S k')%nat) by lia.
    rewrite (bool_decide_eq_true_2 (S k' < S (S k'))%nat) by lia.
    rewrite (bool_decide_eq_false_2 (S (S k') < S (S k'))%nat) by lia.
    cbn [andb].
    destruct (test_mask (point_flags pts (S k')) PX_CTL1);
      rewrite ?Ealt0;
      destruct (test_mask (point_flags pts (S k')) (Z.shiftl PY_DASH 8)
                || test_mask (point_flags pts (S k')) (Z.shiftl PY_CORNER 8));
      rewrite ?Ealt1;
      destruct (test_mask (point_flags pts (S k')) (Z.shiftl PY_HOLE 8));
      destruct is_area; rewrite ?Ealt0, ?Ealt1; reflexivity.
Qed.

(** The first loop of [fillPathCoords] on new coordinates. *)
Lemma first_loop_decodes (is_area : bool) (pts : OCADPoints) (n k : nat)
    (st : OCAD8FileImport.t) :
  (k <= n)%nat ->
  is_area = false \/ test_mask (point_flags pts 0) (Z.shiftl PY_HOLE 8) = false ->
  for_each (fillPathCoords_point is_area pts) (seq 0 k)
    (replicate n MapCoord.new) st
  = Ok ((decoded_coord st is_area pts k <$> seq 0 k)
        ++ replicate (n - k) MapCoord.new, st).
Proof.
  intros Hk Hfirst. induction k as [|k IH].
  - cbn [seq for_each fmap list_fmap app]. rewrite Nat.sub_0_r. reflexivity.
  - replace (seq 0 (S k)) with (seq 0 k ++ [k]) at 1
      by (rewrite seq_S; reflexivity).
    rewrite for_each_app. unfold bind. rewrite IH by lia.
    cbn [for_each]. unfold bind.
    rewrite fillPathCoords_point_decodes by (try lia; exact Hfirst).
    reflexivity.
Qed.

Lemma close_parts_other_flags (cs : list MapCoord.t) (i : nat) :
  MapCoord.isCurveStart (close_parts cs !!! i) = MapCoord.isCurveStart (cs !!! i)
  /\ MapCoord.isDashPoint (close_parts cs !!! i) = MapCoord.isDashPoint (cs !!! i).
Proof.
  destruct (Nat.lt_ge_cases i (length cs)) as [H|H].
  - rewrite close_parts_lookup by exact H.
    destruct (closes cs i); [destruct (cs !!! i)|]; split; reflexivity.
  - rewrite !list_lookup_total_alt.
    rewrite !lookup_ge_None_2; rewrite ?close_parts_length; auto.
Qed.

(** [fillPathCoords] on an object without coordinates. *)
Lemma fillPathCoords_decodes (object : Object.t) (is_area : bool) (n : nat)
    (pts : OCADPoints) (st : OCAD8FileImport.t) :
  Object.coords object = [] ->
  is_area = false \/ test_mask (point_flags pts 0) (Z.shiftl PY_HOLE 8) = false ->
  let decoded := decoded_coord st is_area pts n <$> seq 0 n in
  fillPathCoords object is_area (Z.of_nat n) pts st
  = Ok (Object.set_coords
          (match Object.type object with
           | Object.Path => close_parts decoded
           | _ => decoded
           end) object, st).
Proof.
  intros Hnew Hfirst decoded. unfold fillPathCoords.
  assert (E : (Z.of_nat n <? 0) = false) by (apply Z.ltb_ge; lia).
  rewrite E, Nat2Z.id, Hnew. unfold bind.
  rewrite resize_nil.
  rewrite first_loop_decodes by (try lia; exact Hfirst).
  rewrite Nat.sub_diag. cbn [replicate]. rewrite app_nil_r. fold decoded.
  destruct (Object.type object); reflexivity.
Qed.

(** The coordinates that [fillPathCoords] gives to an object that had
    none. *)
Lemma fillPathCoords_decodes_at (object : Object.t) (is_area : bool)
    (npts : Z) (pts : OCADPoints) (st : OCAD8FileImport.t) :
  Object.coords object = [] ->
  0 <= npts ->
  is_area = false \/ test_mask (point_flags pts 0) (Z.shiftl PY_HOLE 8) = false ->
  exists object',
    fillPathCoords object is_area npts pts st = Ok (object', st)
    /\ length (Object.coords object') = Z.to_nat npts
    /\ forall i, (i < Z.to_nat npts)%nat ->
         let c := Object.coords object' !!! i in
         let next := bool_decide (S i < Z.to_nat npts)%nat in
         position c = converted st (pts (Z.of_nat i))
         /\ MapCoord.isDashPoint c
            = test_mask (point_flags pts i) (Z.shiftl PY_DASH 8)
              || test_mask (point_flags pts i) (Z.shiftl PY_CORNER 8)
         /\ MapCoord.isCurveStart c
            = next && test_mask (point_flags pts (S i)) PX_CTL1
         /\ MapCoord.isHolePoint c
            = if is_area
              then next && test_mask (point_flags pts (S i)) (Z.shiftl PY_HOLE 8)
              else test_mask (point_flags pts i) (Z.shiftl PY_HOLE 8).
Proof.
  intros Hnew Hn Hfirst.
  pose proof (fillPathCoords_decodes object is_area (Z.to_nat npts) pts st
                Hnew Hfirst) as E.
  rewrite Z2Nat.id in E by exact Hn. cbv zeta in E.
  set (n := Z.to_nat npts) in *.
  set (decoded := decoded_coord st is_area pts n <$> seq 0 n) in *.
  assert (Hlen : length decoded = n)
    by (unfold decoded; rewrite length_fmap, length_seq; reflexivity).
  assert (Hat : forall i, (i < n)%nat ->
            decoded !!! i = decoded_coord st is_area pts n i).
  { intros i Hi. unfold decoded. apply list_lookup_total_correct.
    rewrite list_lookup_fmap, lookup_seq_lt by exact Hi. reflexivity. }
  eexists. split; [exact E|].
  destruct object as [ty sy cs0 ro]. cbn [Object.type Object.set_coords Object.coords].
  split.
  { destruct ty; rewrite ?close_parts_length; exact Hlen. }
  intros i Hi. cbv zeta.
  assert (Hsame :
    let c := (match ty with
              | Object.Path => close_parts decoded
              | _ => decoded
              end) !!! i in
    position c = position (decoded !!! i)
    /\ MapCoord.isDashPoint c = MapCoord.isDashPoint (decoded !!! i)
    /\ MapCoord.isCurveStart c = MapCoord.isCurveStart (decoded !!! i)
    /\ MapCoord.isHolePoint c = MapCoord.isHolePoint (decoded !!! i)).
  { destruct ty; cbv zeta; try (repeat split; reflexivity).
    destruct (close_parts_other_flags decoded i) as [Hc Hd].
    rewrite close_parts_position, close_parts_hole, Hc, Hd.
    repeat split; reflexivity. }
  cbv zeta in Hsame. destruct Hsame as (Hp & Hd & Hc & Hh).
  rewrite Hp, Hd, Hc, Hh, (Hat i Hi). unfold decoded_coord, position.
  cbn [MapCoord.rawX MapCoord.rawY MapCoord.isDashPoint MapCoord.isCurveStart
       MapCoord.isHolePoint].
  repeat split; try reflexivity.
Qed.

Lemma for_each_no_length_error {A : Type} (body : A -> nat -> M A)
    (indices : list nat) (a : A) (st : OCAD8FileImport.t) :
  (forall a i st, body a i st <> Failed LengthError) ->
  for_each body indices a st <> Failed LengthError.
Proof.
  intros Hbody. revert a st. induction indices as [|i rest IH]; intros a st.
  - discriminate.
  - cbn [for_each]. unfold bind.
    destruct (body a i st) as [[a' st']|f] eqn:E.
    + apply IH.
    + intros H. apply (Hbody a i st). rewrite E. exact H.
Qed.

(** With a number of points that is not negative, no length error. *)
Lemma fillPathCoords_keeps_length_error (object : Object.t) (is_area : bool)
    (npts : Z) (pts : OCADPoints) (st : OCAD8FileImport.t) :
  0 <= npts ->
  fillPathCoords object is_area npts pts st <> Failed LengthError.
Proof.
  intros Hn. unfold fillPathCoords.
  assert (E : (npts <? 0) = false) by (apply Z.ltb_ge; exact Hn).
  rewrite E. unfold bind.
  destruct (for_each _ _ _ st) as [[cs st']|f] eqn:Eloop.
  - destruct (Object.type object); discriminate.
  - intros H. apply (for_each_no_length_error (fillPathCoords_point is_area pts)
                       (seq 0 (Z.to_nat npts))
                       (resize (Z.to_nat npts) MapCoord.new (Object.coords object)) st).
    + intros a i st0. unfold fillPathCoords_point.
      destruct (ocad_point (pts (Z.of_nat i))) as [[buf0 buf1] buf2].
      unfold bind, convertPoint, get, ret, fail.
      repeat match goal with
             | |- context [if ?c then _ else _] => destruct c
             end; discriminate.
    + rewrite Eloop. injection H as ->. reflexivity.
Qed.

(** X8.  [fillPathCoords] on the [npts] points of an object that has no
    coordinates yet: it gives the object [npts] coordinates and leaves
    the importer as it was.  The coordinate at [i] is at the converted
    position of the point at [i]; it is a dash point exactly when the
    point has the dash flag or the corner flag; it starts a curve exactly
    when a point follows that is a first control point; and it is a hole
    point, in an area, exactly when a point follows that has the hole
    flag and, in a line, exactly when the point itself has the hole flag.
    An area whose first point has the hole flag is left out: there the
    coordinate before the first would be written. *)
Theorem fillPathCoords_decodes_flags (object : Object.t) (is_area : bool)
    (npts : Z) (pts : OCADPoints) (st : OCAD8FileImport.t) :
  Object.coords object = [] ->
  0 <= npts ->
  is_area = false \/ test_mask (point_flags pts 0) (Z.shiftl PY_HOLE 8) = false ->
  exists object',
    fillPathCoords object is_area npts pts st = Ok (object', st)
    /\ length (Object.coords object') = Z.to_nat npts
    /\ forall i, (i < Z.to_nat npts)%nat ->
         let c := Object.coords object' !!! i in
         let next := bool_decide (S i < Z.to_nat npts)%nat in
         position c = converted st (pts (Z.of_nat i))
         /\ MapCoord.isDashPoint c
            = test_mask (point_flags pts i) (Z.shiftl PY_DASH 8)
              || test_mask (point_flags pts i) (Z.shiftl PY_CORNER 8)
         /\ MapCoord.isCurveStart c
            = next && test_mask (point_flags pts (S i)) PX_CTL1
         /\ MapCoord.isHolePoint c
            = if is_area
              then next && test_mask (point_flags pts (S i)) (Z.shiftl PY_HOLE 8)
              else test_mask (point_flags pts i) (Z.shiftl PY_HOLE 8).
Proof. exact (fillPathCoords_decodes_at object is_area npts pts st). Qed.

(** X9.  [fillPathCoords] throws the length error of [coords.resize]
    exactly when the number of points is negative, before any coordinate
    is written.  On every other input but an area with points whose
    first point has the hole flag (for which the coordinate before the
    first would be written), whatever coordinates the object had, it
    returns: the object has [npts] coordinates and its type and its
    symbol as before, and the importer is as it was. *)
Theorem fillPathCoords_throws_on_negative_count (object : Object.t)
    (is_area : bool) (npts : Z) (pts : OCADPoints) (st : OCAD8FileImport.t) :
  (fillPathCoords object is_area npts pts st = Failed LengthError <-> npts < 0)
  /\ (0 <= npts ->
      is_area = false \/ npts = 0
      \/ test_mask (point_flags pts 0) (Z.shiftl PY_HOLE 8) = false ->
      exists object',
        fillPathCoords object is_area npts pts st = Ok (object', st)
        /\ length (Object.coords object') = Z.to_nat npts
        /\ Object.type object' = Object.type object
        /\ Object.symbol object' = Object.symbol object).
Proof.
  assert (Hreturns :
            0 <= npts ->
            is_area = false \/ npts = 0
            \/ test_mask (point_flags pts 0) (Z.shiftl PY_HOLE 8) = false ->
            exists object',
              fillPathCoords object is_area npts pts st = Ok (object', st)
              /\ length (Object.coords object') = Z.to_nat npts
              /\ Object.type object' = Object.type object
              /\ Object.symbol object' = Object.symbol object).
  { intros Hn Hfirst.
    pose proof (fillPathCoords_spec object is_area npts pts st) as Hspec.
    unfold fillPathCoords in *.
    assert (E : (npts <? 0) = false) by (apply Z.ltb_ge; exact Hn).
    rewrite E in *.
    assert (Hloop : exists cs,
              for_each (fillPathCoords_point is_area pts) (seq 0 (Z.to_nat npts))
                (resize (Z.to_nat npts) MapCoord.new (Object.coords object)) st
              = Ok (cs, st)).
    { destruct Hfirst as [H|[H|H]].
      - apply for_each_fillPathCoords_point_returns. left. exact H.
      - subst npts. eexists. reflexivity.
      - apply for_each_fillPathCoords_point_returns. right. right. exact H. }
    destruct Hloop as [cs Ecs]. unfold bind in *. rewrite Ecs in *.
    destruct (Object.type object); simpl in Hspec;
      destruct Hspec as (_ & L & T & S); eexists; repeat split; eassumption. }
  split; [|exact Hreturns].
  split.
  - intros E. destruct (Z.lt_ge_cases npts 0) as [H|H]; [exact H | exfalso].
    pose proof (fillPathCoords_keeps_length_error object is_area npts pts st H) as Hk.
    rewrite E in Hk. exact (Hk eq_refl).
  - intros Hn. unfold fillPathCoords.
    assert (E : (npts <? 0) = true) by (apply Z.ltb_lt; exact Hn).
    rewrite E. reflexivity.
Qed.

End PathDecoding.

(** The closed square of four points, read as a line. *)
Lemma fillPathCoords_decodes_flags_witness :
  exists object',
    OCAD8FileImport.fillPathCoords (plain_object Object.Path NoSymbol) false 4
      (points_of closed_square) example_importer
    = Ok (object', example_importer)
    /\ length (Object.coords object') = 4%nat.
Proof.
  destruct (fillPathCoords_decodes_flags (libocad := libocad_layout)
              (plain_object Object.Path NoSymbol) false 4
              (points_of closed_square) example_importer
              eq_refl ltac:(lia) (or_introl eq_refl))
    as (object' & E & Hl & _).
  exists object'. split; [exact E | exact Hl].
Defined.

Section BitFacts.
Import CInt.

Lemma low_byte_testbit (f n : Z) :
  0 <= f < 256 -> 8 <= n -> Z.testbit f n = false.
Proof.
  intros Hf Hn. rewrite <- (Z.mod_small f (2 ^ 8)) by lia.
  apply Z.mod_pow2_bits_high. lia.
Qed.

Lemma land_shiftl_low (a f : Z) :
  0 <= f < 256 -> Z.land (Z.shiftl a 8) f = 0.
Proof.
  intros Hf. apply Z.bits_inj'. intros n Hn.
  rewrite Z.land_spec, Z.bits_0.
  destruct (Z.lt_ge_cases n 8).
  - rewrite Z.shiftl_spec_low by lia. reflexivity.
  - rewrite (low_byte_testbit f n) by lia. apply andb_false_r.
Qed.

Lemma lor_is_add (a b : Z) : Z.land a b = 0 -> Z.lor a b = a + b.
Proof.
  intros H. rewrite Z.add_nocarry_lxor by exact H.
  symmetry. apply Z.lxor_lor. exact H.
Qed.

Lemma lor_low_bound (f g : Z) :
  0 <= f < 256 -> 0 <= g < 256 -> 0 <= Z.lor f g < 256.
Proof.
  intros Hf Hg. split; [apply Z.lor_nonneg; lia|].
  assert (H : Z.shiftr (Z.lor f g) 8 = 0).
  { rewrite Z.shiftr_lor, !Z.shiftr_div_pow2 by lia.
    rewrite !Z.div_small by lia. reflexivity. }
  rewrite Z.shiftr_div_pow2 in H by lia.
  apply Z.div_small_iff in H; [|lia].
  assert (0 <= Z.lor f g) by (apply Z.lor_nonneg; lia). lia.
Qed.

(** A coordinate of 24 bits with flags in the low byte. *)
Lemma flagged_value (q f : Z) :
  in_s24 q -> 0 <= f < 256 ->
  Z.lor (Z.shiftl q 8) f = q * 256 + f /\ in_s32 (q * 256 + f).
Proof.
  intros Hq Hf. unfold in_s24 in Hq. split.
  - rewrite lor_is_add by (apply land_shiftl_low; exact Hf).
    rewrite Z.shiftl_mul_pow2 by lia. reflexivity.
  - unfold in_s32. lia.
Qed.

Lemma flagged_shiftr (q f : Z) : 0 <= f < 256 -> Z.shiftr (q * 256 + f) 8 = q.
Proof.
  intros Hf. rewrite Z.shiftr_div_pow2 by lia.
  symmetry. apply (Z.div_unique _ _ _ f); lia.
Qed.

Lemma flagged_low (q f : Z) : 0 <= f < 256 -> Z.land (q * 256 + f) 255 = f.
Proof.
  intros Hf. change 255 with (Z.ones 8). rewrite Z.land_ones by lia.
  symmetry. apply (Z.mod_unique _ _ q); lia.
Qed.

(** The flags of a point, tested as [fillPathCoords] tests them. *)
Lemma test_low_flag (fx fy c : Z) :
  0 <= c < 256 ->
  test_mask (Z.lor fx (Z.shiftl fy 8)) c = test_mask fx c.
Proof.
  intros Hc. unfold test_mask.
  rewrite Z.land_lor_distr_l, (land_shiftl_low fy c Hc), Z.lor_0_r. reflexivity.
Qed.

Lemma test_high_flag (fx fy c : Z) :
  0 <= fx < 256 ->
  test_mask (Z.lor fx (Z.shiftl fy 8)) (Z.shiftl c 8) = test_mask fy c.
Proof.
  intros Hf. unfold test_mask.
  rewrite Z.land_lor_distr_l.
  rewrite (Z.land_comm fx), (land_shiftl_low c fx Hf), Z.lor_0_l.
  rewrite <- Z.shiftl_land.
  destruct (Z.land fy c =? 0) eqn:E.
  - apply Z.eqb_eq in E. rewrite E, Z.shiftl_0_l. reflexivity.
  - apply Z.eqb_neq in E.
    assert (H : Z.shiftl (Z.land fy c) 8 <> 0)
      by (rewrite Z.shiftl_eq_0_iff by lia; exact E).
    apply Z.eqb_neq in H. rewrite H. reflexivity.
Qed.

Lemma test_mask_self (c : Z) : 0 < c -> test_mask c c = true.
Proof.
  intros Hc. unfold test_mask. rewrite Z.land_diag.
  apply negb_true_iff, Z.eqb_neq. lia.
Qed.

Lemma test_mask_lor (a b c : Z) :
  test_mask (Z.lor a b) c = test_mask a c || test_mask b c.
Proof.
  unfold test_mask. rewrite Z.land_lor_distr_l.
  destruct (Z.land a c =? 0) eqn:Ea; destruct (Z.land b c =? 0) eqn:Eb;
    cbn [negb orb].
  - apply Z.eqb_eq in Ea, Eb. rewrite Ea, Eb. reflexivity.
  - apply Z.eqb_eq in Ea. apply Z.eqb_neq in Eb. rewrite Ea, Z.lor_0_l.
    apply negb_true_iff, Z.eqb_neq. exact Eb.
  - apply Z.eqb_neq in Ea. apply negb_true_iff, Z.eqb_neq.
    intros H. apply Z.lor_eq_0_iff in H. tauto.
  - apply Z.eqb_neq in Ea. apply negb_true_iff, Z.eqb_neq.
    intros H. apply Z.lor_eq_0_iff in H. tauto.
Qed.

Lemma test_mask_zero (c : Z) : test_mask 0 c = false.
Proof. unfold test_mask. rewrite Z.land_0_l. reflexivity. Qed.

Lemma test_mask_apart (a c : Z) : Z.land a c = 0 -> test_mask a c = false.
Proof. intros H. unfold test_mask. rewrite H. reflexivity. Qed.

End BitFacts.

Section ExportCoordinates.
Import CInt OCAD8FileExport.
Context {libocad : Libocad} {model : MapModel}.
Variable PX_CTL2 : Z.
Variable isEmpty : PointSymbolT -> bool.

(** The count that the loop of [exportCoordinates] returns, and the
    number of points it writes. *)
Lemma exportCoordinates_loop_count (symbol : option SymbolT)
    (cs : list MapCoord.t) (num : Z) (state : CurveState) :
  fst (exportCoordinates_loop PX_CTL2 isEmpty symbol cs num state)
  = (if cs is [] then num else s16 (num + Z.of_nat (length cs)))
  /\ length (snd (exportCoordinates_loop PX_CTL2 isEmpty symbol cs num state))
     = length cs.
Proof.
  revert num state. induction cs as [|c rest IH]; intros num state.
  - split; reflexivity.
  - cbn [exportCoordinates_loop].
    destruct (exportCoordinates_point PX_CTL2 isEmpty symbol state c) as [p s1].
    match goal with
    | |- context [exportCoordinates_loop _ _ _ rest ?n ?s] =>
        destruct (IH n s) as [Hn Hl];
        destruct (exportCoordinates_loop PX_CTL2 isEmpty symbol rest n s)
          as [num' written]
    end.
    cbn beta iota zeta. cbn [fst snd] in *. split.
    + rewrite Hn. destruct rest as [|c' rest'].
      * cbn [length]. f_equal.
      * rewrite s16_add_s16. f_equal. cbn [length]. lia.
    + cbn [length]. rewrite Hl. reflexivity.
Qed.

(** The point that the loop writes for the coordinate at [i]. *)
Lemma exportCoordinates_loop_lookup (symbol : option SymbolT)
    (cs : list MapCoord.t) (num : Z) (init : CurveState) (i : nat) :
  (i < length cs)%nat ->
  snd (exportCoordinates_loop PX_CTL2 isEmpty symbol cs num init) !! i
  = Some (fst (exportCoordinates_point PX_CTL2 isEmpty symbol
                 (state_before init cs i) (cs !!! i))).
Proof.
  revert num init i. induction cs as [|c rest IH]; intros num init i Hi;
    [simpl in Hi; lia|].
  cbn [exportCoordinates_loop].
  destruct (exportCoordinates_point PX_CTL2 isEmpty symbol init c) as [p s1] eqn:Ep.
  match goal with
  | |- context [exportCoordinates_loop _ _ _ rest ?n ?s] =>
      pose proof (fun j => IH n s j) as IH';
      destruct (exportCoordinates_loop PX_CTL2 isEmpty symbol rest n s)
        as [num' written]
  end.
  cbn beta iota zeta. cbn [fst snd] in *.
  destruct i as [|j].
  - cbn [state_before]. change ((c :: rest) !!! 0%nat) with c.
    rewrite Ep. reflexivity.
  - change ((p :: written) !! S j) with (written !! j).
    change ((c :: rest) !!! S j) with (rest !!! j).
    rewrite IH' by (simpl in Hi; lia).
    f_equal. f_equal. f_equal.
    assert (Es1 : s1 = {| curve_start := MapCoord.isCurveStart c;
                          hole_point := MapCoord.isHolePoint c;
                          curve_continue := curve_start init |}).
    { unfold exportCoordinates_point in Ep. inversion Ep. reflexivity. }
    rewrite Es1. destruct j as [|j']; [reflexivity|].
    cbn [state_before]. destruct j' as [|j'']; reflexivity.
Qed.

Lemma dash_point_flag_cases (symbol : option SymbolT) :
  dash_point_flag isEmpty symbol = PY_DASH
  \/ dash_point_flag isEmpty symbol = PY_CORNER.
Proof.
  unfold dash_point_flag. destruct symbol as [[| l | | |]|]; auto.
  destruct (_ && _); auto.
Qed.

(** What [ocad_point] reads of a point that [exportCoordinates] wrote. *)
Lemma exportCoordinates_point_reads (symbol : option SymbolT)
    (state : CurveState) (c : MapCoord.t) :
  flag_bits PX_CTL2 -> in_legacy_range c ->
  exists w,
    ocad_point (fst (exportCoordinates_point PX_CTL2 isEmpty symbol state c))
    = (Z.quot (MapCoord.rawX c) 10, Z.quot (MapCoord.rawY c) (-10), w)
    /\ test_mask w PX_CTL1 = curve_start state
    /\ test_mask w (Z.shiftl PY_HOLE 8) = hole_point state
    /\ test_mask w (Z.shiftl PY_DASH 8) || test_mask w (Z.shiftl PY_CORNER 8)
       = MapCoord.isDashPoint c.
Proof.
  intros (H1 & H2 & H12 & Hc & Hd & Hh & Hhc & Hhd) [Hx Hy].
  set (qx := Z.quot (MapCoord.rawX c) 10) in *.
  set (qy := Z.quot (MapCoord.rawY c) (-10)) in *.
  set (fx := Z.lor (if curve_start state then PX_CTL1 else 0)
                   (if curve_continue state then PX_CTL2 else 0)).
  set (fd := if MapCoord.isDashPoint c then dash_point_flag isEmpty symbol else 0).
  set (fy := Z.lor fd (if hole_point state then PY_HOLE else 0)).
  assert (Hfx : 0 <= fx < 256).
  { unfold fx. apply lor_low_bound;
      [destruct (curve_start state) | destruct (curve_continue state)]; lia. }
  assert (Hfd : 0 <= fd < 256).
  { unfold fd. destruct (MapCoord.isDashPoint c); [|lia].
    destruct (dash_point_flag_cases symbol) as [-> | ->]; lia. }
  assert (Hfy : 0 <= fy < 256).
  { unfold fy. apply lor_low_bound; [exact Hfd|].
    destruct (hole_point state); lia. }
  assert (Ex : pt_x (fst (exportCoordinates_point PX_CTL2 isEmpty symbol state c))
               = qx * 256 + fx).
  { unfold exportCoordinates_point. cbn [fst pt_x]. fold qx.
    destruct (flagged_value qx 0 Hx ltac:(lia)) as [E0 R0].
    rewrite Z.lor_0_r in E0.
    assert (Estart : s32 (Z.shiftl qx 8) = Z.shiftl qx 8).
    { apply s32_id. rewrite E0. exact R0. }
    rewrite Estart.
    assert (Estep : forall f, 0 <= f < 256 ->
              s32 (Z.lor (Z.shiftl qx 8) f) = Z.lor (Z.shiftl qx 8) f).
    { intros f Hf. destruct (flagged_value qx f Hx Hf) as [E R].
      apply s32_id. rewrite E. exact R. }
    destruct (flagged_value qx fx Hx Hfx) as [E _]. rewrite <- E. unfold fx.
    destruct (curve_start state); destruct (curve_continue state).
    - rewrite (Estep PX_CTL1) by lia. rewrite <- Z.lor_assoc.
      apply Estep. apply lor_low_bound; lia.
    - rewrite Z.lor_0_r. apply Estep. lia.
    - rewrite Z.lor_0_l. apply Estep. lia.
    - rewrite Z.lor_0_l, Z.lor_0_r. reflexivity. }
  assert (Ey : pt_y (fst (exportCoordinates_point PX_CTL2 isEmpty symbol state c))
               = qy * 256 + fy).
  { unfold exportCoordinates_point. cbn [fst pt_y]. fold qy.
    destruct (flagged_value qy 0 Hy ltac:(lia)) as [E0 R0].
    rewrite Z.lor_0_r in E0.
    assert (Estart : s32 (Z.shiftl qy 8) = Z.shiftl qy 8).
    { apply s32_id. rewrite E0. exact R0. }
    rewrite Estart.
    assert (Estep : forall f, 0 <= f < 256 ->
              s32 (Z.lor (Z.shiftl qy 8) f) = Z.lor (Z.shiftl qy 8) f).
    { intros f Hf. destruct (flagged_value qy f Hy Hf) as [E R].
      apply s32_id. rewrite E. exact R. }
    destruct (flagged_value qy fy Hy Hfy) as [E _]. rewrite <- E. unfold fy, fd.
    destruct (MapCoord.isDashPoint c); destruct (hole_point state).
    - rewrite (Estep (dash_point_flag isEmpty symbol)) by exact Hfd.
      rewrite <- Z.lor_assoc. apply Estep. apply lor_low_bound; [exact Hfd | lia].
    - rewrite Z.lor_0_r. apply Estep. exact Hfd.
    - rewrite Z.lor_0_l. apply Estep. lia.
    - rewrite Z.lor_0_l, Z.lor_0_r. reflexivity. }
  exists (Z.lor fx (Z.shiftl fy 8)). split.
  { unfold ocad_point. rewrite Ex, Ey.
    rewrite !flagged_shiftr, !flagged_low by assumption. reflexivity. }
  split.
  { rewrite test_low_flag by lia. unfold fx. rewrite test_mask_lor.
    destruct (curve_start state); destruct (curve_continue state);
      rewrite ?test_mask_zero, ?test_mask_self by lia;
      rewrite ?(test_mask_apart PX_CTL2 PX_CTL1)
        by (rewrite Z.land_comm; exact H12);
      reflexivity. }
  split.
  { rewrite test_high_flag by exact Hfx. unfold fy, fd. rewrite test_mask_lor.
    assert (Hdash : test_mask (dash_point_flag isEmpty symbol) PY_HOLE = false).
    { apply test_mask_apart. rewrite Z.land_comm.
      destruct (dash_point_flag_cases symbol) as [-> | ->]; assumption. }
    destruct (MapCoord.isDashPoint c); destruct (hole_point state);
      rewrite ?Hdash, ?test_mask_zero, ?test_mask_self by lia; reflexivity. }
  rewrite !test_high_flag by exact Hfx. unfold fy, fd. rewrite !test_mask_lor.
  assert (Hhole_d : test_mask PY_HOLE PY_DASH = false)
    by (apply test_mask_apart; exact Hhd).
  assert (Hhole_c : test_mask PY_HOLE PY_CORNER = false)
    by (apply test_mask_apart; exact Hhc).
  destruct (MapCoord.isDashPoint c); destruct (hole_point state);
    rewrite ?Hhole_d, ?Hhole_c, ?test_mask_zero; cbn [orb];
    rewrite ?orb_false_r; try reflexivity;
    destruct (dash_point_flag_cases symbol) as [-> | ->];
    rewrite ?test_mask_self by lia; rewrite ?orb_true_r; reflexivity.
Qed.

Lemma exportCoordinates_point_at (symbol : option SymbolT)
    (cs : list MapCoord.t) (i : nat) :
  flag_bits PX_CTL2 -> Forall in_legacy_range cs -> (i < length cs)%nat ->
  exists p w,
    snd (exportCoordinates PX_CTL2 isEmpty cs symbol) !! i = Some p
    /\ ocad_point p
       = (Z.quot (MapCoord.rawX (cs !!! i)) 10,
          Z.quot (MapCoord.rawY (cs !!! i)) (-10), w)
    /\ test_mask w PX_CTL1
       = match i with O => false | S j => MapCoord.isCurveStart (cs !!! j) end
    /\ test_mask w (Z.shiftl PY_HOLE 8)
       = match i with O => false | S j => MapCoord.isHolePoint (cs !!! j) end
    /\ test_mask w (Z.shiftl PY_DASH 8) || test_mask w (Z.shiftl PY_CORNER 8)
       = MapCoord.isDashPoint (cs !!! i).
Proof.
  intros Hbits Hrange Hi.
  assert (Hc : in_legacy_range (cs !!! i)).
  { rewrite Forall_lookup in Hrange. apply (Hrange i).
    apply list_lookup_lookup_total_lt. exact Hi. }
  unfold exportCoordinates.
  set (init := {| curve_start := false; hole_point := false;
                  curve_continue := false |}).
  destruct (exportCoordinates_point_reads symbol (state_before init cs i)
              (cs !!! i) Hbits Hc) as (w & Eread & Hctl & Hhole & Hdash).
  eexists _, w. split; [apply exportCoordinates_loop_lookup; exact Hi|].
  split; [exact Eread|].
  split; [rewrite Hctl; destruct i; reflexivity|].
  split; [rewrite Hhole; destruct i; reflexivity | exact Hdash].
Qed.

(** X10.  [exportCoordinates] writes one point for every coordinate and
    returns their number as a 16-bit value.  With the flag bits of
    libocad.h and positions within the 24 bits of a legacy coordinate,
    the point at [i] reads, through [ocad_point], as the position of the
    coordinate in hundredths of a millimetre, rounded towards the origin,
    with the Y axis flipped; it has the first control point flag exactly
    when the coordinate before it starts a curve, the hole flag exactly
    when the coordinate before it is a hole point, and the dash flag or
    the corner flag exactly when the coordinate is a dash point. *)
Theorem exportCoordinates_writes_each_coordinate (symbol : option SymbolT)
    (cs : list MapCoord.t) :
  flag_bits PX_CTL2 -> Forall in_legacy_range cs ->
  let written := exportCoordinates PX_CTL2 isEmpty cs symbol in
  fst written = s16 (Z.of_nat (length cs))
  /\ length (snd written) = length cs
  /\ forall i, (i < length cs)%nat ->
       exists p w,
         snd written !! i = Some p
         /\ ocad_point p
            = (Z.quot (MapCoord.rawX (cs !!! i)) 10,
               Z.quot (MapCoord.rawY (cs !!! i)) (-10), w)
         /\ test_mask w PX_CTL1
            = match i with O => false | S j => MapCoord.isCurveStart (cs !!! j) end
         /\ test_mask w (Z.shiftl PY_HOLE 8)
            = match i with O => false | S j => MapCoord.isHolePoint (cs !!! j) end
         /\ test_mask w (Z.shiftl PY_DASH 8) || test_mask w (Z.shiftl PY_CORNER 8)
            = MapCoord.isDashPoint (cs !!! i).
Proof.
  intros Hbits Hrange written.
  destruct (exportCoordinates_loop_count symbol cs 0
              {| curve_start := false; hole_point := false;
                 curve_continue := false |}) as [Hn Hl].
  split.
  { unfold written, exportCoordinates. rewrite Hn.
    destruct cs; [reflexivity | f_equal]. }
  split; [exact Hl|].
  intros i Hi. exact (exportCoordinates_point_at symbol cs i Hbits Hrange Hi).
Qed.

End ExportCoordinates.

Section CoordinateRoundTrip.
Import CInt.
Context {libocad : Libocad} {model : MapModel}.
Variable PX_CTL2 : Z.
Variable isEmpty : PointSymbolT -> bool.

Lemma points_of_lookup (l : list OCADPoint) (i : nat) (p : OCADPoint) :
  l !! i = Some p -> points_of l (Z.of_nat i) = p.
Proof.
  intros H. unfold points_of.
  assert (E : (Z.of_nat i <? 0) = false) by (apply Z.ltb_ge; lia).
  rewrite E, Nat2Z.id, nth_lookup, H. reflexivity.
Qed.

(** The importer puts a point that the exporter wrote where the
    exporter found it, in hundredths of a millimetre. *)
Lemma converted_exported (st : OCAD8FileImport.t) (p : OCADPoint)
    (c : MapCoord.t) (w : Z) :
  OCAD8FileImport.offset_x st = 0 -> OCAD8FileImport.offset_y st = 0 ->
  in_legacy_range c ->
  ocad_point p
  = (Z.quot (MapCoord.rawX c) 10, Z.quot (MapCoord.rawY c) (-10), w) ->
  converted st p = rounded c.
Proof.
  intros Hox Hoy [Hx Hy] Hp. unfold ocad_point in Hp. inversion Hp as [[Ex Ey Ew]].
  unfold converted, rounded. rewrite Hox, Hoy, Ex, Ey.
  unfold in_s24 in Hx, Hy.
  rewrite !Z.add_0_l.
  rewrite (s64_id (Z.quot (MapCoord.rawX c) 10)) by (unfold in_s64; lia).
  rewrite (s64_id (Z.quot (MapCoord.rawY c) (-10))) by (unfold in_s64; lia).
  rewrite !s64_id by (rewrite ?s64_id; unfold in_s64; lia).
  pose proof (Z.quot_opp_r (MapCoord.rawY c) 10 ltac:(lia)) as Hq.
  change (Z.opp 10) with (-10) in Hq.
  f_equal; lia.
Qed.

(** What the importer makes of the points that [exportCoordinates]
    wrote for [cs]. *)
Lemma exported_path_decodes (cs : list MapCoord.t) (symbol : option SymbolT)
    (object : Object.t) (is_area : bool) (st : OCAD8FileImport.t) :
  flag_bits PX_CTL2 -> Forall in_legacy_range cs ->
  Z.of_nat (length cs) < 2 ^ 15 ->
  OCAD8FileImport.offset_x st = 0 -> OCAD8FileImport.offset_y st = 0 ->
  Object.coords object = [] ->
  let written := OCAD8FileExport.exportCoordinates PX_CTL2 isEmpty cs symbol in
  exists object',
    OCAD8FileImport.fillPathCoords object is_area (fst written)
      (points_of (snd written)) st = Ok (object', st)
    /\ length (Object.coords object') = length cs
    /\ forall i, (i < length cs)%nat ->
         let c := cs !!! i in
         let c' := Object.coords object' !!! i in
         position c' = rounded c
         /\ MapCoord.isDashPoint c' = MapCoord.isDashPoint c
         /\ MapCoord.isCurveStart c'
            = bool_decide (S i < length cs)%nat && MapCoord.isCurveStart c
         /\ MapCoord.isHolePoint c'
            = if is_area
              then bool_decide (S i < length cs)%nat && MapCoord.isHolePoint c
              else match i with
                   | O => false
                   | S j => MapCoord.isHolePoint (cs !!! j)
                   end.
Proof.
  intros Hbits Hrange Hlen Hox Hoy Hnew written.
  set (pts := points_of (snd written)).
  assert (Hcount : fst written = Z.of_nat (length cs)).
  { unfold written, OCAD8FileExport.exportCoordinates.
    destruct (exportCoordinates_loop_count PX_CTL2 isEmpty symbol cs 0
                {| OCAD8FileExport.curve_start := false;
                   OCAD8FileExport.hole_point := false;
                   OCAD8FileExport.curve_continue := false |}) as [Hn _].
    rewrite Hn. destruct cs as [|c0 cs']; [reflexivity|].
    rewrite Z.add_0_l. apply s16_id. unfold in_s16. lia. }
  assert (Hpoint : forall i, (i < length cs)%nat ->
            exists w,
              converted st (pts (Z.of_nat i)) = rounded (cs !!! i)
              /\ point_flags pts i = w
              /\ test_mask w PX_CTL1
                 = match i with
                   | O => false
                   | S j => MapCoord.isCurveStart (cs !!! j)
                   end
              /\ test_mask w (Z.shiftl PY_HOLE 8)
                 = match i with
                   | O => false
                   | S j => MapCoord.isHolePoint (cs !!! j)
                   end
              /\ test_mask w (Z.shiftl PY_DASH 8)
                 || test_mask w (Z.shiftl PY_CORNER 8)
                 = MapCoord.isDashPoint (cs !!! i)).
  { intros i Hi.
    destruct (exportCoordinates_point_at PX_CTL2 isEmpty symbol cs i Hbits Hrange Hi)
      as (p & w & Ep & Eread & Hctl & Hhole & Hdash).
    fold written in Ep.
    assert (Epts : pts (Z.of_nat i) = p) by (apply points_of_lookup; exact Ep).
    exists w. split.
    { rewrite Epts. apply (converted_exported st p (cs !!! i) w Hox Hoy); [|exact Eread].
      rewrite Forall_lookup in Hrange. apply (Hrange i).
      apply list_lookup_lookup_total_lt. exact Hi. }
    split; [unfold point_flags; rewrite Epts, Eread; reflexivity|].
    auto. }
  assert (Hfirst : is_area = false
                   \/ test_mask (point_flags pts 0) (Z.shiftl PY_HOLE 8) = false).
  { right. destruct cs as [|c0 cs'].
    - unfold point_flags, pts, written. cbn. reflexivity.
    - destruct (Hpoint 0%nat ltac:(simpl; lia)) as (w & _ & Ew & _ & Hhole & _).
      rewrite Ew. exact Hhole. }
  destruct (fillPathCoords_decodes_at object is_area (Z.of_nat (length cs)) pts st
              Hnew ltac:(lia) Hfirst) as (object' & E & Hl & Hat).
  rewrite Nat2Z.id in Hl, Hat.
  exists object'. rewrite Hcount. split; [exact E|]. split; [exact Hl|].
  intros i Hi. cbv zeta.
  destruct (Hat i Hi) as (Hp & Hd & Hc & Hh). cbv zeta in Hp, Hd, Hc, Hh.
  destruct (Hpoint i Hi) as (w & Epos & Ew & _ & Hhole & Hdash).
  rewrite Hp, Hd, Hc, Hh, Epos, Ew, Hdash, Hhole.
  split; [reflexivity|]. split; [reflexivity|].
  destruct (decide (S i < length cs)%nat) as [Hnext|Hlast].
  - destruct (Hpoint (S i) Hnext) as (w' & _ & Ew' & Hctl' & Hhole' & _).
    rewrite Ew', Hctl', Hhole'.
    rewrite (bool_decide_eq_true_2 _ Hnext). cbn [andb].
    split; [reflexivity|]. destruct is_area; reflexivity.
  - rewrite (bool_decide_eq_false_2 _ Hlast). cbn [andb].
    split; [reflexivity|]. destruct is_area; reflexivity.
Qed.

(** X11.  A path written by [exportCoordinates] and read by
    [fillPathCoords] into a new object, with the flag bits of libocad.h,
    positions within the 24 bits of a legacy coordinate, fewer than 32768
    coordinates and an importer without offset.  The object gets as many
    coordinates as were written; each is at the position of the original
    in hundredths of a millimetre, rounded towards the origin, and is a
    dash point exactly when the original is.  The curve start flag comes
    back on every coordinate but the last.  The hole flag comes back, on
    every coordinate but the last, when the path is read as an area; when
    it is read as a line, it comes back one coordinate later. *)
Theorem exported_path_reads_back (cs : list MapCoord.t) (symbol : option SymbolT)
    (object : Object.t) (is_area : bool) (st : OCAD8FileImport.t) :
  flag_bits PX_CTL2 -> Forall in_legacy_range cs ->
  Z.of_nat (length cs) < 2 ^ 15 ->
  OCAD8FileImport.offset_x st = 0 -> OCAD8FileImport.offset_y st = 0 ->
  Object.coords object = [] ->
  let written := OCAD8FileExport.exportCoordinates PX_CTL2 isEmpty cs symbol in
  exists object',
    OCAD8FileImport.fillPathCoords object is_area (fst written)
      (points_of (snd written)) st = Ok (object', st)
    /\ length (Object.coords object') = length cs
    /\ forall i, (i < length cs)%nat ->
         let c := cs !!! i in
         let c' := Object.coords object' !!! i in
         position c' = rounded c
         /\ MapCoord.isDashPoint c' = MapCoord.isDashPoint c
         /\ MapCoord.isCurveStart c'
            = bool_decide (S i < length cs)%nat && MapCoord.isCurveStart c
         /\ MapCoord.isHolePoint c'
            = if is_area
              then bool_decide (S i < length cs)%nat && MapCoord.isHolePoint c
              else match i with
                   | O => false
                   | S j => MapCoord.isHolePoint (cs !!! j)
                   end.
Proof. exact (exported_path_decodes cs symbol object is_area st). Qed.

(** X12.  A position written by [convertPoint] of the exporter, read
    through [ocad_point] and converted by [convertPoint] of an importer
    without offset: within the 24 bits of a legacy coordinate, the point
    carries no flag, and the coordinate comes back at the position in
    hundredths of a millimetre, rounded towards the origin; a position
    whose raw values are multiples of 10 comes back unchanged. *)
Theorem convertPoint_round_trip (x y : Z) (coord : MapCoord.t)
    (st : OCAD8FileImport.t) :
  in_s24 (Z.quot x 10) -> in_s24 (Z.quot y (-10)) ->
  OCAD8FileImport.offset_x st = 0 -> OCAD8FileImport.offset_y st = 0 ->
  let p := OCAD8FileExport.convertPoint x y in
  let back := MapCoord.setRawY (10 * Z.quot y 10)
                (MapCoord.setRawX (10 * Z.quot x 10) coord) in
  ocad_point p = (Z.quot x 10, Z.quot y (-10), 0)
  /\ OCAD8FileImport.convertPoint coord (Z.quot x 10) (Z.quot y (-10)) st
     = Ok (back, st)
  /\ (Z.rem x 10 = 0 -> Z.rem y 10 = 0 ->
      back = MapCoord.setRawY y (MapCoord.setRawX x coord)).
Proof.
  intros Hx Hy Hox Hoy p back. unfold in_s24 in Hx, Hy.
  assert (Ex : pt_x p = Z.quot x 10 * 256 + 0).
  { unfold p, OCAD8FileExport.convertPoint. cbn [pt_x].
    rewrite (s32_id (Z.quot x 10)) by (unfold in_s32; lia).
    destruct (flagged_value (Z.quot x 10) 0 Hx ltac:(lia)) as [E R].
    rewrite Z.lor_0_r in E. rewrite E. apply s32_id. exact R. }
  assert (Ey : pt_y p = Z.quot y (-10) * 256 + 0).
  { unfold p, OCAD8FileExport.convertPoint. cbn [pt_y].
    rewrite (s32_id (Z.quot y (-10))) by (unfold in_s32; lia).
    destruct (flagged_value (Z.quot y (-10)) 0 Hy ltac:(lia)) as [E R].
    rewrite Z.lor_0_r in E. rewrite E. apply s32_id. exact R. }
  split.
  { unfold ocad_point. rewrite Ex, Ey.
    rewrite !flagged_shiftr, !flagged_low by lia. reflexivity. }
  split.
  { unfold OCAD8FileImport.convertPoint, OCAD8FileImport.bind,
      OCAD8FileImport.get, OCAD8FileImport.ret.
    rewrite Hox, Hoy, !Z.add_0_l.
    rewrite (s64_id (Z.quot x 10)) by (unfold in_s64; lia).
    rewrite (s64_id (Z.quot y (-10))) by (unfold in_s64; lia).
    rewrite !s64_id by (rewrite ?s64_id; unfold in_s64; lia).
    pose proof (Z.quot_opp_r y 10 ltac:(lia)) as Hq.
    change (Z.opp 10) with (-10) in Hq.
    unfold back. rewrite Hq.
    replace (- Z.quot y 10 * -10) with (10 * Z.quot y 10) by lia.
    replace (Z.quot x 10 * 10) with (10 * Z.quot x 10) by lia.
    reflexivity. }
  intros Hrx Hry. unfold back.
  pose proof (Z.quot_rem' x 10). pose proof (Z.quot_rem' y 10).
  replace (10 * Z.quot x 10) with x by lia.
  replace (10 * Z.quot y 10) with y by lia. reflexivity.
Qed.

End CoordinateRoundTrip.

Lemma libocad_flag_bits : flag_bits (H := libocad_layout) libocad_PX_CTL2.
Proof. unfold flag_bits, libocad_PX_CTL2. cbn. repeat split; lia. Qed.

Lemma example_coords_in_range : Forall in_legacy_range example_coords.
Proof.
  unfold example_coords.
  repeat (constructor;
          [unfold in_legacy_range, in_s24; split; split; vm_compute;
           first [reflexivity | intros H; discriminate H]|]).
  constructor.
Qed.

(** Six coordinates with a curve, a hole point and a dash point. *)
Lemma exportCoordinates_writes_each_coordinate_witness :
  let written :=
    OCAD8FileExport.exportCoordinates (libocad := libocad_layout)
      libocad_PX_CTL2 draws_nothing example_coords None in
  fst written = 6 /\ length (snd written) = 6%nat.
Proof.
  destruct (exportCoordinates_writes_each_coordinate (libocad := libocad_layout)
              libocad_PX_CTL2 draws_nothing None example_coords
              libocad_flag_bits example_coords_in_range)
    as (Hn & Hl & _).
  split; [exact Hn | exact Hl].
Defined.

(** The same coordinates written and read back as a line. *)
Lemma exported_path_reads_back_witness :
  let written :=
    OCAD8FileExport.exportCoordinates (libocad := libocad_layout)
      libocad_PX_CTL2 draws_nothing example_coords None in
  exists object',
    OCAD8FileImport.fillPathCoords (libocad := libocad_layout)
      (plain_object Object.Path NoSymbol) false (fst written)
      (points_of (snd written)) example_importer
    = Ok (object', example_importer)
    /\ length (Object.coords object') = 6%nat.
Proof.
  destruct (exported_path_reads_back (libocad := libocad_layout)
              libocad_PX_CTL2 draws_nothing example_coords None
              (plain_object Object.Path NoSymbol) false example_importer
              libocad_flag_bits example_coords_in_range ltac:(simpl; lia)
              eq_refl eq_refl eq_refl)
    as (object' & E & Hl & _).
  exists object'. split; [exact E | exact Hl].
Defined.

(** The position (12.34 mm, -5.67 mm). *)
Lemma convertPoint_round_trip_witness :
  ocad_point (OCAD8FileExport.convertPoint 12340 (-5670)) = (1234, 567, 0)
  /\ OCAD8FileImport.convertPoint MapCoord.new 1234 567 example_importer
     = Ok (MapCoord.make 12340 (-5670) false false false false, example_importer).
Proof.
  destruct (convertPoint_round_trip 12340 (-5670) MapCoord.new example_importer
              ltac:(split; vm_compute; first [reflexivity | intros H; discriminate H])
              ltac:(split; vm_compute; first [reflexivity | intros H; discriminate H])
              eq_refl eq_refl)
    as (Hp & Hback & _).
  split; [exact Hp | exact Hback].
Defined.

(** * Rotations: export after import *)

Section RotationRoundTrip.
Import CInt.

Lemma rotation_round_trip_s16 :
  all_from (Z.to_nat 65536) (-32768) rotation_round_trip_check = true.
Proof. vm_cast_no_check (eq_refl true). Qed.

(** X13.  An angle of a legacy record, in tenths of a degree and of 16
    bits, that is imported and exported again comes back unchanged when
    it is not negative; a negative angle comes back as the angle of the
    same direction within one turn, [angle mod 3600].  ([qRound] is
    modelled after Qt's definition.) *)
Theorem convertRotation_round_trip (fuel : nat) (angle : Z) :
  (10 <= fuel)%nat -> in_s16 angle ->
  exists r : CFloat.float,
    OCAD8FileImport.convertRotation fuel angle = Some r
    /\ OCAD8FileExport.convertRotation r
       = (if 0 <=? angle then angle else angle mod 3600).
Proof.
  intros Hf Ha.
  pose proof (all_from_spec _ _ _ rotation_round_trip_s16 angle) as H.
  unfold in_s16 in Ha.
  specialize (H ltac:(rewrite Z2Nat.id; lia)).
  unfold rotation_round_trip_check in H.
  destruct (OCAD8FileImport.convertRotation 10 angle) as [r|] eqn:E; [|discriminate].
  exists r. split; [exact (convertRotation_fuel_mono _ _ _ _ Hf E)|].
  apply Z.eqb_eq. exact H.
Qed.

Lemma convertRotation_round_trip_witness :
  exists r : CFloat.float,
    OCAD8FileImport.convertRotation 10 (-900) = Some r
    /\ OCAD8FileExport.convertRotation r = 2700.
Proof.
  apply (convertRotation_round_trip 10 (-900)).
  - lia.
  - unfold in_s16. lia.
Defined.

End RotationRoundTrip.

(** * The pattern of a point symbol and its size *)

Section PatternSize.
Import CInt OCAD8FileExport.
Context {libocad : Libocad} {model : MapModel}.
Variable PX_CTL2 : Z.
Variable isEmpty : PointSymbolT -> bool.
Variable findColorIndex : option nat -> Z.

Lemma item_points_app (a b : list PatternItem) :
  item_points (a ++ b) = item_points a + item_points b.
Proof.
  induction a as [|[e|p] a IH]; cbn [app item_points]; lia.
Qed.

Lemma item_points_coordinates (ps : list OCADPoint) :
  item_points (Coordinate <$> ps) = Z.of_nat (length ps).
Proof.
  induction ps as [|p ps IH]; cbn [fmap list_fmap item_points length]; [reflexivity|].
  change (list_fmap _ _ Coordinate ps) with (Coordinate <$> ps). lia.
Qed.

(** A header and the coordinates of the object follow the count so
    far. *)
Lemma export_element_spec (element : OCADSymbolElement)
    (coords : list MapCoord.t) (symbol : SymbolT) (num : Z) :
  0 <= num -> num + 2 + Z.of_nat (length coords) < 2 ^ 15 ->
  exists items,
    export_element PX_CTL2 isEmpty element coords symbol num
    = (num + (2 + Z.of_nat (length coords)), items)
    /\ item_points items = 2 + Z.of_nat (length coords).
Proof.
  intros Hnum Hb. unfold export_element, exportCoordinates.
  match goal with
  | |- context [exportCoordinates_loop _ _ ?sy coords 0 ?s] =>
      destruct (exportCoordinates_loop_count PX_CTL2 isEmpty sy coords 0 s) as [Hn Hl];
      destruct (exportCoordinates_loop PX_CTL2 isEmpty sy coords 0 s) as [npts points]
  end.
  cbn [fst snd] in Hn, Hl.
  assert (Hnpts : npts = Z.of_nat (length coords)).
  { rewrite Hn. destruct coords as [|c rest]; [reflexivity|].
    apply s16_id. unfold in_s16. cbn [length] in *. lia. }
  clear Hn. subst npts. eexists. split.
  - f_equal. apply s16_id. unfold in_s16. lia.
  - cbn [item_points]. rewrite item_points_coordinates, Hl. reflexivity.
Qed.

Lemma circles_range (p : PointSymbolT) : 0 <= circles p <= 2.
Proof.
  unfold circles. destruct (draws_inner p), (draws_outer p); lia.
Qed.

Lemma element_points_range (element : Object.t * SymbolT) :
  0 <= element_points element
  <= 2 * (2 + Z.of_nat (length (Object.coords (fst element)))).
Proof.
  unfold element_points. destruct (snd element) as [p | l | a | t | c];
    try lia.
  pose proof (circles_range p). nia.
Qed.

(** What [exportSubPattern] returns is the number of points it
    writes. *)
Lemma exportSubPattern_spec (object : Object.t) (symbol : SymbolT) :
  exportable_element (object, symbol) ->
  2 * (2 + Z.of_nat (length (Object.coords object))) < 2 ^ 15 ->
  exists items,
    exportSubPattern PX_CTL2 isEmpty findColorIndex object symbol
    = Ok (element_points (object, symbol), items)
    /\ item_points items = element_points (object, symbol).
Proof.
  intros Hex Hb. unfold exportable_element in Hex. cbn [snd] in Hex.
  unfold element_points. cbn [fst snd].
  set (len := Z.of_nat (length (Object.coords object))) in *.
  destruct symbol as [p | l | a | t | c]; try contradiction;
    unfold exportSubPattern.
  - unfold circles.
    destruct (draws_inner p).
    + match goal with
      | |- context [export_element _ _ ?e ?cs ?sy 0] =>
          destruct (export_element_spec e cs sy 0 ltac:(lia) ltac:(fold len; lia))
            as (inner & -> & Hinner)
      end.
      fold len in Hinner |- *.
      destruct (draws_outer p).
      * match goal with
        | |- context [export_element _ _ ?e ?cs ?sy ?n] =>
            destruct (export_element_spec e cs sy n ltac:(lia) ltac:(fold len; lia))
              as (outer & -> & Houter)
        end.
        fold len in Houter |- *.
        exists (inner ++ outer). split; [f_equal; f_equal; lia|].
        rewrite item_points_app. lia.
      * exists (inner ++ []). split; [f_equal; f_equal; lia|].
        rewrite item_points_app. cbn [item_points]. lia.
    + destruct (draws_outer p).
      * match goal with
        | |- context [export_element _ _ ?e ?cs ?sy ?n] =>
            destruct (export_element_spec e cs sy n ltac:(lia) ltac:(fold len; lia))
              as (outer & -> & Houter)
        end.
        fold len in Houter |- *.
        exists ([] ++ outer). split; [f_equal; f_equal; lia|].
        rewrite item_points_app. cbn [item_points]. lia.
      * exists []. split; [reflexivity|]. cbn [item_points app]. lia.
  - match goal with
    | |- context [export_element _ _ ?e ?cs ?sy 0] =>
        destruct (export_element_spec e cs sy 0 ltac:(lia) ltac:(fold len; lia))
          as (items & -> & Hitems)
    end.
    fold len in Hitems |- *. exists items. split; [reflexivity | exact Hitems].
  - match goal with
    | |- context [export_element _ _ ?e ?cs ?sy 0] =>
        destruct (export_element_spec e cs sy 0 ltac:(lia) ltac:(fold len; lia))
          as (items & -> & Hitems)
    end.
    fold len in Hitems |- *. exists items. split; [reflexivity | exact Hitems].
Qed.

Lemma elements_points_bound (elements : list (Object.t * SymbolT)) :
  0 <= elements_points elements
  <= foldr (fun element sum =>
              2 * (2 + Z.of_nat (length (Object.coords (fst element)))) + sum)
           0 elements.
Proof.
  induction elements as [|e rest IH]; cbn [elements_points foldr]; [lia|].
  fold (elements_points rest). pose proof (element_points_range e). lia.
Qed.

(** The loop of [exportPattern] adds up the points of the elements. *)
Lemma exportPattern_elements_spec (elements : list (Object.t * SymbolT)) (num : Z) :
  Forall exportable_element elements ->
  0 <= num ->
  num + foldr (fun element sum =>
                 2 * (2 + Z.of_nat (length (Object.coords (fst element)))) + sum)
              0 elements < 2 ^ 15 ->
  exists items,
    exportPattern_elements PX_CTL2 isEmpty findColorIndex elements num
    = Ok (num + elements_points elements, items)
    /\ item_points items = elements_points elements.
Proof.
  revert num. induction elements as [|[object symbol] rest IH];
    intros num Hex Hnum Hb.
  - exists []. split; [cbn; f_equal; f_equal; lia | reflexivity].
  - apply Forall_cons in Hex as [Hex Hrest].
    cbn [foldr fst] in Hb.
    pose proof (elements_points_bound rest) as Hr.
    pose proof (element_points_range (object, symbol)) as He. cbn [fst] in He.
    cbn [exportPattern_elements].
    destruct (exportSubPattern_spec object symbol Hex ltac:(lia))
      as (written & -> & Hwritten).
    rewrite (s16_id (num + _)) by (unfold in_s16; lia).
    destruct (IH (num + element_points (object, symbol)) Hrest ltac:(lia) ltac:(lia))
      as (more & -> & Hmore).
    exists (written ++ more). cbn [elements_points foldr].
    fold (elements_points rest). split; [f_equal; f_equal; lia|].
    rewrite item_points_app. lia.
Qed.

(** What an element adds to the size that [getPatternSize] counts: its
    points, less one header when it draws both circles. *)
Lemma getPatternSize_element_spec (element : Object.t * SymbolT) (npts : Z) :
  exportable_element element ->
  0 <= npts ->
  npts + 2 * (2 + Z.of_nat (length (Object.coords (fst element)))) < 2 ^ 31 ->
  getPatternSize_element element npts
  = npts + element_points element - (if double_circle element then 2 else 0).
Proof.
  destruct element as [object symbol]. intros Hex Hnpts Hb.
  unfold exportable_element in Hex. cbn [fst snd] in *.
  unfold getPatternSize_element, element_points, double_circle, circles.
  cbn [fst snd].
  set (len := Z.of_nat (length (Object.coords object))) in *.
  assert (Hlen : 0 <= len) by (unfold len; lia).
  destruct symbol as [p | l | a | t | c]; try contradiction.
  - destruct (draws_inner p), (draws_outer p); cbn [andb];
      try change (1 + 1) with 2; try change (1 + 0) with 1;
      try change (0 + 1) with 1; try change (0 + 0) with 0;
      try change (0 <? 2) with true; try change (0 <? 1) with true;
      try change (0 <? 0) with false; cbv iota;
      rewrite (s32_id (npts + _)) by (unfold in_s32; lia);
      rewrite s32_id by (unfold in_s32; lia); lia.
  - change (0 <? 1) with true. cbv iota.
    rewrite (s32_id (npts + _)) by (unfold in_s32; lia).
    rewrite s32_id by (unfold in_s32; lia). lia.
  - change (0 <? 1) with true. cbv iota.
    rewrite (s32_id (npts + _)) by (unfold in_s32; lia).
    rewrite s32_id by (unfold in_s32; lia). lia.
Qed.

Lemma double_circles_range (elements : list (Object.t * SymbolT)) :
  0 <= 2 * double_circles elements <= elements_points elements.
Proof.
  induction elements as [|[object symbol] rest IH];
    cbn [double_circles elements_points foldr]; [lia|].
  fold (double_circles rest). fold (elements_points rest).
  unfold double_circle, element_points, circles. cbn [fst snd].
  destruct symbol as [p | l | a | t | c]; try lia.
  destruct (draws_inner p), (draws_outer p); cbn [andb]; lia.
Qed.

Lemma getPatternSize_loop_spec (elements : list (Object.t * SymbolT)) (npts : Z) :
  Forall exportable_element elements ->
  0 <= npts ->
  npts + foldr (fun element sum =>
                  2 * (2 + Z.of_nat (length (Object.coords (fst element)))) + sum)
               0 elements < 2 ^ 31 ->
  fold_left (fun npts element => getPatternSize_element element npts) elements npts
  = npts + elements_points elements - 2 * double_circles elements.
Proof.
  revert npts. induction elements as [|e rest IH]; intros npts Hex Hnpts Hb.
  - cbn. lia.
  - apply Forall_cons in Hex as [Hex Hrest]. cbn [foldr] in Hb.
    pose proof (elements_points_bound rest) as Hr.
    pose proof (element_points_range e) as He.
    pose proof (double_circles_range [e]) as Hd.
    cbn [double_circles elements_points foldr] in Hd.
    cbn [fold_left]. rewrite getPatternSize_element_spec by (assumption || lia).
    rewrite IH by (try assumption; destruct (double_circle e); lia).
    cbn [double_circles elements_points foldr].
    fold (double_circles rest). fold (elements_points rest).
    destruct (double_circle e); lia.
Qed.

(** The points of the pattern of [point], written against counted. *)
Lemma exportPattern_against_size (point : PointSymbolT) :
  Forall exportable_element (PointSymbol.elements point) ->
  length (Object.coords (PointObject_new NoSymbol)) = 1%nat ->
  pattern_bound point < 2 ^ 15 ->
  exists items,
    exportPattern PX_CTL2 isEmpty findColorIndex (Some point)
    = Ok (item_points items, items)
    /\ item_points items
       = elements_points (PointSymbol.elements point) + 3 * circles point
    /\ getPatternSize (Some point)
       = 8 * (item_points items - 2 * double_circles (PointSymbol.elements point)).
Proof.
  intros Hex Horigin Hb. unfold pattern_bound in Hb.
  pose proof (elements_points_bound (PointSymbol.elements point)) as Hr.
  pose proof (double_circles_range (PointSymbol.elements point)) as Hd.
  pose proof (circles_range point) as Hc.
  unfold exportPattern.
  destruct (exportPattern_elements_spec (PointSymbol.elements point) 0 Hex
              ltac:(lia) ltac:(lia)) as (written & -> & Hwritten).
  destruct (exportSubPattern_spec (PointObject_new NoSymbol) (SymPoint point) I
              ltac:(rewrite Horigin; cbn; lia)) as (own & -> & Hown).
  unfold element_points in Hown |- *. cbn [fst snd] in Hown |- *.
  rewrite Horigin in Hown |- *.
  change (2 + Z.of_nat 1) with 3 in Hown |- *.
  exists (written ++ own).
  assert (Htotal : item_points (written ++ own)
                   = elements_points (PointSymbol.elements point) + 3 * circles point)
    by (rewrite item_points_app; lia).
  split; [|split; [exact Htotal|]].
  - f_equal. f_equal. rewrite Htotal. rewrite s16_id by (unfold in_s16; lia). lia.
  - rewrite Htotal. unfold getPatternSize.
    rewrite getPatternSize_loop_spec by (assumption || lia).
    unfold circles in *.
    destruct (draws_inner point), (draws_outer point);
      repeat match goal with
             | |- context [s32 ?z] => rewrite (s32_id z) by (unfold in_s32; lia)
             end; lia.
Qed.

(** X14.  For a point symbol whose elements are point, line and area
    symbols, [exportPattern] returns the number of points it writes (a
    header counting as two), and [getPatternSize] is eight bytes for each
    of them, less sixteen bytes for every element that is a point symbol
    drawing both an inner dot and an outer circle: for such an element
    two headers are written and one is counted. *)
Theorem getPatternSize_misses_second_header (point : PointSymbolT) :
  Forall exportable_element (PointSymbol.elements point) ->
  length (Object.coords (PointObject_new NoSymbol)) = 1%nat ->
  pattern_bound point < 2 ^ 15 ->
  exists items,
    exportPattern PX_CTL2 isEmpty findColorIndex (Some point)
    = Ok (item_points items, items)
    /\ 8 * item_points items
       = getPatternSize (Some point)
         + 16 * double_circles (PointSymbol.elements point).
Proof.
  intros Hex Horigin Hb.
  destruct (exportPattern_against_size point Hex Horigin Hb)
    as (items & Hexport & _ & Hsize).
  exists items. split; [exact Hexport | lia].
Qed.

Lemma exportSubPattern_fails (object : Object.t) (symbol : SymbolT) :
  ~ exportable_element (object, symbol) ->
  exportSubPattern PX_CTL2 isEmpty findColorIndex object symbol
  = Failed AssertionFailed.
Proof.
  unfold exportable_element. cbn [snd].
  destruct symbol; intros H; try reflexivity; exfalso; exact (H I).
Qed.

Lemma exportSubPattern_succeeds (object : Object.t) (symbol : SymbolT) :
  exportable_element (object, symbol) ->
  exists r, exportSubPattern PX_CTL2 isEmpty findColorIndex object symbol = Ok r.
Proof.
  unfold exportable_element. cbn [snd].
  destruct symbol as [p | l | a | t | c]; intros H; try contradiction;
    unfold exportSubPattern.
  - destruct (if draws_inner p then _ else _) as [n inner].
    destruct (if draws_outer p then _ else _) as [n' outer].
    eexists. reflexivity.
  - eexists. reflexivity.
  - eexists. reflexivity.
Qed.

Lemma exportable_element_dec (element : Object.t * SymbolT) :
  {exportable_element element} + {~ exportable_element element}.
Proof.
  unfold exportable_element. destruct (snd element); (left; exact I) || (right; tauto).
Qed.

Lemma exportPattern_elements_result (elements : list (Object.t * SymbolT)) (num : Z) :
  (Forall exportable_element elements
   /\ exists r, exportPattern_elements PX_CTL2 isEmpty findColorIndex elements num = Ok r)
  \/ (Exists (fun element => ~ exportable_element element) elements
      /\ exportPattern_elements PX_CTL2 isEmpty findColorIndex elements num
         = Failed AssertionFailed).
Proof.
  revert num. induction elements as [|[object symbol] rest IH]; intros num.
  - left. split; [constructor | eexists; reflexivity].
  - cbn [exportPattern_elements].
    destruct (exportable_element_dec (object, symbol)) as [Hex|Hex].
    + destruct (exportSubPattern_succeeds object symbol Hex) as ([n written] & ->).
      destruct (IH (s16 (num + n))) as [[Hall ([n' more] & ->)]|[Hsome ->]].
      * left. split; [constructor; assumption | eexists; reflexivity].
      * right. split; [apply Exists_cons_tl; exact Hsome | reflexivity].
    + right. rewrite (exportSubPattern_fails object symbol Hex).
      split; [apply Exists_cons_hd; exact Hex | reflexivity].
Qed.

(** X15.  [exportPattern] writes the pattern of a point symbol exactly
    when every element of it is a point, line or area symbol; with an
    element of another kind (a text or a combined symbol) the
    assertion of [exportSubPattern] fails. *)
Theorem exportPattern_asserts_element_kinds (point : PointSymbolT) :
  (Forall exportable_element (PointSymbol.elements point)
   <-> exists r, exportPattern PX_CTL2 isEmpty findColorIndex (Some point) = Ok r)
  /\ (Exists (fun element => ~ exportable_element element) (PointSymbol.elements point)
      <-> exportPattern PX_CTL2 isEmpty findColorIndex (Some point)
          = Failed AssertionFailed).
Proof.
  unfold exportPattern.
  destruct (exportSubPattern_succeeds (PointObject_new NoSymbol) (SymPoint point) I)
    as ([n own] & ->).
  destruct (exportPattern_elements_result (PointSymbol.elements point) 0)
    as [[Hall ([n' written] & ->)]|[Hsome ->]].
  - split; split; intros H.
    + eexists. reflexivity.
    + exact Hall.
    + exfalso. apply Exists_exists in H as (e & Hin & Hne).
      rewrite Forall_forall in Hall. exact (Hne (Hall e Hin)).
    + discriminate H.
  - split; split; intros H.
    + exfalso. apply Exists_exists in Hsome as (e & Hin & Hne).
      rewrite Forall_forall in H. exact (Hne (H e Hin)).
    + destruct H as [r H]. discriminate H.
    + reflexivity.
    + exact Hsome.
Qed.

End PatternSize.

Lemma getPatternSize_misses_second_header_witness :
  exists items,
    OCAD8FileExport.exportPattern (model := origin_model) libocad_PX_CTL2
      draws_nothing color_position (Some nested_double_circle)
    = Ok (item_points items, items)
    /\ 8 * item_points items
       = OCAD8FileExport.getPatternSize (Some nested_double_circle) + 16.
Proof.
  apply (getPatternSize_misses_second_header (libocad := libocad_layout)
           (model := origin_model) libocad_PX_CTL2 draws_nothing color_position
           nested_double_circle).
  - repeat constructor.
  - reflexivity.
  - vm_compute. reflexivity.
Defined.

(** * Common symbol fields: import after export *)

Section SymbolRoundTrip.
Import CInt.
Context {document : QTextDocument}.

Lemma unique_number_free (fuel : nat) (numbers : gset Z) (number : Z) :
  number ∉ numbers ->
  OCAD8FileExport.unique_number fuel numbers number = Some number.
Proof.
  intros Hfree. destruct fuel; cbn [OCAD8FileExport.unique_number];
    rewrite bool_decide_eq_false_2 by exact Hfree; reflexivity.
Qed.

Lemma kept_minor_range (c1 : Z) : 0 <= kept_minor c1 <= 9.
Proof.
  unfold kept_minor. destruct (0 <=? c1) eqn:E; [|lia].
  apply Z.leb_le in E. pose proof (Z.rem_bound_pos c1 10 E ltac:(lia)). lia.
Qed.

(** The common fields of a symbol, written and read. *)
Lemma common_symbol_fields_read_back (fuel : nat) (symbol : SymbolT)
    (ex : OCAD8FileExport.t) (im : OCAD8FileImport.t) (c0 c1 c2 : Z) :
  Symbol.number (symbol_base symbol) = [c0; c1; c2] ->
  0 <= c0 -> 10 * c0 + 9 < 2 ^ 15 ->
  10 * c0 + kept_minor c1 ∉ OCAD8FileExport.symbol_numbers ex ->
  OCAD8FileImport.encoding_1byte im = OCAD8FileExport.encoding_1byte ex ->
  length (fromUnicode (OCAD8FileExport.encoding_1byte ex)
            (Symbol.getPlainTextName (symbol_base symbol)))
  = length (Symbol.getPlainTextName (symbol_base symbol)) ->
  reads_back (OCAD8FileExport.encoding_1byte ex)
    (Symbol.getPlainTextName (symbol_base symbol)) ->
  (length (Symbol.getPlainTextName (symbol_base symbol)) < 32)%nat ->
  exists record ex',
    OCAD8FileExport.exportCommonSymbolFields fuel symbol
      OCAD8FileExport.ocad_symbol_new ex = Ok (record, ex')
    /\ rec_number record = 10 * c0 + kept_minor c1
    /\ OCAD8FileImport.fillCommonSymbolFields Symbol.new (as_ocad_symbol record) im
       = Ok (Symbol.set_is_helper_symbol false
               (Symbol.set_number [c0; kept_minor c1; -1]
                  (Symbol.set_name (Symbol.getPlainTextName (symbol_base symbol))
                     (symbol_base symbol))),
             im).
Proof.
  intros Hnumber Hc0 Hsmall Hfree Hcodec Hsingle Hback Hshort.
  pose proof (kept_minor_range c1) as Hminor.
  set (plain := Symbol.getPlainTextName (symbol_base symbol)) in *.
  destruct (convertPascalString_effect plain
              (rec_name OCAD8FileExport.ocad_symbol_new) 32 ex
              ltac:(lia) ltac:(reflexivity) Hsingle)
    as (field & ex1 & Ename & Efield & Hlen & Hsame & _).
  rewrite (Hsame ltac:(lia)) in Ename. clear Hsame ex1.
  rewrite take_ge in Efield, Hlen by (rewrite Hsingle; lia).
  unfold OCAD8FileExport.exportCommonSymbolFields, OCAD8FileExport.bind at 1.
  fold plain. rewrite Ename.
  unfold OCAD8FileExport.getNumberComponent. rewrite Hnumber.
  change ([c0; c1; c2] !!! 0%nat) with c0.
  change ([c0; c1; c2] !!! 1%nat) with c1.
  assert (Enumber :
            (if 0 <=? c1 then s16 (s16 (c0 * 10) + Z.rem c1 10) else s16 (c0 * 10))
            = 10 * c0 + kept_minor c1).
  { unfold kept_minor in *. destruct (0 <=? c1).
    - rewrite s16_add_s16, s16_id by (unfold in_s16; lia). lia.
    - rewrite s16_id by (unfold in_s16; lia). lia. }
  cbv zeta. rewrite Enumber.
  assert (Eregister :
            OCAD8FileExport.register_unique_number fuel (10 * c0 + kept_minor c1) ex
            = Ok (10 * c0 + kept_minor c1,
                  OCAD8FileExport.set_symbol_numbers
                    ({[10 * c0 + kept_minor c1]} ∪ OCAD8FileExport.symbol_numbers ex)
                    ex)).
  { unfold OCAD8FileExport.register_unique_number, OCAD8FileExport.bind at 1,
      OCAD8FileExport.get.
    rewrite (unique_number_free _ _ _ Hfree). reflexivity. }
  unfold OCAD8FileExport.bind. rewrite Eregister. unfold OCAD8FileExport.ret.
  eexists _, _. split; [reflexivity|].
  assert (Erem : Z.rem (10 * c0 + kept_minor c1) 10 = kept_minor c1).
  { symmetry. apply Z.rem_unique with (q := c0); lia. }
  assert (Equot : Z.quot (10 * c0 + kept_minor c1) 10 = c0).
  { symmetry. apply Z.quot_unique with (r := kept_minor c1); lia. }
  clearbody plain.
  destruct (symbol_base symbol) as [name number helper hidden protected] eqn:Ebase.
  cbn [Symbol.name Symbol.is_protected Symbol.is_hidden] in *.
  split.
  - destruct protected, hidden; reflexivity.
  - assert (Eread : OCAD8FileImport.convertPascalString field im = Ok (plain, im)).
    { unfold OCAD8FileImport.convertPascalString, OCAD8FileImport.bind,
        OCAD8FileImport.get, OCAD8FileImport.ret.
      rewrite Hcodec, Efield. cbn [hd tl].
      rewrite Nat2Z.id, take_app_length. f_equal. f_equal. exact Hback. }
    unfold OCAD8FileImport.fillCommonSymbolFields, OCAD8FileImport.bind.
    destruct protected, hidden; cbn [as_ocad_symbol sym_name sym_number sym_status
      rec_name rec_number rec_status OCAD8FileExport.set_rec_name
      OCAD8FileExport.set_rec_number OCAD8FileExport.set_rec_status
      OCAD8FileExport.ocad_symbol_new];
      rewrite Eread, Erem, Equot; reflexivity.
Qed.

(** X16.  The common fields of a symbol, exported to a new record and
    imported from it into a new symbol.  The name that is written is the
    plain text of the name: the name itself when it holds no ['<'], and
    what Qt reads from it as HTML otherwise.  For a symbol number
    [c0.c1.c2] with [c0] not negative and small enough for 16 bits, whose
    file number is still free, and a plain-text name of fewer than 32
    characters that the encoding reads back: the plain-text name and the
    protected and hidden states come back; the number comes back as
    [c0], the last digit of [c1] (0 when [c1] is negative), and no third
    component; the helper state is cleared. *)
Theorem common_symbol_fields_round_trip (fuel : nat) (symbol : SymbolT)
    (ex : OCAD8FileExport.t) (im : OCAD8FileImport.t) (c0 c1 c2 : Z) :
  Symbol.number (symbol_base symbol) = [c0; c1; c2] ->
  0 <= c0 -> 10 * c0 + 9 < 2 ^ 15 ->
  10 * c0 + kept_minor c1 ∉ OCAD8FileExport.symbol_numbers ex ->
  OCAD8FileImport.encoding_1byte im = OCAD8FileExport.encoding_1byte ex ->
  length (fromUnicode (OCAD8FileExport.encoding_1byte ex)
            (Symbol.getPlainTextName (symbol_base symbol)))
  = length (Symbol.getPlainTextName (symbol_base symbol)) ->
  reads_back (OCAD8FileExport.encoding_1byte ex)
    (Symbol.getPlainTextName (symbol_base symbol)) ->
  (length (Symbol.getPlainTextName (symbol_base symbol)) < 32)%nat ->
  exists record ex',
    OCAD8FileExport.exportCommonSymbolFields fuel symbol
      OCAD8FileExport.ocad_symbol_new ex = Ok (record, ex')
    /\ rec_number record = 10 * c0 + kept_minor c1
    /\ OCAD8FileImport.fillCommonSymbolFields Symbol.new (as_ocad_symbol record) im
       = Ok (Symbol.set_is_helper_symbol false
               (Symbol.set_number [c0; kept_minor c1; -1]
                  (Symbol.set_name (Symbol.getPlainTextName (symbol_base symbol))
                     (symbol_base symbol))),
             im)
    /\ (60 ∉ Symbol.name (symbol_base symbol) ->
        Symbol.getPlainTextName (symbol_base symbol)
        = Symbol.name (symbol_base symbol)).
Proof.
  intros Hnumber Hc0 Hsmall Hfree Hcodec Hsingle Hback Hshort.
  destruct (common_symbol_fields_read_back fuel symbol ex im c0 c1 c2
              Hnumber Hc0 Hsmall Hfree Hcodec Hsingle Hback Hshort)
    as (record & ex' & Eexport & Enumber & Eimport).
  exists record, ex'. split; [exact Eexport|]. split; [exact Enumber|].
  split; [exact Eimport|].
  intros Hplain. unfold Symbol.getPlainTextName.
  rewrite bool_decide_eq_false_2 by exact Hplain. reflexivity.
Qed.

End SymbolRoundTrip.

(** The name [<b>Boulder</b>] is written, and comes back, without its
    tags. *)
Lemma common_symbol_fields_round_trip_witness :
  exists record ex',
    OCAD8FileExport.exportCommonSymbolFields (document := tag_free_document)
      0 marked_up_symbol OCAD8FileExport.ocad_symbol_new example_exporter
    = Ok (record, ex')
    /\ rec_number record = 124
    /\ OCAD8FileImport.fillCommonSymbolFields Symbol.new (as_ocad_symbol record)
         example_importer
       = Ok (Symbol.make (qstr "Boulder") [12; 4; -1] false false true,
             example_importer).
Proof.
  destruct (common_symbol_fields_round_trip (document := tag_free_document)
              0 marked_up_symbol example_exporter example_importer 12 34 (-1))
    as (record & ex' & Eexport & Enumber & Eimport & _).
  - reflexivity.
  - lia.
  - lia.
  - vm_compute. set_solver.
  - reflexivity.
  - reflexivity.
  - reflexivity.
  - vm_compute. lia.
  - exists record, ex'. split; [exact Eexport|]. split; [exact Enumber|].
    exact Eimport.
Defined.

(** * Dots and circles: import after export *)

Section PatternRoundTrip.
Import CInt.
Context {libocad : Libocad} {model : MapModel}.
Variable PX_CTL2 : Z.
Variable isEmpty : PointSymbolT -> bool.
Variable findColorIndex : option nat -> Z.

Lemma one_coordinate (object : Object.t) :
  length (Object.coords object) = 1%nat -> exists c, Object.coords object = [c].
Proof.
  destruct (Object.coords object) as [|c [|c' rest]]; try discriminate.
  intros _. exists c. reflexivity.
Qed.

(** What [exportPattern] writes for a symbol that is a dot alone. *)
Lemma exportPattern_lone_dot (point : PointSymbolT) :
  lone_dot_symbol point ->
  length (Object.coords (PointObject_new NoSymbol)) = 1%nat ->
  exists p,
    OCAD8FileExport.exportPattern PX_CTL2 isEmpty findColorIndex (Some point)
    = Ok (3,
          [OCAD8FileExport.Header
             {| elt_type := 4; elt_flags := 0;
                elt_color :=
                  OCAD8FileExport.convertColor findColorIndex
                    (PointSymbol.inner_color point);
                elt_width := 0;
                elt_diameter :=
                  s16 (OCAD8FileExport.convertSize
                         (s32 (2 * PointSymbol.inner_radius point)));
                elt_npts := 1 |};
           OCAD8FileExport.Coordinate p]).
Proof.
  intros (Helements & Hinner & Houter) Horigin.
  destruct (one_coordinate _ Horigin) as [c Ec].
  unfold OCAD8FileExport.exportPattern. rewrite Helements.
  cbn [OCAD8FileExport.exportPattern_elements].
  unfold OCAD8FileExport.exportSubPattern. rewrite Hinner, Houter, Ec.
  unfold OCAD8FileExport.export_element, OCAD8FileExport.exportCoordinates.
  cbn [OCAD8FileExport.exportCoordinates_loop].
  destruct (OCAD8FileExport.exportCoordinates_point _ _ _ _ c) as [p state].
  exists p. reflexivity.
Qed.

Lemma exportPattern_lone_circle (point : PointSymbolT) :
  lone_circle_symbol point ->
  length (Object.coords (PointObject_new NoSymbol)) = 1%nat ->
  exists p,
    OCAD8FileExport.exportPattern PX_CTL2 isEmpty findColorIndex (Some point)
    = Ok (3,
          [OCAD8FileExport.Header
             {| elt_type := 3; elt_flags := 0;
                elt_color :=
                  OCAD8FileExport.convertColor findColorIndex
                    (PointSymbol.outer_color point);
                elt_width :=
                  s16 (OCAD8FileExport.convertSize (PointSymbol.outer_width point));
                elt_diameter :=
                  s16 (OCAD8FileExport.convertSize
                         (s32 (s32 (2 * PointSymbol.inner_radius point)
                               + s32 (2 * PointSymbol.outer_width point))));
                elt_npts := 1 |};
           OCAD8FileExport.Coordinate p]).
Proof.
  intros (Helements & Hinner & Houter) Horigin.
  destruct (one_coordinate _ Horigin) as [c Ec].
  unfold OCAD8FileExport.exportPattern. rewrite Helements.
  cbn [OCAD8FileExport.exportPattern_elements].
  unfold OCAD8FileExport.exportSubPattern. rewrite Hinner, Houter, Ec.
  unfold OCAD8FileExport.export_element, OCAD8FileExport.exportCoordinates.
  cbn [OCAD8FileExport.exportCoordinates_loop].
  destruct (OCAD8FileExport.exportCoordinates_point _ _ _ _ c) as [p state].
  exists p. reflexivity.
Qed.

Lemma export_convertColor_index (color : option nat) :
  0 <= findColorIndex color < 2 ^ 15 ->
  OCAD8FileExport.convertColor findColorIndex color = findColorIndex color.
Proof.
  intros H. unfold OCAD8FileExport.convertColor. cbv zeta.
  destruct (0 <? findColorIndex color) eqn:E.
  - apply s16_id. unfold in_s16. lia.
  - apply Z.ltb_ge in E. replace (findColorIndex color) with 0 by lia. reflexivity.
Qed.

Lemma import_convertColor_same (st : OCAD8FileImport.t) (c : nat) :
  same_colors findColorIndex st (Some c) ->
  OCAD8FileImport.convertColor
    (OCAD8FileExport.convertColor findColorIndex (Some c)) st
  = Ok (Some c, st).
Proof.
  intros [Hrange Hcolor]. rewrite export_convertColor_index by exact Hrange.
  apply convertColor_registered. exact Hcolor.
Qed.

(** X17.  A point symbol without elements that draws only its inner
    dot, written by [exportPattern] and read by [importPattern]: when
    the radius is a multiple of 0.005 mm that fits the 16 bits of the
    diameter field and the importer finds the colour at the index
    written, the symbol read is a new rotatable symbol with this dot. *)
Theorem dot_pattern_round_trip (point : PointSymbolT) (st : OCAD8FileImport.t)
    (fuel : nat) :
  lone_dot_symbol point ->
  length (Object.coords (PointObject_new NoSymbol)) = 1%nat ->
  Z.rem (PointSymbol.inner_radius point) 5 = 0 ->
  PointSymbol.inner_radius point < 5 * 2 ^ 15 ->
  same_colors findColorIndex st (PointSymbol.inner_color point) ->
  exists items,
    OCAD8FileExport.exportPattern PX_CTL2 isEmpty findColorIndex (Some point)
    = Ok (3, items)
    /\ forall pts,
         holds pts 0 items ->
         OCAD8FileImport.importPattern (S fuel) 3 pts st
         = Ok (collapsed_dot (PointSymbol.inner_radius point)
                 (PointSymbol.inner_color point), st).
Proof.
  intros Hdot Horigin Hrem Hsmall Hcolors.
  destruct (exportPattern_lone_dot point Hdot Horigin) as [p Eexport].
  destruct Hdot as (_ & Hinner & _).
  unfold OCAD8FileExport.draws_inner in Hinner.
  apply andb_prop in Hinner as [Hradius Hcolor].
  apply Z.ltb_lt in Hradius. apply bool_decide_eq_true_1 in Hcolor.
  destruct Hcolor as [c Hcolor].
  set (r := PointSymbol.inner_radius point) in *.
  assert (Hr : r = 5 * Z.quot r 5).
  { pose proof (Z.quot_rem' r 5). lia. }
  assert (Hq : 0 < Z.quot r 5 < 2 ^ 15).
  { split; [|apply Z.quot_lt_upper_bound; lia].
    destruct (Z.quot r 5) eqn:E; lia. }
  assert (Ediameter : s16 (OCAD8FileExport.convertSize (s32 (2 * r))) = Z.quot r 5).
  { unfold OCAD8FileExport.convertSize.
    rewrite (s32_id (2 * r)) by (unfold in_s32; lia).
    replace (Z.quot (2 * r) 10) with (Z.quot r 5).
    - rewrite s32_id by (unfold in_s32; lia). apply s16_id. unfold in_s16. lia.
    - apply Z.quot_unique with (r := 0); lia. }
  eexists. split; [exact Eexport|].
  intros pts [Helement _].
  assert (Eradius :
            Z.quot (s32 (OCAD8FileImport.convertSize
                           (elt_diameter (OCAD8FileImport.element_at pts 0)))) 2 = r).
  { rewrite Helement. cbn [elt_diameter]. rewrite Ediameter.
    rewrite import_convertSize_exact by (unfold in_s32; lia).
    rewrite s32_id by (unfold in_s32; lia).
    symmetry. apply Z.quot_unique with (r := 0); lia. }
  rewrite lone_dot.
  - unfold OCAD8FileImport.bind. rewrite Helement. cbn [elt_color elt_diameter].
    rewrite Hcolor in Hcolors |- *.
    rewrite (import_convertColor_same st c Hcolors).
    rewrite Helement in Eradius. cbn [elt_diameter] in Eradius. rewrite Eradius.
    reflexivity.
  - unfold lone_element. rewrite Helement. cbn [elt_npts]. lia.
  - rewrite Helement. reflexivity.
  - rewrite Eradius. exact Hradius.
Qed.

(** X18.  A point symbol without elements that draws only its outer
    circle, written by [exportPattern] and read by [importPattern]: with
    a line width and an inner radius that are multiples of 0.01 mm and
    fit the 16-bit fields, the symbol read is a new rotatable symbol with
    this circle when the inner radius is positive; a circle of inner
    radius 0 is not read at all, and the symbol read is empty. *)
Theorem circle_pattern_round_trip (point : PointSymbolT) (st : OCAD8FileImport.t)
    (fuel : nat) :
  lone_circle_symbol point ->
  length (Object.coords (PointObject_new NoSymbol)) = 1%nat ->
  Z.rem (PointSymbol.inner_radius point) 10 = 0 ->
  Z.rem (PointSymbol.outer_width point) 10 = 0 ->
  0 <= PointSymbol.inner_radius point ->
  PointSymbol.inner_radius point + PointSymbol.outer_width point < 5 * 2 ^ 15 ->
  same_colors findColorIndex st (PointSymbol.outer_color point) ->
  exists items,
    OCAD8FileExport.exportPattern PX_CTL2 isEmpty findColorIndex (Some point)
    = Ok (3, items)
    /\ forall pts,
         holds pts 0 items ->
         OCAD8FileImport.importPattern (S fuel) 3 pts st
         = Ok (if 0 <? PointSymbol.inner_radius point
               then collapsed_circle (PointSymbol.inner_radius point)
                      (PointSymbol.outer_width point)
                      (PointSymbol.outer_color point)
               else PointSymbol.set_rotatable true PointSymbol_new, st).
Proof.
  intros Hcircle Horigin Hrem_r Hrem_w Hr0 Hsmall Hcolors.
  destruct (exportPattern_lone_circle point Hcircle Horigin) as [p Eexport].
  destruct Hcircle as (_ & _ & Houter).
  unfold OCAD8FileExport.draws_outer in Houter.
  apply andb_prop in Houter as [Hwidth Hcolor].
  apply Z.ltb_lt in Hwidth. apply bool_decide_eq_true_1 in Hcolor.
  destruct Hcolor as [c Hcolor].
  set (r := PointSymbol.inner_radius point) in *.
  set (w := PointSymbol.outer_width point) in *.
  assert (Hr : r = 10 * Z.quot r 10) by (pose proof (Z.quot_rem' r 10); lia).
  assert (Hw : w = 10 * Z.quot w 10) by (pose proof (Z.quot_rem' w 10); lia).
  assert (Hqr : 0 <= Z.quot r 10) by (apply Z.quot_pos; lia).
  assert (Hqw : 0 < Z.quot w 10) by (destruct (Z.quot w 10) eqn:E; lia).
  assert (Ewidth : s16 (OCAD8FileExport.convertSize w) = Z.quot w 10).
  { unfold OCAD8FileExport.convertSize.
    rewrite s32_id by (unfold in_s32; lia). apply s16_id. unfold in_s16. lia. }
  assert (Ediameter :
            s16 (OCAD8FileExport.convertSize (s32 (s32 (2 * r) + s32 (2 * w))))
            = 2 * (Z.quot r 10 + Z.quot w 10)).
  { unfold OCAD8FileExport.convertSize.
    rewrite (s32_id (2 * r)), (s32_id (2 * w)) by (unfold in_s32; lia).
    rewrite (s32_id (2 * r + 2 * w)) by (unfold in_s32; lia).
    replace (Z.quot (2 * r + 2 * w) 10) with (2 * (Z.quot r 10 + Z.quot w 10)).
    - rewrite s32_id by (unfold in_s32; lia). apply s16_id. unfold in_s16. lia.
    - apply Z.quot_unique with (r := 0); lia. }
  eexists. split; [exact Eexport|].
  intros pts [Helement _].
  assert (Eouter :
            s32 (OCAD8FileImport.convertSize
                   (elt_width (OCAD8FileImport.element_at pts 0))) = w).
  { rewrite Helement. cbn [elt_width]. rewrite Ewidth.
    rewrite import_convertSize_exact by (unfold in_s32; lia).
    rewrite s32_id by (unfold in_s32; lia). lia. }
  assert (Einner :
            Z.quot (s32 (OCAD8FileImport.convertSize
                           (elt_diameter (OCAD8FileImport.element_at pts 0)))) 2
            - w = r).
  { rewrite Helement. cbn [elt_diameter]. rewrite Ediameter.
    rewrite import_convertSize_exact by (unfold in_s32; lia).
    rewrite s32_id by (unfold in_s32; lia).
    replace (Z.quot (2 * (Z.quot r 10 + Z.quot w 10) * 10) 2) with (r + w); [lia|].
    apply Z.quot_unique with (r := 0); lia. }
  assert (Hlone : lone_element 3 pts).
  { unfold lone_element. rewrite Helement. cbn [elt_npts]. lia. }
  destruct (0 <? r) eqn:Epos.
  - apply Z.ltb_lt in Epos. rewrite lone_circle.
    + unfold OCAD8FileImport.bind. rewrite Eouter, Einner.
      rewrite Helement. cbn [elt_color].
      rewrite Hcolor in Hcolors |- *.
      rewrite (import_convertColor_same st c Hcolors). reflexivity.
    + exact Hlone.
    + rewrite Helement. reflexivity.
    + rewrite Eouter. exact Hwidth.
    + rewrite Eouter, Einner. exact Epos.
  - apply Z.ltb_ge in Epos. rewrite importPattern_lone by exact Hlone.
    unfold OCAD8FileImport.importPattern_element. cbv zeta.
    rewrite Helement in Eouter, Einner |- *. cbn [elt_type].
    change (3 =? OCAD_DOT_ELEMENT) with false.
    change (3 =? OCAD_CIRCLE_ELEMENT) with true. cbv iota.
    rewrite Eouter, Einner.
    assert (E : (0 <? w) && (0 <? r) = false)
      by (apply andb_false_iff; right; apply Z.ltb_ge; exact Epos).
    rewrite E. reflexivity.
Qed.

End PatternRoundTrip.

Lemma dot_pattern_round_trip_witness :
  exists items,
    OCAD8FileExport.exportPattern (model := origin_model) libocad_PX_CTL2
      draws_nothing color_position (Some dot_symbol) = Ok (3, items)
    /\ holds (points_of dot_pattern) 0 items
    /\ OCAD8FileImport.importPattern (model := origin_model) 1 3
         (points_of dot_pattern) example_importer
       = Ok (collapsed_dot (H := origin_model) 250 (Some 1%nat), example_importer).
Proof.
  destruct (dot_pattern_round_trip (libocad := libocad_layout) (model := origin_model)
              libocad_PX_CTL2 draws_nothing color_position dot_symbol
              example_importer 0) as (items & E & Hread).
  - repeat split.
  - reflexivity.
  - reflexivity.
  - vm_compute. reflexivity.
  - split; [vm_compute; split; [discriminate | reflexivity] | reflexivity].
  - assert (Hitems : holds (points_of dot_pattern) 0 items).
    { vm_compute in E. injection E as <-. vm_compute. repeat split. }
    exists items. split; [exact E|]. split; [exact Hitems | exact (Hread _ Hitems)].
Defined.

Lemma circle_pattern_round_trip_witness :
  exists items,
    OCAD8FileExport.exportPattern (model := origin_model) libocad_PX_CTL2
      draws_nothing color_position (Some circle_symbol) = Ok (3, items)
    /\ holds (points_of circle_pattern) 0 items
    /\ OCAD8FileImport.importPattern (model := origin_model) 1 3
         (points_of circle_pattern) example_importer
       = Ok (collapsed_circle (H := origin_model) 300 100 (Some 0%nat),
             example_importer).
Proof.
  destruct (circle_pattern_round_trip (libocad := libocad_layout)
              (model := origin_model) libocad_PX_CTL2 draws_nothing color_position
              circle_symbol example_importer 0) as (items & E & Hread).
  - repeat split.
  - reflexivity.
  - reflexivity.
  - reflexivity.
  - vm_compute. discriminate.
  - vm_compute. reflexivity.
  - split; [vm_compute; split; [discriminate | reflexivity] | reflexivity].
  - assert (Hitems : holds (points_of circle_pattern) 0 items).
    { vm_compute in E. injection E as <-. vm_compute. repeat split. }
    exists items. split; [exact E|]. split; [exact Hitems | exact (Hread _ Hitems)].
Defined.

(** * The loop of [importPattern] *)

Section PatternLoop.
Import CInt OCAD8FileImport.
Context {libocad : Libocad} {model : MapModel}.

Lemma for_each_keeps_fuel {A : Type} (body : A -> nat -> M A) (indices : list nat)
    (a : A) (st : OCAD8FileImport.t) :
  (forall a i st, outcome (body a i st) (fun _ _ => True) keeps_fuel) ->
  outcome (for_each body indices a st) (fun _ _ => True) keeps_fuel.
Proof.
  intros Hbody. revert a st. induction indices as [|i rest IH]; intros a st.
  - exact I.
  - cbn [for_each]. eapply outcome_seq; [apply Hbody|].
    intros a' st' _. apply IH.
Qed.

Lemma fillPathCoords_point_keeps_fuel (is_area : bool) (pts : OCADPoints)
    (cs : list MapCoord.t) (i : nat) (st : OCAD8FileImport.t) :
  outcome (fillPathCoords_point is_area pts cs i st) (fun _ _ => True) keeps_fuel.
Proof.
  unfold fillPathCoords_point.
  destruct (ocad_point (pts (Z.of_nat i))) as [[buf0 buf1] buf2].
  unfold bind, convertPoint, get, ret, fail.
  destruct (test_mask buf2 (Z.shiftl PY_HOLE 8)); [|exact I].
  destruct is_area; [|exact I].
  destruct (0 <? Z.of_nat i); [exact I | discriminate].
Qed.

Lemma fillPathCoords_keeps_fuel (object : Object.t) (is_area : bool) (npts : Z)
    (pts : OCADPoints) (st : OCAD8FileImport.t) :
  outcome (fillPathCoords object is_area npts pts st) (fun _ _ => True) keeps_fuel.
Proof.
  unfold fillPathCoords. destruct (npts <? 0); [discriminate|].
  eapply outcome_seq.
  - apply for_each_keeps_fuel. intros a i st0.
    apply fillPathCoords_point_keeps_fuel.
  - intros cs st' _. destruct (Object.type object); exact I.
Qed.

Lemma convertColor_keeps_fuel (color : Z) (st : OCAD8FileImport.t) :
  outcome (convertColor color st) (fun _ _ => True) keeps_fuel.
Proof.
  apply (outcome_weaken _ _ _ _ _ (convertColor_total color st)); [trivial|].
  intros f [].
Qed.

(** One round of the loop fails only as [fillPathCoords] does. *)
Lemma importPattern_element_keeps_fuel (pts : OCADPoints) (end_ p : Z)
    (symbol : PointSymbolT) (st : OCAD8FileImport.t) :
  outcome (importPattern_element pts end_ p symbol st) (fun _ _ => True) keeps_fuel.
Proof.
  unfold importPattern_element. cbv zeta.
  destruct (elt_type (element_at pts p) =? OCAD_DOT_ELEMENT).
  { destruct (0 <? _); [|exact I].
    eapply outcome_seq; [apply convertColor_keeps_fuel|].
    intros c st' _. destruct (_ || _); exact I. }
  destruct (elt_type (element_at pts p) =? OCAD_CIRCLE_ELEMENT).
  { destruct (_ && _); [|exact I].
    eapply outcome_seq; [apply convertColor_keeps_fuel|].
    intros c st' _. destruct (_ || _); exact I. }
  destruct (elt_type (element_at pts p) =? OCAD_LINE_ELEMENT).
  { eapply outcome_seq; [apply convertColor_keeps_fuel|].
    intros c st' _.
    eapply outcome_seq; [apply fillPathCoords_keeps_fuel|].
    intros object st'' _. exact I. }
  destruct (elt_type (element_at pts p) =? OCAD_AREA_ELEMENT); [|exact I].
  eapply outcome_seq; [apply convertColor_keeps_fuel|].
  intros c st' _.
  eapply outcome_seq; [apply fillPathCoords_keeps_fuel|].
  intros object st'' _. exact I.
Qed.

Lemma importPattern_loop_keeps_fuel (fuel : nat) (pts : OCADPoints) (end_ p : Z)
    (symbol : PointSymbolT) (st : OCAD8FileImport.t) :
  (forall q, header_at pts end_ q -> -2 < elt_npts (element_at pts q)) ->
  (p < end_ -> header_at pts end_ p) ->
  (Z.to_nat (end_ - p) <= fuel)%nat ->
  outcome (importPattern_loop fuel pts end_ p symbol st) (fun _ _ => True) keeps_fuel.
Proof.
  intros Hheaders. revert p symbol st.
  induction fuel as [|fuel IH]; intros p symbol st Hp Hfuel.
  - cbn [importPattern_loop].
    assert (E : (p <? end_) = false) by (apply Z.ltb_ge; lia).
    rewrite E. exact I.
  - cbn [importPattern_loop].
    destruct (p <? end_) eqn:E; [|exact I].
    apply Z.ltb_lt in E. specialize (Hp E).
    pose proof (Hheaders p Hp) as Hnpts.
    eapply outcome_seq; [apply importPattern_element_keeps_fuel|].
    intros symbol' st' _. apply IH.
    + intros Hnext. apply next_header; assumption.
    + lia.
Qed.

(** X19.  [importPattern] ends within as many rounds as the pattern has
    points when every header that its loop reaches counts at least -1
    coordinates: each round then moves on by a point at least. *)
Theorem importPattern_ends (fuel : nat) (npts : Z) (pts : OCADPoints)
    (st : OCAD8FileImport.t) :
  (forall p, header_at pts npts p -> -2 < elt_npts (element_at pts p)) ->
  (Z.to_nat npts <= fuel)%nat ->
  importPattern fuel npts pts st <> Failed OutOfFuel.
Proof.
  intros Hheaders Hfuel E.
  pose proof (importPattern_loop_keeps_fuel fuel pts npts 0
                (PointSymbol.set_rotatable true PointSymbol_new) st Hheaders
                (first_header pts npts)
                ltac:(rewrite Z.sub_0_r; exact Hfuel)) as H.
  unfold importPattern in E. rewrite E in H. exact (H eq_refl).
Qed.

Lemma importPattern_element_returns (pts : OCADPoints) (end_ p : Z)
    (symbol : PointSymbolT) (st : OCAD8FileImport.t) :
  elt_type (element_at pts p) <> OCAD_LINE_ELEMENT ->
  elt_type (element_at pts p) <> OCAD_AREA_ELEMENT ->
  exists symbol' st', importPattern_element pts end_ p symbol st = Ok (symbol', st').
Proof.
  intros Hline Harea. apply Z.eqb_neq in Hline, Harea.
  assert (Hcolor : forall color (k : option nat -> M PointSymbolT),
             (forall c st', exists symbol' st'', k c st' = Ok (symbol', st'')) ->
             exists symbol' st', bind (convertColor color) k st = Ok (symbol', st')).
  { intros color k Hk. unfold bind.
    destruct (outcome_Ok _ _ (convertColor_total color st)) as (c & st' & -> & _).
    apply Hk. }
  unfold importPattern_element. cbv zeta. rewrite Hline, Harea.
  destruct (elt_type (element_at pts p) =? OCAD_DOT_ELEMENT).
  { destruct (0 <? _); [|eexists _, _; reflexivity].
    apply Hcolor. intros c st'. destruct (_ || _); eexists _, _; reflexivity. }
  destruct (elt_type (element_at pts p) =? OCAD_CIRCLE_ELEMENT).
  { destruct (_ && _); [|eexists _, _; reflexivity].
    apply Hcolor. intros c st'. destruct (_ || _); eexists _, _; reflexivity. }
  eexists _, _. reflexivity.
Qed.

(** The loop stays at a header that counts -2 coordinates. *)
Lemma importPattern_stays_at_header (fuel : nat) (npts : Z) (pts : OCADPoints)
    (st : OCAD8FileImport.t) :
  0 < npts ->
  elt_npts (element_at pts 0) = -2 ->
  elt_type (element_at pts 0) <> OCAD_LINE_ELEMENT ->
  elt_type (element_at pts 0) <> OCAD_AREA_ELEMENT ->
  importPattern fuel npts pts st = Failed OutOfFuel.
Proof.
  intros Hnpts Hcount Hline Harea. unfold importPattern.
  generalize (PointSymbol.set_rotatable true PointSymbol_new). revert st.
  assert (E : (0 <? npts) = true) by (apply Z.ltb_lt; exact Hnpts).
  induction fuel as [|fuel IH]; intros st symbol; cbn [importPattern_loop]; rewrite E.
  - reflexivity.
  - destruct (importPattern_element_returns pts npts 0 symbol st Hline Harea)
      as (symbol' & st' & Eelement).
    unfold bind. rewrite Eelement, Hcount. apply IH.
Qed.

(** X20.  A pattern whose first header is not of a line or an area and
    counts -2 coordinates is never read to its end: the loop of
    [importPattern] stays at this header, whatever the number of
    rounds. *)
Theorem importPattern_never_ends (fuel : nat) (npts : Z) (pts : OCADPoints)
    (st : OCAD8FileImport.t) :
  0 < npts ->
  elt_npts (element_at pts 0) = -2 ->
  elt_type (element_at pts 0) <> OCAD_LINE_ELEMENT ->
  elt_type (element_at pts 0) <> OCAD_AREA_ELEMENT ->
  importPattern fuel npts pts st = Failed OutOfFuel.
Proof. exact (importPattern_stays_at_header fuel npts pts st). Qed.

(** A line symbol whose first pattern does not end is not imported. *)
Lemma importLineSymbol_stays_at_header (fuel : nat) (s : OCADLineSymbol)
    (st : OCAD8FileImport.t) :
  0 < smnpts s ->
  elt_npts (element_at (pts s) 0) = -2 ->
  elt_type (element_at (pts s) 0) <> OCAD_LINE_ELEMENT ->
  elt_type (element_at (pts s) 0) <> OCAD_AREA_ELEMENT ->
  importLineSymbol fuel s st = Failed OutOfFuel.
Proof.
  intros Hnpts Hcount Hline Harea.
  assert (Hpat : forall l st1, import_line_patterns fuel s l st1 = Failed OutOfFuel).
  { intros l st1. unfold import_line_patterns. cbv zeta. unfold bind at 1.
    rewrite importPattern_stays_at_header; try assumption; reflexivity. }
  unfold importLineSymbol. unfold bind at 1.
  destruct (import_main_line s st) as [[main_line st1]|f] eqn:Emain.
  2: { pose proof (import_main_line_total s st) as H. rewrite Emain in H.
       destruct H. }
  unfold bind at 1.
  destruct (import_double_line s st1) as [[double_line st2]|f] eqn:Edouble.
  2: { pose proof (import_double_line_total s st1) as H. rewrite Edouble in H.
       destruct H. }
  destruct main_line as [main_line|]; [|destruct double_line as [double_line|]].
  - unfold bind at 1. rewrite Hpat. reflexivity.
  - unfold bind at 1. rewrite Hpat. reflexivity.
  - exfalso.
    pose proof (importLineSymbol_outcome fuel s st not_null
                  (fun l st1 => import_line_patterns_spec fuel s l st1)) as H.
    unfold importLineSymbol in H. unfold bind at 1 in H. rewrite Emain in H.
    unfold bind at 1 in H. rewrite Edouble in H. simpl in H. apply H. reflexivity.
Qed.

End PatternLoop.

Lemma importPattern_ends_witness :
  OCAD8FileImport.importPattern 6 6 (points_of dot_and_circle_pattern)
    example_importer <> Failed OutOfFuel.
Proof.
  apply (importPattern_ends (libocad := libocad_layout) (model := plain_model)).
  - assert (H : forall p, header_at (points_of dot_and_circle_pattern) 6 p ->
                          p = 0 \/ p = 3).
    { induction 1 as [|p Hp [-> | ->] Hnext]; [left; reflexivity | |].
      - right. reflexivity.
      - exfalso. vm_compute in Hnext. discriminate Hnext. }
    intros p Hp. destruct (H p Hp) as [-> | ->]; vm_compute; reflexivity.
  - vm_compute. lia.
Defined.

Lemma importPattern_never_ends_witness :
  OCAD8FileImport.importPattern 1000 2 (points_of endless_pattern) example_importer
  = Failed OutOfFuel.
Proof.
  apply (importPattern_never_ends (libocad := libocad_layout) (model := plain_model)).
  - lia.
  - reflexivity.
  - vm_compute. discriminate.
  - vm_compute. discriminate.
Defined.


(** * Line styles: import after export *)

Section LineRoundTrip.
Import CInt.
Context {libocad : Libocad} {model : MapModel} {document : QTextDocument}.

Lemma quot_double (b : Z) : Z.quot (b + b) 2 = b.
Proof.
  replace (b + b) with (b * 2) by lia. apply Z.quot_mul. lia.
Qed.

Lemma export_convertSize_small (v : Z) :
  in_s16 (Z.quot v 10) -> s16 (OCAD8FileExport.convertSize v) = Z.quot v 10.
Proof.
  intros H. unfold OCAD8FileExport.convertSize.
  rewrite s32_id by (unfold in_s16 in H; unfold in_s32; lia).
  apply s16_id. exact H.
Qed.

Lemma kept_length_quot (v : Z) :
  kept_length v -> 0 < Z.quot v 10 < 2 ^ 15 /\ v = 10 * Z.quot v 10.
Proof.
  intros [Hrange Hrem]. pose proof (Z.quot_rem' v 10) as H.
  assert (Hv : v = 10 * Z.quot v 10) by lia.
  split; [|exact Hv]. split; [|apply Z.quot_lt_upper_bound; lia].
  destruct (Z.quot v 10) eqn:E; lia.
Qed.

Lemma kept_length_written (v : Z) :
  kept_length v ->
  s16 (OCAD8FileExport.convertSize v) = Z.quot v 10
  /\ OCAD8FileImport.convertSize (Z.quot v 10) = v.
Proof.
  intros H. destruct (kept_length_quot v H) as [Hq Hv]. split.
  - apply export_convertSize_small. unfold in_s16. lia.
  - rewrite import_convertSize_exact by (unfold in_s32; lia). lia.
Qed.

(** X21.  The cap and the join of a line symbol, written by
    [exportLineSymbol] and read by [importLineSymbol]: the export warns
    exactly when the file has no number for the combination; a flat cap
    comes back with a miter or else a bevel join, a square cap as a flat
    cap with a bevel join, a round cap with a round join, and a pointed
    cap always with a round join, whatever the join was; the length of a
    pointed cap comes back rounded down to 0.01 mm. *)
Theorem cap_and_join_round_trip (line main_line : LineSymbolT)
    (ex : OCAD8FileExport.t) (im : OCAD8FileImport.t) :
  exists fields ex',
    OCAD8FileExport.export_cap_and_join line OCAD8FileExport.zero_fields ex
    = Ok (fields, ex')
    /\ (if representable (LineSymbol.cap_style line) (LineSymbol.join_style line)
        then ex' = ex
        else OCAD8FileExport.line_warning ", cannot represent cap/join combination."
               line ex = Ok (tt, ex'))
    /\ forall ocad_symbol,
         carries ocad_symbol (OCAD8FileExport.export_pointed_cap line fields) ->
         exists main',
           OCAD8FileImport.import_pointed_cap ocad_symbol
             (OCAD8FileImport.import_cap_and_join ocad_symbol main_line) im
           = Ok (main', im)
           /\ (LineSymbol.cap_style main', LineSymbol.join_style main')
              = kept_styles (LineSymbol.cap_style line) (LineSymbol.join_style line)
           /\ (LineSymbol.cap_style line = LineSymbol.PointedCap ->
               in_s16 (Z.quot (LineSymbol.pointed_cap_length line) 10) ->
               LineSymbol.pointed_cap_length main'
               = 10 * Z.quot (LineSymbol.pointed_cap_length line) 10).
Proof.
  unfold OCAD8FileExport.export_cap_and_join, OCAD8FileExport.export_pointed_cap.
  destruct main_line.
  destruct (LineSymbol.cap_style line) eqn:Ecap,
           (LineSymbol.join_style line) eqn:Ejoin;
    (eexists _, _; split; [reflexivity|]; split; [reflexivity|];
     intros ocad_symbol (Hends & Hbdist & Hedist & _);
     cbn in Hends, Hbdist, Hedist;
     unfold OCAD8FileImport.import_cap_and_join, OCAD8FileImport.import_pointed_cap;
     rewrite Hends; cbn - [Z.quot Z.add OCAD8FileImport.convertSize
                           OCAD8FileExport.convertSize s16];
     try (rewrite Hbdist, Hedist, Z.eqb_refl;
          cbn - [Z.quot Z.add OCAD8FileImport.convertSize
                 OCAD8FileExport.convertSize s16]);
     eexists; split; [reflexivity|]; split; [reflexivity|];
     intros Hcap Hsmall; try discriminate Hcap;
     cbn - [Z.quot Z.add OCAD8FileImport.convertSize OCAD8FileExport.convertSize s16];
     rewrite quot_double, export_convertSize_small by exact Hsmall;
     rewrite import_convertSize_exact by (unfold in_s16 in Hsmall; unfold in_s32; lia);
     lia).
Qed.

Variable isEmpty : PointSymbolT -> bool.

Lemma no_mid_symbol_test (line : LineSymbolT) :
  no_mid_symbol isEmpty line ->
  match LineSymbol.mid_symbol line with
  | Some mid_symbol => negb (isEmpty mid_symbol)
  | None => false
  end = false.
Proof.
  unfold no_mid_symbol. destruct (LineSymbol.mid_symbol line) as [mid|]; [|reflexivity].
  intros ->. reflexivity.
Qed.

(** X22.  A dashed line symbol without a mid symbol and without groups
    of dashes, written by [exportLineSymbol] and read by
    [importLineSymbol]: when the dash length and the break length are
    positive multiples of 0.01 mm that fit their 16-bit fields, they come
    back unchanged, the line is dashed again, the half outer dashes come
    back as they were, and neither side warns. *)
Theorem dash_pattern_round_trip (line main_line : LineSymbolT)
    (fields0 : OCAD8FileExport.LineFields)
    (ex : OCAD8FileExport.t) (im : OCAD8FileImport.t) :
  LineSymbol.dashed line = true ->
  no_mid_symbol isEmpty line ->
  LineSymbol.dashes_in_group line <= 1 ->
  kept_length (LineSymbol.dash_length line) ->
  kept_length (LineSymbol.break_length line) ->
  OCAD8FileExport.f_gap2 fields0 = 0 ->
  LineSymbol.half_outer_dashes main_line = false ->
  exists fields,
    OCAD8FileExport.export_dash_pattern isEmpty line fields0 ex = Ok (fields, ex)
    /\ forall ocad_symbol,
         carries ocad_symbol fields ->
         exists main',
           OCAD8FileImport.import_dash_pattern ocad_symbol main_line im
           = Ok (main', im)
           /\ LineSymbol.dashed main' = true
           /\ LineSymbol.dash_length main' = LineSymbol.dash_length line
           /\ LineSymbol.break_length main' = LineSymbol.break_length line
           /\ LineSymbol.half_outer_dashes main' = LineSymbol.half_outer_dashes line
           /\ LineSymbol.dashes_in_group main' = LineSymbol.dashes_in_group main_line.
Proof.
  intros Hdashed Hmid Hgroup Hdash Hbreak Hzero Hhalf.
  destruct (kept_length_written _ Hdash) as [Edash Idash].
  destruct (kept_length_written _ Hbreak) as [Ebreak Ibreak].
  destruct (kept_length_quot _ Hdash) as [Hqdash _].
  destruct (kept_length_quot _ Hbreak) as [Hqbreak _].
  unfold OCAD8FileExport.export_dash_pattern.
  rewrite Hdashed, (no_mid_symbol_test line Hmid).
  assert (E1 : (1 <? LineSymbol.dashes_in_group line) = false)
    by (apply Z.ltb_ge; exact Hgroup).
  rewrite E1. cbv zeta. eexists. split; [reflexivity|].
  intros ocad_symbol (_ & _ & _ & Hlen & Helen & Hgap & Hgap2 & _).
  cbn [OCAD8FileExport.f_len OCAD8FileExport.f_elen OCAD8FileExport.f_gap
       OCAD8FileExport.f_gap2 OCAD8FileExport.set_f_len OCAD8FileExport.set_f_elen
       OCAD8FileExport.set_f_gap] in Hlen, Helen, Hgap, Hgap2.
  rewrite Edash in Hlen, Helen. rewrite Ebreak in Hgap. rewrite Hzero in Hgap2.
  set (d := Z.quot (LineSymbol.dash_length line) 10) in *.
  set (b := Z.quot (LineSymbol.break_length line) 10) in *.
  unfold OCAD8FileImport.import_dash_pattern, OCAD8FileImport.end_length_is_half.
  rewrite Hlen, Hgap, Hgap2.
  assert (Hpos : (0 <? b) || (0 <? 0) = true)
    by (apply orb_true_iff; left; apply Z.ltb_lt; lia).
  rewrite Hpos. change ((0 <? 0) && (b =? 0)) with false. cbv iota.
  change (0 <? 0) with false. cbv iota.
  fold b in Ibreak. fold d in Idash. rewrite Idash, Ibreak.
  destruct main_line. cbn [LineSymbol.half_outer_dashes] in Hhalf. subst.
  destruct (LineSymbol.half_outer_dashes line) eqn:Ehalf.
  - assert (Eq : Z.quot d 2 < d) by (apply Z.quot_lt; lia).
    rewrite Helen, (s16_id (Z.quot d 2)) by
      (unfold in_s16; pose proof (Z.quot_pos d 2); lia).
    assert (Ene : negb (d =? Z.quot d 2) = true)
      by (apply negb_true_iff, Z.eqb_neq; lia).
    assert (Ehalf_len : (Z.quot d 2 - 1 <=? Z.quot d 2) && (Z.quot d 2 <=? Z.quot d 2 + 1)
                        = true)
      by (apply andb_true_iff; split; apply Z.leb_le; lia).
    rewrite Ene, Ehalf_len. unfold OCAD8FileImport.bind, OCAD8FileImport.ret.
    eexists. split; [reflexivity|]. cbn. repeat split; reflexivity.
  - rewrite Helen, (Z.quot_1_r d), (s16_id d) by (unfold in_s16; lia).
    rewrite Z.eqb_refl. cbn [negb].
    unfold OCAD8FileImport.bind, OCAD8FileImport.ret.
    eexists. split; [reflexivity|]. cbn. repeat split; reflexivity.
Qed.

(** X23.  A dashed line symbol without a mid symbol whose dashes are
    grouped, written by [exportLineSymbol] and read by
    [importLineSymbol]: with a dash length, a break length and a break
    length within the group that are positive multiples of 0.01 mm and
    fit their fields, these three come back unchanged and the import does
    not warn; the groups come back as groups of two dashes, the export
    warning when they were of more; the half outer dashes are not
    written. *)
Theorem grouped_dashes_round_trip (line main_line : LineSymbolT)
    (fields0 : OCAD8FileExport.LineFields)
    (ex : OCAD8FileExport.t) (im : OCAD8FileImport.t) :
  LineSymbol.dashed line = true ->
  no_mid_symbol isEmpty line ->
  1 < LineSymbol.dashes_in_group line ->
  kept_length (LineSymbol.dash_length line) ->
  kept_length (LineSymbol.break_length line) ->
  kept_length (LineSymbol.in_group_break_length line) ->
  2 * LineSymbol.dash_length line + LineSymbol.in_group_break_length line
  < 10 * 2 ^ 15 ->
  exists fields ex',
    OCAD8FileExport.export_dash_pattern isEmpty line fields0 ex = Ok (fields, ex')
    /\ (if 2 <? LineSymbol.dashes_in_group line
        then OCAD8FileExport.line_warning
               ", the number of dashes in a group has been reduced to 2." line ex
             = Ok (tt, ex')
        else ex' = ex)
    /\ forall ocad_symbol,
         carries ocad_symbol fields ->
         exists main',
           OCAD8FileImport.import_dash_pattern ocad_symbol main_line im
           = Ok (main', im)
           /\ LineSymbol.dashed main' = true
           /\ LineSymbol.dashes_in_group main' = 2
           /\ LineSymbol.dash_length main' = LineSymbol.dash_length line
           /\ LineSymbol.break_length main' = LineSymbol.break_length line
           /\ LineSymbol.in_group_break_length main'
              = LineSymbol.in_group_break_length line
           /\ LineSymbol.half_outer_dashes main'
              = LineSymbol.half_outer_dashes main_line.
Proof.
  intros Hdashed Hmid Hgroup Hdash Hbreak Hin Hsum.
  destruct (kept_length_written _ Hbreak) as [Ebreak Ibreak].
  destruct (kept_length_written _ Hin) as [Ein Iin].
  destruct (kept_length_quot _ Hdash) as [Hqdash Hvdash].
  destruct (kept_length_quot _ Hbreak) as [Hqbreak _].
  destruct (kept_length_quot _ Hin) as [Hqin Hvin].
  set (dash := LineSymbol.dash_length line) in *.
  set (inner := LineSymbol.in_group_break_length line) in *.
  set (d := Z.quot dash 10) in *.
  set (b := Z.quot (LineSymbol.break_length line) 10) in *.
  set (g := Z.quot inner 10) in *.
  assert (Egrouped :
            s16 (OCAD8FileExport.convertSize (s32 (s32 (2 * dash) + inner)))
            = 2 * d + g).
  { rewrite (s32_id (2 * dash)) by (unfold in_s32; lia).
    rewrite (s32_id (2 * dash + inner)) by (unfold in_s32; lia).
    assert (Eq : Z.quot (2 * dash + inner) 10 = 2 * d + g)
      by (symmetry; apply Z.quot_unique with (r := 0); lia).
    rewrite export_convertSize_small; rewrite Eq; [reflexivity|].
    unfold in_s16. lia. }
  unfold OCAD8FileExport.export_dash_pattern.
  rewrite Hdashed, (no_mid_symbol_test line Hmid).
  assert (E1 : (1 <? LineSymbol.dashes_in_group line) = true)
    by (apply Z.ltb_lt; exact Hgroup).
  rewrite E1. cbv zeta. fold dash inner. rewrite Egrouped, Ebreak, Ein.
  unfold OCAD8FileExport.bind, OCAD8FileExport.when, OCAD8FileExport.ret.
  assert (Hread : forall fields ocad_symbol,
             OCAD8FileExport.f_len fields = 2 * d + g ->
             OCAD8FileExport.f_elen fields = 2 * d + g ->
             OCAD8FileExport.f_gap fields = b ->
             OCAD8FileExport.f_gap2 fields = g ->
             OCAD8FileExport.f_egap fields = g ->
             carries ocad_symbol fields ->
             exists main',
               OCAD8FileImport.import_dash_pattern ocad_symbol main_line im
               = Ok (main', im)
               /\ LineSymbol.dashed main' = true
               /\ LineSymbol.dashes_in_group main' = 2
               /\ LineSymbol.dash_length main' = dash
               /\ LineSymbol.break_length main' = LineSymbol.break_length line
               /\ LineSymbol.in_group_break_length main' = inner
               /\ LineSymbol.half_outer_dashes main'
                  = LineSymbol.half_outer_dashes main_line).
  { intros fields ocad_symbol Flen Felen Fgap Fgap2 Fegap
      (_ & _ & _ & Hlen & Helen & Hgap & Hgap2 & Hegap).
    rewrite Flen in Hlen. rewrite Felen in Helen. rewrite Fgap in Hgap.
    rewrite Fgap2 in Hgap2. rewrite Fegap in Hegap.
    unfold OCAD8FileImport.import_dash_pattern.
    rewrite Hlen, Helen, Hgap, Hgap2, Hegap.
    assert (Hpos : (0 <? b) || (0 <? g) = true)
      by (apply orb_true_iff; left; apply Z.ltb_lt; lia).
    assert (Hspecial : (0 <? g) && (b =? 0) = false)
      by (apply andb_false_iff; right; apply Z.eqb_neq; lia).
    assert (Hg : (0 <? g) = true) by (apply Z.ltb_lt; lia).
    rewrite Hpos, Hspecial, !Z.eqb_refl, Hg. cbn [negb].
    unfold OCAD8FileImport.bind, OCAD8FileImport.ret, OCAD8FileImport.when.
    rewrite Ibreak, Iin.
    rewrite import_convertSize_exact by (unfold in_s32; lia).
    destruct main_line. eexists. split; [reflexivity|].
    cbn - [Z.quot Z.mul Z.add Z.sub]. repeat split; try reflexivity.
    symmetry. apply Z.quot_unique with (r := 0); lia. }
  destruct (2 <? LineSymbol.dashes_in_group line).
  - unfold OCAD8FileExport.line_warning, OCAD8FileExport.addWarning,
      OCAD8FileExport.modify.
    eexists _, _. split; [reflexivity|]. split; [reflexivity|].
    intros ocad_symbol. apply Hread; reflexivity.
  - eexists _, _. split; [reflexivity|]. split; [reflexivity|].
    intros ocad_symbol. apply Hread; reflexivity.
Qed.

(** X30.  A dashed line symbol with a mid symbol that draws something,
    written by [exportLineSymbol] and read by [importLineSymbol]: with a
    dash length and a break length that are positive multiples of
    0.01 mm and whose sum fits its 16-bit field, the two lengths come back
    unchanged, the line is dashed again and the import does not warn; the
    groups of dashes are not written, the export warning when there were
    any. *)
Theorem mid_symbol_dashes_round_trip (line main_line : LineSymbolT)
    (mid_symbol : PointSymbolT) (fields0 : OCAD8FileExport.LineFields)
    (ex : OCAD8FileExport.t) (im : OCAD8FileImport.t) :
  LineSymbol.dashed line = true ->
  LineSymbol.mid_symbol line = Some mid_symbol ->
  isEmpty mid_symbol = false ->
  kept_length (LineSymbol.dash_length line) ->
  kept_length (LineSymbol.break_length line) ->
  LineSymbol.dash_length line + LineSymbol.break_length line < 10 * 2 ^ 15 ->
  OCAD8FileExport.f_gap fields0 = 0 ->
  OCAD8FileExport.f_egap fields0 = 0 ->
  exists fields ex',
    OCAD8FileExport.export_dash_pattern isEmpty line fields0 ex = Ok (fields, ex')
    /\ (if 1 <? LineSymbol.dashes_in_group line
        then OCAD8FileExport.line_warning ", neglecting the dash grouping." line ex
             = Ok (tt, ex')
        else ex' = ex)
    /\ forall ocad_symbol,
         carries ocad_symbol fields ->
         exists main',
           OCAD8FileImport.import_dash_pattern ocad_symbol main_line im
           = Ok (main', im)
           /\ LineSymbol.dashed main' = true
           /\ LineSymbol.dash_length main' = LineSymbol.dash_length line
           /\ LineSymbol.break_length main' = LineSymbol.break_length line
           /\ LineSymbol.dashes_in_group main' = LineSymbol.dashes_in_group main_line
           /\ LineSymbol.half_outer_dashes main'
              = LineSymbol.half_outer_dashes main_line.
Proof.
  intros Hdashed Hmid Hdraws Hdash Hbreak Hsum Hgap0 Hegap0.
  destruct (kept_length_written _ Hbreak) as [Ebreak Ibreak].
  destruct (kept_length_written _ Hdash) as [_ Idash].
  destruct (kept_length_quot _ Hdash) as [Hqdash Hvdash].
  destruct (kept_length_quot _ Hbreak) as [Hqbreak Hvbreak].
  set (dash := LineSymbol.dash_length line) in *.
  set (break := LineSymbol.break_length line) in *.
  set (d := Z.quot dash 10) in *.
  set (b := Z.quot break 10) in *.
  assert (Elen : s16 (OCAD8FileExport.convertSize (s32 (dash + break))) = d + b).
  { rewrite (s32_id (dash + break)) by (unfold in_s32; lia).
    assert (Eq : Z.quot (dash + break) 10 = d + b)
      by (symmetry; apply Z.quot_unique with (r := 0); lia).
    rewrite export_convertSize_small; rewrite Eq; [reflexivity|].
    unfold in_s16. lia. }
  unfold OCAD8FileExport.export_dash_pattern.
  rewrite Hdashed, Hmid, Hdraws. cbn [negb]. cbv zeta.
  fold dash break. rewrite Ebreak.
  cbn [OCAD8FileExport.f_len OCAD8FileExport.set_f_len]. rewrite Elen.
  assert (Ehalf : s16 (Z.quot (d + b) 2) = Z.quot (d + b) 2).
  { apply s16_id. unfold in_s16.
    pose proof (Z.quot_pos (d + b) 2 ltac:(lia) ltac:(lia)).
    pose proof (Z.quot_lt (d + b) 2 ltac:(lia) ltac:(lia)). lia. }
  rewrite Ehalf.
  unfold OCAD8FileExport.bind, OCAD8FileExport.when, OCAD8FileExport.ret.
  assert (Hread : forall fields ocad_symbol,
             OCAD8FileExport.f_len fields = d + b ->
             OCAD8FileExport.f_elen fields = Z.quot (d + b) 2 ->
             OCAD8FileExport.f_gap fields = 0 ->
             OCAD8FileExport.f_gap2 fields = b ->
             OCAD8FileExport.f_egap fields = 0 ->
             carries ocad_symbol fields ->
             exists main',
               OCAD8FileImport.import_dash_pattern ocad_symbol main_line im
               = Ok (main', im)
               /\ LineSymbol.dashed main' = true
               /\ LineSymbol.dash_length main' = dash
               /\ LineSymbol.break_length main' = break
               /\ LineSymbol.dashes_in_group main'
                  = LineSymbol.dashes_in_group main_line
               /\ LineSymbol.half_outer_dashes main'
                  = LineSymbol.half_outer_dashes main_line).
  { intros fields ocad_symbol Flen Felen Fgap Fgap2 Fegap
      (_ & _ & _ & Hlen & Helen & Hgap & Hgap2 & Hegap).
    rewrite Flen in Hlen. rewrite Felen in Helen. rewrite Fgap in Hgap.
    rewrite Fgap2 in Hgap2. rewrite Fegap in Hegap.
    unfold OCAD8FileImport.import_dash_pattern, OCAD8FileImport.end_length_is_half.
    rewrite Hlen, Helen, Hgap, Hgap2, Hegap.
    assert (Hpos : (0 <? 0) || (0 <? b) = true)
      by (apply orb_true_iff; right; apply Z.ltb_lt; lia).
    assert (Hspecial : (0 <? b) && (0 =? 0) = true)
      by (apply andb_true_iff; split; [apply Z.ltb_lt; lia | reflexivity]).
    assert (Ehalf_len :
              (Z.quot (d + b) 2 - 1 <=? Z.quot (d + b) 2)
              && (Z.quot (d + b) 2 <=? Z.quot (d + b) 2 + 1) = true)
      by (apply andb_true_iff; split; apply Z.leb_le; lia).
    rewrite Hpos, Hspecial, Ehalf_len. cbn [negb].
    change (0 =? 0) with true. cbn [negb].
    unfold OCAD8FileImport.bind, OCAD8FileImport.ret, OCAD8FileImport.when.
    replace (d + b - b) with d by lia.
    fold d in Idash. fold b in Ibreak. rewrite Idash, Ibreak.
    destruct main_line. eexists. split; [reflexivity|].
    cbn. repeat split; reflexivity. }
  destruct (1 <? LineSymbol.dashes_in_group line).
  - unfold OCAD8FileExport.line_warning, OCAD8FileExport.addWarning,
      OCAD8FileExport.modify.
    eexists _, _. split; [reflexivity|]. split; [reflexivity|].
    intros ocad_symbol. apply Hread; try reflexivity; assumption.
  - eexists _, _. split; [reflexivity|]. split; [reflexivity|].
    intros ocad_symbol. apply Hread; try reflexivity; assumption.
Qed.

End LineRoundTrip.

Lemma dash_pattern_round_trip_witness :
  exists fields,
    OCAD8FileExport.export_dash_pattern (document := tag_free_document)
      draws_nothing dashed_line
      OCAD8FileExport.zero_fields example_exporter = Ok (fields, example_exporter)
    /\ exists main',
         OCAD8FileImport.import_dash_pattern (line_record fields) plain_line_symbol
           example_importer = Ok (main', example_importer)
         /\ LineSymbol.dashed main' = true
         /\ LineSymbol.dash_length main' = 2000
         /\ LineSymbol.break_length main' = 500
         /\ LineSymbol.half_outer_dashes main' = true
         /\ LineSymbol.dashes_in_group main' = 1.
Proof.
  destruct (dash_pattern_round_trip (document := tag_free_document)
              draws_nothing dashed_line plain_line_symbol
              OCAD8FileExport.zero_fields example_exporter example_importer)
    as (fields & E & Hread).
  - reflexivity.
  - exact I.
  - vm_compute. discriminate.
  - split; [vm_compute; split; reflexivity | reflexivity].
  - split; [vm_compute; split; reflexivity | reflexivity].
  - reflexivity.
  - reflexivity.
  - exists fields. split; [exact E|].
    apply (Hread (line_record fields)). repeat split.
Defined.

Lemma grouped_dashes_round_trip_witness :
  exists fields ex',
    OCAD8FileExport.export_dash_pattern (document := tag_free_document)
      draws_nothing grouped_line
      OCAD8FileExport.zero_fields example_exporter = Ok (fields, ex')
    /\ length (OCAD8FileExport.warnings ex') = 1%nat
    /\ exists main',
         OCAD8FileImport.import_dash_pattern (line_record fields) plain_line_symbol
           example_importer = Ok (main', example_importer)
         /\ LineSymbol.dashed main' = true
         /\ LineSymbol.dashes_in_group main' = 2
         /\ LineSymbol.dash_length main' = 2000
         /\ LineSymbol.break_length main' = 500
         /\ LineSymbol.in_group_break_length main' = 300
         /\ LineSymbol.half_outer_dashes main' = false.
Proof.
  destruct (grouped_dashes_round_trip (document := tag_free_document)
              draws_nothing grouped_line plain_line_symbol
              OCAD8FileExport.zero_fields example_exporter example_importer)
    as (fields & ex' & E & Hwarn & Hread).
  - reflexivity.
  - exact I.
  - vm_compute. reflexivity.
  - split; [vm_compute; split; reflexivity | reflexivity].
  - split; [vm_compute; split; reflexivity | reflexivity].
  - split; [vm_compute; split; reflexivity | reflexivity].
  - vm_compute. reflexivity.
  - exists fields, ex'. split; [exact E|]. split.
    + cbv in Hwarn. injection Hwarn as <-. reflexivity.
    + apply (Hread (line_record fields)). repeat split.
Defined.

Lemma mid_symbol_dashes_round_trip_witness :
  exists fields ex',
    OCAD8FileExport.export_dash_pattern (document := tag_free_document)
      draws_nothing dotted_line
      OCAD8FileExport.zero_fields example_exporter = Ok (fields, ex')
    /\ ex' = example_exporter
    /\ exists main',
         OCAD8FileImport.import_dash_pattern (line_record fields) plain_line_symbol
           example_importer = Ok (main', example_importer)
         /\ LineSymbol.dashed main' = true
         /\ LineSymbol.dash_length main' = 2000
         /\ LineSymbol.break_length main' = 500
         /\ LineSymbol.dashes_in_group main' = 1
         /\ LineSymbol.half_outer_dashes main' = false.
Proof.
  destruct (mid_symbol_dashes_round_trip (document := tag_free_document)
              draws_nothing dotted_line plain_line_symbol
              dot_symbol OCAD8FileExport.zero_fields example_exporter
              example_importer) as (fields & ex' & E & Hwarn & Hread).
  - reflexivity.
  - reflexivity.
  - reflexivity.
  - split; [vm_compute; split; reflexivity | reflexivity].
  - split; [vm_compute; split; reflexivity | reflexivity].
  - vm_compute. reflexivity.
  - reflexivity.
  - reflexivity.
  - exists fields, ex'. split; [exact E|]. split; [exact Hwarn|].
    apply (Hread (line_record fields)). repeat split.
Defined.

(** * The set of used colours *)

Section UsedColors.
Import OCAD8FileExport.

Local Ltac div_mod_8 k :=
  pose proof (Nat.div_mod_eq k 8);
  pose proof (Nat.mod_upper_bound k 8 ltac:(lia)).

Lemma next_bitmask (k : nat) :
  let bitmask := Z.shiftl (2 ^ Z.of_nat (k mod 8)) 1 mod 256 in
  (if bitmask =? 0 then (1, S (k / 8)) else (bitmask, (k / 8)%nat))
  = (2 ^ Z.of_nat (S k mod 8), (S k / 8)%nat).
Proof.
  cbv zeta. rewrite Z.shiftl_mul_pow2 by lia.
  div_mod_8 k. div_mod_8 (S k).
  destruct (Nat.eq_dec (k mod 8)%nat 7%nat) as [E7|E7].
  - rewrite E7. change (2 ^ Z.of_nat 7 * 2 ^ 1 mod 256 =? 0) with true. cbv iota.
    replace (S k mod 8)%nat with 0%nat by lia.
    replace (S k / 8)%nat with (S (k / 8)) by lia. reflexivity.
  - replace (S k mod 8)%nat with (S (k mod 8)) by lia.
    replace (S k / 8)%nat with (k / 8)%nat by lia.
    assert (Epow : 2 ^ Z.of_nat (k mod 8) * 2 ^ 1 = 2 ^ Z.of_nat (S (k mod 8))).
    { rewrite Nat2Z.inj_succ, Z.pow_succ_r by lia. lia. }
    rewrite Epow.
    assert (Hrange : 0 < 2 ^ Z.of_nat (S (k mod 8)) < 256).
    { split; [apply Z.pow_pos_nonneg; lia|].
      change 256 with (2 ^ 8). apply Z.pow_lt_mono_r; lia. }
    rewrite Z.mod_small by lia.
    destruct (2 ^ Z.of_nat (S (k mod 8)) =? 0) eqn:E0; [|reflexivity].
    apply Z.eqb_eq in E0. lia.
Qed.

Lemma used_colors_loop_step (used : bool) (rest : list bool) (k : nat)
    (colors colors1 : bytes) :
  (if used then
     match colors !! (k / 8)%nat with
     | Some b => Ok (<[(k / 8)%nat := Z.lor b (2 ^ Z.of_nat (k mod 8))]> colors)
     | None => Failed OutOfRange
     end
   else Ok colors) = Ok colors1 ->
  used_colors_loop (used :: rest) (2 ^ Z.of_nat (k mod 8)) (k / 8) colors
  = used_colors_loop rest (2 ^ Z.of_nat (S k mod 8)) (S k / 8) colors1.
Proof.
  intros E. cbn [used_colors_loop]. cbv zeta. rewrite E.
  pose proof (next_bitmask k) as H. cbv zeta in H.
  destruct (Z.shiftl (2 ^ Z.of_nat (k mod 8)) 1 mod 256 =? 0);
    apply pair_equal_spec in H as [H1 H2]; rewrite <- H1, <- H2; reflexivity.
Qed.

Lemma color_bit_insert (colors : bytes) (k c : nat) (b : Z) :
  colors !! (k / 8)%nat = Some b ->
  color_bit (<[(k / 8)%nat := Z.lor b (2 ^ Z.of_nat (k mod 8))]> colors) c
  = color_bit colors c || bool_decide (c = k).
Proof.
  intros Hb. unfold color_bit, bytes in *.
  destruct (Nat.eq_dec (c / 8)%nat (k / 8)%nat) as [Ebyte|Ebyte].
  - rewrite Ebyte.
    rewrite (list_lookup_total_correct _ _ _ Hb).
    rewrite (list_lookup_total_correct _ (k / 8)%nat (Z.lor b (2 ^ Z.of_nat (k mod 8))))
      by (apply list_lookup_insert_eq; apply lookup_lt_Some in Hb; exact Hb).
    rewrite Z.lor_spec, Z.pow2_bits_eqb by lia. f_equal.
    destruct (Nat.eq_dec c k) as [->|Hne].
    + rewrite Z.eqb_refl, bool_decide_eq_true_2; reflexivity.
    + rewrite bool_decide_eq_false_2 by exact Hne. apply Z.eqb_neq.
      div_mod_8 c. div_mod_8 k. lia.
  - rewrite list_lookup_total_insert_ne by (intros E; apply Ebyte; symmetry; exact E).
    rewrite bool_decide_eq_false_2 by (intros ->; apply Ebyte; reflexivity).
    rewrite orb_false_r. reflexivity.
Qed.

(** The loop from the colour [k] on, when every used colour has its
    byte in the memory. *)
Lemma used_colors_loop_bits (contains : list bool) (k : nat) (colors : bytes) :
  (forall i, contains !! i = Some true -> ((k + i) / 8 < length colors)%nat) ->
  exists colors',
    used_colors_loop contains (2 ^ Z.of_nat (k mod 8)) (k / 8) colors = Ok colors'
    /\ length colors' = length colors
    /\ forall c,
         color_bit colors' c
         = color_bit colors c
           || (bool_decide (k <= c)%nat && contains_color contains (c - k)).
Proof.
  revert k colors. induction contains as [|used rest IH]; intros k colors Hfit.
  - exists colors. split; [reflexivity|]. split; [reflexivity|].
    intros c. unfold contains_color. cbn. rewrite andb_false_r, orb_false_r.
    reflexivity.
  - assert (Hrest : forall colors1 : bytes, length colors1 = length colors ->
              forall i, rest !! i = Some true -> ((S k + i) / 8 < length colors1)%nat).
    { intros colors1 Hlen i Hi. rewrite Hlen.
      replace (S k + i)%nat with (k + S i)%nat by lia. apply Hfit. exact Hi. }
    destruct used.
    + pose proof (Hfit 0%nat eq_refl) as Hk. rewrite Nat.add_0_r in Hk.
      destruct (lookup_lt_is_Some_2 colors (k / 8)%nat Hk) as [b Hb].
      set (colors1 := <[(k / 8)%nat := Z.lor b (2 ^ Z.of_nat (k mod 8))]> colors).
      assert (Hlen : length colors1 = length colors) by apply length_insert.
      destruct (IH (S k) colors1 (Hrest colors1 Hlen)) as (colors' & E & Hlen' & Hbits).
      exists colors'. split; [|split; [congruence|]].
      * rewrite (used_colors_loop_step true rest k colors colors1);
          [exact E | unfold bytes in *; rewrite Hb; reflexivity].
      * intros c. rewrite Hbits. unfold colors1.
        rewrite (color_bit_insert colors k c b Hb). unfold contains_color.
        destruct (Nat.eq_dec c k) as [->|Hne].
        -- rewrite (bool_decide_eq_true_2 (k = k)) by reflexivity.
           rewrite (bool_decide_eq_true_2 (k <= k)%nat) by lia.
           rewrite Nat.sub_diag. cbn. rewrite !orb_true_r. reflexivity.
        -- rewrite (bool_decide_eq_false_2 (c = k)) by exact Hne.
           rewrite orb_false_r. f_equal.
           destruct (le_lt_dec (S k) c) as [Hle|Hlt].
           ++ rewrite !bool_decide_eq_true_2 by lia.
              replace (c - k)%nat with (S (c - S k)) by lia. reflexivity.
           ++ rewrite !bool_decide_eq_false_2 by lia. reflexivity.
    + destruct (IH (S k) colors (Hrest colors eq_refl)) as (colors' & E & Hlen' & Hbits).
      exists colors'. split; [|split; [exact Hlen'|]].
      * rewrite (used_colors_loop_step false rest k colors colors);
          [exact E | reflexivity].
      * intros c. rewrite Hbits. unfold contains_color. f_equal.
        destruct (Nat.eq_dec c k) as [->|Hne].
        -- rewrite bool_decide_eq_false_2 by lia.
           rewrite (bool_decide_eq_true_2 (k <= k)%nat) by lia.
           rewrite Nat.sub_diag. reflexivity.
        -- destruct (le_lt_dec (S k) c) as [Hle|Hlt].
           ++ rewrite !bool_decide_eq_true_2 by lia.
              replace (c - k)%nat with (S (c - S k)) by lia. reflexivity.
           ++ rewrite !bool_decide_eq_false_2 by lia. reflexivity.
Qed.

(** The loop writes behind the memory when a used colour has its byte
    there. *)
Lemma used_colors_loop_overflow (contains : list bool) (k : nat) (colors : bytes) :
  (exists i, contains !! i = Some true /\ (length colors <= (k + i) / 8)%nat) ->
  used_colors_loop contains (2 ^ Z.of_nat (k mod 8)) (k / 8) colors
  = Failed OutOfRange.
Proof.
  revert k colors. induction contains as [|used rest IH];
    intros k colors (i & Hi & Hout).
  - rewrite lookup_nil in Hi. discriminate Hi.
  - destruct (if used then
                match colors !! (k / 8)%nat with
                | Some b =>
                    Ok (<[(k / 8)%nat := Z.lor b (2 ^ Z.of_nat (k mod 8))]> colors)
                | None => Failed OutOfRange
                end
              else Ok colors) as [colors1|f] eqn:E.
    + rewrite (used_colors_loop_step used rest k colors colors1 E).
      assert (Hlen : length colors1 = length colors).
      { destruct used; [|injection E as <-; reflexivity].
        destruct (colors !! (k / 8)%nat); [|discriminate E].
        injection E as <-. apply length_insert. }
      destruct i as [|i].
      * exfalso. cbn in Hi. injection Hi as ->. rewrite Nat.add_0_r in Hout.
        unfold bytes in *.
        rewrite (lookup_ge_None_2 colors (k / 8)%nat Hout) in E. discriminate E.
      * apply IH. exists i. split; [exact Hi|]. rewrite Hlen.
        replace (S k + i)%nat with (k + S i)%nat by lia. exact Hout.
    + cbn [used_colors_loop]. cbv zeta. rewrite E.
      destruct used; [|discriminate E].
      destruct (colors !! (k / 8)%nat); [discriminate E|].
      injection E as <-. reflexivity.
Qed.

(** X24.  The set of used colours that [exportCommonSymbolFields]
    writes: when every colour that the symbol contains has its byte
    [c / 8] in the memory of the set, the loop sets bit [c mod 8] of that
    byte for each of them and changes no other bit, so that on memory
    filled with zeros the bit of a colour is set exactly when the symbol
    contains the colour; when a contained colour has its byte behind the
    memory, the loop writes out of bounds. *)
Theorem used_colors_bits (contains : list bool) (colors : bytes) :
  ((forall c, contains !! c = Some true -> (c / 8 < length colors)%nat) ->
   exists colors',
     used_colors contains colors = Ok colors'
     /\ length colors' = length colors
     /\ forall c, color_bit colors' c = color_bit colors c || contains_color contains c)
  /\ ((exists c, contains !! c = Some true /\ (length colors <= c / 8)%nat) ->
      used_colors contains colors = Failed OutOfRange).
Proof.
  split.
  - intros Hfit.
    destruct (used_colors_loop_bits contains 0 colors Hfit)
      as (colors' & E & Hlen & Hbits).
    exists colors'. split; [exact E|]. split; [exact Hlen|].
    intros c. rewrite Hbits, bool_decide_eq_true_2 by lia.
    rewrite Nat.sub_0_r. reflexivity.
  - intros Hout. exact (used_colors_loop_overflow contains 0 colors Hout).
Qed.

End UsedColors.

(** * Symbol numbers *)

Section SymbolNumbers.
Import SymbolNumber.

Lemma compareByNumber_from_irreflexive (indices : list nat) (s : Symbol.Base) :
  compareByNumber_from indices s s = false.
Proof.
  induction indices as [|i rest IH]; [reflexivity|].
  cbn [compareByNumber_from]. rewrite Z.ltb_irrefl. exact IH.
Qed.

Lemma compareByNumber_from_transitive (indices : list nat) (a b c : Symbol.Base) :
  compareByNumber_from indices a b = true ->
  compareByNumber_from indices b c = true ->
  compareByNumber_from indices a c = true.
Proof.
  induction indices as [|i rest IH]; [discriminate|].
  cbn [compareByNumber_from].
  destruct (Z.ltb_spec (getNumberComponent a i) (getNumberComponent b i));
    destruct (Z.ltb_spec (getNumberComponent b i) (getNumberComponent a i));
    destruct (Z.ltb_spec (getNumberComponent b i) (getNumberComponent c i));
    destruct (Z.ltb_spec (getNumberComponent c i) (getNumberComponent b i));
    destruct (Z.ltb_spec (getNumberComponent a i) (getNumberComponent c i));
    destruct (Z.ltb_spec (getNumberComponent c i) (getNumberComponent a i));
    try discriminate; try lia; auto.
Qed.

Lemma compareByNumber_from_unordered (indices : list nat) (a b : Symbol.Base) :
  compareByNumber_from indices a b = false
  /\ compareByNumber_from indices b a = false
  <-> Forall (fun i => getNumberComponent a i = getNumberComponent b i) indices.
Proof.
  induction indices as [|i rest IH].
  - split; [constructor | split; reflexivity].
  - cbn [compareByNumber_from]. rewrite Forall_cons, <- IH.
    destruct (Z.ltb_spec (getNumberComponent a i) (getNumberComponent b i));
      destruct (Z.ltb_spec (getNumberComponent b i) (getNumberComponent a i));
      split; intros [H1 H2]; try discriminate; try lia.
    + split; [lia|]. split; assumption.
    + exact H2.
Qed.

Lemma unordered_same_number (a b : Symbol.Base) :
  unordered a b <-> same_number a b.
Proof.
  unfold unordered, compareByNumber. cbv zeta.
  rewrite compareByNumber_from_unordered, Forall_forall. unfold same_number.
  split; intros H i Hi.
  - apply H. apply elem_of_seq. unfold number_components in *. lia.
  - apply H. apply elem_of_seq in Hi. unfold number_components in *. lia.
Qed.

(** X25.  [compareByNumber] orders symbols as sorting needs it: no
    symbol comes before itself, the order is transitive, two symbols are
    unordered exactly when their numbers agree in all three components,
    and being unordered is transitive. *)
Theorem compareByNumber_strict_weak_order :
  (forall s, compareByNumber s s = false)
  /\ (forall a b c,
        compareByNumber a b = true -> compareByNumber b c = true ->
        compareByNumber a c = true)
  /\ (forall a b, unordered a b <-> same_number a b)
  /\ (forall a b c, unordered a b -> unordered b c -> unordered a c).
Proof.
  split; [|split; [|split]].
  - intros s. apply compareByNumber_from_irreflexive.
  - intros a b c. apply compareByNumber_from_transitive.
  - exact unordered_same_number.
  - intros a b c Hab Hbc. apply unordered_same_number.
    apply unordered_same_number in Hab, Hbc.
    intros i Hi. rewrite (Hab i Hi). apply Hbc. exact Hi.
Qed.

Lemma numberEquals_ignoring_reflexive (indices : list nat) (s : Symbol.Base) :
  numberEquals_ignoring indices s s = true.
Proof.
  induction indices as [|i rest IH]; [reflexivity|].
  cbn [numberEquals_ignoring]. cbv zeta. rewrite Z.eqb_refl. cbn [negb].
  destruct (_ && _); [reflexivity|]. destruct (_ && _); exact IH.
Qed.

Lemma numberEquals_exact_reflexive (indices : list nat) (s : Symbol.Base) :
  numberEquals_exact indices s s = true.
Proof.
  induction indices as [|i rest IH]; [reflexivity|].
  cbn [numberEquals_exact]. cbv zeta. rewrite Z.eqb_refl. cbn [negb].
  destruct (_ =? -1); [reflexivity | exact IH].
Qed.

Lemma numberEquals_ignoring_symmetric (indices : list nat) (a b : Symbol.Base) :
  numberEquals_ignoring indices a b = numberEquals_ignoring indices b a.
Proof.
  induction indices as [|i rest IH]; [reflexivity|].
  cbn [numberEquals_ignoring]. cbv zeta. rewrite IH.
  rewrite (Z.eqb_sym (getNumberComponent a i) (getNumberComponent b i)).
  rewrite (andb_comm (getNumberComponent a i =? -1)).
  rewrite (andb_comm ((getNumberComponent a i =? 0) || _)).
  reflexivity.
Qed.

Lemma numberEquals_exact_symmetric (indices : list nat) (a b : Symbol.Base) :
  numberEquals_exact indices a b = numberEquals_exact indices b a.
Proof.
  induction indices as [|i rest IH]; [reflexivity|].
  cbn [numberEquals_exact]. cbv zeta. rewrite IH.
  rewrite (Z.eqb_sym (getNumberComponent a i) (getNumberComponent b i)).
  destruct (Z.eqb_spec (getNumberComponent b i) (getNumberComponent a i)) as [->|];
    reflexivity.
Qed.

Lemma numberEquals_exact_ignoring (indices : list nat) (a b : Symbol.Base) :
  numberEquals_exact indices a b = true -> numberEquals_ignoring indices a b = true.
Proof.
  induction indices as [|i rest IH]; [reflexivity|].
  cbn [numberEquals_exact numberEquals_ignoring]. cbv zeta.
  destruct (Z.eqb_spec (getNumberComponent a i) (getNumberComponent b i)) as [->|];
    [|discriminate].
  cbn [negb]. destruct (getNumberComponent b i =? -1); [reflexivity|].
  cbn [andb orb]. intros H. rewrite (IH H). destruct (_ && _); reflexivity.
Qed.

(** X26.  [numberEquals] holds of a symbol and itself and does not
    depend on the order of the two symbols, with and without
    [ignore_trailing_zeros]; numbers that are equal without it are equal
    with it. *)
Theorem numberEquals_properties (a b : Symbol.Base) (ignore_trailing_zeros : bool) :
  numberEquals a a ignore_trailing_zeros = true
  /\ numberEquals a b ignore_trailing_zeros = numberEquals b a ignore_trailing_zeros
  /\ (numberEquals a b false = true -> numberEquals a b true = true).
Proof.
  unfold numberEquals. split; [|split].
  - destruct ignore_trailing_zeros;
      [apply numberEquals_ignoring_reflexive | apply numberEquals_exact_reflexive].
  - destruct ignore_trailing_zeros;
      [apply numberEquals_ignoring_symmetric | apply numberEquals_exact_symmetric].
  - apply numberEquals_exact_ignoring.
Qed.

End SymbolNumbers.

(** * Symbol numbers: import after export *)

Section SymbolNumberRoundTrip.
Import CInt SymbolNumber.
Context {document : QTextDocument}.

(** X27.  The number of a symbol after export and import, compared
    with the number it had by [numberEquals] with
    [ignore_trailing_zeros]: under the conditions of the round trip of
    the common fields, the two are equal exactly when the second
    component is a single digit or absent and the third is absent or 0;
    a second component of two digits keeps its last digit only. *)
Theorem symbol_number_read_back (fuel : nat) (symbol : SymbolT)
    (ex : OCAD8FileExport.t) (im : OCAD8FileImport.t) (c0 c1 c2 : Z) :
  Symbol.number (symbol_base symbol) = [c0; c1; c2] ->
  0 <= c0 -> 10 * c0 + 9 < 2 ^ 15 ->
  10 * c0 + kept_minor c1 ∉ OCAD8FileExport.symbol_numbers ex ->
  OCAD8FileImport.encoding_1byte im = OCAD8FileExport.encoding_1byte ex ->
  length (fromUnicode (OCAD8FileExport.encoding_1byte ex)
            (Symbol.getPlainTextName (symbol_base symbol)))
  = length (Symbol.getPlainTextName (symbol_base symbol)) ->
  reads_back (OCAD8FileExport.encoding_1byte ex)
    (Symbol.getPlainTextName (symbol_base symbol)) ->
  (length (Symbol.getPlainTextName (symbol_base symbol)) < 32)%nat ->
  exists record ex' read,
    OCAD8FileExport.exportCommonSymbolFields fuel symbol
      OCAD8FileExport.ocad_symbol_new ex = Ok (record, ex')
    /\ OCAD8FileImport.fillCommonSymbolFields Symbol.new (as_ocad_symbol record) im
       = Ok (read, im)
    /\ (numberEquals read (symbol_base symbol) true = true
        <-> -1 <= c1 < 10 /\ (c2 = -1 \/ c2 = 0)).
Proof.
  intros Hnumber Hc0 Hsmall Hfree Hcodec Hsingle Hback Hshort.
  destruct (common_symbol_fields_read_back fuel symbol ex im c0 c1 c2
              Hnumber Hc0 Hsmall Hfree Hcodec Hsingle Hback Hshort)
    as (record & ex' & Eexport & _ & Eimport).
  eexists record, ex', _. split; [exact Eexport|]. split; [exact Eimport|].
  generalize (Symbol.getPlainTextName (symbol_base symbol)). intros plain.
  destruct (symbol_base symbol) as [name number helper hidden protected].
  cbn [Symbol.number] in Hnumber. subst number.
  unfold numberEquals, number_components, getNumberComponent.
  cbn [seq numberEquals_ignoring Symbol.set_number Symbol.set_is_helper_symbol
       Symbol.set_name Symbol.number]. cbv zeta.
  unfold getNumberComponent. cbn [Symbol.number].
  change ([c0; kept_minor c1; -1] !!! 0%nat) with c0.
  change ([c0; kept_minor c1; -1] !!! 1%nat) with (kept_minor c1).
  change ([c0; kept_minor c1; -1] !!! 2%nat) with (-1).
  change ([c0; c1; c2] !!! 0%nat) with c0.
  change ([c0; c1; c2] !!! 1%nat) with c1.
  change ([c0; c1; c2] !!! 2%nat) with c2.
  unfold kept_minor.
  destruct (Z.leb_spec 0 c1) as [Hc1|Hc1].
  - pose proof (Z.rem_bound_pos c1 10 Hc1 ltac:(lia)) as Hrem.
    pose proof (Z.quot_rem' c1 10) as Hqr.
    assert (Hq : 0 <= Z.quot c1 10) by (apply Z.quot_pos; lia).
    repeat match goal with
           | |- context [?a =? ?b] =>
               destruct (Z.eqb_spec a b); try (exfalso; lia)
           end;
      cbn; split; intros H; try discriminate; try lia; try reflexivity.
  - repeat match goal with
           | |- context [?a =? ?b] =>
               destruct (Z.eqb_spec a b); try (exfalso; lia)
           end;
      cbn; split; intros H; try discriminate; try lia; try reflexivity.
Qed.

End SymbolNumberRoundTrip.

Lemma symbol_number_read_back_witness :
  exists record ex' read,
    OCAD8FileExport.exportCommonSymbolFields (document := tag_free_document)
      0 example_symbol OCAD8FileExport.ocad_symbol_new example_exporter
    = Ok (record, ex')
    /\ OCAD8FileImport.fillCommonSymbolFields Symbol.new (as_ocad_symbol record)
         example_importer = Ok (read, example_importer)
    /\ (SymbolNumber.numberEquals read (symbol_base example_symbol) true = true
        <-> -1 <= 34 < 10 /\ (-1 = -1 \/ -1 = 0)).
Proof.
  apply (symbol_number_read_back (document := tag_free_document)
           0 example_symbol example_exporter example_importer 12 34 (-1)).
  - reflexivity.
  - lia.
  - lia.
  - vm_compute. set_solver.
  - reflexivity.
  - reflexivity.
  - reflexivity.
  - vm_compute. lia.
Defined.

(** * Colours: import after export *)

Section ColorRoundTrip.
Import CInt.
Context {libocad : Libocad} {model : MapModel}.

(** [Map::findColorIndex], which is not among the sources. *)
Variable findColorIndex : option nat -> Z.

(** X28.  A colour written by [convertColor] of the exporter and read
    by [convertColor] of the importer: a colour that the importer has at
    the index written comes back, without a warning; a colour that the
    map does not find (a negative index, as for no colour at all) is
    written as the index 0 and so is read as the first colour of the
    file, when there is one. *)
Theorem convertColor_round_trip (color : option nat) (st : OCAD8FileImport.t) :
  (forall c, color = Some c -> same_colors findColorIndex st color ->
     OCAD8FileImport.convertColor
       (OCAD8FileExport.convertColor findColorIndex color) st = Ok (color, st))
  /\ (forall first, findColorIndex color < 0 ->
        OCAD8FileImport.color_index st !! 0 = Some first ->
        OCAD8FileImport.convertColor
          (OCAD8FileExport.convertColor findColorIndex color) st
        = Ok (Some first, st)).
Proof.
  split.
  - intros c -> Hsame. apply import_convertColor_same. exact Hsame.
  - intros first Hnegative Hfirst. unfold OCAD8FileExport.convertColor. cbv zeta.
    assert (E : (0 <? findColorIndex color) = false) by (apply Z.ltb_ge; lia).
    rewrite E. change (s16 0) with 0.
    apply convertColor_registered. exact Hfirst.
Qed.

End ColorRoundTrip.

(** * Text symbols follow the alignment of their objects *)

Section TextFormats.
Import CInt OCAD8FileExport.

Lemma halign_code_inj (a b : HorizontalAlignment) :
  halign_code a = halign_code b -> a = b.
Proof. destruct a, b; cbn; intros H; try reflexivity; discriminate H. Qed.

Lemma setTextSymbolFormatting_halign (r : OCADSymbolRecord) (a : HorizontalAlignment) :
  rec_halign (setTextSymbolFormatting r a) = halign_code a.
Proof. destruct r, a; reflexivity. Qed.

Lemma aligned_record_app (st st' : OCAD8FileExport.t) (extra : list OCADSymbolRecord)
    (a : HorizontalAlignment) (n : Z) :
  file_symbols st' = file_symbols st ++ extra ->
  aligned_record st a n -> aligned_record st' a n.
Proof.
  intros E (pos & r & Hl & Hn & Ha). exists pos, r.
  rewrite E. split; [|split; assumption].
  apply lookup_app_l_Some. exact Hl.
Qed.

Lemma aligned_record_insert (st st' : OCAD8FileExport.t) (pos : nat)
    (r r' : OCADSymbolRecord) (a : HorizontalAlignment) (n : Z) :
  file_symbols st' = <[pos := r']> (file_symbols st) ->
  file_symbols st !! pos = Some r ->
  rec_number r <> n ->
  aligned_record st a n -> aligned_record st' a n.
Proof.
  intros E Hpos Hne (pos' & r0 & Hl & Hn & Ha). exists pos', r0.
  rewrite E. split; [|split; assumption].
  rewrite list_lookup_insert_ne; [exact Hl|].
  intros ->. rewrite Hpos in Hl. injection Hl as ->. exact (Hne Hn).
Qed.

Lemma emitted_in_numbers (st : OCAD8FileExport.t) (pos : nat) (r : OCADSymbolRecord) :
  numbering_invariant st ->
  file_symbols st !! pos = Some r ->
  rec_number r ∈ symbol_numbers st.
Proof.
  intros [_ Hset] Hl. rewrite Hset. apply elem_of_list_to_set.
  unfold emitted_numbers. apply list_elem_of_fmap. exists r. split; [reflexivity|].
  eapply list_elem_of_lookup_2. exact Hl.
Qed.

(** X29.  The symbol of a text object, chosen by [doExport] while the
    objects are written: in a state where the records have distinct
    numbers and every format list leads each alignment to a record of
    that alignment, the number chosen for a text object is the number of
    a record with the alignment of the object, it is entered in the
    format list of its text symbol, the entries made before stay, and
    the state after the step is of the same kind, so that no record
    chosen for an earlier object changes its alignment. *)
Theorem text_object_symbol_alignment (base : gset Z) (fuel : nat)
    (object : MapObject) (it n : Z) (numbers : gset Z)
    (st st' : OCAD8FileExport.t) :
  formats_invariant base st ->
  symbol_index st !! mo_symbol object = Some numbers ->
  it ∈ numbers ->
  text_object_symbol fuel object it st = Ok (n, st') ->
  formats_invariant base st'
  /\ aligned_record st' (mo_halign object) n
  /\ (exists l',
        text_format_map st' !! mo_symbol object = Some l'
        /\ (mo_halign object, n) ∈ l')
  /\ (forall s l a m,
        text_format_map st !! s = Some l -> (a, m) ∈ l ->
        exists l', text_format_map st' !! s = Some l' /\ (a, m) ∈ l').
Proof.
  intros (Hnum & Hbase & Hsub & Hdisj & Hfmt) Hidx Hit E.
  pose proof (keeps_numbering_text_object_symbol fuel object it st Hnum) as Hnum'.
  rewrite E in Hnum'. cbn in Hnum'.
  destruct st as [w enc nums idx tfm fs fo].
  cbn [symbol_numbers symbol_index text_format_map file_symbols] in *.
  pose (st := make w enc nums idx tfm fs fo).
  unfold text_object_symbol in E. unfold bind at 1, get at 1 in E.
  cbn [text_format_map] in E.
  destruct (tfm !! mo_symbol object) as [format_list|] eqn:Emap.
  - destruct (Hfmt _ _ Emap) as [Hnodup Hentries].
    destruct (list_find _ format_list) as [[k entry]|] eqn:Efind.
    + (* this formatting has already been created as symbol *)
      unfold ret in E. injection E as <- <-.
      apply list_find_Some in Efind as (Hk & Ha & _).
      destruct entry as [a m]. cbn [fst snd] in *. subst a.
      assert (Hin : (mo_halign object, m) ∈ format_list)
        by (eapply list_elem_of_lookup_2; exact Hk).
      split; [exact (conj Hnum (conj Hbase (conj Hsub (conj Hdisj Hfmt))))|].
      split; [exact (proj1 (Hentries _ _ Hin))|].
      split; [exists format_list; split; assumption|].
      intros s l a m' Hs Hm. exists l. split; assumption.
    + (* copy the symbol and adjust the formatting *)
      unfold ocad_symbol in E. cbn [file_symbols] in E.
      destruct (list_find _ fs) as [[pos r]|] eqn:Erec; [|discriminate E].
      unfold bind at 1 in E.
      pose proof (register_unique_number_spec fuel
                    (rec_number (setTextSymbolFormatting r (mo_halign object)))
                    (make w enc nums idx tfm fs fo)) as Hreg.
      destruct (register_unique_number fuel _ _) as [[v st1]|f];
        [|discriminate E].
      cbn in Hreg. destruct Hreg as [-> Hv].
      unfold bind, modify, ret in E. cbn in E. injection E as <- <-.
      set (copy := set_rec_number v (setTextSymbolFormatting r (mo_halign object)))
        in *.
      set (list' := format_list ++ [(mo_halign object, v)]) in *.
      pose (st' := make w enc ({[v]} ∪ nums) idx (<[mo_symbol object := list']> tfm)
                    (fs ++ [copy]) fo).
      change (formats_invariant base st'
              /\ aligned_record st' (mo_halign object) v
              /\ (exists l', text_format_map st' !! mo_symbol object = Some l'
                            /\ (mo_halign object, v) ∈ l')
              /\ (forall s l a m, tfm !! s = Some l -> (a, m) ∈ l ->
                    exists l', text_format_map st' !! s = Some l' /\ (a, m) ∈ l')).
      assert (Hfresh : v ∉ base) by (intros H; apply Hv, Hbase, H).
      assert (Hnew : mo_halign object ∉ format_list.*1).
      { intros Hin. apply list_elem_of_fmap in Hin as ([a m] & Ea & Hin).
        cbn in Ea. subst a.
        eapply list_find_None in Efind. rewrite Forall_forall in Efind.
        exact (Efind (mo_halign object, m) Hin eq_refl). }
      assert (Hcopy : aligned_record st' (mo_halign object) v).
      { exists (length fs), copy. cbn. split; [|split].
        - rewrite lookup_app_r by reflexivity. rewrite Nat.sub_diag. reflexivity.
        - unfold copy. destruct r, (mo_halign object); reflexivity.
        - unfold copy. destruct r, (mo_halign object); reflexivity. }
      assert (Hold : forall a m, aligned_record st a m -> aligned_record st' a m).
      { intros a m. exact (aligned_record_app st st' [copy] a m eq_refl). }
      split; [|split; [exact Hcopy|split]].
      * split; [exact Hnum'|].
        split; [cbn; apply union_subseteq_r'; exact Hbase|].
        split; [exact Hsub|].
        split; [exact Hdisj|].
        intros s l Hs. cbn [text_format_map st'] in Hs.
        destruct (decide (s = mo_symbol object)) as [->|Hne].
        -- rewrite lookup_insert_eq in Hs. injection Hs as <-. split.
           ++ unfold list'. rewrite fmap_app. apply NoDup_app. split; [exact Hnodup|].
              split; [|apply NoDup_singleton].
              intros x Hx Hx'. cbn in Hx'. apply list_elem_of_singleton in Hx'.
              subst x. exact (Hnew Hx).
           ++ intros a m Hin. apply elem_of_app in Hin as [Hin|Hin].
              ** destruct (Hentries _ _ Hin) as [Hrec Hown].
                 split; [exact (Hold _ _ Hrec) | exact Hown].
              ** apply list_elem_of_singleton in Hin. injection Hin as -> ->.
                 split; [exact Hcopy|].
                 intros Hm. exfalso. exact (Hfresh Hm).
        -- rewrite lookup_insert_ne in Hs by (intros H; apply Hne; symmetry; exact H).
           destruct (Hfmt _ _ Hs) as [Hnodup' Hentries']. split; [exact Hnodup'|].
           intros a m Hin. destruct (Hentries' _ _ Hin) as [Hrec Hown].
           split; [exact (Hold _ _ Hrec) | exact Hown].
      * exists list'. split; [apply lookup_insert_eq|].
        apply elem_of_app. right. apply list_elem_of_singleton. reflexivity.
      * intros s l a m Hs Hm.
        destruct (decide (s = mo_symbol object)) as [->|Hne].
        -- rewrite Emap in Hs. injection Hs as <-.
           exists list'. split; [apply lookup_insert_eq|].
           apply elem_of_app. left. exact Hm.
        -- exists l. split; [|exact Hm].
           cbn. rewrite lookup_insert_ne; [exact Hs|].
           intros H; apply Hne; symmetry; exact H.
  - (* adjust the formatting in the first created symbol to this object *)
    unfold ocad_symbol in E. cbn [file_symbols] in E.
    destruct (list_find _ fs) as [[pos r]|] eqn:Erec; [|discriminate E].
    apply list_find_Some in Erec as (Hpos & Hr & _).
    unfold bind, modify, ret in E. cbn in E. injection E as <- <-.
    set (first := setTextSymbolFormatting r (mo_halign object)) in *.
    pose (st' := make w enc nums idx
                  (<[mo_symbol object := [(mo_halign object, it)]]> tfm)
                  (<[pos := first]> fs) fo).
    change (formats_invariant base st'
            /\ aligned_record st' (mo_halign object) it
            /\ (exists l', text_format_map st' !! mo_symbol object = Some l'
                          /\ (mo_halign object, it) ∈ l')
            /\ (forall s l a m, tfm !! s = Some l -> (a, m) ∈ l ->
                  exists l', text_format_map st' !! s = Some l' /\ (a, m) ∈ l')).
    assert (Hfirst : aligned_record st' (mo_halign object) it).
    { exists pos, first. cbn. split; [|split].
      - apply list_lookup_insert_eq. eapply lookup_lt_Some. exact Hpos.
      - unfold first. rewrite setTextSymbolFormatting_number. exact Hr.
      - apply setTextSymbolFormatting_halign. }
    assert (Hold : forall a m, m <> it -> aligned_record st a m ->
                               aligned_record st' a m).
    { intros a m Hne.
      apply (aligned_record_insert st st' pos r first a m eq_refl Hpos).
      rewrite Hr. intros H. apply Hne. symmetry. exact H. }
    split; [|split; [exact Hfirst|split]].
    + split; [exact Hnum'|].
      split; [exact Hbase|].
      split; [exact Hsub|].
      split; [exact Hdisj|].
      intros s l Hs. cbn [text_format_map st'] in Hs.
      destruct (decide (s = mo_symbol object)) as [->|Hne].
      * rewrite lookup_insert_eq in Hs. injection Hs as <-. split.
        -- cbn. apply NoDup_singleton.
        -- intros a m Hin. apply list_elem_of_singleton in Hin.
           injection Hin as -> ->. split; [exact Hfirst|].
           intros _. exists numbers. split; [exact Hidx | exact Hit].
      * rewrite lookup_insert_ne in Hs by (intros H; apply Hne; symmetry; exact H).
        destruct (Hfmt _ _ Hs) as [Hnodup' Hentries']. split; [exact Hnodup'|].
        intros a m Hin. destruct (Hentries' _ _ Hin) as [Hrec Hown].
        assert (Hm : m <> it).
        { intros ->.
          assert (Hitbase : it ∈ base) by (apply (Hsub _ _ Hidx); exact Hit).
          destruct (Hown Hitbase) as (numbers' & Hidx' & Hit').
          exact (Hdisj _ _ _ _ Hne Hidx' Hidx it Hit' Hit). }
        split; [exact (Hold _ _ Hm Hrec) | exact Hown].
    + exists [(mo_halign object, it)]. split; [apply lookup_insert_eq|].
      apply list_elem_of_singleton. reflexivity.
    + intros s l a m Hs Hm. exists l. split; [|exact Hm].
      cbn. rewrite lookup_insert_ne; [exact Hs|].
      intros <-. rewrite Emap in Hs. discriminate Hs.
Qed.

End TextFormats.

Lemma text_object_symbol_alignment_witness :
  exists st',
    OCAD8FileExport.text_object_symbol 0 centered_text 70 text_symbol_written
    = Ok (70, st')
    /\ formats_invariant {[70]} st'
    /\ aligned_record st' AlignHCenter 70.
Proof.
  destruct (OCAD8FileExport.text_object_symbol 0 centered_text 70 text_symbol_written)
    as [[n st']|f] eqn:E.
  - assert (En : n = 70).
    { pose proof E as E'. vm_compute in E'. injection E' as <- _. reflexivity. }
    subst n. exists st'. split; [reflexivity|].
    destruct (text_object_symbol_alignment {[70]} 0 centered_text 70 70 {[70]}
                text_symbol_written st') as (Hinv & Hrec & _).
    + split; [|split; [|split; [|split]]].
      * split; [apply NoDup_singleton|].
        cbn. rewrite union_empty_r_L. reflexivity.
      * reflexivity.
      * intros s numbers Hs. cbn in Hs.
        apply lookup_singleton_Some in Hs as [_ <-]. reflexivity.
      * intros s s' numbers numbers' Hne Hs Hs'. cbn in Hs, Hs'.
        apply lookup_singleton_Some in Hs as [<- _].
        apply lookup_singleton_Some in Hs' as [<- _].
        exfalso. exact (Hne eq_refl).
      * intros s l Hs. cbn in Hs. rewrite lookup_empty in Hs. discriminate Hs.
    + cbn. apply lookup_singleton_eq.
    + apply elem_of_singleton. reflexivity.
    + exact E.
    + split; [exact Hinv | exact Hrec].
  - exfalso. vm_compute in E. discriminate E.
Defined.
Section ObjectProperties.
Import CInt CFloat OCAD8FileImport.
Context {libocad : Libocad} {model : MapModel}.
Variable importRectangleObject : OCADObject -> RectangleInfo -> M bool.
Variable convertObjectText : OCADObject -> M QString.
Variable fillTextPathCoords :
  Object.t -> TextSymbol.t -> QString -> Z -> OCADPoints -> M (bool * Object.t).

Lemma convertRotationM_s16 (fuel : nat) (angle : Z) (st : OCAD8FileImport.t) :
  (10 <= fuel)%nat -> in_s16 angle ->
  exists r, convertRotationM fuel angle st = Ok (r, st).
Proof.
  intros Hf Ha.
  destruct (convertRotation_s16 fuel angle Hf Ha) as (r & E & _).
  exists r. unfold convertRotationM. rewrite E. reflexivity.
Qed.

(** [fillPathCoords] with [npts = 1], on a line. *)
Lemma fillPathCoords_first_point (object : Object.t) (pts : OCADPoints)
    (st : OCAD8FileImport.t) :
  exists c,
    fillPathCoords object false 1 pts st = Ok (Object.set_coords [c] object, st)
    /\ first_coordinate (hd MapCoord.new (Object.coords object)) pts st c.
Proof.
  unfold fillPathCoords. change (1 <? 0) with false. cbv iota.
  change (Z.to_nat 1) with 1%nat.
  assert (Eresize : resize 1 MapCoord.new (Object.coords object)
                    = [hd MapCoord.new (Object.coords object)]).
  { destruct (Object.coords object) as [|c0 rest]; [reflexivity|].
    cbn [resize hd]. rewrite resize_0. reflexivity. }
  rewrite Eresize. generalize (hd MapCoord.new (Object.coords object)). intros c0.
  cbn [seq for_each]. unfold bind at 1. unfold bind at 1.
  unfold fillPathCoords_point, first_coordinate.
  assert (Hflags : snd (ocad_point (pts (Z.of_nat 0))) = point_flags pts 0)
    by reflexivity.
  assert (Hpos : converted st (pts 0)
                 = (s64 (offset_x st
                         + s64 (s64 (fst (fst (ocad_point (pts (Z.of_nat 0))))) * 10)),
                    s64 (offset_y st
                         + s64 (s64 (snd (fst (ocad_point (pts (Z.of_nat 0)))))
                                * (-10)))))
    by reflexivity.
  destruct (ocad_point (pts (Z.of_nat 0))) as [[buf0 buf1] buf2].
  cbn [fst snd] in Hflags, Hpos. subst buf2. rewrite Hpos.
  change (0 <? Z.of_nat 0) with false. rewrite andb_false_r.
  unfold convertPoint, get, ret, bind.
  change ([c0] !!! 0%nat) with c0. cbn [insert list_insert].
  assert (Hclose : forall c,
            close_parts [c] = [MapCoord.setClosePoint true c]).
  { intros c. unfold close_parts. cbn [length seq fold_left].
    unfold close_parts_step. change ([c] !!! 0%nat) with c.
    change (Z.of_nat 0 <? Z.of_nat 1 - 1) with false. rewrite andb_false_r.
    cbv iota. unfold MapCoord.isPositionEqualTo. rewrite !Z.eqb_refl.
    reflexivity. }
  destruct c0 as [x y curve close hole dash].
  destruct (test_mask (point_flags pts 0) (Z.shiftl PY_DASH 8)
            || test_mask (point_flags pts 0) (Z.shiftl PY_CORNER 8));
    destruct (test_mask (point_flags pts 0) (Z.shiftl PY_HOLE 8));
    cbn [alter list_alter];
    (destruct (Object.type object);
     rewrite ?Hclose;
     eexists; (split; [reflexivity|]);
     cbn; rewrite ?orb_true_r, ?orb_false_r; repeat split; reflexivity).
Qed.

(** Only the first point is read. *)
Lemma fillPathCoords_reads_first_point (object : Object.t)
    (pts pts' : OCADPoints) (st : OCAD8FileImport.t) :
  pts' 0 = pts 0 ->
  fillPathCoords object false 1 pts' st = fillPathCoords object false 1 pts st.
Proof.
  intros E. unfold fillPathCoords. change (1 <? 0) with false. cbv iota.
  change (Z.to_nat 1) with 1%nat. cbn [seq for_each].
  unfold bind at 2 4. unfold fillPathCoords_point.
  change (Z.of_nat 0) with 0. rewrite E. reflexivity.
Qed.

Lemma converted_setRotatable_at (ref : SymbolRef) (point_symbol : PointSymbolT)
    (st st1 : OCAD8FileImport.t) (pt : OCADPoint) :
  setRotatable_at ref point_symbol st = Ok (tt, st1) ->
  converted st1 pt = converted st pt.
Proof.
  unfold setRotatable_at. intros E.
  destruct ref; injection E as <-; destruct st; reflexivity.
Qed.

Lemma importObject_point_first_coordinate (fuel : nat) (ocad_object : OCADObject)
    (ref : SymbolRef) (point_symbol : PointSymbolT) (st : OCAD8FileImport.t) :
  (10 <= fuel)%nat -> in_s16 (obj_angle ocad_object) ->
  exists p st' c,
    importObject_point fuel ocad_object ref point_symbol st = Ok (Some p, st')
    /\ Object.coords p = [c]
    /\ first_coordinate (hd MapCoord.new (Object.coords (PointObject_new NoSymbol)))
         (obj_pts ocad_object) st c.
Proof.
  intros Hf Ha. unfold importObject_point.
  assert (Hfill : forall p0 st0,
            Object.coords p0 = Object.coords (PointObject_new NoSymbol) ->
            (forall pt, converted st0 pt = converted st pt) ->
            exists p st' c,
              (p <- fillPathCoords p0 false 1 (obj_pts ocad_object) ;; ret (Some p)) st0
              = Ok (Some p, st')
              /\ Object.coords p = [c]
              /\ first_coordinate
                   (hd MapCoord.new (Object.coords (PointObject_new NoSymbol)))
                   (obj_pts ocad_object) st c).
  { intros p0 st0 Hcoords Hst.
    destruct (fillPathCoords_first_point p0 (obj_pts ocad_object) st0)
      as (c & E & Hc).
    eexists _, st0, c. unfold bind. rewrite E. split; [reflexivity|].
    split; [destruct p0; reflexivity|].
    rewrite Hcoords in Hc. unfold first_coordinate in *. rewrite <- Hst.
    exact Hc. }
  assert (Hsym : forall r,
            Object.coords (Object.set_rotation r
                             (Object.set_symbol ref (PointObject_new NoSymbol)))
            = Object.coords (PointObject_new NoSymbol))
    by (intros r; destruct (PointObject_new NoSymbol); reflexivity).
  assert (Hsym0 : Object.coords (Object.set_symbol ref (PointObject_new NoSymbol))
                  = Object.coords (PointObject_new NoSymbol))
    by (destruct (PointObject_new NoSymbol); reflexivity).
  destruct (PointSymbol.rotatable point_symbol).
  - destruct (convertRotationM_s16 fuel _ st Hf Ha) as [r Er].
    rewrite bind_assoc. unfold bind at 1. rewrite Er.
    unfold bind at 1. unfold ret at 1. apply Hfill; [apply Hsym | reflexivity].
  - destruct (negb (obj_angle ocad_object =? 0)).
    + destruct (negb (isSymmetrical point_symbol)).
      * rewrite bind_assoc. unfold bind at 1.
        destruct (setRotatable_at ref point_symbol st) as [[[] st1]|f] eqn:Es.
        2: { unfold setRotatable_at in Es. destruct ref; discriminate. }
        destruct (convertRotationM_s16 fuel _ st1 Hf Ha) as [r Er].
        rewrite bind_assoc. unfold bind at 1. rewrite Er.
        unfold bind at 1. unfold ret at 1.
        apply Hfill; [apply Hsym|].
        intros pt. exact (converted_setRotatable_at _ _ _ _ pt Es).
      * unfold bind at 1. unfold ret at 1. apply Hfill; [apply Hsym0 | reflexivity].
    + unfold bind at 1. unfold ret at 1. apply Hfill; [apply Hsym0 | reflexivity].
Qed.

(** The branch of [importObject] for a point symbol reads the angle and
    the first point of the record, and nothing else of it. *)
Lemma importObject_point_reads (fuel : nat) (ocad_object other : OCADObject)
    (ref : SymbolRef) (point_symbol : PointSymbolT) (st : OCAD8FileImport.t) :
  obj_angle other = obj_angle ocad_object ->
  obj_pts other 0 = obj_pts ocad_object 0 ->
  importObject_point fuel other ref point_symbol st
  = importObject_point fuel ocad_object ref point_symbol st.
Proof.
  intros Ea Ep. unfold importObject_point. rewrite Ea.
  set (rotated := if PointSymbol.rotatable point_symbol then _ else _).
  unfold bind. destruct (rotated st) as [[p0 st0]|f]; [|reflexivity].
  rewrite (fillPathCoords_reads_first_point p0 (obj_pts ocad_object)
             (obj_pts other) st0 Ep).
  reflexivity.
Qed.

(** The symbol of an object that resolves to a point symbol. *)
Lemma find_point_symbol (ocad_object : OCADObject) (st : OCAD8FileImport.t)
    (point_symbol : PointSymbolT) :
  resolves_to_point st ocad_object point_symbol ->
  find_symbol importRectangleObject ocad_object st
  = Ok (Some (point_symbol_ref st (obj_symbol ocad_object)), st)
  /\ symbol_at (point_symbol_ref st (obj_symbol ocad_object)) st
     = Ok (SymPoint point_symbol, st).
Proof.
  intros Hres.
  unfold find_symbol, symbol_at, point_symbol_ref, bind, get, ret.
  destruct Hres as [Hidx | (Hidx & Hrect & Hty & Hundef)].
  - rewrite Hidx. rewrite bool_decide_eq_true_2 by eauto.
    cbn. rewrite Hidx. split; reflexivity.
  - rewrite Hidx, Hrect.
    rewrite bool_decide_eq_false_2 by (intros [? ?]; discriminate).
    cbn. rewrite Hty. cbn. rewrite Hundef. split; reflexivity.
Qed.

(** C9.  Every legacy object whose symbol is a point symbol is imported
    as an object with exactly one coordinate, whatever number of points
    the record claims: the import returns an object, with fuel for ten
    rounds of the rotation loop on the 16-bit angle of the record, and
    the object has one coordinate.  This coordinate is the first
    coordinate of the new point object (a new coordinate when it has
    none) moved to the converted position of the first point of the
    record, [obj_pts[0]], with the dash flag set when this point has the
    dash or the corner flag and the hole flag set when it has the hole
    flag.  Nothing else is taken from the points: a record with the same
    symbol number, type and angle and the same first point, whatever its
    number of points and its other points, is imported as the same
    object. *)
Theorem importObject_point_has_one_coordinate (fuel : nat)
    (ocad_object : OCADObject) (st : OCAD8FileImport.t)
    (point_symbol : PointSymbolT) :
  (10 <= fuel)%nat ->
  in_s16 (obj_angle ocad_object) ->
  resolves_to_point st ocad_object point_symbol ->
  exists p st' c,
    importObject importRectangleObject convertObjectText fillTextPathCoords
      fuel ocad_object st = Ok (Some p, st')
    /\ Object.coords p = [c]
    /\ position c = converted st (obj_pts ocad_object 0)
    /\ MapCoord.isDashPoint c
       = MapCoord.isDashPoint
           (hd MapCoord.new (Object.coords (PointObject_new NoSymbol)))
         || (test_mask (point_flags (obj_pts ocad_object) 0) (Z.shiftl PY_DASH 8)
             || test_mask (point_flags (obj_pts ocad_object) 0)
                  (Z.shiftl PY_CORNER 8))
    /\ MapCoord.isHolePoint c
       = MapCoord.isHolePoint
           (hd MapCoord.new (Object.coords (PointObject_new NoSymbol)))
         || test_mask (point_flags (obj_pts ocad_object) 0) (Z.shiftl PY_HOLE 8)
    /\ (forall other,
          obj_symbol other = obj_symbol ocad_object ->
          obj_type other = obj_type ocad_object ->
          obj_angle other = obj_angle ocad_object ->
          obj_pts other 0 = obj_pts ocad_object 0 ->
          importObject importRectangleObject convertObjectText fillTextPathCoords
            fuel other st = Ok (Some p, st')).
Proof.
  intros Hf Ha Hres.
  destruct (find_point_symbol ocad_object st point_symbol Hres) as [Efind Eat].
  destruct (importObject_point_first_coordinate fuel ocad_object
              (point_symbol_ref st (obj_symbol ocad_object)) point_symbol st Hf Ha)
    as (p & st' & c & E & Hcoords & Hpos & Hdash & Hhole & _).
  exists p, st', c.
  split.
  { unfold importObject. unfold bind at 1. rewrite Efind.
    unfold bind at 1. rewrite Eat. exact E. }
  split; [exact Hcoords|]. split; [exact Hpos|]. split; [exact Hdash|].
  split; [exact Hhole|].
  intros other Esym Ety Eangle Epts.
  assert (Hres' : resolves_to_point st other point_symbol).
  { unfold resolves_to_point in *. rewrite Esym, Ety. exact Hres. }
  destruct (find_point_symbol other st point_symbol Hres') as [Efind' Eat'].
  rewrite Esym in Efind', Eat'.
  unfold importObject. unfold bind at 1. rewrite Efind'.
  unfold bind at 1. rewrite Eat'.
  rewrite (importObject_point_reads fuel ocad_object other _ point_symbol st
             Eangle Epts).
  exact E.
Qed.

End ObjectProperties.

(** A point object that claims five points, of a symbol the map does not
    know: it is imported with the undefined point symbol, which is
    symmetrical, so that the object is not turned, and with one
    coordinate, at the place of its first point and with the dash flag of
    this point; the record that holds this point alone is imported as
    the same object. *)
Lemma importObject_point_has_one_coordinate_witness :
  exists p st',
    OCAD8FileImport.importObject
      (fun _ _ => OCAD8FileImport.ret true)
      (fun _ => OCAD8FileImport.ret [])
      (fun t _ _ _ _ => OCAD8FileImport.ret (true, t))
      10 example_point_object example_importer = Ok (Some p, st')
    /\ p = Object.make Object.Point UndefinedPoint
             [MapCoord.make 1230 (-4560) false false false true] (S754_zero false)
    /\ st' = example_importer
    /\ OCAD8FileImport.importObject
         (fun _ _ => OCAD8FileImport.ret true)
         (fun _ => OCAD8FileImport.ret [])
         (fun t _ _ _ _ => OCAD8FileImport.ret (true, t))
         10 example_point_object_alone example_importer = Ok (Some p, st').
Proof.
  destruct (importObject_point_has_one_coordinate (libocad := libocad_layout)
              (model := plain_model)
              (fun _ _ => OCAD8FileImport.ret true)
              (fun _ => OCAD8FileImport.ret [])
              (fun t _ _ _ _ => OCAD8FileImport.ret (true, t))
              10 example_point_object example_importer plain_point_symbol)
    as (p & st' & c & E & Hcoords & Hpos & Hdash & Hhole & Hother).
  - lia.
  - unfold CInt.in_s16. simpl. lia.
  - right. repeat split; reflexivity.
  - exists p, st'. split; [exact E|].
    split; [vm_compute in E; injection E as <- _; reflexivity|].
    split; [vm_compute in E; injection E as _ <-; reflexivity|].
    apply (Hother example_point_object_alone); reflexivity.
Defined.
